(** * ARSTREAM_Sender: the sender core of libARStream

    A shallow embedding of [Sources/ARSTREAM_Sender.c].  The sender
    structure becomes a record, every C function a computation in a small
    state-and-trace monad, and the threads that share a sender (the
    application thread that submits frames, the data thread, the ack
    thread and the network manager with its callback) are interleaved at
    the granularity of their critical sections.

    Integers are [Z] with the wrap-around of their C type written out:
    [u32] for [uint32_t], [u16] for [uint16_t], [u8] for [uint8_t], [i32]
    for [int].  The operator [%] is [Z.modulo] on unsigned operands and
    [Z.rem] on [int]; a division by 0, undefined in C, is only met on a
    ring of capacity 0 that holds a frame, which the invariant [ring_ok]
    excludes.  Pointers are [Z] as well, [0] being [NULL]. *)

From Stdlib Require Import ZArith QArith Lia List Bool.
From stdpp Require Import base tactics option list numbers.

Local Open Scope Z_scope.

(** ** Machine integers *)

Definition u8 (x : Z) : Z := x mod 2 ^ 8.
Definition u16 (x : Z) : Z := x mod 2 ^ 16.
Definition u32 (x : Z) : Z := x mod 2 ^ 32.
Definition u64 (x : Z) : Z := x mod 2 ^ 64.

(** [int] is 32 bits wide, two's complement: conversions into it and
    arithmetic on it wrap. *)
Definition i32 (x : Z) : Z := (x + 2 ^ 31) mod 2 ^ 32 - 2 ^ 31.

Definition INT_MAX : Z := 2 ^ 31 - 1.

Definition NULL : Z := 0.

(** ** Status and error codes *)

Inductive eARSTREAM_SENDER_STATUS : Type :=
| ARSTREAM_SENDER_STATUS_FRAME_SENT
| ARSTREAM_SENDER_STATUS_FRAME_CANCEL.

Inductive eARSTREAM_ERROR : Type :=
| ARSTREAM_OK
| ARSTREAM_ERROR_BAD_PARAMETERS
| ARSTREAM_ERROR_ALLOC
| ARSTREAM_ERROR_FRAME_TOO_LARGE
| ARSTREAM_ERROR_BUSY
| ARSTREAM_ERROR_QUEUE_FULL.

Inductive eARNETWORK_MANAGER_CALLBACK_STATUS : Type :=
| ARNETWORK_MANAGER_CALLBACK_STATUS_SENT
| ARNETWORK_MANAGER_CALLBACK_STATUS_CANCEL
| ARNETWORK_MANAGER_CALLBACK_STATUS_OTHER.

Inductive eARNETWORK_ERROR : Type :=
| ARNETWORK_OK
| ARNETWORK_ERROR_BUFFER_EMPTY
| ARNETWORK_ERROR_OTHER.

(** [ETIMEDOUT] of errno.h; only equality with it is ever tested. *)
Definition ETIMEDOUT : Z := 110.

Definition ARSTREAM_SENDER_DEFAULT_ESTIMATED_LATENCY_MS : Z := 100.
Definition ARSTREAM_SENDER_MINIMUM_TIME_BETWEEN_RETRIES_MS : Z := 15.
Definition ARSTREAM_SENDER_MAXIMUM_TIME_BETWEEN_RETRIES_MS : Z := 50.
Definition ARSTREAM_SENDER_EFFICIENCY_AVERAGE_NB_FRAMES : Z := 15.

(** ** Frames *)

Record ARSTREAM_Sender_Frame_t : Type := mkFrame {
  frameNumber : Z;
  frameSize : Z;
  frameBuffer : Z;
  isHighPriority : Z
}.

Definition Frame_zero : ARSTREAM_Sender_Frame_t := mkFrame 0 0 NULL 0.

(** ** Ack packets (ARSTREAM_NetworkHeaders) *)

(** Modelled from the spec: the type [ARSTREAM_NetworkHeaders_AckPacket_t]
    is declared in ARSTREAM_NetworkHeaders.h, which is not among the
    sources.  The spec gives it a 16-bit frame number and two 64-bit words
    that form a 128-bit bitmap, [lowPacketsAck] holding bits 0..63 and
    [highPacketsAck] bits 64..127. *)
Record ARSTREAM_NetworkHeaders_AckPacket_t : Type := mkAck {
  ack_frameNumber : Z;
  highPacketsAck : Z;
  lowPacketsAck : Z
}.

Definition set_ack_frameNumber (n : Z) (p : ARSTREAM_NetworkHeaders_AckPacket_t) :=
  mkAck n (highPacketsAck p) (lowPacketsAck p).

(** Modelled from the spec: [ARSTREAM_NetworkHeaders_AckPacketReset] is
    defined in ARSTREAM_NetworkHeaders.c, which is not among the sources.
    "reset() - zero both words."  The frame number is kept: the data thread
    stores it just before it resets the packet. *)
Definition ARSTREAM_NetworkHeaders_AckPacketReset
    (p : ARSTREAM_NetworkHeaders_AckPacket_t) : ARSTREAM_NetworkHeaders_AckPacket_t :=
  mkAck (ack_frameNumber p) 0 0.

(** Modelled from the spec: [ARSTREAM_NetworkHeaders_AckPacketSetFlag]
    (ARSTREAM_NetworkHeaders.c, not among the sources).  "set_flag(i) - if
    i<64 set bit i of low, else bit i-64 of high." *)
Definition ARSTREAM_NetworkHeaders_AckPacketSetFlag
    (p : ARSTREAM_NetworkHeaders_AckPacket_t) (i : Z) : ARSTREAM_NetworkHeaders_AckPacket_t :=
  if i <? 64
  then mkAck (ack_frameNumber p) (highPacketsAck p)
             (u64 (Z.lor (lowPacketsAck p) (Z.shiftl 1 i)))
  else mkAck (ack_frameNumber p)
             (u64 (Z.lor (highPacketsAck p) (Z.shiftl 1 (i - 64))))
             (lowPacketsAck p).

(** Modelled from the spec: [ARSTREAM_NetworkHeaders_AckPacketUnsetFlag]
    (ARSTREAM_NetworkHeaders.c, not among the sources).  "unset_flag(i) -
    clear the bit.  Returns true iff after clearing both words are zero." *)
Definition ARSTREAM_NetworkHeaders_AckPacketUnsetFlag
    (p : ARSTREAM_NetworkHeaders_AckPacket_t) (i : Z)
  : Z * ARSTREAM_NetworkHeaders_AckPacket_t :=
  let p' :=
    if i <? 64
    then mkAck (ack_frameNumber p) (highPacketsAck p)
               (Z.ldiff (lowPacketsAck p) (Z.shiftl 1 i))
    else mkAck (ack_frameNumber p)
               (Z.ldiff (highPacketsAck p) (Z.shiftl 1 (i - 64)))
               (lowPacketsAck p) in
  (if (highPacketsAck p' =? 0) && (lowPacketsAck p' =? 0) then 1 else 0, p').

(** Modelled from the spec: [ARSTREAM_NetworkHeaders_AckPacketFlagIsSet]
    (ARSTREAM_NetworkHeaders.c, not among the sources).  "is_set(i) -
    query." *)
Definition ARSTREAM_NetworkHeaders_AckPacketFlagIsSet
    (p : ARSTREAM_NetworkHeaders_AckPacket_t) (i : Z) : Z :=
  if i <? 64
  then (if Z.testbit (lowPacketsAck p) i then 1 else 0)
  else (if Z.testbit (highPacketsAck p) (i - 64) then 1 else 0).

(** Modelled from the spec: [ARSTREAM_NetworkHeaders_AckPacketSetFlags]
    (ARSTREAM_NetworkHeaders.c, not among the sources).  "set_flags(other) -
    bitwise OR with another bitmap; used by the ack loop to merge incoming
    peer ack." *)
Definition ARSTREAM_NetworkHeaders_AckPacketSetFlags
    (dst src : ARSTREAM_NetworkHeaders_AckPacket_t) : ARSTREAM_NetworkHeaders_AckPacket_t :=
  mkAck (ack_frameNumber dst)
        (Z.lor (highPacketsAck dst) (highPacketsAck src))
        (Z.lor (lowPacketsAck dst) (lowPacketsAck src)).

(** Modelled from the spec: [ARSTREAM_NetworkHeaders_AckPacketAllFlagsSet]
    (ARSTREAM_NetworkHeaders.c, not among the sources).  "all_set(n) - true
    iff bits 0..n-1 are all set." *)
Definition ARSTREAM_NetworkHeaders_AckPacketAllFlagsSet
    (p : ARSTREAM_NetworkHeaders_AckPacket_t) (n : Z) : Z :=
  if forallb (fun i => ARSTREAM_NetworkHeaders_AckPacketFlagIsSet p i =? 1)
             (seqZ 0 n)
  then 1 else 0.

(** The bit of fragment [i] in an ack packet, as a boolean. *)
Definition ack_bit (p : ARSTREAM_NetworkHeaders_AckPacket_t) (i : Z) : bool :=
  if i <? 64 then Z.testbit (lowPacketsAck p) i
  else Z.testbit (highPacketsAck p) (i - 64).

(** ** The sender *)

(** [struct ARSTREAM_Sender_t].  The three mutexes and the condition
    variable carry no data; locking is rendered by the atomicity of the
    critical sections below.  [manager], [callback] and [custom] are
    pointers. *)
Record ARSTREAM_Sender_t : Type := mkSender {
  manager : Z;
  dataBufferID : Z;
  ackBufferID : Z;
  callback : Z;
  maxNumberOfNextFrames : Z;
  custom : Z;
  currentFrame : ARSTREAM_Sender_Frame_t;
  currentFrameNbFragments : Z;
  currentFrameCbWasCalled : Z;
  packetsToSend : ARSTREAM_NetworkHeaders_AckPacket_t;
  ackPacket : ARSTREAM_NetworkHeaders_AckPacket_t;
  nextFrameNumber : Z;
  indexAddNextFrame : Z;
  indexGetNextFrame : Z;
  numberOfWaitingFrames : Z;
  nextFrames : list ARSTREAM_Sender_Frame_t;
  threadsShouldStop : Z;
  dataThreadStarted : Z;
  ackThreadStarted : Z;
  efficiency_nbFragments : list Z;
  efficiency_nbSent : list Z;
  efficiency_index : Z
}.

Definition set_currentFrame (v : ARSTREAM_Sender_Frame_t) (s : ARSTREAM_Sender_t) : ARSTREAM_Sender_t :=
  mkSender (s.(manager)) (s.(dataBufferID)) (s.(ackBufferID)) (s.(callback))
    (s.(maxNumberOfNextFrames)) (s.(custom)) v (s.(currentFrameNbFragments))
    (s.(currentFrameCbWasCalled)) (s.(packetsToSend)) (s.(ackPacket))
    (s.(nextFrameNumber)) (s.(indexAddNextFrame)) (s.(indexGetNextFrame))
    (s.(numberOfWaitingFrames)) (s.(nextFrames)) (s.(threadsShouldStop))
    (s.(dataThreadStarted)) (s.(ackThreadStarted))
    (s.(efficiency_nbFragments)) (s.(efficiency_nbSent))
    (s.(efficiency_index)).

Definition set_currentFrameNbFragments (v : Z) (s : ARSTREAM_Sender_t) : ARSTREAM_Sender_t :=
  mkSender (s.(manager)) (s.(dataBufferID)) (s.(ackBufferID)) (s.(callback))
    (s.(maxNumberOfNextFrames)) (s.(custom)) (s.(currentFrame)) v
    (s.(currentFrameCbWasCalled)) (s.(packetsToSend)) (s.(ackPacket))
    (s.(nextFrameNumber)) (s.(indexAddNextFrame)) (s.(indexGetNextFrame))
    (s.(numberOfWaitingFrames)) (s.(nextFrames)) (s.(threadsShouldStop))
    (s.(dataThreadStarted)) (s.(ackThreadStarted))
    (s.(efficiency_nbFragments)) (s.(efficiency_nbSent))
    (s.(efficiency_index)).

Definition set_currentFrameCbWasCalled (v : Z) (s : ARSTREAM_Sender_t) : ARSTREAM_Sender_t :=
  mkSender (s.(manager)) (s.(dataBufferID)) (s.(ackBufferID)) (s.(callback))
    (s.(maxNumberOfNextFrames)) (s.(custom)) (s.(currentFrame))
    (s.(currentFrameNbFragments)) v (s.(packetsToSend)) (s.(ackPacket))
    (s.(nextFrameNumber)) (s.(indexAddNextFrame)) (s.(indexGetNextFrame))
    (s.(numberOfWaitingFrames)) (s.(nextFrames)) (s.(threadsShouldStop))
    (s.(dataThreadStarted)) (s.(ackThreadStarted))
    (s.(efficiency_nbFragments)) (s.(efficiency_nbSent))
    (s.(efficiency_index)).

Definition set_packetsToSend (v : ARSTREAM_NetworkHeaders_AckPacket_t) (s : ARSTREAM_Sender_t) : ARSTREAM_Sender_t :=
  mkSender (s.(manager)) (s.(dataBufferID)) (s.(ackBufferID)) (s.(callback))
    (s.(maxNumberOfNextFrames)) (s.(custom)) (s.(currentFrame))
    (s.(currentFrameNbFragments)) (s.(currentFrameCbWasCalled)) v
    (s.(ackPacket)) (s.(nextFrameNumber)) (s.(indexAddNextFrame))
    (s.(indexGetNextFrame)) (s.(numberOfWaitingFrames)) (s.(nextFrames))
    (s.(threadsShouldStop)) (s.(dataThreadStarted)) (s.(ackThreadStarted))
    (s.(efficiency_nbFragments)) (s.(efficiency_nbSent))
    (s.(efficiency_index)).

Definition set_ackPacket (v : ARSTREAM_NetworkHeaders_AckPacket_t) (s : ARSTREAM_Sender_t) : ARSTREAM_Sender_t :=
  mkSender (s.(manager)) (s.(dataBufferID)) (s.(ackBufferID)) (s.(callback))
    (s.(maxNumberOfNextFrames)) (s.(custom)) (s.(currentFrame))
    (s.(currentFrameNbFragments)) (s.(currentFrameCbWasCalled))
    (s.(packetsToSend)) v (s.(nextFrameNumber)) (s.(indexAddNextFrame))
    (s.(indexGetNextFrame)) (s.(numberOfWaitingFrames)) (s.(nextFrames))
    (s.(threadsShouldStop)) (s.(dataThreadStarted)) (s.(ackThreadStarted))
    (s.(efficiency_nbFragments)) (s.(efficiency_nbSent))
    (s.(efficiency_index)).

Definition set_nextFrameNumber (v : Z) (s : ARSTREAM_Sender_t) : ARSTREAM_Sender_t :=
  mkSender (s.(manager)) (s.(dataBufferID)) (s.(ackBufferID)) (s.(callback))
    (s.(maxNumberOfNextFrames)) (s.(custom)) (s.(currentFrame))
    (s.(currentFrameNbFragments)) (s.(currentFrameCbWasCalled))
    (s.(packetsToSend)) (s.(ackPacket)) v (s.(indexAddNextFrame))
    (s.(indexGetNextFrame)) (s.(numberOfWaitingFrames)) (s.(nextFrames))
    (s.(threadsShouldStop)) (s.(dataThreadStarted)) (s.(ackThreadStarted))
    (s.(efficiency_nbFragments)) (s.(efficiency_nbSent))
    (s.(efficiency_index)).

Definition set_indexAddNextFrame (v : Z) (s : ARSTREAM_Sender_t) : ARSTREAM_Sender_t :=
  mkSender (s.(manager)) (s.(dataBufferID)) (s.(ackBufferID)) (s.(callback))
    (s.(maxNumberOfNextFrames)) (s.(custom)) (s.(currentFrame))
    (s.(currentFrameNbFragments)) (s.(currentFrameCbWasCalled))
    (s.(packetsToSend)) (s.(ackPacket)) (s.(nextFrameNumber)) v
    (s.(indexGetNextFrame)) (s.(numberOfWaitingFrames)) (s.(nextFrames))
    (s.(threadsShouldStop)) (s.(dataThreadStarted)) (s.(ackThreadStarted))
    (s.(efficiency_nbFragments)) (s.(efficiency_nbSent))
    (s.(efficiency_index)).

Definition set_indexGetNextFrame (v : Z) (s : ARSTREAM_Sender_t) : ARSTREAM_Sender_t :=
  mkSender (s.(manager)) (s.(dataBufferID)) (s.(ackBufferID)) (s.(callback))
    (s.(maxNumberOfNextFrames)) (s.(custom)) (s.(currentFrame))
    (s.(currentFrameNbFragments)) (s.(currentFrameCbWasCalled))
    (s.(packetsToSend)) (s.(ackPacket)) (s.(nextFrameNumber))
    (s.(indexAddNextFrame)) v (s.(numberOfWaitingFrames)) (s.(nextFrames))
    (s.(threadsShouldStop)) (s.(dataThreadStarted)) (s.(ackThreadStarted))
    (s.(efficiency_nbFragments)) (s.(efficiency_nbSent))
    (s.(efficiency_index)).

Definition set_numberOfWaitingFrames (v : Z) (s : ARSTREAM_Sender_t) : ARSTREAM_Sender_t :=
  mkSender (s.(manager)) (s.(dataBufferID)) (s.(ackBufferID)) (s.(callback))
    (s.(maxNumberOfNextFrames)) (s.(custom)) (s.(currentFrame))
    (s.(currentFrameNbFragments)) (s.(currentFrameCbWasCalled))
    (s.(packetsToSend)) (s.(ackPacket)) (s.(nextFrameNumber))
    (s.(indexAddNextFrame)) (s.(indexGetNextFrame)) v (s.(nextFrames))
    (s.(threadsShouldStop)) (s.(dataThreadStarted)) (s.(ackThreadStarted))
    (s.(efficiency_nbFragments)) (s.(efficiency_nbSent))
    (s.(efficiency_index)).

Definition set_nextFrames (v : list ARSTREAM_Sender_Frame_t) (s : ARSTREAM_Sender_t) : ARSTREAM_Sender_t :=
  mkSender (s.(manager)) (s.(dataBufferID)) (s.(ackBufferID)) (s.(callback))
    (s.(maxNumberOfNextFrames)) (s.(custom)) (s.(currentFrame))
    (s.(currentFrameNbFragments)) (s.(currentFrameCbWasCalled))
    (s.(packetsToSend)) (s.(ackPacket)) (s.(nextFrameNumber))
    (s.(indexAddNextFrame)) (s.(indexGetNextFrame))
    (s.(numberOfWaitingFrames)) v (s.(threadsShouldStop))
    (s.(dataThreadStarted)) (s.(ackThreadStarted))
    (s.(efficiency_nbFragments)) (s.(efficiency_nbSent))
    (s.(efficiency_index)).

Definition set_threadsShouldStop (v : Z) (s : ARSTREAM_Sender_t) : ARSTREAM_Sender_t :=
  mkSender (s.(manager)) (s.(dataBufferID)) (s.(ackBufferID)) (s.(callback))
    (s.(maxNumberOfNextFrames)) (s.(custom)) (s.(currentFrame))
    (s.(currentFrameNbFragments)) (s.(currentFrameCbWasCalled))
    (s.(packetsToSend)) (s.(ackPacket)) (s.(nextFrameNumber))
    (s.(indexAddNextFrame)) (s.(indexGetNextFrame))
    (s.(numberOfWaitingFrames)) (s.(nextFrames)) v (s.(dataThreadStarted))
    (s.(ackThreadStarted)) (s.(efficiency_nbFragments))
    (s.(efficiency_nbSent)) (s.(efficiency_index)).

Definition set_dataThreadStarted (v : Z) (s : ARSTREAM_Sender_t) : ARSTREAM_Sender_t :=
  mkSender (s.(manager)) (s.(dataBufferID)) (s.(ackBufferID)) (s.(callback))
    (s.(maxNumberOfNextFrames)) (s.(custom)) (s.(currentFrame))
    (s.(currentFrameNbFragments)) (s.(currentFrameCbWasCalled))
    (s.(packetsToSend)) (s.(ackPacket)) (s.(nextFrameNumber))
    (s.(indexAddNextFrame)) (s.(indexGetNextFrame))
    (s.(numberOfWaitingFrames)) (s.(nextFrames)) (s.(threadsShouldStop)) v
    (s.(ackThreadStarted)) (s.(efficiency_nbFragments))
    (s.(efficiency_nbSent)) (s.(efficiency_index)).

Definition set_efficiency_nbFragments (v : list Z) (s : ARSTREAM_Sender_t) : ARSTREAM_Sender_t :=
  mkSender (s.(manager)) (s.(dataBufferID)) (s.(ackBufferID)) (s.(callback))
    (s.(maxNumberOfNextFrames)) (s.(custom)) (s.(currentFrame))
    (s.(currentFrameNbFragments)) (s.(currentFrameCbWasCalled))
    (s.(packetsToSend)) (s.(ackPacket)) (s.(nextFrameNumber))
    (s.(indexAddNextFrame)) (s.(indexGetNextFrame))
    (s.(numberOfWaitingFrames)) (s.(nextFrames)) (s.(threadsShouldStop))
    (s.(dataThreadStarted)) (s.(ackThreadStarted)) v (s.(efficiency_nbSent))
    (s.(efficiency_index)).

Definition set_efficiency_nbSent (v : list Z) (s : ARSTREAM_Sender_t) : ARSTREAM_Sender_t :=
  mkSender (s.(manager)) (s.(dataBufferID)) (s.(ackBufferID)) (s.(callback))
    (s.(maxNumberOfNextFrames)) (s.(custom)) (s.(currentFrame))
    (s.(currentFrameNbFragments)) (s.(currentFrameCbWasCalled))
    (s.(packetsToSend)) (s.(ackPacket)) (s.(nextFrameNumber))
    (s.(indexAddNextFrame)) (s.(indexGetNextFrame))
    (s.(numberOfWaitingFrames)) (s.(nextFrames)) (s.(threadsShouldStop))
    (s.(dataThreadStarted)) (s.(ackThreadStarted))
    (s.(efficiency_nbFragments)) v (s.(efficiency_index)).

Definition set_efficiency_index (v : Z) (s : ARSTREAM_Sender_t) : ARSTREAM_Sender_t :=
  mkSender (s.(manager)) (s.(dataBufferID)) (s.(ackBufferID)) (s.(callback))
    (s.(maxNumberOfNextFrames)) (s.(custom)) (s.(currentFrame))
    (s.(currentFrameNbFragments)) (s.(currentFrameCbWasCalled))
    (s.(packetsToSend)) (s.(ackPacket)) (s.(nextFrameNumber))
    (s.(indexAddNextFrame)) (s.(indexGetNextFrame))
    (s.(numberOfWaitingFrames)) (s.(nextFrames)) (s.(threadsShouldStop))
    (s.(dataThreadStarted)) (s.(ackThreadStarted))
    (s.(efficiency_nbFragments)) (s.(efficiency_nbSent)) v.

(** [sender->nextFrames [i]].  An index outside the array is undefined
    behaviour in C; the model reads [Frame_zero] there, and the ring
    invariant below keeps every index the code uses inside the array. *)
Definition frame_at (l : list ARSTREAM_Sender_Frame_t) (i : Z) : ARSTREAM_Sender_Frame_t :=
  default Frame_zero (l !! Z.to_nat i).

(** [array [i]] on the efficiency arrays, same convention. *)
Definition int_at (l : list Z) (i : Z) : Z := default 0 (l !! Z.to_nat i).

(** ** Observable actions *)

(** What a function does to the outside world: it calls the application
    callback, signals the condition variable, asks the network manager to
    flush or to send, or prints an error. *)
Inductive Action : Type :=
| Callback (status : eARSTREAM_SENDER_STATUS) (buffer size custom_ptr : Z)
| Cond_Signal
| FlushInputBuffer (bufferID : Z)
| SendData (bufferID : Z) (hdr_frameNumber hdr_frameFlags hdr_fragmentNumber
            hdr_fragmentsPerFrame : Z) (src_offset payload_len total_len : Z)
            (cb_frameNumber cb_fragmentIndex : Z)
| Print_Error.

Definition is_callback (a : Action) : bool :=
  match a with Callback _ _ _ _ => true | _ => false end.

(** ** A state-and-trace monad over the sender *)

Definition M (A : Type) : Type :=
  ARSTREAM_Sender_t -> A * ARSTREAM_Sender_t * list Action.

Definition ret {A} (a : A) : M A := fun s => (a, s, []).

Definition bind {A B} (m : M A) (k : A -> M B) : M B :=
  fun s =>
    let '(a, s1, l1) := m s in
    let '(b, s2, l2) := k a s1 in
    (b, s2, l1 ++ l2).

Definition gets {A} (f : ARSTREAM_Sender_t -> A) : M A := fun s => (f s, s, []).

Definition modify (f : ARSTREAM_Sender_t -> ARSTREAM_Sender_t) : M unit :=
  fun s => (tt, f s, []).

Definition emit (a : Action) : M unit := fun s => (tt, s, [a]).

Declare Scope sender_scope.
Delimit Scope sender_scope with sender.
Notation "x <- c1 ;; c2" := (bind c1 (fun x => c2))
  (at level 100, c1 at next level, right associativity) : sender_scope.
Notation "c1 ;; c2" := (bind c1 (fun _ => c2))
  (at level 100, right associativity) : sender_scope.
Local Open Scope sender_scope.

Definition result {A} (r : A * ARSTREAM_Sender_t * list Action) : A := fst (fst r).
Definition state_of {A} (r : A * ARSTREAM_Sender_t * list Action) : ARSTREAM_Sender_t :=
  snd (fst r).
Definition trace_of {A} (r : A * ARSTREAM_Sender_t * list Action) : list Action := snd r.

(** ** The frame queue *)

(** The callback that cancels a frame of the queue. *)
Definition cancel_of (custom_ptr : Z) (f : ARSTREAM_Sender_Frame_t) : Action :=
  Callback ARSTREAM_SENDER_STATUS_FRAME_CANCEL (frameBuffer f) (frameSize f) custom_ptr.

(** One turn of the [while] of [ARSTREAM_Sender_FlushQueue]. *)
Definition FlushQueue_body : M unit :=
  nextFrame <- gets (fun s => frame_at (nextFrames s) (indexGetNextFrame s)) ;;
  c <- gets custom ;;
  emit (cancel_of c nextFrame) ;;
  modify (fun s => set_indexGetNextFrame (u32 (indexGetNextFrame s + 1)) s) ;;
  modify (fun s => set_indexGetNextFrame
                     (indexGetNextFrame s mod maxNumberOfNextFrames s) s) ;;
  modify (fun s => set_numberOfWaitingFrames (u32 (numberOfWaitingFrames s - 1)) s).

(** [while (sender->numberOfWaitingFrames > 0) ...]: the condition is
    tested at every turn; [fuel] bounds the number of turns. *)
Fixpoint FlushQueue_loop (fuel : nat) : M unit :=
  match fuel with
  | O => ret tt
  | S fuel' =>
      n <- gets numberOfWaitingFrames ;;
      if 0 <? n then FlushQueue_body ;; FlushQueue_loop fuel' else ret tt
  end.

(** [ARSTREAM_Sender_FlushQueue].  Every turn takes one from
    [numberOfWaitingFrames], so that many turns are enough
    (see [FlushQueue_spec]). *)
Definition ARSTREAM_Sender_FlushQueue : M unit :=
  n <- gets numberOfWaitingFrames ;;
  FlushQueue_loop (Z.to_nat n).

(** [ARSTREAM_Sender_AddToQueue], between the lock and the unlock of
    [nextFrameMutex]. *)
Definition ARSTREAM_Sender_AddToQueue (size buffer wasFlushFrame : Z) : M Z :=
  n <- gets numberOfWaitingFrames ;;
  cbCalled <- gets currentFrameCbWasCalled ;;
  let retVal := i32 n in
  let retVal := if cbCalled =? 0 then i32 (retVal + 1) else retVal in
  (if wasFlushFrame =? 1 then ARSTREAM_Sender_FlushQueue else ret tt) ;;
  n <- gets numberOfWaitingFrames ;;
  maxN <- gets maxNumberOfNextFrames ;;
  if n <? maxN then
    modify (fun s => set_nextFrameNumber (u32 (nextFrameNumber s + 1)) s) ;;
    modify (fun s => set_nextFrames
                       (<[Z.to_nat (indexAddNextFrame s) :=
                            mkFrame (nextFrameNumber s) size buffer wasFlushFrame]>
                          (nextFrames s)) s) ;;
    modify (fun s => set_indexAddNextFrame (u32 (indexAddNextFrame s + 1)) s) ;;
    modify (fun s => set_indexAddNextFrame
                       (indexAddNextFrame s mod maxNumberOfNextFrames s) s) ;;
    modify (fun s => set_numberOfWaitingFrames (u32 (numberOfWaitingFrames s + 1)) s) ;;
    emit Cond_Signal ;;
    ret retVal
  else
    ret (-1).

(** The head of the queue: [sender->nextFrames [sender->indexGetNextFrame]]. *)
Definition head_frame (s : ARSTREAM_Sender_t) : ARSTREAM_Sender_Frame_t :=
  frame_at (nextFrames s) (indexGetNextFrame s).

(** The test made twice in [ARSTREAM_Sender_PopFromQueue] (ENABLE_ACK_WAIT
    is 1): a frame waits, and it has high priority or the callback of the
    current frame was called.  On success the waiting count goes down and
    the value of [retVal] is 1, otherwise [retVal] stays 0. *)
Definition PopFromQueue_check : M Z :=
  n <- gets numberOfWaitingFrames ;;
  if 0 <? n then
    frame <- gets head_frame ;;
    cbCalled <- gets currentFrameCbWasCalled ;;
    if (isHighPriority frame =? 1) || (cbCalled =? 1) then
      modify (fun s => set_numberOfWaitingFrames (u32 (numberOfWaitingFrames s - 1)) s) ;;
      ret 1
    else ret 0
  else ret 0.

(** The wait time computed from the latency the network manager reports
    (ENABLE_RETRIES is 1). *)
Definition PopFromQueue_waitTime (estimatedLatency : Z) : Z :=
  let waitTime := estimatedLatency in
  let waitTime :=
    if waitTime <? 0 then ARSTREAM_SENDER_DEFAULT_ESTIMATED_LATENCY_MS else waitTime in
  let waitTime := i32 (waitTime + 5) in
  let waitTime :=
    if waitTime >? ARSTREAM_SENDER_MAXIMUM_TIME_BETWEEN_RETRIES_MS
    then ARSTREAM_SENDER_MAXIMUM_TIME_BETWEEN_RETRIES_MS else waitTime in
  if waitTime <? ARSTREAM_SENDER_MINIMUM_TIME_BETWEEN_RETRIES_MS
  then ARSTREAM_SENDER_MINIMUM_TIME_BETWEEN_RETRIES_MS else waitTime.

(** One return of [ARSAL_Cond_Timedwait]: while the data thread waited the
    mutex was released, so the other threads may have changed the sender
    ([wake_others]); the call returns [wake_err] after [wake_elapsed]
    milliseconds. *)
Record Wake : Type := mkWake {
  wake_others : ARSTREAM_Sender_t -> ARSTREAM_Sender_t;
  wake_err : Z;
  wake_elapsed : Z
}.

(** What follows one return of [ARSAL_Cond_Timedwait] inside the loop:
    the time is added up, a timeout is noted, the queue is tested again.
    The result is the pair [(retVal, hadTimeout)]. *)
Definition PopFromQueue_wake (err : Z) : M (Z * Z) :=
  let hadTimeout := if err =? ETIMEDOUT then 1 else 0 in
  retVal <- PopFromQueue_check ;;
  ret (retVal, hadTimeout).

(** [while ((retVal == 0) && (hadTimeout == 0))], entered with both at 0.
    The list holds the returns of the timed wait in order; when it is used
    up and neither a frame nor a timeout came, the thread is still blocked
    and there is no result. *)
Fixpoint PopFromQueue_wait (wakes : list Wake) (waitTime timewaited : Z)
    (s : ARSTREAM_Sender_t) : option (Z * ARSTREAM_Sender_t * list Action) :=
  match wakes with
  | [] => None
  | w :: wakes' =>
      let timewaited' := i32 (timewaited + wake_elapsed w) in
      let '(r, s1, l1) := PopFromQueue_wake (wake_err w) (wake_others w s) in
      let '(retVal, hadTimeout) := r in
      if (retVal =? 0) && (hadTimeout =? 0)
      then match PopFromQueue_wait wakes' waitTime timewaited' s1 with
           | Some (retVal', s2, l2) => Some (retVal', s2, l1 ++ l2)
           | None => None
           end
      else Some (retVal, s1, l1)
  end.

(** [if (retVal == 1)]: the head is copied into [*newFrame] and the read
    index moves on. *)
Definition PopFromQueue_copy (retVal : Z) (newFrame : ARSTREAM_Sender_Frame_t)
  : M ARSTREAM_Sender_Frame_t :=
  if retVal =? 1 then
    frame <- gets head_frame ;;
    modify (fun s => set_indexGetNextFrame (u32 (indexGetNextFrame s + 1)) s) ;;
    modify (fun s => set_indexGetNextFrame
                       (indexGetNextFrame s mod maxNumberOfNextFrames s) s) ;;
    ret (mkFrame (frameNumber frame) (frameSize frame) (frameBuffer frame)
                 (isHighPriority frame))
  else ret newFrame.

(** [ARSTREAM_Sender_PopFromQueue]: the result is [retVal] and the content
    of [*newFrame] on return. *)
Definition ARSTREAM_Sender_PopFromQueue (estimatedLatency : Z) (wakes : list Wake)
    (newFrame : ARSTREAM_Sender_Frame_t) (s : ARSTREAM_Sender_t)
  : option (Z * ARSTREAM_Sender_Frame_t * ARSTREAM_Sender_t * list Action) :=
  let '(retVal, s1, l1) := PopFromQueue_check s in
  let waited :=
    if retVal =? 0
    then PopFromQueue_wait wakes (PopFromQueue_waitTime estimatedLatency) 0 s1
    else Some (retVal, s1, []) in
  match waited with
  | Some (retVal, s2, l2) =>
      let '(f, s3, l3) := PopFromQueue_copy retVal newFrame s2 in
      Some (retVal, f, s3, l1 ++ l2 ++ l3)
  | None => None
  end.

(** ** The network callback and the acknowledgement of a frame *)

(** [ARSTREAM_Sender_NetworkCallback]; [frameNumber] and [fragmentIndex]
    are the fields of [*customData]. *)
Definition ARSTREAM_Sender_NetworkCallback (cb_frameNumber cb_fragmentIndex : Z)
    (status : eARNETWORK_MANAGER_CALLBACK_STATUS) : M unit :=
  match status with
  | ARNETWORK_MANAGER_CALLBACK_STATUS_SENT =>
      toSend <- gets packetsToSend ;;
      if cb_frameNumber =? ack_frameNumber toSend then
        modify (fun s => set_packetsToSend
          (snd (ARSTREAM_NetworkHeaders_AckPacketUnsetFlag (packetsToSend s)
                  cb_fragmentIndex)) s)
      else ret tt
  | ARNETWORK_MANAGER_CALLBACK_STATUS_CANCEL => ret tt
  | ARNETWORK_MANAGER_CALLBACK_STATUS_OTHER => ret tt
  end.

(** The callback that reports the current frame with [status]. *)
Definition current_callback (status : eARSTREAM_SENDER_STATUS) (s : ARSTREAM_Sender_t)
  : Action :=
  Callback status (frameBuffer (currentFrame s)) (frameSize (currentFrame s)) (custom s).

(** [ARSTREAM_Sender_FrameWasAck]. *)
Definition ARSTREAM_Sender_FrameWasAck : M unit :=
  a <- gets (current_callback ARSTREAM_SENDER_STATUS_FRAME_SENT) ;;
  emit a ;;
  modify (set_currentFrameCbWasCalled 1) ;;
  emit Cond_Signal.

(** ** Creation and stop *)

(** What [ARSTREAM_Sender_New] gets from the system: whether each
    allocation and initialisation succeeds, and the content of the memory
    [malloc] returns, which the function leaves as it is for the two ack
    packets and for the frame array. *)
Record New_env : Type := mkNewEnv {
  malloc_sender : option (ARSTREAM_NetworkHeaders_AckPacket_t *
                          ARSTREAM_NetworkHeaders_AckPacket_t);
  init_packetsToSendMutex : Z;
  init_ackMutex : Z;
  init_nextFrameMutex : Z;
  init_nextFrameCond : Z;
  malloc_nextFrames : option (Z -> ARSTREAM_Sender_Frame_t)
}.

(** [ARSTREAM_Sender_New]: the sender returned ([None] for [NULL]) and the
    value stored in [*error]. *)
Definition ARSTREAM_Sender_New (env : New_env)
    (manager_ptr dataBufferID_ ackBufferID_ callback_ptr framesBufferSize custom_ptr : Z)
  : option ARSTREAM_Sender_t * eARSTREAM_ERROR :=
  if (manager_ptr =? NULL) || (callback_ptr =? NULL)
  then (None, ARSTREAM_ERROR_BAD_PARAMETERS)
  else
    match malloc_sender env with
    | None => (None, ARSTREAM_ERROR_ALLOC)
    | Some (toSend0, ack0) =>
        if negb (init_packetsToSendMutex env =? 0) then (None, ARSTREAM_ERROR_ALLOC)
        else if negb (init_ackMutex env =? 0) then (None, ARSTREAM_ERROR_ALLOC)
        else if negb (init_nextFrameMutex env =? 0) then (None, ARSTREAM_ERROR_ALLOC)
        else if negb (init_nextFrameCond env =? 0) then (None, ARSTREAM_ERROR_ALLOC)
        else
          match malloc_nextFrames env with
          | None => (None, ARSTREAM_ERROR_ALLOC)
          | Some mem =>
              (Some (mkSender manager_ptr dataBufferID_ ackBufferID_ callback_ptr
                       framesBufferSize custom_ptr
                       (mkFrame 0 0 NULL 0) 0 0 toSend0 ack0
                       0 0 0 0 (mem <$> seqZ 0 framesBufferSize)
                       0 0 0
                       (replicate (Z.to_nat ARSTREAM_SENDER_EFFICIENCY_AVERAGE_NB_FRAMES) 0)
                       (replicate (Z.to_nat ARSTREAM_SENDER_EFFICIENCY_AVERAGE_NB_FRAMES) 0)
                       0),
               ARSTREAM_OK)
          end
    end.

(** [ARSTREAM_Sender_StopSender] on a sender that is not [NULL]. *)
Definition ARSTREAM_Sender_StopSender : M unit :=
  modify (set_threadsShouldStop 1).

(** ** Efficiency *)

(** The sums of the [for] of [ARSTREAM_Sender_GetEstimatedEfficiency]:
    [uint32_t] accumulators to which [int] cells are added. *)
Definition efficiency_sum (cells : list Z) : Z :=
  fold_left (fun acc i => u32 (acc + int_at cells i))
            (seqZ 0 ARSTREAM_SENDER_EFFICIENCY_AVERAGE_NB_FRAMES) 0.

Definition totalPackets (s : ARSTREAM_Sender_t) : Z :=
  efficiency_sum (efficiency_nbFragments s).

Definition sentPackets (s : ARSTREAM_Sender_t) : Z :=
  efficiency_sum (efficiency_nbSent s).

(** [ARSTREAM_Sender_GetEstimatedEfficiency].  The C function returns a
    [float]; the model returns the exact quotient, before it is rounded to
    single precision, and the error it prints, if any. *)
Definition ARSTREAM_Sender_GetEstimatedEfficiency (s : ARSTREAM_Sender_t)
  : Q * list Action :=
  if sentPackets s =? 0 then (1%Q, [])
  else if totalPackets s >? sentPackets s then (1%Q, [Print_Error])
  else ((inject_Z (totalPackets s) / inject_Z (sentPackets s))%Q, []).

Section Sender.

(** The constants of ARSTREAM_NetworkHeaders.h, which is not among the
    sources, are parameters of the development. *)
Variable ARSTREAM_NETWORK_HEADERS_FRAGMENT_SIZE : Z.
Variable ARSTREAM_NETWORK_HEADERS_MAX_FRAME_SIZE : Z.
Variable ARSTREAM_NETWORK_HEADERS_FLAG_FLUSH_FRAME : Z.
Variable sizeof_DataHeader : Z.
Variable sizeof_AckPacket : Z.

(** ** Submission of a frame *)

(** [ARSTREAM_Sender_SendNewFrame].  [sender] is [None] for [NULL];
    [nbPreviousFrames] is [None] for [NULL], otherwise the content of the
    pointed integer.  The result is the error code, the sender, the content
    of [*nbPreviousFrames] on return and the actions. *)
Definition ARSTREAM_Sender_SendNewFrame (sender : option ARSTREAM_Sender_t)
    (frameBuffer_ frameSize_ flushPreviousFrames : Z) (nbPreviousFrames : option Z)
  : eARSTREAM_ERROR * option ARSTREAM_Sender_t * option Z * list Action :=
  match sender with
  | None => (ARSTREAM_ERROR_BAD_PARAMETERS, sender, nbPreviousFrames, [])
  | Some s =>
      if (frameBuffer_ =? NULL) || (frameSize_ =? 0) ||
         (negb (flushPreviousFrames =? 0) && negb (flushPreviousFrames =? 1))
      then (ARSTREAM_ERROR_BAD_PARAMETERS, sender, nbPreviousFrames, [])
      else if frameSize_ >? ARSTREAM_NETWORK_HEADERS_MAX_FRAME_SIZE
      then (ARSTREAM_ERROR_FRAME_TOO_LARGE, sender, nbPreviousFrames, [])
      else
        let '(res, s', l) :=
          ARSTREAM_Sender_AddToQueue frameSize_ frameBuffer_ flushPreviousFrames s in
        if res <? 0 then (ARSTREAM_ERROR_QUEUE_FULL, Some s', nbPreviousFrames, l)
        else match nbPreviousFrames with
             | Some _ => (ARSTREAM_OK, Some s', Some res, l)
             | None => (ARSTREAM_OK, Some s', None, l)
             end
  end.

(** ** The data thread *)

(** The local variables of [ARSTREAM_Sender_RunDataThread] that live
    across the turns of its loop; the four [header_] fields are the header
    at the start of [sendFragment]. *)
Record DataThread_locals : Type := mkLocals {
  sendSize : Z;
  nbPackets : Z;
  numbersOfFragmentsSentForCurrentFrame : Z;
  lastFragmentSize : Z;
  header_frameNumber : Z;
  header_frameFlags : Z;
  header_fragmentNumber : Z;
  header_fragmentsPerFrame : Z;
  nextFrame : ARSTREAM_Sender_Frame_t
}.

(** "Compute number of fragments / size of the last fragment": the new
    values of [nbPackets] (a [uint16_t]) and [lastFragmentSize] (an [int]). *)
Definition compute_fragments (sendSize_ nbPackets_ lastFragmentSize_ : Z) : Z * Z :=
  if 0 <? sendSize_ then
    let lastFragmentSize_ := i32 ARSTREAM_NETWORK_HEADERS_FRAGMENT_SIZE in
    let nbPackets_ := u16 (sendSize_ / ARSTREAM_NETWORK_HEADERS_FRAGMENT_SIZE) in
    if negb (sendSize_ mod ARSTREAM_NETWORK_HEADERS_FRAGMENT_SIZE =? 0) then
      (u16 (nbPackets_ + 1), i32 (sendSize_ mod ARSTREAM_NETWORK_HEADERS_FRAGMENT_SIZE))
    else (nbPackets_, lastFragmentSize_)
  else (nbPackets_, lastFragmentSize_).

(** The block [if (waitRes == 1)] of the loop, run with [ackMutex] held. *)
Definition ARSTREAM_Sender_RunDataThread_newFrame (l : DataThread_locals) : M DataThread_locals :=
  modify (fun s => set_efficiency_nbFragments
            (<[Z.to_nat (efficiency_index s) := nbPackets l]> (efficiency_nbFragments s)) s) ;;
  modify (fun s => set_efficiency_nbSent
            (<[Z.to_nat (efficiency_index s) := numbersOfFragmentsSentForCurrentFrame l]>
               (efficiency_nbSent s)) s) ;;
  modify (fun s => set_efficiency_index (i32 (efficiency_index s + 1)) s) ;;
  modify (fun s => set_efficiency_index
            (Z.rem (efficiency_index s) ARSTREAM_SENDER_EFFICIENCY_AVERAGE_NB_FRAMES) s) ;;
  modify (fun s => set_efficiency_nbSent
            (<[Z.to_nat (efficiency_index s) := 0]> (efficiency_nbSent s)) s) ;;
  modify (fun s => set_efficiency_nbFragments
            (<[Z.to_nat (efficiency_index s) := 0]> (efficiency_nbFragments s)) s) ;;
  cbCalled <- gets currentFrameCbWasCalled ;;
  (if cbCalled =? 0 then
     b <- gets dataBufferID ;;
     emit (FlushInputBuffer b) ;;
     a <- gets (current_callback ARSTREAM_SENDER_STATUS_FRAME_CANCEL) ;;
     emit a
   else ret tt) ;;
  modify (set_currentFrameCbWasCalled 0) ;;
  modify (set_currentFrame
            (mkFrame (frameNumber (nextFrame l)) (frameSize (nextFrame l))
                     (frameBuffer (nextFrame l)) (isHighPriority (nextFrame l)))) ;;
  let sendSize_ := frameSize (nextFrame l) in
  modify (fun s => set_ackPacket
            (set_ack_frameNumber (u16 (frameNumber (currentFrame s))) (ackPacket s)) s) ;;
  modify (fun s => set_ackPacket (ARSTREAM_NetworkHeaders_AckPacketReset (ackPacket s)) s) ;;
  modify (fun s => set_packetsToSend
            (set_ack_frameNumber (u16 (frameNumber (currentFrame s))) (packetsToSend s)) s) ;;
  modify (fun s => set_packetsToSend
            (ARSTREAM_NetworkHeaders_AckPacketReset (packetsToSend s)) s) ;;
  cur <- gets currentFrame ;;
  let hdr_number := u16 (frameNumber cur) in
  let hdr_flags :=
    u8 (Z.lor 0 (if negb (isHighPriority cur =? 0)
                 then ARSTREAM_NETWORK_HEADERS_FLAG_FLUSH_FRAME else 0)) in
  let '(nbPackets_, lastFragmentSize_) :=
    compute_fragments sendSize_ (nbPackets l) (lastFragmentSize l) in
  modify (set_currentFrameNbFragments nbPackets_) ;;
  ret (mkLocals sendSize_ nbPackets_ 0 lastFragmentSize_ hdr_number hdr_flags
                (header_fragmentNumber l) (header_fragmentsPerFrame l) (nextFrame l)).

(** "Flag all non-ack packets as packet to send". *)
Definition ARSTREAM_Sender_RunDataThread_flagPackets (l : DataThread_locals) : M unit :=
  modify (fun s => set_packetsToSend
            (ARSTREAM_NetworkHeaders_AckPacketReset (packetsToSend s)) s) ;;
  modify (fun s => set_packetsToSend
            (fold_left
               (fun p cnt =>
                  if ARSTREAM_NetworkHeaders_AckPacketFlagIsSet (ackPacket s) cnt =? 0
                  then ARSTREAM_NetworkHeaders_AckPacketSetFlag p cnt else p)
               (seqZ 0 (nbPackets l)) (packetsToSend s)) s).

(** The size of fragment [cnt] of the current frame. *)
Definition currFragmentSize (l : DataThread_locals) (cnt : Z) : Z :=
  if cnt =? nbPackets l - 1 then lastFragmentSize l
  else ARSTREAM_NETWORK_HEADERS_FRAGMENT_SIZE.

(** The body of [if (ARSTREAM_NetworkHeaders_AckPacketFlagIsSet
    (&(sender->packetsToSend), cnt))] up to the call of
    [ARNETWORK_Manager_SendData], around which [packetsToSendMutex] is
    released. *)
Definition ARSTREAM_Sender_RunDataThread_sendFragment (l : DataThread_locals) (cnt : Z)
  : M DataThread_locals :=
  let sent := i32 (numbersOfFragmentsSentForCurrentFrame l + 1) in
  let size := currFragmentSize l cnt in
  let l' := mkLocals (sendSize l) (nbPackets l) sent (lastFragmentSize l)
                     (header_frameNumber l) (header_frameFlags l)
                     (u8 cnt) (u8 (nbPackets l)) (nextFrame l) in
  b <- gets dataBufferID ;;
  toSend <- gets packetsToSend ;;
  emit (SendData b (header_frameNumber l') (header_frameFlags l')
                 (header_fragmentNumber l') (header_fragmentsPerFrame l')
                 (ARSTREAM_NETWORK_HEADERS_FRAGMENT_SIZE * cnt) size
                 (size + sizeof_DataHeader)
                 (ack_frameNumber toSend) cnt) ;;
  ret l'.

(** The next fragment at or after [from] whose flag is set in
    [packetsToSend]: where the second [for] stops next. *)
Definition next_to_send (s : ARSTREAM_Sender_t) (nb from : Z) : option Z :=
  find (fun cnt =>
          negb (ARSTREAM_NetworkHeaders_AckPacketFlagIsSet (packetsToSend s) cnt =? 0))
       (seqZ from (nb - from)).

(** The second [for] from [cnt = from] up to the next call of
    [ARNETWORK_Manager_SendData] ([Some cnt]) or to its end ([None]). *)
Definition ARSTREAM_Sender_RunDataThread_sendLoop (l : DataThread_locals) (from : Z)
  : M (DataThread_locals * option Z) :=
  nxt <- gets (fun s => next_to_send s (nbPackets l) from) ;;
  match nxt with
  | Some cnt => l' <- ARSTREAM_Sender_RunDataThread_sendFragment l cnt ;; ret (l', Some cnt)
  | None => ret (l, None)
  end.

(** ** The ack thread *)

(** One turn of the loop of [ARSTREAM_Sender_RunAckThread], for the result
    [err], [recvSize], [recvPacket] of the read; the packet is given with
    its fields already in host order. *)
Definition ARSTREAM_Sender_RunAckThread_body (err : eARNETWORK_ERROR) (recvSize : Z)
    (recvPacket : ARSTREAM_NetworkHeaders_AckPacket_t) : M unit :=
  match err with
  | ARNETWORK_ERROR_BUFFER_EMPTY => ret tt
  | ARNETWORK_ERROR_OTHER => emit Print_Error
  | ARNETWORK_OK =>
      if negb (recvSize =? sizeof_AckPacket) then emit Print_Error
      else
        ack <- gets ackPacket ;;
        if ack_frameNumber ack =? ack_frameNumber recvPacket then
          modify (fun s => set_ackPacket
                    (ARSTREAM_NetworkHeaders_AckPacketSetFlags (ackPacket s) recvPacket) s) ;;
          cbCalled <- gets currentFrameCbWasCalled ;;
          allSet <- gets (fun s => ARSTREAM_NetworkHeaders_AckPacketAllFlagsSet
                                     (ackPacket s) (currentFrameNbFragments s)) ;;
          if (cbCalled =? 0) && (allSet =? 1) then ARSTREAM_Sender_FrameWasAck
          else ret tt
        else ret tt
  end.

(** ** The threads together *)

(** Where the data thread stands between two of its critical sections. *)
Inductive DataPc : Type :=
| PcStart
| PcLoop
| PcWait (waitTime timewaited : Z)
| PcPopped (waitRes : Z)
| PcPass
| PcInSend (cnt : Z)
| PcEnded.

Record Sys : Type := mkSys {
  sys_sender : ARSTREAM_Sender_t;
  sys_pc : DataPc;
  sys_locals : DataThread_locals
}.

(** The steps of the threads.  A step of the application thread is a call
    of the public interface; a step of the ack thread is one turn of its
    loop; a step of the network is one call of the network callback; a step
    of the data thread runs it up to the point where it next releases all
    its locks, with what the system answers on the way; the start of the
    data thread with the pointers it gets is a step of its own. *)
Inductive Label : Type :=
| L_SendNewFrame (frameBuffer_ frameSize_ flushPreviousFrames : Z)
                 (nbPreviousFrames : option Z)
| L_StopSender
| L_Ack (err : eARNETWORK_ERROR) (recvSize : Z)
        (recvPacket : ARSTREAM_NetworkHeaders_AckPacket_t)
| L_NetworkCallback (cb_frameNumber cb_fragmentIndex : Z)
                    (status : eARNETWORK_MANAGER_CALLBACK_STATUS)
| L_Data (estimatedLatency wait_err wait_elapsed : Z)
| L_DataStart (ARSTREAM_Sender_t_Param sendFragment : Z).

Definition lift_sender (st : Sys) (r : unit * ARSTREAM_Sender_t * list Action)
  : option (Sys * list Action) :=
  let '(_, s, l) := r in Some (mkSys s (sys_pc st) (sys_locals st), l).

Definition with_nextFrame (f : ARSTREAM_Sender_Frame_t) (l : DataThread_locals)
  : DataThread_locals :=
  mkLocals (sendSize l) (nbPackets l) (numbersOfFragmentsSentForCurrentFrame l)
           (lastFragmentSize l) (header_frameNumber l) (header_frameFlags l)
           (header_fragmentNumber l) (header_fragmentsPerFrame l) f.

(** The end of [ARSTREAM_Sender_PopFromQueue] seen from the loop of the
    data thread. *)
Definition data_popped (retVal : Z) (st : Sys) (s : ARSTREAM_Sender_t)
    (l0 : list Action) : option (Sys * list Action) :=
  let '(f, s', l1) := PopFromQueue_copy retVal (nextFrame (sys_locals st)) s in
  Some (mkSys s' (PcPopped retVal) (with_nextFrame f (sys_locals st)), l0 ++ l1).

Definition data_send (st : Sys) (from : Z) (s : ARSTREAM_Sender_t) (l0 : list Action)
  : option (Sys * list Action) :=
  let '(r, s', l1) := ARSTREAM_Sender_RunDataThread_sendLoop (sys_locals st) from s in
  let '(locals', nxt) := r in
  Some (mkSys s' (match nxt with Some cnt => PcInSend cnt | None => PcLoop end) locals',
        l0 ++ l1).

(** [ARSTREAM_Sender_RunDataThread], one critical section at a time.
    [estimatedLatency] is what the network manager answers in
    [ARSTREAM_Sender_PopFromQueue], [wait_err] and [wait_elapsed] are the
    result and the duration of the timed wait.  At [PcStart] the step is
    the start of a thread that passes its two checks; the start with the
    pointers the thread really gets, early returns included, is
    [ARSTREAM_Sender_RunDataThread_start] below, the step [L_DataStart]. *)
Definition ARSTREAM_Sender_RunDataThread_step (estimatedLatency wait_err wait_elapsed : Z) (st : Sys)
  : option (Sys * list Action) :=
  let s := sys_sender st in
  match sys_pc st with
  | PcStart =>
      Some (mkSys (set_dataThreadStarted 1 s) PcLoop (sys_locals st), [])
  | PcLoop =>
      if threadsShouldStop s =? 0 then
        let '(retVal, s1, l1) := PopFromQueue_check s in
        if retVal =? 0
        then Some (mkSys s1 (PcWait (PopFromQueue_waitTime estimatedLatency) 0)
                         (sys_locals st), l1)
        else data_popped retVal st s1 l1
      else Some (mkSys (set_dataThreadStarted 0 s) PcEnded (sys_locals st), [])
  | PcWait waitTime timewaited =>
      let '(r, s1, l1) := PopFromQueue_wake wait_err s in
      let '(retVal, hadTimeout) := r in
      if (retVal =? 0) && (hadTimeout =? 0)
      then Some (mkSys s1 (PcWait waitTime (i32 (timewaited + wait_elapsed)))
                       (sys_locals st), l1)
      else data_popped retVal st s1 l1
  | PcPopped waitRes =>
      if waitRes =? 1 then
        let '(locals', s1, l1) := ARSTREAM_Sender_RunDataThread_newFrame (sys_locals st) s in
        Some (mkSys s1 PcPass locals', l1)
      else Some (mkSys s PcPass (sys_locals st), [])
  | PcPass =>
      let '(_, s1, l1) := ARSTREAM_Sender_RunDataThread_flagPackets (sys_locals st) s in
      data_send st 0 s1 l1
  | PcInSend cnt => data_send st (cnt + 1) s []
  | PcEnded => None
  end.

(** The beginning of [ARSTREAM_Sender_RunDataThread] with its two checks:
    [ARSTREAM_Sender_t_Param] is the pointer the thread is given and
    [sendFragment] the one [malloc] returns.  When one of them is null the
    thread prints an error and returns at once: it has not touched the
    sender, and [dataThreadStarted] was never set.  Otherwise the thread
    sets [dataThreadStarted] and enters its loop; this is also what a step
    [L_Data] does at [PcStart], where both checks pass. *)
Definition ARSTREAM_Sender_RunDataThread_start (ARSTREAM_Sender_t_Param sendFragment : Z)
    (st : Sys) : option (Sys * list Action) :=
  match sys_pc st with
  | PcStart =>
      if ARSTREAM_Sender_t_Param =? NULL
      then Some (mkSys (sys_sender st) PcEnded (sys_locals st), [Print_Error])
      else if sendFragment =? NULL
      then Some (mkSys (sys_sender st) PcEnded (sys_locals st), [Print_Error])
      else Some (mkSys (set_dataThreadStarted 1 (sys_sender st)) PcLoop (sys_locals st), [])
  | _ => None
  end.

(** The ack thread needs [ackMutex], which the data thread holds from the
    flagging of the packets to the end of the second [for]. *)
Definition ackMutex_free (pc : DataPc) : bool :=
  match pc with PcInSend _ => false | _ => true end.

Definition sys_step (lbl : Label) (st : Sys) : option (Sys * list Action) :=
  match lbl with
  | L_SendNewFrame b sz fl nb =>
      let '(_, s', _, l) :=
        ARSTREAM_Sender_SendNewFrame (Some (sys_sender st)) b sz fl nb in
      match s' with
      | Some s1 => Some (mkSys s1 (sys_pc st) (sys_locals st), l)
      | None => None
      end
  | L_StopSender => lift_sender st (ARSTREAM_Sender_StopSender (sys_sender st))
  | L_Ack err recvSize recvPacket =>
      if ackMutex_free (sys_pc st)
      then lift_sender st (ARSTREAM_Sender_RunAckThread_body err recvSize recvPacket (sys_sender st))
      else None
  | L_NetworkCallback fn idx status =>
      lift_sender st (ARSTREAM_Sender_NetworkCallback fn idx status (sys_sender st))
  | L_Data lat err ms => ARSTREAM_Sender_RunDataThread_step lat err ms st
  | L_DataStart param frag => ARSTREAM_Sender_RunDataThread_start param frag st
  end.

(** One entry of a run: the step, the state it started from, what it did. *)
Record Entry : Type := mkEntry {
  entry_label : Label;
  entry_before : Sys;
  entry_actions : list Action
}.

Fixpoint run (lbls : list Label) (st : Sys) : option (Sys * list Entry) :=
  match lbls with
  | [] => Some (st, [])
  | lbl :: lbls' =>
      match sys_step lbl st with
      | Some (st1, l) =>
          match run lbls' st1 with
          | Some (st2, tr) => Some (st2, mkEntry lbl st l :: tr)
          | None => None
          end
      | None => None
      end
  end.

(** The state in which the threads are started on a new sender; the
    header of [sendFragment] is fresh memory. *)
Definition sys_init (s : ARSTREAM_Sender_t) (hdr : Z * Z * Z * Z) : Sys :=
  let '(h1, h2, h3, h4) := hdr in
  mkSys s PcStart (mkLocals 0 0 0 0 h1 h2 h3 h4 (mkFrame 0 0 0 0)).

(** The states the threads can reach from a sender that
    [ARSTREAM_Sender_New] returned. *)
Inductive reachable : Sys -> Prop :=
| reachable_init env mgr dataId ackId cb size cust s hdr :
    0 <= size < 2 ^ 32 ->
    ARSTREAM_Sender_New env mgr dataId ackId cb size cust = (Some s, ARSTREAM_OK) ->
    reachable (sys_init s hdr)
| reachable_step lbl st st' l :
    reachable st -> sys_step lbl st = Some (st', l) -> reachable st'.

(** ** Invariants *)

(** The frames that wait in the ring, oldest first. *)
Definition waiting_frames (s : ARSTREAM_Sender_t) : list ARSTREAM_Sender_Frame_t :=
  (fun k => frame_at (nextFrames s)
              ((indexGetNextFrame s + k) mod maxNumberOfNextFrames s))
    <$> seqZ 0 (numberOfWaitingFrames s).

(** The ring is well formed: the array has the capacity as its length, the
    indices are inside it, and the write index is the read index plus the
    number of waiting frames, around the ring. *)
Record ring_ok (s : ARSTREAM_Sender_t) : Prop := mk_ring_ok {
  ring_max : 0 <= maxNumberOfNextFrames s < 2 ^ 32;
  ring_length : length (nextFrames s) = Z.to_nat (maxNumberOfNextFrames s);
  ring_count : 0 <= numberOfWaitingFrames s <= maxNumberOfNextFrames s;
  ring_get : 0 <= indexGetNextFrame s /\
             (maxNumberOfNextFrames s <> 0 -> indexGetNextFrame s < maxNumberOfNextFrames s);
  ring_add : indexAddNextFrame s =
             if maxNumberOfNextFrames s =? 0 then indexGetNextFrame s
             else (indexGetNextFrame s + numberOfWaitingFrames s)
                    mod maxNumberOfNextFrames s
}.

(** The backlog fits the [int] that [ARSTREAM_Sender_AddToQueue] returns. *)
Definition capacity_fits_int (s : ARSTREAM_Sender_t) : Prop :=
  maxNumberOfNextFrames s < INT_MAX.

(** The state [ARSTREAM_Sender_AddToQueue] reaches once it has flushed the
    queue, if it was asked to. *)
Definition after_flush (wasFlushFrame : Z) (s : ARSTREAM_Sender_t) : ARSTREAM_Sender_t :=
  if wasFlushFrame =? 1 then state_of (ARSTREAM_Sender_FlushQueue s) else s.

(** The sender once a frame has been written at the write index: what the
    branch [numberOfWaitingFrames < maxNumberOfNextFrames] of
    [ARSTREAM_Sender_AddToQueue] does to it. *)
Definition enqueued (size buffer wasFlushFrame : Z) (s : ARSTREAM_Sender_t)
  : ARSTREAM_Sender_t :=
  set_numberOfWaitingFrames (numberOfWaitingFrames s + 1)
    (set_indexAddNextFrame ((indexAddNextFrame s + 1) mod maxNumberOfNextFrames s)
       (set_nextFrames
          (<[Z.to_nat (indexAddNextFrame s) :=
               mkFrame (u32 (nextFrameNumber s + 1)) size buffer wasFlushFrame]>
             (nextFrames s))
          (set_nextFrameNumber (u32 (nextFrameNumber s + 1)) s))).

(** The cancellations a flush makes on [s]. *)
Definition flush_trace (wasFlushFrame : Z) (s : ARSTREAM_Sender_t) : list Action :=
  if wasFlushFrame =? 1 then cancel_of (custom s) <$> waiting_frames s else [].

(** The value of [retVal] before the queue is touched, as the C code
    computes it in an [int]. *)
Definition AddToQueue_retVal (s : ARSTREAM_Sender_t) : Z :=
  if currentFrameCbWasCalled s =? 0
  then i32 (i32 (numberOfWaitingFrames s) + 1)
  else i32 (numberOfWaitingFrames s).

(** The number of waiting frames, plus one if the callback of the current
    frame was not called yet. *)
Definition backlog (s : ARSTREAM_Sender_t) : Z :=
  numberOfWaitingFrames s + (if currentFrameCbWasCalled s =? 0 then 1 else 0).

(** The head of the queue may be given to the data thread: a frame waits,
    and it has high priority or the callback of the current frame was
    called. *)
Definition head_is_ready (s : ARSTREAM_Sender_t) : Prop :=
  0 < numberOfWaitingFrames s /\
  (isHighPriority (head_frame s) = 1 \/ currentFrameCbWasCalled s = 1).

(** The sender as the data thread finds it at its [k]-th return from the
    timed wait: the other threads have acted during each wait. *)
Definition woken (wakes : list Wake) (s : ARSTREAM_Sender_t) : ARSTREAM_Sender_t :=
  fold_left (fun s' w => wake_others w s') wakes s.

(** The sender once its head has been taken, as
    [ARSTREAM_Sender_PopFromQueue] leaves it. *)
Definition popped (s : ARSTREAM_Sender_t) : ARSTREAM_Sender_t :=
  set_indexGetNextFrame (u32 (indexGetNextFrame s + 1) mod maxNumberOfNextFrames s)
    (set_numberOfWaitingFrames (u32 (numberOfWaitingFrames s - 1)) s).

(** The sender once the data thread has made [nextFrame] its current
    frame: the fields as the block [if (waitRes == 1)] leaves them. *)
Definition installed (l : DataThread_locals) (s : ARSTREAM_Sender_t) : ARSTREAM_Sender_t :=
  let idx := efficiency_index s in
  let idx' := Z.rem (i32 (idx + 1)) ARSTREAM_SENDER_EFFICIENCY_AVERAGE_NB_FRAMES in
  let number := u16 (frameNumber (nextFrame l)) in
  mkSender (manager s) (dataBufferID s) (ackBufferID s) (callback s)
    (maxNumberOfNextFrames s) (custom s)
    (mkFrame (frameNumber (nextFrame l)) (frameSize (nextFrame l))
             (frameBuffer (nextFrame l)) (isHighPriority (nextFrame l)))
    (fst (compute_fragments (frameSize (nextFrame l)) (nbPackets l) (lastFragmentSize l)))
    0
    (mkAck number 0 0) (mkAck number 0 0)
    (nextFrameNumber s) (indexAddNextFrame s) (indexGetNextFrame s)
    (numberOfWaitingFrames s) (nextFrames s)
    (threadsShouldStop s) (dataThreadStarted s) (ackThreadStarted s)
    (<[Z.to_nat idx' := 0]>
       (<[Z.to_nat idx := nbPackets l]> (efficiency_nbFragments s)))
    (<[Z.to_nat idx' := 0]>
       (<[Z.to_nat idx := numbersOfFragmentsSentForCurrentFrame l]>
          (efficiency_nbSent s)))
    idx'.

(** The local variables after the same block. *)
Definition installed_locals (l : DataThread_locals) : DataThread_locals :=
  let cf := compute_fragments (frameSize (nextFrame l)) (nbPackets l)
              (lastFragmentSize l) in
  mkLocals (frameSize (nextFrame l)) (fst cf) 0 (snd cf)
    (u16 (frameNumber (nextFrame l)))
    (u8 (Z.lor 0 (if negb (isHighPriority (nextFrame l) =? 0)
                  then ARSTREAM_NETWORK_HEADERS_FLAG_FLUSH_FRAME else 0)))
    (header_fragmentNumber l) (header_fragmentsPerFrame l) (nextFrame l).

(** What the block does when the callback of the frame it replaces was
    not called. *)
Definition cancel_current (s : ARSTREAM_Sender_t) : list Action :=
  if currentFrameCbWasCalled s =? 0
  then [FlushInputBuffer (dataBufferID s);
        current_callback ARSTREAM_SENDER_STATUS_FRAME_CANCEL s]
  else [].

(** The steps of the two loops of the sender: the ack thread and the
    data thread.  The other steps are calls from the application and from
    the network manager. *)
Definition loop_label (lbl : Label) : bool :=
  match lbl with
  | L_Ack _ _ _ => true
  | L_Data _ _ _ => true
  | _ => false
  end.

(** The callbacks the two loops make along a run, in order. *)
Definition loop_callbacks (tr : list Entry) : list Action :=
  concat (map (fun e => if loop_label (entry_label e)
                        then List.filter is_callback (entry_actions e) else [])
              tr).

(** The step at which the data thread installs the frame it has popped
    as the current frame. *)
Definition is_install (e : Entry) : bool :=
  match entry_label e, sys_pc (entry_before e) with
  | L_Data _ _ _, PcPopped waitRes => waitRes =? 1
  | _, _ => false
  end.

(** What holds of the data thread and of the efficiency arrays in every
    state the threads reach. *)
Definition locals_inv (l : DataThread_locals) : Prop :=
  0 <= nbPackets l < 2 ^ 16 /\
  (nbPackets l = 0 -> numbersOfFragmentsSentForCurrentFrame l = 0).

Definition efficiency_inv (s : ARSTREAM_Sender_t) : Prop :=
  length (efficiency_nbFragments s) = 15%nat /\
  length (efficiency_nbSent s) = 15%nat /\
  0 <= efficiency_index s < 15 /\
  forall i, 0 <= i < 15 ->
    0 <= int_at (efficiency_nbFragments s) i < 2 ^ 16 /\
    (int_at (efficiency_nbFragments s) i = 0 -> int_at (efficiency_nbSent s) i = 0).

Definition pc_inv (pc : DataPc) : Prop :=
  match pc with PcInSend cnt => 0 <= cnt | _ => True end.

Definition sys_inv (st : Sys) : Prop :=
  locals_inv (sys_locals st) /\ efficiency_inv (sys_sender st) /\ pc_inv (sys_pc st).

(** The sum of the fifteen cells of an efficiency array, without
    wrap-around. *)
Definition plain_sum (cells : list Z) : Z :=
  foldr Z.add 0 (int_at cells <$> seqZ 0 ARSTREAM_SENDER_EFFICIENCY_AVERAGE_NB_FRAMES).

(** The arguments [ARSTREAM_Sender_SendNewFrame] rejects at once. *)
Definition bad_parameters (sender : option ARSTREAM_Sender_t)
    (frameBuffer_ frameSize_ flushPreviousFrames : Z) : Prop :=
  sender = None \/ frameBuffer_ = NULL \/ frameSize_ = 0 \/
  (flushPreviousFrames <> 0 /\ flushPreviousFrames <> 1).

(** The fields that only the ack loop and the installation of a frame
    write, and [custom], which nothing writes. *)
Definition untouched (s s' : ARSTREAM_Sender_t) : Prop :=
  currentFrame s' = currentFrame s /\
  currentFrameCbWasCalled s' = currentFrameCbWasCalled s /\
  custom s' = custom s /\
  efficiency_nbFragments s' = efficiency_nbFragments s /\
  efficiency_nbSent s' = efficiency_nbSent s /\
  efficiency_index s' = efficiency_index s /\
  ackPacket s' = ackPacket s /\
  currentFrameNbFragments s' = currentFrameNbFragments s.

(** What a step that installs no frame may do to the current frame, to
    its callback and to its ack packet: the frame and its number of
    fragments stay; the callbacks [cbs] that the two loops make are none,
    or FRAME_SENT once when [currentFrameCbWasCalled] was 0, and it is then
    1; the ack packet keeps its frame number and the flags it has. *)
Definition step_effect (s s1 : ARSTREAM_Sender_t) (cbs : list Action) : Prop :=
  currentFrame s1 = currentFrame s /\ custom s1 = custom s /\
  ((cbs = [] /\ currentFrameCbWasCalled s1 = currentFrameCbWasCalled s) \/
   (currentFrameCbWasCalled s = 0 /\
    cbs = [current_callback ARSTREAM_SENDER_STATUS_FRAME_SENT s] /\
    currentFrameCbWasCalled s1 = 1)) /\
  currentFrameNbFragments s1 = currentFrameNbFragments s /\
  ack_frameNumber (ackPacket s1) = ack_frameNumber (ackPacket s) /\
  (forall i, ack_bit (ackPacket s) i = true -> ack_bit (ackPacket s1) i = true).

(** The fields of the ring, which only the queue functions write. *)
Definition ring_untouched (s s' : ARSTREAM_Sender_t) : Prop :=
  maxNumberOfNextFrames s' = maxNumberOfNextFrames s /\
  numberOfWaitingFrames s' = numberOfWaitingFrames s /\
  indexGetNextFrame s' = indexGetNextFrame s /\
  indexAddNextFrame s' = indexAddNextFrame s /\
  nextFrames s' = nextFrames s.

(** ** Sample states *)

(** A sender with two frames waiting in a ring of three and no frame
    sent yet. *)
Definition sample_sender : ARSTREAM_Sender_t :=
  mkSender 1 10 11 1 3 7 (mkFrame 0 0 NULL 0) 0 0 (mkAck 0 0 0) (mkAck 0 0 0)
    2 2 0 2 [mkFrame 1 1500 4096 0; mkFrame 2 700 8192 0; mkFrame 0 0 NULL 0]
    0 0 0 (replicate 15 0) (replicate 15 0) 0.

(** The same sender once frame 1, of two fragments, is the current
    frame: frame 2 waits behind it. *)
Definition sample_sending : ARSTREAM_Sender_t :=
  mkSender 1 10 11 1 3 7 (mkFrame 1 1500 4096 0) 2 0 (mkAck 1 0 0) (mkAck 1 0 0)
    2 2 1 1 [mkFrame 1 1500 4096 0; mkFrame 2 700 8192 0; mkFrame 0 0 NULL 0]
    0 1 1 (replicate 15 0) (replicate 15 0) 1.

Definition sample_locals : DataThread_locals :=
  mkLocals 1500 2 2 500 1 0 1 2 (mkFrame 1 1500 4096 0).

Definition sample_sys : Sys := mkSys sample_sending PcLoop sample_locals.

(** What [ARSTREAM_Sender_New] is given when every allocation succeeds on
    zeroed memory. *)
Definition sample_env : New_env :=
  mkNewEnv (Some (mkAck 0 0 0, mkAck 0 0 0)) 0 0 0 0 (Some (fun _ => Frame_zero)).

Definition sample_new : ARSTREAM_Sender_t :=
  mkSender 1 10 11 1 3 7 (mkFrame 0 0 NULL 0) 0 0 (mkAck 0 0 0) (mkAck 0 0 0)
    0 0 0 0 (replicate 3 Frame_zero) 0 0 0 (replicate 15 0) (replicate 15 0) 0.

(** ** Deletion *)

(** [ARSTREAM_Sender_Delete].  [sender] is [None] for a null
    [ARSTREAM_Sender_t **] and [Some None] when it points to a null
    pointer.  The result is the error code, the content of [*sender] on
    return and the actions.  The destruction of the mutexes and of the
    condition and the two calls of [free] leave no trace: what is seen of
    them is that [*sender] is null afterwards. *)
Definition ARSTREAM_Sender_Delete (sender : option (option ARSTREAM_Sender_t))
  : eARSTREAM_ERROR * option (option ARSTREAM_Sender_t) * list Action :=
  match sender with
  | Some (Some s) =>
      let canDelete :=
        if (dataThreadStarted s =? 0) && (ackThreadStarted s =? 0) then 1 else 0 in
      if canDelete =? 1 then (ARSTREAM_OK, Some None, [])
      else (ARSTREAM_ERROR_BUSY, sender, [Print_Error])
  | _ => (ARSTREAM_ERROR_BAD_PARAMETERS, sender, [])
  end.

(** ** The whole ack thread *)

Definition set_ackThreadStarted (v : Z) (s : ARSTREAM_Sender_t) : ARSTREAM_Sender_t :=
  mkSender (s.(manager)) (s.(dataBufferID)) (s.(ackBufferID)) (s.(callback))
    (s.(maxNumberOfNextFrames)) (s.(custom)) (s.(currentFrame))
    (s.(currentFrameNbFragments)) (s.(currentFrameCbWasCalled))
    (s.(packetsToSend)) (s.(ackPacket)) (s.(nextFrameNumber))
    (s.(indexAddNextFrame)) (s.(indexGetNextFrame))
    (s.(numberOfWaitingFrames)) (s.(nextFrames)) (s.(threadsShouldStop))
    (s.(dataThreadStarted)) v
    (s.(efficiency_nbFragments)) (s.(efficiency_nbSent))
    (s.(efficiency_index)).

(** Where the ack thread stands: before it has set [ackThreadStarted], at
    the test of its [while], inside [ARNETWORK_Manager_ReadDataWithTimeout],
    or past the end of [ARSTREAM_Sender_RunAckThread]. *)
Inductive AckPc : Type :=
| AckStart
| AckLoop
| AckRead
| AckEnded.

(** The sender with its two threads. *)
Record Threads : Type := mkThreads {
  th_sys : Sys;
  th_ack : AckPc
}.

(** A step of the ack thread, or a step of one of the others. *)
Inductive ThreadLabel : Type :=
| T_AckThread (err : eARNETWORK_ERROR) (recvSize : Z)
              (recvPacket : ARSTREAM_NetworkHeaders_AckPacket_t)
| T_Other (lbl : Label).

(** The read of the ack thread leads to the critical section under
    [ackMutex] only when it succeeded with a packet of the right size. *)
Definition ack_read_ok (err : eARNETWORK_ERROR) (recvSize : Z) : bool :=
  match err with
  | ARNETWORK_OK => recvSize =? sizeof_AckPacket
  | _ => false
  end.

(** [ARSTREAM_Sender_RunAckThread], one step at a time: the thread sets
    [ackThreadStarted]; it tests [threadsShouldStop] and either enters the
    read or clears [ackThreadStarted] and returns; the read gives [err],
    [recvSize] and [recvPacket], and the turn of the loop is run on them
    (it waits for [ackMutex] when it needs it). *)
Definition ARSTREAM_Sender_RunAckThread_step (err : eARNETWORK_ERROR) (recvSize : Z)
    (recvPacket : ARSTREAM_NetworkHeaders_AckPacket_t) (t : Threads)
  : option (Threads * list Action) :=
  let st := th_sys t in
  let s := sys_sender st in
  match th_ack t with
  | AckStart =>
      Some (mkThreads (mkSys (set_ackThreadStarted 1 s) (sys_pc st) (sys_locals st))
                      AckLoop, [])
  | AckLoop =>
      if threadsShouldStop s =? 0 then Some (mkThreads st AckRead, [])
      else Some (mkThreads (mkSys (set_ackThreadStarted 0 s) (sys_pc st) (sys_locals st))
                           AckEnded, [])
  | AckRead =>
      if ack_read_ok err recvSize && negb (ackMutex_free (sys_pc st)) then None
      else
        let '(_, s1, l1) := ARSTREAM_Sender_RunAckThread_body err recvSize recvPacket s in
        Some (mkThreads (mkSys s1 (sys_pc st) (sys_locals st)) AckLoop, l1)
  | AckEnded => None
  end.

(** The turns of the ack loop belong to the ack thread; the other steps
    are those of [sys_step]. *)
Definition threads_step (lbl : ThreadLabel) (t : Threads) : option (Threads * list Action) :=
  match lbl with
  | T_AckThread err recvSize recvPacket =>
      ARSTREAM_Sender_RunAckThread_step err recvSize recvPacket t
  | T_Other (L_Ack _ _ _) => None
  | T_Other l =>
      match sys_step l (th_sys t) with
      | Some (st1, acts) => Some (mkThreads st1 (th_ack t), acts)
      | None => None
      end
  end.

Fixpoint threads_run (lbls : list ThreadLabel) (t : Threads)
  : option (Threads * list Action) :=
  match lbls with
  | [] => Some (t, [])
  | lbl :: lbls' =>
      match threads_step lbl t with
      | Some (t1, l1) =>
          match threads_run lbls' t1 with
          | Some (t2, l2) => Some (t2, l1 ++ l2)
          | None => None
          end
      | None => None
      end
  end.

Definition threads_init (s : ARSTREAM_Sender_t) (hdr : Z * Z * Z * Z) : Threads :=
  mkThreads (sys_init s hdr) AckStart.

(** A thread runs: it has set its flag and has not returned. *)
Definition data_running (pc : DataPc) : bool :=
  match pc with PcStart | PcEnded => false | _ => true end.

Definition ack_running (pc : AckPc) : bool :=
  match pc with AckStart | AckEnded => false | _ => true end.

(** ** A pass of the data thread over the current frame *)

(** The fragments of the current frame whose flag is not set in
    [ackPacket]: those for which the first [for] of a pass sets the flag in
    [packetsToSend]. *)
Definition unacknowledged (s : ARSTREAM_Sender_t) (nb : Z) : list Z :=
  List.filter (fun cnt => ARSTREAM_NetworkHeaders_AckPacketFlagIsSet (ackPacket s) cnt =? 0)
    (seqZ 0 nb).

(** The fragment a [SendData] carries. *)
Definition sent_fragment (a : Action) : option Z :=
  match a with
  | SendData _ _ _ _ _ _ _ _ _ idx => Some idx
  | _ => None
  end.

(** The action is a call of [ARNETWORK_Manager_SendData]. *)
Definition is_send (a : Action) : bool :=
  match a with
  | SendData _ _ _ _ _ _ _ _ _ _ => true
  | _ => false
  end.

(** The call of [ARNETWORK_Manager_SendData] that sends fragment [cnt]
    with the locals [l] on the sender [s]. *)
Definition fragment_packet (s : ARSTREAM_Sender_t) (l : DataThread_locals) (cnt : Z)
  : Action :=
  SendData (dataBufferID s) (header_frameNumber l) (header_frameFlags l)
    (u8 cnt) (u8 (nbPackets l))
    (ARSTREAM_NETWORK_HEADERS_FRAGMENT_SIZE * cnt) (currFragmentSize l cnt)
    (currFragmentSize l cnt + sizeof_DataHeader)
    (ack_frameNumber (packetsToSend s)) cnt.

(** A call of [ARNETWORK_Manager_SendData] carries a fragment of a frame
    that is cut in [nb] fragments, the last of [last] bytes: the fragment
    has an index below [nb]; the header gives this index and [nb]; the
    payload is taken in the frame at FRAGMENT_SIZE times the index and has
    FRAGMENT_SIZE bytes, or [last] bytes when the fragment is the last; the
    packet is the payload behind a header.  Any other action passes. *)
Definition carries_fragment (nb last : Z) (a : Action) : Prop :=
  match a with
  | SendData _ _ _ hdr_fragmentNumber hdr_fragmentsPerFrame src_offset payload_len
             total_len _ cb_fragmentIndex =>
      0 <= cb_fragmentIndex < nb /\
      hdr_fragmentNumber = cb_fragmentIndex /\
      hdr_fragmentsPerFrame = nb /\
      src_offset = ARSTREAM_NETWORK_HEADERS_FRAGMENT_SIZE * cb_fragmentIndex /\
      payload_len = (if cb_fragmentIndex =? nb - 1 then last
                     else ARSTREAM_NETWORK_HEADERS_FRAGMENT_SIZE) /\
      total_len = payload_len + sizeof_DataHeader
  | _ => True
  end.

(** The fragments handed to [ARNETWORK_Manager_SendData] along a run, in
    order. *)
Definition sent_along (tr : list Entry) : list Z :=
  omap sent_fragment (concat (map entry_actions tr)).

(** ** Accounting along a run *)

(** The step is a submission that [ARSTREAM_Sender_SendNewFrame] answered
    with [ARSTREAM_OK]. *)
Definition accepted (e : Entry) : bool :=
  match entry_label e with
  | L_SendNewFrame b sz fl nb =>
      match ARSTREAM_Sender_SendNewFrame (Some (sys_sender (entry_before e))) b sz fl nb with
      | (ARSTREAM_OK, _, _, _) => true
      | _ => false
      end
  | _ => false
  end.

(** The buffer and the size the application gave at a step. *)
Definition submission (e : Entry) : Z * Z :=
  match entry_label e with
  | L_SendNewFrame b sz _ _ => (b, sz)
  | _ => (NULL, 0)
  end.

(** The frames accepted along a run, as pairs of a buffer and a size. *)
Definition accepted_frames (tr : list Entry) : list (Z * Z) :=
  submission <$> List.filter accepted tr.

(** All the application callbacks of a run, in order. *)
Definition callbacks_of (tr : list Entry) : list Action :=
  concat (map (fun e => List.filter is_callback (entry_actions e)) tr).

Definition is_cancel (a : Action) : bool :=
  match a with
  | Callback ARSTREAM_SENDER_STATUS_FRAME_CANCEL _ _ _ => true
  | _ => false
  end.

(** The frame the data thread has popped and not installed yet: one when
    it stands between [ARSTREAM_Sender_PopFromQueue], which returned 1, and
    the block [if (waitRes == 1)]. *)
Definition in_hand (pc : DataPc) : Z :=
  match pc with
  | PcPopped waitRes => if waitRes =? 1 then 1 else 0
  | _ => 0
  end.

(** The frames the sender holds and has not reported yet: those that
    wait, the one in the hands of the data thread, and the current frame
    while its callback was not called. *)
Definition frames_held (st : Sys) : Z :=
  numberOfWaitingFrames (sys_sender st) + in_hand (sys_pc st) +
  (if currentFrameCbWasCalled (sys_sender st) =? 0 then 1 else 0).

(** What a callback reports to the application: a buffer and a size. *)
Definition reported (a : Action) : Z * Z :=
  match a with
  | Callback _ buffer size _ => (buffer, size)
  | _ => (NULL, 0)
  end.

(** The buffer and the size of a frame. *)
Definition frame_pair (f : ARSTREAM_Sender_Frame_t) : Z * Z :=
  (frameBuffer f, frameSize f).

(** The frames counted by [frames_held], as pairs of a buffer and a size:
    the current frame while its callback was not called, the frame in the
    hands of the data thread, and the frames that wait. *)
Definition held_frames (st : Sys) : list (Z * Z) :=
  (if currentFrameCbWasCalled (sys_sender st) =? 0
   then [frame_pair (currentFrame (sys_sender st))] else []) ++
  (if in_hand (sys_pc st) =? 1
   then [frame_pair (nextFrame (sys_locals st))] else []) ++
  (frame_pair <$> waiting_frames (sys_sender st)).

(** The flush flag of a submission is not 1. *)
Definition no_flush (lbl : Label) : bool :=
  match lbl with
  | L_SendNewFrame _ _ fl _ => negb (fl =? 1)
  | _ => true
  end.

(** The numbers of the waiting frames are consecutive and end at
    [nextFrameNumber]. *)
Definition queue_numbered (s : ARSTREAM_Sender_t) : Prop :=
  frameNumber <$> waiting_frames s =
    (fun k => u32 (nextFrameNumber s - numberOfWaitingFrames s + 1 + k))
      <$> seqZ 0 (numberOfWaitingFrames s).

(** The steps the data thread has left at most once it was told to stop,
    when its waits time out. *)
Definition steps_to_end (st : Sys) : nat :=
  match sys_pc st with
  | PcEnded => 0
  | PcLoop => 1
  | PcStart => 2
  | PcInSend cnt => 2 + Z.to_nat (nbPackets (sys_locals st) - 1 - cnt)
  | PcPass => 2 + Z.to_nat (nbPackets (sys_locals st))
  | PcPopped _ => 3 + Z.to_nat (2 ^ 16)
  | PcWait _ _ => 4 + Z.to_nat (2 ^ 16)
  end.

(** What a step of the threads does to the frames the sender holds.  A
    step is quiet when it moves no frame and calls no callback; otherwise
    it accepts a frame from the application (after a flush, if asked), pops
    the head of the queue into the hands of the data thread, installs the
    popped frame as the current frame, or reports the current frame as
    sent. *)
Inductive frame_step (lbl : Label) (st st1 : Sys) (acts : list Action) : Prop :=
| step_quiet :
    accepted (mkEntry lbl st acts) = false ->
    waiting_frames (sys_sender st1) = waiting_frames (sys_sender st) ->
    numberOfWaitingFrames (sys_sender st1) = numberOfWaitingFrames (sys_sender st) ->
    nextFrameNumber (sys_sender st1) = nextFrameNumber (sys_sender st) ->
    currentFrame (sys_sender st1) = currentFrame (sys_sender st) ->
    currentFrameCbWasCalled (sys_sender st1) = currentFrameCbWasCalled (sys_sender st) ->
    List.filter is_callback acts = [] ->
    in_hand (sys_pc st1) = in_hand (sys_pc st) ->
    nextFrame (sys_locals st1) = nextFrame (sys_locals st) ->
    frame_step lbl st st1 acts
| step_accept b sz fl nb :
    lbl = L_SendNewFrame b sz fl nb ->
    accepted (mkEntry lbl st acts) = true ->
    b <> NULL -> sz <> 0 -> sz <= ARSTREAM_NETWORK_HEADERS_MAX_FRAME_SIZE ->
    fl = 0 \/ fl = 1 ->
    waiting_frames (sys_sender st1) =
      (if fl =? 1 then [] else waiting_frames (sys_sender st)) ++
      [mkFrame (u32 (nextFrameNumber (sys_sender st) + 1)) sz b fl] ->
    numberOfWaitingFrames (sys_sender st1) =
      (if fl =? 1 then 0 else numberOfWaitingFrames (sys_sender st)) + 1 ->
    nextFrameNumber (sys_sender st1) = u32 (nextFrameNumber (sys_sender st) + 1) ->
    currentFrame (sys_sender st1) = currentFrame (sys_sender st) ->
    currentFrameCbWasCalled (sys_sender st1) = currentFrameCbWasCalled (sys_sender st) ->
    List.filter is_callback acts =
      (if fl =? 1
       then cancel_of (custom (sys_sender st)) <$> waiting_frames (sys_sender st)
       else []) ->
    sys_pc st1 = sys_pc st ->
    sys_locals st1 = sys_locals st ->
    frame_step lbl st st1 acts
| step_pop lat werr wms :
    lbl = L_Data lat werr wms ->
    in_hand (sys_pc st) = 0 ->
    sys_pc st1 = PcPopped 1 ->
    waiting_frames (sys_sender st) =
      nextFrame (sys_locals st1) :: waiting_frames (sys_sender st1) ->
    numberOfWaitingFrames (sys_sender st1) = numberOfWaitingFrames (sys_sender st) - 1 ->
    isHighPriority (nextFrame (sys_locals st1)) = 1 \/
      currentFrameCbWasCalled (sys_sender st) = 1 ->
    nextFrameNumber (sys_sender st1) = nextFrameNumber (sys_sender st) ->
    currentFrame (sys_sender st1) = currentFrame (sys_sender st) ->
    currentFrameCbWasCalled (sys_sender st1) = currentFrameCbWasCalled (sys_sender st) ->
    List.filter is_callback acts = [] ->
    frame_step lbl st st1 acts
| step_install lat werr wms :
    lbl = L_Data lat werr wms ->
    sys_pc st = PcPopped 1 ->
    in_hand (sys_pc st1) = 0 ->
    waiting_frames (sys_sender st1) = waiting_frames (sys_sender st) ->
    numberOfWaitingFrames (sys_sender st1) = numberOfWaitingFrames (sys_sender st) ->
    nextFrameNumber (sys_sender st1) = nextFrameNumber (sys_sender st) ->
    currentFrame (sys_sender st1) = nextFrame (sys_locals st) ->
    currentFrameCbWasCalled (sys_sender st1) = 0 ->
    List.filter is_callback acts =
      (if currentFrameCbWasCalled (sys_sender st) =? 0
       then [current_callback ARSTREAM_SENDER_STATUS_FRAME_CANCEL (sys_sender st)]
       else []) ->
    nextFrame (sys_locals st1) = nextFrame (sys_locals st) ->
    frame_step lbl st st1 acts
| step_report err recvSize recvPacket :
    lbl = L_Ack err recvSize recvPacket ->
    currentFrameCbWasCalled (sys_sender st) = 0 ->
    currentFrameCbWasCalled (sys_sender st1) = 1 ->
    List.filter is_callback acts =
      [current_callback ARSTREAM_SENDER_STATUS_FRAME_SENT (sys_sender st)] ->
    waiting_frames (sys_sender st1) = waiting_frames (sys_sender st) ->
    numberOfWaitingFrames (sys_sender st1) = numberOfWaitingFrames (sys_sender st) ->
    nextFrameNumber (sys_sender st1) = nextFrameNumber (sys_sender st) ->
    currentFrame (sys_sender st1) = currentFrame (sys_sender st) ->
    sys_pc st1 = sys_pc st ->
    sys_locals st1 = sys_locals st ->
    frame_step lbl st st1 acts.

(** ** A sample session *)

(** On a new sender: the data thread starts; a frame of 1500 bytes is
    submitted with a flush and sent in two fragments, then sent again after
    a timeout; the peer acknowledges both fragments; a frame of 700 bytes
    is submitted and installed. *)
Definition sample_session : list Label :=
  [L_Data 0 0 0;
   L_SendNewFrame 4096 1500 1 None;
   L_Data 0 0 0; L_Data 0 0 0; L_Data 0 0 0; L_Data 0 0 0; L_Data 0 0 0;
   L_Data 20 0 0; L_Data 20 ETIMEDOUT 25;
   L_Data 0 0 0; L_Data 0 0 0; L_Data 0 0 0; L_Data 0 0 0;
   L_Ack ARNETWORK_OK 18 (mkAck 1 0 3);
   L_SendNewFrame 8192 700 0 None;
   L_Data 0 0 0; L_Data 0 0 0].

(** The frame was given by the application in one of the submissions
    [subs], or it is the empty frame of a new sender. *)
Definition frame_from (subs : list (Z * Z)) (f : ARSTREAM_Sender_Frame_t) : Prop :=
  (frameBuffer f, frameSize f) ∈ subs \/ (frameBuffer f, frameSize f) = (NULL, 0).

(** All the frames the sender holds come from [subs]. *)
Definition frames_from (subs : list (Z * Z)) (st : Sys) : Prop :=
  Forall (frame_from subs) (waiting_frames (sys_sender st)) /\
  frame_from subs (currentFrame (sys_sender st)) /\
  frame_from subs (nextFrame (sys_locals st)).

(** The step is an accepted submission that asked for a flush. *)
Definition flush_accepted (e : Entry) : bool :=
  accepted e && negb (no_flush (entry_label e)).

(** What is known of the priorities of the frames the sender holds after
    the steps [h]: a frame of high priority was accepted with a flush, and
    the data thread has popped a frame only if it has high priority or the
    callback of the current frame was called. *)
Definition priorities_from (h : list Entry) (st : Sys) : Prop :=
  Forall (fun f => isHighPriority f = 1 -> Exists (fun e => flush_accepted e = true) h)
         (waiting_frames (sys_sender st)) /\
  (isHighPriority (nextFrame (sys_locals st)) = 1 ->
   Exists (fun e => flush_accepted e = true) h) /\
  (in_hand (sys_pc st) = 1 ->
   isHighPriority (nextFrame (sys_locals st)) = 1 \/
   currentFrameCbWasCalled (sys_sender st) = 1).

(** ** The settings of a sender *)

(** The parameters given to [ARSTREAM_Sender_New]. *)
Definition settings (s : ARSTREAM_Sender_t) : Z * Z * Z * Z * Z * Z :=
  (manager s, dataBufferID s, ackBufferID s, callback s, maxNumberOfNextFrames s,
   custom s).

(** The three flags of the threads. *)
Definition thread_flags (s : ARSTREAM_Sender_t) : Z * Z * Z :=
  (threadsShouldStop s, dataThreadStarted s, ackThreadStarted s).

(** The step is a start of the data thread in which one of its two checks
    fails: it was given a null pointer, or [malloc] gave it none. *)
Definition start_fails (lbl : Label) : bool :=
  match lbl with
  | L_DataStart param frag => (param =? NULL) || (frag =? NULL)
  | _ => false
  end.

Definition data_start_fails (lbl : ThreadLabel) : bool :=
  match lbl with
  | T_Other l => start_fails l
  | T_AckThread _ _ _ => false
  end.

(** The step is a call of [ARSTREAM_Sender_StopSender]. *)
Definition is_stop (lbl : ThreadLabel) : bool :=
  match lbl with
  | T_Other L_StopSender => true
  | _ => false
  end.

(** The flags [dataThreadStarted] and [ackThreadStarted] tell which
    threads run. *)
Definition flags_tell (t : Threads) : Prop :=
  dataThreadStarted (sys_sender (th_sys t)) =
    (if data_running (sys_pc (th_sys t)) then 1 else 0) /\
  ackThreadStarted (sys_sender (th_sys t)) =
    (if ack_running (th_ack t) then 1 else 0).

(** On a new sender: both threads start, the ack thread enters its read,
    a frame is submitted with a flush and popped by the data thread, and
    the application calls [ARSTREAM_Sender_StopSender]. *)
Definition sample_shutdown : list ThreadLabel :=
  [T_Other (L_Data 0 0 0);
   T_AckThread ARNETWORK_ERROR_BUFFER_EMPTY 0 (mkAck 0 0 0);
   T_AckThread ARNETWORK_ERROR_BUFFER_EMPTY 0 (mkAck 0 0 0);
   T_Other (L_SendNewFrame 4096 1500 1 None);
   T_Other (L_Data 0 0 0);
   T_Other L_StopSender].

(** The step is not a turn of the ack loop. *)
Definition no_ack (lbl : Label) : bool :=
  match lbl with
  | L_Ack _ _ _ => false
  | _ => true
  end.

(** The frame has not the high priority a flush gives. *)
Definition low_priority (f : ARSTREAM_Sender_Frame_t) : Prop := isHighPriority f <> 1.

(** What is seen of a step that sends nothing and reports nothing: the
    signal of a submission, or the error a data thread prints when it
    cannot start. *)
Definition idle_action (lbl : Label) (a : Action) : Prop :=
  a = Cond_Signal \/ (a = Print_Error /\ start_fails lbl = true).

(** The data thread is not in its second loop. *)
Definition not_sending (pc : DataPc) : Prop :=
  match pc with PcInSend _ => False | _ => True end.

(** The step of the threads is not a submission with a flush. *)
Definition thread_no_flush (lbl : ThreadLabel) : bool :=
  match lbl with
  | T_Other l => no_flush l
  | T_AckThread _ _ _ => true
  end.

(** * Properties *)

(** ** Unfolding the monad *)

Ltac run_monad :=
  unfold bind, gets, modify, emit, ret; cbn [fst snd].

Lemma u32_small x : 0 <= x < 2 ^ 32 -> u32 x = x.
Proof. intros H. unfold u32. apply Z.mod_small. exact H. Qed.

Lemma i32_small x : - 2 ^ 31 <= x < 2 ^ 31 -> i32 x = x.
Proof. intros H. unfold i32. rewrite Z.mod_small; lia. Qed.

Lemma u16_small x : 0 <= x < 2 ^ 16 -> u16 x = x.
Proof. intros H. unfold u16. apply Z.mod_small. exact H. Qed.

(** ** The queue *)

Lemma seqZ_succ_l (m : Z) (n : Z) :
  0 < n -> seqZ m n = m :: seqZ (m + 1) (n - 1).
Proof.
  intros Hn. replace n with (Z.succ (n - 1)) at 1 by lia.
  rewrite seqZ_cons by lia. f_equal. f_equal; lia.
Qed.

(** One turn of the flush: the head is cancelled, the read index moves on
    around the ring and one frame less is waiting. *)
Lemma FlushQueue_body_spec s :
  ring_ok s -> 0 < numberOfWaitingFrames s ->
  FlushQueue_body s =
    (tt,
     set_numberOfWaitingFrames (numberOfWaitingFrames s - 1)
       (set_indexGetNextFrame
          ((indexGetNextFrame s + 1) mod maxNumberOfNextFrames s) s),
     [cancel_of (custom s) (head_frame s)]).
Proof.
  intros [Hmax Hlen Hcnt [Hg0 Hg] Hadd] Hpos.
  unfold FlushQueue_body. run_monad. unfold head_frame.
  destruct s; cbn in *.
  rewrite (u32_small (indexGetNextFrame0 + 1)) by lia.
  rewrite (u32_small (numberOfWaitingFrames0 - 1)) by lia.
  reflexivity.
Qed.

Lemma flush_step_ok s :
  ring_ok s -> 0 < numberOfWaitingFrames s ->
  ring_ok (set_numberOfWaitingFrames (numberOfWaitingFrames s - 1)
             (set_indexGetNextFrame
                ((indexGetNextFrame s + 1) mod maxNumberOfNextFrames s) s)).
Proof.
  intros [Hmax Hlen Hcnt [Hg0 Hg] Hadd] Hpos.
  destruct s; cbn in *.
  assert (Hm : 0 < maxNumberOfNextFrames0) by lia.
  constructor; cbn; try lia; try assumption.
  - split; [apply Z.mod_pos_bound; lia | intros _; apply Z.mod_pos_bound; lia].
  - destruct (maxNumberOfNextFrames0 =? 0) eqn:E; [lia|].
    rewrite Hadd. rewrite Zplus_mod_idemp_l. f_equal. lia.
Qed.

Lemma waiting_frames_cons s :
  ring_ok s -> 0 < numberOfWaitingFrames s ->
  waiting_frames s =
    head_frame s ::
    waiting_frames
      (set_numberOfWaitingFrames (numberOfWaitingFrames s - 1)
         (set_indexGetNextFrame
            ((indexGetNextFrame s + 1) mod maxNumberOfNextFrames s) s)).
Proof.
  intros [Hmax Hlen Hcnt [Hg0 Hg] Hadd] Hpos.
  unfold waiting_frames, head_frame. destruct s; cbn in *.
  assert (Hm : 0 < maxNumberOfNextFrames0) by lia.
  rewrite (seqZ_succ_l 0) by lia. rewrite fmap_cons. f_equal.
  - f_equal. rewrite Z.add_0_r. apply Z.mod_small. lia.
  - replace (0 + 1) with 1 by lia.
    rewrite <- (fmap_add_seqZ 1 0). rewrite <- list_fmap_compose.
    apply list_fmap_ext. intros i x _. cbn. f_equal.
    rewrite Zplus_mod_idemp_l. f_equal. lia.
Qed.

Lemma FlushQueue_loop_spec n s :
  ring_ok s -> numberOfWaitingFrames s = Z.of_nat n ->
  FlushQueue_loop n s =
    (tt,
     set_numberOfWaitingFrames 0 (set_indexGetNextFrame (indexAddNextFrame s) s),
     cancel_of (custom s) <$> waiting_frames s).
Proof.
  revert s. induction n as [|n IH]; intros s Hok Hn.
  - cbn. unfold ret, waiting_frames. rewrite Hn. cbn.
    destruct Hok as [Hmax Hlen Hcnt [Hg0 Hg] Hadd].
    destruct s; cbn in *. subst.
    destruct (maxNumberOfNextFrames0 =? 0) eqn:E; [reflexivity|].
    rewrite Z.add_0_r, Z.mod_small by lia. reflexivity.
  - cbn [FlushQueue_loop]. unfold bind at 1. unfold gets at 1.
    assert (Hpos : 0 < numberOfWaitingFrames s) by lia.
    destruct (0 <? numberOfWaitingFrames s) eqn:E; [|lia].
    unfold bind. rewrite FlushQueue_body_spec by assumption.
    rewrite IH; [| apply flush_step_ok; assumption | destruct s; cbn in *; lia].
    rewrite (waiting_frames_cons s) by assumption.
    destruct Hok as [Hmax Hlen Hcnt [Hg0 Hg] Hadd].
    destruct s; cbn in *.
    reflexivity.
Qed.

(** The flush leaves no waiting frame, so its loop did stop on its
    condition; it cancels the waiting frames, oldest first, and brings the
    read index onto the write index. *)
Lemma FlushQueue_spec s :
  ring_ok s ->
  ARSTREAM_Sender_FlushQueue s =
    (tt,
     set_numberOfWaitingFrames 0 (set_indexGetNextFrame (indexAddNextFrame s) s),
     cancel_of (custom s) <$> waiting_frames s).
Proof.
  intros Hok. unfold ARSTREAM_Sender_FlushQueue. unfold bind at 1. unfold gets at 1.
  rewrite (FlushQueue_loop_spec _ s Hok).
  - rewrite app_nil_l. reflexivity.
  - destruct Hok. lia.
Qed.

Lemma after_flush_eq flag s :
  ring_ok s ->
  after_flush flag s =
    if flag =? 1
    then set_numberOfWaitingFrames 0 (set_indexGetNextFrame (indexAddNextFrame s) s)
    else s.
Proof.
  intros Hok. unfold after_flush. destruct (flag =? 1); [|reflexivity].
  rewrite FlushQueue_spec by assumption. reflexivity.
Qed.

Lemma flushed_ok s :
  ring_ok s ->
  ring_ok (set_numberOfWaitingFrames 0 (set_indexGetNextFrame (indexAddNextFrame s) s)).
Proof.
  intros [Hmax Hlen Hcnt [Hg0 Hg] Hadd].
  destruct s; cbn in *.
  destruct (maxNumberOfNextFrames0 =? 0) eqn:E.
  - constructor; cbn; try lia; try assumption. rewrite E. reflexivity.
  - assert (Hm : 0 < maxNumberOfNextFrames0) by lia.
    assert (Hb := Z.mod_pos_bound (indexGetNextFrame0 + numberOfWaitingFrames0)
                    maxNumberOfNextFrames0 Hm).
    constructor; cbn; try lia; try assumption.
    rewrite E. rewrite Z.add_0_r. rewrite Z.mod_small by lia. reflexivity.
Qed.

Lemma after_flush_ok flag s : ring_ok s -> ring_ok (after_flush flag s).
Proof.
  intros Hok. rewrite after_flush_eq by assumption.
  destruct (flag =? 1); [apply flushed_ok|]; assumption.
Qed.

(** The whole of [ARSTREAM_Sender_AddToQueue] on a well-formed ring. *)
Lemma AddToQueue_spec size buffer flag s :
  ring_ok s ->
  ARSTREAM_Sender_AddToQueue size buffer flag s =
    let sf := after_flush flag s in
    if numberOfWaitingFrames sf <? maxNumberOfNextFrames sf
    then (AddToQueue_retVal s, enqueued size buffer flag sf,
          flush_trace flag s ++ [Cond_Signal])
    else (-1, sf, flush_trace flag s).
Proof.
  intros Hok. pose proof (after_flush_ok flag s Hok) as Hokf.
  unfold ARSTREAM_Sender_AddToQueue.
  unfold bind at 1. unfold gets at 1. unfold bind at 1. unfold gets at 1.
  unfold bind at 1.
  assert (Hfl : (if flag =? 1 then ARSTREAM_Sender_FlushQueue else ret tt) s =
                (tt, after_flush flag s, flush_trace flag s)).
  { unfold after_flush, flush_trace. destruct (flag =? 1); [|reflexivity].
    rewrite FlushQueue_spec by assumption. reflexivity. }
  rewrite Hfl. cbn zeta.
  set (sf := after_flush flag s) in *.
  change (if currentFrameCbWasCalled s =? 0
          then i32 (i32 (numberOfWaitingFrames s) + 1)
          else i32 (numberOfWaitingFrames s)) with (AddToQueue_retVal s).
  run_monad.
  destruct (numberOfWaitingFrames sf <? maxNumberOfNextFrames sf) eqn:E.
  - destruct Hokf as [Hmax Hlen Hcnt [Hg0 Hg] Hadd].
    assert (Ha : 0 <= indexAddNextFrame sf < maxNumberOfNextFrames sf).
    { rewrite Hadd. destruct (maxNumberOfNextFrames sf =? 0) eqn:E0; [lia|].
      apply Z.mod_pos_bound. lia. }
    unfold enqueued. destruct sf; cbn in *.
    rewrite (u32_small (indexAddNextFrame0 + 1)) by lia.
    rewrite (u32_small (numberOfWaitingFrames0 + 1)) by lia.
    reflexivity.
  - cbn [app]. rewrite app_nil_r. reflexivity.
Qed.

Lemma AddToQueue_retVal_backlog s :
  ring_ok s -> capacity_fits_int s -> AddToQueue_retVal s = backlog s.
Proof.
  intros [Hmax Hlen Hcnt _ _] Hcap.
  unfold AddToQueue_retVal, backlog, capacity_fits_int, INT_MAX in *.
  rewrite (i32_small (numberOfWaitingFrames s)) by lia.
  destruct (currentFrameCbWasCalled s =? 0); [rewrite i32_small|]; lia.
Qed.

Lemma backlog_nonneg s : ring_ok s -> 0 <= backlog s.
Proof.
  intros [_ _ Hcnt _ _]. unfold backlog.
  destruct (currentFrameCbWasCalled s =? 0); lia.
Qed.

(** Two positions of the ring that are less than a turn apart are
    different cells. *)
Lemma ring_cells_apart g k n m :
  0 <= k < n -> n < m -> (g + k) mod m <> (g + n) mod m.
Proof.
  intros Hk Hn Heq. symmetry in Heq.
  apply Z.cong_iff_ex in Heq. destruct Heq as [q Hq].
  assert (n - k = q * m) by lia.
  assert (0 < q) by nia. assert (q < 1) by nia. lia.
Qed.

Lemma frame_at_insert_eq l i f :
  0 <= i -> (Z.to_nat i < length l)%nat -> frame_at (<[Z.to_nat i := f]> l) i = f.
Proof.
  intros Hi Hlt. unfold frame_at. rewrite list_lookup_insert_eq by assumption.
  reflexivity.
Qed.

Lemma frame_at_insert_ne l i j f :
  0 <= i -> 0 <= j -> i <> j -> frame_at (<[Z.to_nat i := f]> l) j = frame_at l j.
Proof.
  intros Hi Hj Hne. unfold frame_at. rewrite list_lookup_insert_ne by lia.
  reflexivity.
Qed.

(** Writing a frame at the write index puts it behind the waiting frames
    and leaves them as they were. *)
Lemma waiting_frames_enqueued size buffer flag s :
  ring_ok s -> numberOfWaitingFrames s < maxNumberOfNextFrames s ->
  waiting_frames (enqueued size buffer flag s) =
    waiting_frames s ++ [mkFrame (u32 (nextFrameNumber s + 1)) size buffer flag].
Proof.
  intros [Hmax Hlen Hcnt [Hg0 Hg] Hadd] Hlt.
  unfold waiting_frames, enqueued. destruct s; cbn in *.
  assert (Hm : 0 < maxNumberOfNextFrames0) by lia.
  destruct (maxNumberOfNextFrames0 =? 0) eqn:E; [lia|].
  assert (Hb := Z.mod_pos_bound (indexGetNextFrame0 + numberOfWaitingFrames0)
                  maxNumberOfNextFrames0 Hm).
  rewrite (seqZ_app 0 numberOfWaitingFrames0 1) by lia.
  rewrite fmap_app. f_equal.
  - apply list_fmap_ext. intros i k Hk.
    apply lookup_seqZ in Hk. destruct Hk as [-> Hk].
    subst indexAddNextFrame0. apply frame_at_insert_ne; [lia | |].
    + apply Z.mod_pos_bound. lia.
    + intros Heq. symmetry in Heq. revert Heq. apply ring_cells_apart; lia.
  - rewrite (seqZ_cons _ 1), seqZ_nil by lia. rewrite Z.add_0_l.
    cbn [fmap list_fmap]. f_equal. subst indexAddNextFrame0.
    apply frame_at_insert_eq; lia.
Qed.

Lemma enqueued_ok size buffer flag s :
  ring_ok s -> numberOfWaitingFrames s < maxNumberOfNextFrames s ->
  ring_ok (enqueued size buffer flag s).
Proof.
  intros [Hmax Hlen Hcnt [Hg0 Hg] Hadd] Hlt.
  unfold enqueued. destruct s; cbn in *.
  assert (Hm : 0 < maxNumberOfNextFrames0) by lia.
  destruct (maxNumberOfNextFrames0 =? 0) eqn:E; [lia|].
  constructor; cbn; try lia.
  - rewrite length_insert. assumption.
  - rewrite E. subst indexAddNextFrame0. rewrite Zplus_mod_idemp_l.
    f_equal. lia.
Qed.

Lemma waiting_frames_flushed s :
  waiting_frames
    (set_numberOfWaitingFrames 0 (set_indexGetNextFrame (indexAddNextFrame s) s)) = [].
Proof. unfold waiting_frames. destruct s; reflexivity. Qed.

(** With the flush flag and room for one frame, the call flushes, inserts
    and leaves the new frame alone in the queue. *)
Lemma AddToQueue_flush_room size buffer s :
  ring_ok s -> 0 < maxNumberOfNextFrames s ->
  let sf := set_numberOfWaitingFrames 0
              (set_indexGetNextFrame (indexAddNextFrame s) s) in
  ARSTREAM_Sender_AddToQueue size buffer 1 s =
    (AddToQueue_retVal s, enqueued size buffer 1 sf,
     (cancel_of (custom s) <$> waiting_frames s) ++ [Cond_Signal]) /\
  waiting_frames (enqueued size buffer 1 sf) =
    [mkFrame (u32 (nextFrameNumber s + 1)) size buffer 1].
Proof.
  intros Hok Hpos sf.
  rewrite AddToQueue_spec by assumption. cbn zeta.
  rewrite after_flush_eq by assumption.
  unfold flush_trace. change (1 =? 1) with true. cbn iota. fold sf.
  pose proof (flushed_ok s Hok) as Hokf. fold sf in Hokf.
  assert (Hc0 : numberOfWaitingFrames sf = 0) by (destruct s; reflexivity).
  assert (Hmx : maxNumberOfNextFrames sf = maxNumberOfNextFrames s)
    by (destruct s; reflexivity).
  destruct (numberOfWaitingFrames sf <? maxNumberOfNextFrames sf) eqn:E; [|lia].
  split; [reflexivity|].
  rewrite waiting_frames_enqueued by (assumption || lia).
  subst sf. rewrite waiting_frames_flushed. destruct s; reflexivity.
Qed.

(** ** Claims on the queue *)

(** C2: a call of [ARSTREAM_Sender_AddToQueue] with the flush flag set
    calls the callback once for every waiting frame, oldest first: the
    call for a frame has the status FRAME_CANCEL, the buffer and the size
    of that frame as the ring held them before the call, and the [custom]
    pointer of the sender.  The flush leaves no waiting frame and the read
    index on the write index, the array untouched; the only callbacks of
    the call are these, they come before anything else the call does, and
    when the ring has room the new frame is then the only one that
    waits. *)
Theorem AddToQueue_flush_cancels_waiting size buffer s :
  ring_ok s ->
  let flushed := ARSTREAM_Sender_FlushQueue s in
  let r := ARSTREAM_Sender_AddToQueue size buffer 1 s in
  let cancels :=
    (fun f => Callback ARSTREAM_SENDER_STATUS_FRAME_CANCEL
                (frameBuffer f) (frameSize f) (custom s)) <$> waiting_frames s in
  trace_of flushed = cancels /\
  numberOfWaitingFrames (state_of flushed) = 0 /\
  indexGetNextFrame (state_of flushed) = indexAddNextFrame (state_of flushed) /\
  nextFrames (state_of flushed) = nextFrames s /\
  List.filter is_callback (trace_of r) = cancels /\
  (exists rest, trace_of r = cancels ++ rest /\
                Forall (fun a => is_callback a = false) rest) /\
  (0 < maxNumberOfNextFrames s ->
   state_of r = enqueued size buffer 1 (state_of flushed) /\
   waiting_frames (state_of r) = [mkFrame (u32 (nextFrameNumber s + 1)) size buffer 1]).
Proof.
  intros Hok flushed r cancels. subst flushed r cancels.
  change (fun f => Callback ARSTREAM_SENDER_STATUS_FRAME_CANCEL
                     (frameBuffer f) (frameSize f) (custom s))
    with (cancel_of (custom s)).
  rewrite AddToQueue_spec by assumption. cbn zeta.
  rewrite after_flush_eq by assumption. rewrite FlushQueue_spec by assumption.
  change (1 =? 1) with true. cbn iota.
  unfold trace_of, state_of, flush_trace. cbn [fst snd]. change (1 =? 1) with true.
  cbn iota.
  pose proof (flushed_ok s Hok) as Hokf.
  set (sf := set_numberOfWaitingFrames 0
               (set_indexGetNextFrame (indexAddNextFrame s) s)) in *.
  assert (Hcb : List.filter is_callback
                  (cancel_of (custom s) <$> waiting_frames s) =
                cancel_of (custom s) <$> waiting_frames s).
  { induction (waiting_frames s) as [|f l IH]; [reflexivity|].
    rewrite fmap_cons. cbn. f_equal. exact IH. }
  assert (Hc0 : numberOfWaitingFrames sf = 0) by (destruct s; reflexivity).
  assert (Hmx : maxNumberOfNextFrames sf = maxNumberOfNextFrames s)
    by (destruct s; reflexivity).
  split; [reflexivity|]. split; [exact Hc0|].
  split; [destruct s; reflexivity|]. split; [destruct s; reflexivity|].
  destruct (numberOfWaitingFrames sf <? maxNumberOfNextFrames sf) eqn:E; cbn [fst snd].
  - split; [| split].
    + rewrite List.filter_app, Hcb. cbn. apply app_nil_r.
    + exists [Cond_Signal]. split; [reflexivity|]. repeat constructor.
    + intros _. split; [reflexivity|].
      rewrite waiting_frames_enqueued by (assumption || lia).
      subst sf. rewrite waiting_frames_flushed. destruct s; reflexivity.
  - split; [| split].
    + exact Hcb.
    + exists []. split; [symmetry; apply app_nil_r | constructor].
    + intros Hpos. lia.
Qed.

Lemma after_flush_fields flag s :
  ring_ok s ->
  maxNumberOfNextFrames (after_flush flag s) = maxNumberOfNextFrames s /\
  indexAddNextFrame (after_flush flag s) = indexAddNextFrame s /\
  nextFrames (after_flush flag s) = nextFrames s /\
  nextFrameNumber (after_flush flag s) = nextFrameNumber s /\
  currentFrameCbWasCalled (after_flush flag s) = currentFrameCbWasCalled s /\
  numberOfWaitingFrames (after_flush flag s) =
    (if flag =? 1 then 0 else numberOfWaitingFrames s).
Proof.
  intros Hok. rewrite after_flush_eq by assumption.
  destruct (flag =? 1); destruct s; cbn; repeat split; reflexivity.
Qed.

(** C5: on a well-formed ring whose capacity fits an [int], a call of
    [ARSTREAM_Sender_AddToQueue] that finds room after the flush, if any,
    returns the number of frames that waited before the flush, plus one
    when the callback of the current frame was not called yet; it
    increments [nextFrameNumber], writes the descriptor at the write index,
    moves this index on around the ring, counts one more waiting frame and
    signals the condition last.  When the ring is full after the flush the
    call returns -1, changes nothing more and does not signal; -1 is
    returned in this case only. *)
Theorem AddToQueue_returns_backlog size buffer flag s :
  ring_ok s -> capacity_fits_int s ->
  let r := ARSTREAM_Sender_AddToQueue size buffer flag s in
  let sf := after_flush flag s in
  (numberOfWaitingFrames sf < maxNumberOfNextFrames s ->
   result r = backlog s /\
   nextFrameNumber (state_of r) = u32 (nextFrameNumber s + 1) /\
   nextFrames (state_of r) =
     <[Z.to_nat (indexAddNextFrame s) :=
         mkFrame (u32 (nextFrameNumber s + 1)) size buffer flag]> (nextFrames s) /\
   indexAddNextFrame (state_of r) =
     (indexAddNextFrame s + 1) mod maxNumberOfNextFrames s /\
   numberOfWaitingFrames (state_of r) = numberOfWaitingFrames sf + 1 /\
   trace_of r = flush_trace flag s ++ [Cond_Signal]) /\
  (numberOfWaitingFrames sf = maxNumberOfNextFrames s ->
   result r = -1 /\ state_of r = sf /\ trace_of r = flush_trace flag s) /\
  (result r = -1 <-> numberOfWaitingFrames sf = maxNumberOfNextFrames s).
Proof.
  intros Hok Hcap r sf. subst r.
  rewrite AddToQueue_spec by assumption. cbn zeta. fold sf.
  destruct (after_flush_fields flag s Hok) as (Hmx & Had & Hnf & Hnn & Hcb & Hc).
  fold sf in Hmx, Had, Hnf, Hnn, Hcb, Hc.
  pose proof (after_flush_ok flag s Hok) as Hokf. fold sf in Hokf.
  pose proof (ring_count _ Hokf) as Hcntf.
  pose proof (backlog_nonneg s Hok) as Hb.
  rewrite (AddToQueue_retVal_backlog s Hok Hcap).
  rewrite Hmx in *.
  destruct (numberOfWaitingFrames sf <? maxNumberOfNextFrames s) eqn:E;
    unfold result, state_of, trace_of; cbn [fst snd].
  - split; [| split].
    + intros _. unfold enqueued. rewrite <- Had, <- Hnf, <- Hnn, <- Hmx.
      destruct sf; cbn. repeat split; reflexivity.
    + intros Hfull. lia.
    + split; intros H; lia.
  - split; [| split].
    + intros Hlt. lia.
    + intros _. repeat split; reflexivity.
    + split; intros _; [lia | reflexivity].
Qed.

(** C10: on a well-formed ring of capacity at least 1 (and fitting an
    [int]), a call of [ARSTREAM_Sender_AddToQueue] with the flush flag set
    never returns -1: the flush has emptied the queue when the room is
    tested, the frame is inserted and the backlog, which is not negative,
    is returned. *)
Theorem AddToQueue_flush_never_full size buffer s :
  ring_ok s -> capacity_fits_int s -> 1 <= maxNumberOfNextFrames s ->
  let r := ARSTREAM_Sender_AddToQueue size buffer 1 s in
  result r <> -1 /\ result r = backlog s /\
  waiting_frames (state_of r) = [mkFrame (u32 (nextFrameNumber s + 1)) size buffer 1].
Proof.
  intros Hok Hcap Hmax r. subst r.
  destruct (AddToQueue_flush_room size buffer s Hok) as [Heq Hw]; [lia|].
  rewrite Heq. unfold result, state_of. cbn [fst snd].
  rewrite (AddToQueue_retVal_backlog s Hok Hcap).
  pose proof (backlog_nonneg s Hok) as Hb.
  split; [lia|]. split; [reflexivity | exact Hw].
Qed.

(** ** Submission *)

Lemma bad_parameters_test s buf size flush :
  ((buf =? NULL) || (size =? 0) || (negb (flush =? 0) && negb (flush =? 1))) = true <->
  bad_parameters (Some s) buf size flush.
Proof.
  unfold bad_parameters.
  rewrite !orb_true_iff, andb_true_iff, !negb_true_iff, !Z.eqb_eq, !Z.eqb_neq.
  split.
  - intros [[H | H] | H]; auto.
  - intros [H | [H | [H | H]]]; [discriminate | auto ..].
Qed.

(** C4: [ARSTREAM_Sender_SendNewFrame] answers BAD_PARAMETERS when the
    sender or the buffer is null, the size is 0 or the flag is neither 0
    nor 1, and otherwise FRAME_TOO_LARGE when the size exceeds the maximum;
    in both cases the sender and [*nbPreviousFrames] are left as they were
    and nothing is done.  Otherwise it runs [ARSTREAM_Sender_AddToQueue]
    once, answers QUEUE_FULL exactly when that returned -1, and on success
    stores the returned backlog in [*nbPreviousFrames] when this pointer is
    not null. *)
Theorem SendNewFrame_checks sender buf size flush nbPrev err sender' nbPrev' tr :
  (forall s, sender = Some s -> ring_ok s /\ capacity_fits_int s) ->
  ARSTREAM_Sender_SendNewFrame sender buf size flush nbPrev = (err, sender', nbPrev', tr) ->
  (bad_parameters sender buf size flush ->
   err = ARSTREAM_ERROR_BAD_PARAMETERS /\ sender' = sender /\ nbPrev' = nbPrev /\ tr = []) /\
  (~ bad_parameters sender buf size flush ->
   size > ARSTREAM_NETWORK_HEADERS_MAX_FRAME_SIZE ->
   err = ARSTREAM_ERROR_FRAME_TOO_LARGE /\ sender' = sender /\ nbPrev' = nbPrev /\ tr = []) /\
  (~ bad_parameters sender buf size flush ->
   size <= ARSTREAM_NETWORK_HEADERS_MAX_FRAME_SIZE ->
   exists s, sender = Some s /\
     let r := ARSTREAM_Sender_AddToQueue size buf flush s in
     sender' = Some (state_of r) /\ tr = trace_of r /\
     (err = ARSTREAM_ERROR_QUEUE_FULL <-> result r = -1) /\
     (result r = -1 -> nbPrev' = nbPrev) /\
     (result r <> -1 ->
      err = ARSTREAM_OK /\
      nbPrev' = match nbPrev with Some _ => Some (result r) | None => None end)).
Proof.
  intros Hwf Hrun. unfold ARSTREAM_Sender_SendNewFrame in Hrun.
  destruct sender as [s|].
  2:{ injection Hrun as <- <- <- <-.
      split; [intros _; repeat split; reflexivity|].
      split; intros Hn; exfalso; apply Hn; left; reflexivity. }
  destruct (Hwf s eq_refl) as [Hok Hcap].
  destruct ((buf =? NULL) || (size =? 0) ||
            (negb (flush =? 0) && negb (flush =? 1))) eqn:Ebad.
  { apply bad_parameters_test with (s := s) in Ebad.
    injection Hrun as <- <- <- <-.
    split; [intros _; repeat split; reflexivity|].
    split; intros Hn; contradiction. }
  assert (Hgood : ~ bad_parameters (Some s) buf size flush).
  { intros Hb. apply bad_parameters_test in Hb. congruence. }
  split; [intros Hb; contradiction|].
  destruct (size >? ARSTREAM_NETWORK_HEADERS_MAX_FRAME_SIZE) eqn:Ebig.
  { injection Hrun as <- <- <- <-.
    split; [intros _ _; repeat split; reflexivity|].
    intros _ Hle. apply Z.gtb_lt in Ebig. lia. }
  split; [intros _ Hgt; rewrite Z.gtb_ltb in Ebig; apply Z.ltb_ge in Ebig; lia|].
  intros _ _. exists s. split; [reflexivity|]. cbn zeta.
  pose proof (AddToQueue_spec size buf flush s Hok) as Hspec. cbn zeta in Hspec.
  pose proof (AddToQueue_retVal_backlog s Hok Hcap) as Hret.
  pose proof (backlog_nonneg s Hok) as Hb.
  destruct (ARSTREAM_Sender_AddToQueue size buf flush s) as [[res s1] l] eqn:Eadd.
  unfold result, state_of, trace_of. cbn [fst snd].
  assert (Hres : res = -1 \/ 0 <= res).
  { destruct (numberOfWaitingFrames (after_flush flush s) <?
              maxNumberOfNextFrames (after_flush flush s)) in Hspec;
      injection Hspec as -> _ _; lia. }
  destruct (res <? 0) eqn:Eneg.
  - injection Hrun as <- <- <- <-. apply Z.ltb_lt in Eneg.
    repeat split; try reflexivity; intros; try lia.
  - apply Z.ltb_ge in Eneg.
    destruct nbPrev as [v|]; injection Hrun as <- <- <- <-;
      repeat split; try reflexivity; intros; try lia; discriminate.
Qed.

(** ** Taking a frame from the queue *)

Lemma head_is_ready_dec s : {head_is_ready s} + {~ head_is_ready s}.
Proof.
  unfold head_is_ready.
  destruct (Z_lt_dec 0 (numberOfWaitingFrames s)) as [H1|H1]; [|right; tauto].
  destruct (Z.eq_dec (isHighPriority (head_frame s)) 1) as [H2|H2]; [left; tauto|].
  destruct (Z.eq_dec (currentFrameCbWasCalled s) 1) as [H3|H3]; [left; tauto|].
  right; tauto.
Qed.

(** The test on the queue succeeds exactly on a ready head; it then counts
    one frame less, and otherwise leaves the sender alone. *)
Lemma PopFromQueue_check_spec s :
  (head_is_ready s ->
   PopFromQueue_check s =
     (1, set_numberOfWaitingFrames (u32 (numberOfWaitingFrames s - 1)) s, [])) /\
  (~ head_is_ready s -> PopFromQueue_check s = (0, s, [])).
Proof.
  unfold head_is_ready, PopFromQueue_check. run_monad.
  destruct (0 <? numberOfWaitingFrames s) eqn:E1.
  - apply Z.ltb_lt in E1.
    destruct (isHighPriority (head_frame s) =? 1) eqn:E2;
      destruct (currentFrameCbWasCalled s =? 1) eqn:E3; cbn;
      rewrite ?Z.eqb_eq, ?Z.eqb_neq in *;
      (split; [intros _; reflexivity | intros Hn; try reflexivity; exfalso; tauto])
      || (split; [intros [_ [H|H]]; congruence | intros _; reflexivity]).
  - apply Z.ltb_ge in E1. split; [intros [H _]; lia | intros _; reflexivity].
Qed.

Lemma PopFromQueue_copy_taken nf s :
  PopFromQueue_copy 1 nf (set_numberOfWaitingFrames (u32 (numberOfWaitingFrames s - 1)) s) =
    (head_frame s, popped s, []).
Proof.
  unfold PopFromQueue_copy, popped, head_frame. run_monad.
  destruct s; cbn. destruct (frame_at nextFrames0 indexGetNextFrame0); reflexivity.
Qed.

(** The wait loop.  It ends at some return [k] of the timed wait: the
    head was not ready at the returns before, none of which was a timeout,
    and at return [k] either the head is ready and is counted out, or it
    is not and the wait has timed out. *)
Lemma PopFromQueue_wait_spec wakes : forall waitTime timewaited s retVal s' tr,
  PopFromQueue_wait wakes waitTime timewaited s = Some (retVal, s', tr) ->
  exists k w,
    wakes !! k = Some w /\ tr = [] /\
    (forall j, (j < k)%nat -> ~ head_is_ready (woken (take (S j) wakes) s)) /\
    let s_at := woken (take (S k) wakes) s in
    (head_is_ready s_at /\ retVal = 1 /\
     s' = set_numberOfWaitingFrames (u32 (numberOfWaitingFrames s_at - 1)) s_at) \/
    (~ head_is_ready s_at /\ retVal = 0 /\ s' = s_at /\ wake_err w = ETIMEDOUT).
Proof.
  induction wakes as [|w wakes IH]; intros waitTime timewaited s retVal s' tr Hrun.
  - discriminate.
  - cbn [PopFromQueue_wait] in Hrun. unfold PopFromQueue_wake in Hrun.
    unfold bind, ret in Hrun.
    destruct (PopFromQueue_check_spec (wake_others w s)) as [Hready Hnot].
    destruct (head_is_ready_dec (wake_others w s)) as [Hr|Hr].
    + rewrite (Hready Hr) in Hrun. cbn in Hrun.
      injection Hrun as <- <- <-.
      exists 0%nat, w. split; [reflexivity|]. split; [reflexivity|].
      split; [intros j Hj; lia|]. left. cbn. auto.
    + rewrite (Hnot Hr) in Hrun. cbn [fst snd app] in Hrun.
      change (0 =? 0) with true in Hrun. cbn [andb] in Hrun.
      destruct (wake_err w =? ETIMEDOUT) eqn:Et.
      * cbn in Hrun. injection Hrun as <- <- <-.
        exists 0%nat, w. split; [reflexivity|]. split; [reflexivity|].
        split; [intros j Hj; lia|]. right. cbn. apply Z.eqb_eq in Et. auto.
      * change (0 =? 0) with true in Hrun. cbn iota in Hrun.
        destruct (PopFromQueue_wait wakes waitTime
                    (i32 (timewaited + wake_elapsed w)) (wake_others w s))
          as [[[rv s2] l2]|] eqn:Erec; [|discriminate].
        injection Hrun as <- <- <-.
        destruct (IH _ _ _ _ _ _ Erec) as (k & w' & Hk & Htr & Hbefore & Hat).
        exists (S k), w'. split; [exact Hk|]. split; [subst; reflexivity|].
        split.
        { intros [|j] Hj; cbn; [exact Hr|]. apply Hbefore. lia. }
        exact Hat.
Qed.

(** With a timeout among the returns of the timed wait, the wait loop
    ends. *)
Lemma PopFromQueue_wait_ends wakes : forall waitTime timewaited s,
  (exists w, w ∈ wakes /\ wake_err w = ETIMEDOUT) ->
  is_Some (PopFromQueue_wait wakes waitTime timewaited s).
Proof.
  induction wakes as [|w wakes IH]; intros waitTime timewaited s (w0 & Hin & Hto).
  - inversion Hin.
  - cbn [PopFromQueue_wait]. unfold PopFromQueue_wake, bind, ret.
    destruct (PopFromQueue_check (wake_others w s)) as [[rv s1] l1].
    cbn [fst snd].
    destruct ((rv =? 0) && ((if wake_err w =? ETIMEDOUT then 1 else 0) =? 0)) eqn:E;
      [|eexists; reflexivity].
    apply andb_true_iff in E. destruct E as [_ E].
    assert (Hw : wake_err w <> ETIMEDOUT).
    { intros Heq. rewrite Heq in E. discriminate. }
    apply elem_of_cons in Hin. destruct Hin as [-> | Hin]; [contradiction|].
    destruct (IH waitTime (i32 (timewaited + wake_elapsed w)) s1) as [[[rv' s2] l2] Hr].
    { exists w0. auto. }
    rewrite Hr. eexists; reflexivity.
Qed.

Lemma waiting_frames_popped s :
  ring_ok s -> 0 < numberOfWaitingFrames s ->
  ring_ok (popped s) /\ waiting_frames s = head_frame s :: waiting_frames (popped s).
Proof.
  intros Hok Hpos.
  assert (Heq : popped s =
                set_numberOfWaitingFrames (numberOfWaitingFrames s - 1)
                  (set_indexGetNextFrame
                     ((indexGetNextFrame s + 1) mod maxNumberOfNextFrames s) s)).
  { destruct Hok as [Hmax Hlen Hcnt [Hg0 Hg] Hadd].
    unfold popped. destruct s; cbn in *.
    rewrite (u32_small (indexGetNextFrame0 + 1)) by lia.
    rewrite (u32_small (numberOfWaitingFrames0 - 1)) by lia. reflexivity. }
  rewrite Heq. split; [apply flush_step_ok | apply waiting_frames_cons]; assumption.
Qed.

(** C6: [ARSTREAM_Sender_PopFromQueue] takes the head of the queue and
    returns 1 exactly when, at one of its tests of the queue, a frame
    waits that has high priority or follows a current frame whose callback
    was called: at once if this holds at the call, otherwise at the first
    return of the timed wait where it holds.  The frame copied out is then
    this head and the queue is left with the frames behind it.  When the
    wait times out on a head that is not ready the function returns 0 and
    leaves the queue and [*newFrame] as they are.  With a timeout among
    the returns of the wait, the function does return. *)
Theorem PopFromQueue_takes_ready_head estimatedLatency wakes newFrame s :
  (head_is_ready s ->
   ARSTREAM_Sender_PopFromQueue estimatedLatency wakes newFrame s =
     Some (1, head_frame s, popped s, [])) /\
  (forall retVal f s' tr,
     ARSTREAM_Sender_PopFromQueue estimatedLatency wakes newFrame s =
       Some (retVal, f, s', tr) ->
     exists k,
       (k <= length wakes)%nat /\
       (forall j, (j < k)%nat -> ~ head_is_ready (woken (take j wakes) s)) /\
       let s_at := woken (take k wakes) s in
       (retVal = 1 <-> head_is_ready s_at) /\
       (head_is_ready s_at ->
        f = head_frame s_at /\ s' = popped s_at /\
        (ring_ok s_at -> waiting_frames s_at = f :: waiting_frames s')) /\
       (~ head_is_ready s_at ->
        retVal = 0 /\ f = newFrame /\ s' = s_at /\
        exists w, (0 < k)%nat /\ wakes !! (k - 1)%nat = Some w /\
                  wake_err w = ETIMEDOUT)) /\
  ((exists w, w ∈ wakes /\ wake_err w = ETIMEDOUT) ->
   is_Some (ARSTREAM_Sender_PopFromQueue estimatedLatency wakes newFrame s)).
Proof.
  destruct (PopFromQueue_check_spec s) as [Hready Hnot].
  assert (Hnow : head_is_ready s ->
                 ARSTREAM_Sender_PopFromQueue estimatedLatency wakes newFrame s =
                   Some (1, head_frame s, popped s, [])).
  { intros Hr. unfold ARSTREAM_Sender_PopFromQueue. rewrite (Hready Hr).
    change (1 =? 0) with false. cbn iota. rewrite PopFromQueue_copy_taken.
    reflexivity. }
  split; [exact Hnow|]. split.
  - intros retVal f s' tr Hrun.
    destruct (head_is_ready_dec s) as [Hr|Hr].
    + rewrite (Hnow Hr) in Hrun. injection Hrun as <- <- <- <-.
      exists 0%nat. split; [lia|]. split; [intros j Hj; lia|].
      cbn. split; [tauto|]. split; [|tauto].
      intros _. split; [reflexivity|]. split; [reflexivity|].
      intros Hok. apply waiting_frames_popped; [assumption | apply Hr].
    + unfold ARSTREAM_Sender_PopFromQueue in Hrun. rewrite (Hnot Hr) in Hrun.
      change (0 =? 0) with true in Hrun. cbn iota in Hrun.
      destruct (PopFromQueue_wait wakes (PopFromQueue_waitTime estimatedLatency) 0 s)
        as [[[rv s2] l2]|] eqn:Ew; [|discriminate].
      destruct (PopFromQueue_wait_spec _ _ _ _ _ _ _ Ew)
        as (k & w & Hk & Hl2 & Hbefore & Hat).
      exists (S k). split; [apply lookup_lt_Some in Hk; lia|].
      split.
      { intros [|j] Hj; [exact Hr|]. apply Hbefore. lia. }
      cbn zeta in Hat |- *.
      set (s_at := woken (take (S k) wakes) s) in *.
      destruct Hat as [(Hr' & -> & ->) | (Hr' & -> & -> & Hto)].
      * rewrite PopFromQueue_copy_taken in Hrun.
        injection Hrun as <- <- <- <-.
        split; [tauto|]. split; [|tauto].
        intros _. split; [reflexivity|]. split; [reflexivity|].
        intros Hok. apply waiting_frames_popped; [assumption | apply Hr'].
      * unfold PopFromQueue_copy in Hrun. change (0 =? 1) with false in Hrun.
        cbn in Hrun. injection Hrun as <- <- <- <-.
        split; [split; [discriminate | tauto]|]. split; [tauto|].
        intros _. repeat split; try reflexivity.
        exists w. split; [lia|]. split; [|exact Hto].
        replace (S k - 1)%nat with k by lia. exact Hk.
  - intros Hto. destruct (head_is_ready_dec s) as [Hr|Hr].
    + rewrite (Hnow Hr). eexists; reflexivity.
    + unfold ARSTREAM_Sender_PopFromQueue. rewrite (Hnot Hr).
      change (0 =? 0) with true. cbn iota.
      destruct (PopFromQueue_wait_ends wakes (PopFromQueue_waitTime estimatedLatency)
                  0 s Hto) as [[[rv s2] l2] Hw].
      rewrite Hw. destruct (PopFromQueue_copy rv newFrame s2) as [[f s3] l3].
      eexists; reflexivity.
Qed.

(** ** The ack thread *)

Lemma ack_bit_SetFlags dst src i :
  ack_bit (ARSTREAM_NetworkHeaders_AckPacketSetFlags dst src) i =
    ack_bit dst i || ack_bit src i.
Proof.
  unfold ack_bit, ARSTREAM_NetworkHeaders_AckPacketSetFlags. cbn.
  destruct (i <? 64); apply Z.lor_spec.
Qed.

(** A turn of the ack loop that does not get a whole packet for the frame
    of [ackPacket] leaves the sender as it is and calls no callback. *)
Lemma ARSTREAM_Sender_RunAckThread_body_skip err recvSize recvPacket s :
  err <> ARNETWORK_OK \/ recvSize <> sizeof_AckPacket \/
  ack_frameNumber (ackPacket s) <> ack_frameNumber recvPacket ->
  state_of (ARSTREAM_Sender_RunAckThread_body err recvSize recvPacket s) = s /\
  List.filter is_callback (trace_of (ARSTREAM_Sender_RunAckThread_body err recvSize recvPacket s)) = [].
Proof.
  intros H. unfold ARSTREAM_Sender_RunAckThread_body.
  destruct err; try (split; reflexivity).
  destruct (recvSize =? sizeof_AckPacket) eqn:Es; cbn [negb];
    [|split; reflexivity].
  apply Z.eqb_eq in Es. run_monad.
  destruct (ack_frameNumber (ackPacket s) =? ack_frameNumber recvPacket) eqn:En.
  - apply Z.eqb_eq in En. destruct H as [H | [H | H]]; congruence.
  - split; reflexivity.
Qed.

(** A turn of the ack loop on a whole packet for the frame of
    [ackPacket]: the flags are merged, and the frame is reported sent when
    its callback was not called yet and all its flags are set. *)
Lemma ARSTREAM_Sender_RunAckThread_body_match recvPacket s :
  ack_frameNumber (ackPacket s) = ack_frameNumber recvPacket ->
  let merged := ARSTREAM_NetworkHeaders_AckPacketSetFlags (ackPacket s) recvPacket in
  ARSTREAM_Sender_RunAckThread_body ARNETWORK_OK sizeof_AckPacket recvPacket s =
    if (currentFrameCbWasCalled s =? 0) &&
       (ARSTREAM_NetworkHeaders_AckPacketAllFlagsSet merged
          (currentFrameNbFragments s) =? 1)
    then (tt, set_currentFrameCbWasCalled 1 (set_ackPacket merged s),
          [current_callback ARSTREAM_SENDER_STATUS_FRAME_SENT s; Cond_Signal])
    else (tt, set_ackPacket merged s, []).
Proof.
  intros Hn merged. unfold ARSTREAM_Sender_RunAckThread_body.
  rewrite Z.eqb_refl. cbn [negb]. run_monad.
  apply Z.eqb_eq in Hn. rewrite Hn.
  destruct s; cbn in *. subst merged. cbn.
  destruct ((currentFrameCbWasCalled0 =? 0) &&
            (ARSTREAM_NetworkHeaders_AckPacketAllFlagsSet
               (ARSTREAM_NetworkHeaders_AckPacketSetFlags ackPacket0 recvPacket)
               currentFrameNbFragments0 =? 1)); reflexivity.
Qed.

(** One turn of the ack loop: what it does with a packet for another
    frame number, with a packet for the frame number of [ackPacket], and
    when the callback of the current frame was already called. *)
Lemma ARSTREAM_Sender_RunAckThread_body_turn err recvSize recvPacket s :
  let r := ARSTREAM_Sender_RunAckThread_body err recvSize recvPacket s in
  (err <> ARNETWORK_OK \/ recvSize <> sizeof_AckPacket \/
   ack_frameNumber (ackPacket s) <> ack_frameNumber recvPacket ->
   state_of r = s /\ List.filter is_callback (trace_of r) = []) /\
  (err = ARNETWORK_OK -> recvSize = sizeof_AckPacket ->
   ack_frameNumber (ackPacket s) <> ack_frameNumber recvPacket ->
   r = (tt, s, [])) /\
  (err = ARNETWORK_OK -> recvSize = sizeof_AckPacket ->
   ack_frameNumber (ackPacket s) = ack_frameNumber recvPacket ->
   ackPacket (state_of r) =
     mkAck (ack_frameNumber (ackPacket s))
           (Z.lor (highPacketsAck (ackPacket s)) (highPacketsAck recvPacket))
           (Z.lor (lowPacketsAck (ackPacket s)) (lowPacketsAck recvPacket)) /\
   (forall i, ack_bit (ackPacket (state_of r)) i =
              ack_bit (ackPacket s) i || ack_bit recvPacket i) /\
   (forall i, ack_bit (ackPacket s) i = true ->
              ack_bit (ackPacket (state_of r)) i = true)) /\
  (currentFrameCbWasCalled s <> 0 ->
   List.filter is_callback (trace_of r) = [] /\
   currentFrameCbWasCalled (state_of r) = currentFrameCbWasCalled s /\
   currentFrame (state_of r) = currentFrame s).
Proof.
  intros r. subst r. split; [apply ARSTREAM_Sender_RunAckThread_body_skip|].
  split.
  { intros -> -> Hn. unfold ARSTREAM_Sender_RunAckThread_body. rewrite Z.eqb_refl. cbn [negb].
    run_monad. apply Z.eqb_neq in Hn. rewrite Hn. reflexivity. }
  assert (Hmatch : err = ARNETWORK_OK -> recvSize = sizeof_AckPacket ->
                   ack_frameNumber (ackPacket s) = ack_frameNumber recvPacket ->
                   ackPacket (state_of (ARSTREAM_Sender_RunAckThread_body err recvSize recvPacket s)) =
                     ARSTREAM_NetworkHeaders_AckPacketSetFlags (ackPacket s) recvPacket).
  { intros -> -> Hn. rewrite ARSTREAM_Sender_RunAckThread_body_match by assumption. cbn zeta.
    destruct (_ && _); destruct s; reflexivity. }
  split.
  - intros He Hs Hn. rewrite (Hmatch He Hs Hn).
    split; [reflexivity|]. split.
    + intros i. apply ack_bit_SetFlags.
    + intros i Hi. rewrite ack_bit_SetFlags, Hi. reflexivity.
  - intros Hcb.
    destruct (Z.eq_dec (ack_frameNumber (ackPacket s)) (ack_frameNumber recvPacket))
      as [Hn|Hn].
    2:{ destruct (ARSTREAM_Sender_RunAckThread_body_skip err recvSize recvPacket s) as [Hs Ht];
          [auto|]. rewrite Hs, Ht. auto. }
    destruct err; [| cbn; auto | cbn; auto].
    destruct (Z.eq_dec recvSize sizeof_AckPacket) as [->|Hsz].
    2:{ destruct (ARSTREAM_Sender_RunAckThread_body_skip ARNETWORK_OK recvSize recvPacket s)
          as [Hs Ht]; [auto|]. rewrite Hs, Ht. auto. }
    rewrite ARSTREAM_Sender_RunAckThread_body_match by assumption. cbn zeta.
    apply Z.eqb_neq in Hcb. rewrite Hcb. cbn [andb].
    destruct s; cbn. auto.
Qed.

(** ** The data thread *)

(** The block that installs a new frame, as a whole. *)
Lemma ARSTREAM_Sender_RunDataThread_newFrame_spec l s :
  ARSTREAM_Sender_RunDataThread_newFrame l s = (installed_locals l, installed l s, cancel_current s).
Proof.
  unfold ARSTREAM_Sender_RunDataThread_newFrame, installed_locals, installed, cancel_current.
  run_monad.
  destruct (compute_fragments (frameSize (nextFrame l)) (nbPackets l)
              (lastFragmentSize l)) as [nb lastsz].
  destruct s; cbn.
  destruct (currentFrameCbWasCalled0 =? 0); reflexivity.
Qed.

Section Fragments.

Hypothesis FRAGMENT_SIZE_int : 0 < ARSTREAM_NETWORK_HEADERS_FRAGMENT_SIZE < 2 ^ 31.
Hypothesis MAX_FRAME_SIZE_fragments :
  ARSTREAM_NETWORK_HEADERS_MAX_FRAME_SIZE <= 128 * ARSTREAM_NETWORK_HEADERS_FRAGMENT_SIZE.

Lemma ceil_div_cases S :
  0 < S ->
  let F := ARSTREAM_NETWORK_HEADERS_FRAGMENT_SIZE in
  (S + F - 1) / F = S / F + (if S mod F =? 0 then 0 else 1).
Proof.
  intros HS F. subst F.
  set (F := ARSTREAM_NETWORK_HEADERS_FRAGMENT_SIZE) in *.
  pose proof (Z.div_mod S F ltac:(lia)) as Hdm.
  pose proof (Z.mod_pos_bound S F ltac:(lia)) as Hb.
  destruct (S mod F =? 0) eqn:E.
  - apply Z.eqb_eq in E. symmetry.
    apply (Z.div_unique _ _ _ (F - 1)); [lia|]. lia.
  - apply Z.eqb_neq in E. symmetry.
    apply (Z.div_unique _ _ _ (S mod F - 1)); [lia|]. lia.
Qed.

(** The number of fragments and the size of the last one, for a frame the
    sender accepts. *)
Lemma compute_fragments_spec S nb0 last0 :
  0 < S <= ARSTREAM_NETWORK_HEADERS_MAX_FRAME_SIZE ->
  let F := ARSTREAM_NETWORK_HEADERS_FRAGMENT_SIZE in
  let nb := (S + F - 1) / F in
  compute_fragments S nb0 last0 = (nb, S - (nb - 1) * F) /\
  1 <= nb <= 128 /\
  S - (nb - 1) * F = (if S mod F =? 0 then F else S mod F).
Proof.
  intros HS F nb. subst nb. rewrite ceil_div_cases by lia. fold F.
  pose proof (Z.div_mod S F ltac:(subst F; lia)) as Hdm.
  pose proof (Z.mod_pos_bound S F ltac:(subst F; lia)) as Hb.
  assert (Hq0 : 0 <= S / F) by (apply Z.div_pos; subst F; lia).
  assert (Hq : S / F <= 128).
  { apply Z.div_le_upper_bound; subst F; lia. }
  unfold compute_fragments. fold F.
  destruct (0 <? S) eqn:E0; [|apply Z.ltb_ge in E0; lia].
  destruct (S mod F =? 0) eqn:E; cbn [negb].
  - apply Z.eqb_eq in E.
    assert (1 <= S / F) by nia.
    rewrite (u16_small (S / F)) by lia.
    rewrite (i32_small F) by (subst F; lia).
    split; [f_equal; lia|]. split; lia.
  - apply Z.eqb_neq in E.
    assert (S / F <= 127) by (subst F; nia).
    rewrite (u16_small (S / F)) by lia.
    rewrite (u16_small (S / F + 1)) by lia.
    rewrite (i32_small (S mod F)) by (subst F; lia).
    split; [f_equal; lia|]. split; lia.
Qed.

End Fragments.

(** ** Frame numbers *)

(** C9, as the code has it: the sender numbers the frames with a 32-bit
    counter.  An accepted submission stamps the frame with the counter
    plus one modulo 2^32 and leaves that number in the counter, so the
    numbers grow by one from a submission to the next until the counter
    wraps from 2^32 - 1 to 0.  The number is cut to 16 bits only when the
    data thread installs the frame, in the ack packet, in [packetsToSend]
    and in the header of the fragments; the ack loop and the network
    callback compare frame numbers for equality and do nothing when they
    differ. *)
Theorem frame_numbers_count_modulo_2_32 size buffer flag s :
  ring_ok s -> 0 <= nextFrameNumber s < 2 ^ 32 ->
  numberOfWaitingFrames (after_flush flag s) < maxNumberOfNextFrames s ->
  let s' := state_of (ARSTREAM_Sender_AddToQueue size buffer flag s) in
  let n := (nextFrameNumber s + 1) mod 2 ^ 32 in
  waiting_frames s' =
    waiting_frames (after_flush flag s) ++ [mkFrame n size buffer flag] /\
  nextFrameNumber s' = n /\
  (nextFrameNumber s < 2 ^ 32 - 1 -> n = nextFrameNumber s + 1) /\
  (nextFrameNumber s = 2 ^ 32 - 1 -> n = 0) /\
  (forall l s2, nextFrame l = mkFrame n size buffer flag ->
     let r := ARSTREAM_Sender_RunDataThread_newFrame l s2 in
     frameNumber (currentFrame (state_of r)) = n /\
     ack_frameNumber (ackPacket (state_of r)) = n mod 2 ^ 16 /\
     ack_frameNumber (packetsToSend (state_of r)) = n mod 2 ^ 16 /\
     header_frameNumber (result r) = n mod 2 ^ 16) /\
  (forall recvPacket s2,
     ack_frameNumber (ackPacket s2) <> ack_frameNumber recvPacket ->
     state_of (ARSTREAM_Sender_RunAckThread_body ARNETWORK_OK sizeof_AckPacket recvPacket s2) = s2) /\
  (forall cb_frameNumber cb_fragmentIndex s2,
     cb_frameNumber <> ack_frameNumber (packetsToSend s2) ->
     state_of (ARSTREAM_Sender_NetworkCallback cb_frameNumber cb_fragmentIndex
                 ARNETWORK_MANAGER_CALLBACK_STATUS_SENT s2) = s2).
Proof.
  intros Hok Hn Hroom s' n. subst s'.
  destruct (after_flush_fields flag s Hok) as (Hmx & Had & Hnf & Hnn & Hcb & Hc).
  pose proof (after_flush_ok flag s Hok) as Hokf.
  rewrite AddToQueue_spec by assumption. cbn zeta. rewrite Hmx.
  destruct (numberOfWaitingFrames (after_flush flag s) <? maxNumberOfNextFrames s)
    eqn:E; [|apply Z.ltb_ge in E; lia].
  unfold state_of. cbn [fst snd].
  split.
  { rewrite waiting_frames_enqueued by (assumption || lia).
    rewrite Hnn. reflexivity. }
  split.
  { unfold enqueued. rewrite Hnn. destruct (after_flush flag s); reflexivity. }
  split; [intros Hlt; subst n; apply Z.mod_small; lia|].
  split; [intros Heq; subst n; rewrite Heq; reflexivity|].
  split.
  { intros l s2 Hl. cbn zeta. rewrite ARSTREAM_Sender_RunDataThread_newFrame_spec.
    unfold state_of, result, installed, installed_locals. cbn. rewrite Hl.
    repeat split; reflexivity. }
  split.
  { intros recvPacket s2 Hne. apply ARSTREAM_Sender_RunAckThread_body_skip. auto. }
  intros fn idx s2 Hne. unfold ARSTREAM_Sender_NetworkCallback. run_monad.
  apply Z.eqb_neq in Hne. rewrite Hne. reflexivity.
Qed.

(** C9 as it is stated fails: the frame stamped after number 65535 has
    number 65536, which is not 65535 + 1 modulo 2^16. *)
Lemma frame_number_after_65535_is_65536 :
  let s := set_nextFrameNumber 65535 sample_sender in
  let s' := state_of (ARSTREAM_Sender_AddToQueue 900 12288 0 s) in
  frameNumber <$> waiting_frames s' = [1; 2; 65536] /\
  frameNumber <$> waiting_frames s' <> [1; 2; (nextFrameNumber s + 1) mod 2 ^ 16].
Proof. vm_compute. split; [reflexivity | discriminate]. Qed.

(** ** What each function leaves alone *)

Lemma untouched_refl s : untouched s s.
Proof. repeat split. Qed.

Lemma untouched_trans s1 s2 s3 : untouched s1 s2 -> untouched s2 s3 -> untouched s1 s3.
Proof.
  unfold untouched.
  intros (A1 & A2 & A3 & A4 & A5 & A6 & A7 & A8) (B1 & B2 & B3 & B4 & B5 & B6 & B7 & B8).
  rewrite B1, B2, B3, B4, B5, B6, B7, B8. repeat split; assumption.
Qed.

(** The start of the data thread: it returns at once, or it sets
    [dataThreadStarted] and enters its loop. *)
Lemma RunDataThread_start_outcomes param frag st st1 acts :
  ARSTREAM_Sender_RunDataThread_start param frag st = Some (st1, acts) ->
  sys_pc st = PcStart /\
  ((st1 = mkSys (sys_sender st) PcEnded (sys_locals st) /\ acts = [Print_Error] /\
    (param = NULL \/ frag = NULL)) \/
   (st1 = mkSys (set_dataThreadStarted 1 (sys_sender st)) PcLoop (sys_locals st) /\
    acts = [] /\ param <> NULL /\ frag <> NULL)).
Proof.
  unfold ARSTREAM_Sender_RunDataThread_start. intros H.
  destruct (sys_pc st); try discriminate. split; [reflexivity|].
  destruct (param =? NULL) eqn:Ep.
  { injection H as <- <-. left. apply Z.eqb_eq in Ep. auto. }
  destruct (frag =? NULL) eqn:Ef.
  { injection H as <- <-. left. apply Z.eqb_eq in Ef. auto. }
  injection H as <- <-. right. apply Z.eqb_neq in Ep, Ef. auto.
Qed.

Ltac untouched_by_computation :=
  match goal with
  | |- untouched _ _ =>
      first [ match goal with
              | s : ARSTREAM_Sender_t |- _ => destruct s; cbn; repeat split; fail
              end
            | match goal with
              | |- untouched ?s _ => destruct s; cbn; repeat split
              end ]
  end.

Lemma FlushQueue_loop_untouched fuel : forall s,
  untouched s (state_of (FlushQueue_loop fuel s)).
Proof.
  induction fuel as [|fuel IH]; intros s; [apply untouched_refl|].
  cbn [FlushQueue_loop]. unfold bind at 1. unfold gets at 1.
  destruct (0 <? numberOfWaitingFrames s); [|apply untouched_refl].
  unfold bind.
  destruct (FlushQueue_body s) as [[u s1] l1] eqn:Eb.
  assert (H1 : untouched s s1).
  { unfold FlushQueue_body in Eb. revert Eb. run_monad. intros Eb.
    injection Eb as _ <- _. untouched_by_computation. }
  specialize (IH s1). destruct (FlushQueue_loop fuel s1) as [[u2 s2] l2].
  unfold state_of in *. cbn [fst snd] in *. eapply untouched_trans; eassumption.
Qed.

Lemma AddToQueue_untouched size buffer flag s :
  untouched s (state_of (ARSTREAM_Sender_AddToQueue size buffer flag s)).
Proof.
  unfold ARSTREAM_Sender_AddToQueue.
  unfold bind at 1. unfold gets at 1. unfold bind at 1. unfold gets at 1.
  unfold bind at 1.
  assert (Hf : untouched s
                 (state_of ((if flag =? 1 then ARSTREAM_Sender_FlushQueue else ret tt) s))).
  { destruct (flag =? 1); [|apply untouched_refl].
    unfold ARSTREAM_Sender_FlushQueue. unfold bind, gets.
    pose proof (FlushQueue_loop_untouched (Z.to_nat (numberOfWaitingFrames s)) s) as H.
    destruct (FlushQueue_loop _ s) as [[u s1] l1]. exact H. }
  destruct ((if flag =? 1 then ARSTREAM_Sender_FlushQueue else ret tt) s)
    as [[u sf] lf].
  unfold state_of in Hf. cbn [fst snd] in Hf.
  eapply untouched_trans; [exact Hf|].
  run_monad.
  destruct (numberOfWaitingFrames sf <? maxNumberOfNextFrames sf);
    unfold state_of; cbn [fst snd]; untouched_by_computation.
Qed.

Lemma SendNewFrame_untouched s buf size flush nbPrev err sender' nbPrev' tr :
  ARSTREAM_Sender_SendNewFrame (Some s) buf size flush nbPrev = (err, sender', nbPrev', tr) ->
  exists s', sender' = Some s' /\ untouched s s'.
Proof.
  unfold ARSTREAM_Sender_SendNewFrame.
  destruct (_ || _); [intros [= <- <- <- <-]; eauto using untouched_refl|].
  destruct (_ >? _); [intros [= <- <- <- <-]; eauto using untouched_refl|].
  pose proof (AddToQueue_untouched size buf flush s) as H.
  destruct (ARSTREAM_Sender_AddToQueue size buf flush s) as [[res s1] l].
  unfold state_of in H. cbn [fst snd] in H.
  destruct (res <? 0); [|destruct nbPrev]; intros [= <- <- <- <-]; eauto.
Qed.

Lemma PopFromQueue_check_untouched s :
  untouched s (state_of (PopFromQueue_check s)) /\ trace_of (PopFromQueue_check s) = [].
Proof.
  unfold PopFromQueue_check. run_monad.
  destruct (0 <? numberOfWaitingFrames s); [|split; [apply untouched_refl | reflexivity]].
  destruct (_ || _); unfold state_of, trace_of; cbn [fst snd];
    (split; [untouched_by_computation | reflexivity]).
Qed.

Lemma PopFromQueue_copy_untouched retVal nf s :
  untouched s (state_of (PopFromQueue_copy retVal nf s)) /\
  trace_of (PopFromQueue_copy retVal nf s) = [].
Proof.
  unfold PopFromQueue_copy. destruct (retVal =? 1); run_monad;
    unfold state_of, trace_of; cbn [fst snd];
    (split; [untouched_by_computation | reflexivity]).
Qed.

Lemma NetworkCallback_untouched fn idx status s :
  untouched s (state_of (ARSTREAM_Sender_NetworkCallback fn idx status s)) /\
  trace_of (ARSTREAM_Sender_NetworkCallback fn idx status s) = [].
Proof.
  unfold ARSTREAM_Sender_NetworkCallback. destruct status; run_monad;
    try (split; [apply untouched_refl | reflexivity]).
  destruct (fn =? _); unfold state_of, trace_of; cbn [fst snd];
    (split; [untouched_by_computation | reflexivity]).
Qed.

Lemma flagPackets_untouched l s :
  untouched s (state_of (ARSTREAM_Sender_RunDataThread_flagPackets l s)) /\
  trace_of (ARSTREAM_Sender_RunDataThread_flagPackets l s) = [].
Proof.
  unfold ARSTREAM_Sender_RunDataThread_flagPackets. run_monad. unfold state_of, trace_of.
  cbn [fst snd]. split; [untouched_by_computation | reflexivity].
Qed.

(** The second [for] sends at most one fragment before it releases the
    locks: it then counts one more fragment sent, and it does so only for
    a fragment number below [nbPackets]. *)
Lemma sendLoop_spec l from s :
  let r := ARSTREAM_Sender_RunDataThread_sendLoop l from s in
  state_of r = s /\
  List.filter is_callback (trace_of r) = [] /\
  nbPackets (fst (result r)) = nbPackets l /\
  match snd (result r) with
  | Some cnt =>
      from <= cnt < nbPackets l /\
      numbersOfFragmentsSentForCurrentFrame (fst (result r)) =
        i32 (numbersOfFragmentsSentForCurrentFrame l + 1)
  | None => fst (result r) = l
  end.
Proof.
  intros r. subst r. unfold ARSTREAM_Sender_RunDataThread_sendLoop, bind, gets.
  destruct (next_to_send s (nbPackets l) from) as [cnt|] eqn:En.
  - unfold next_to_send in En. apply find_some in En. destruct En as [Hin _].
    apply list_elem_of_In, elem_of_seqZ in Hin.
    unfold ARSTREAM_Sender_RunDataThread_sendFragment. run_monad.
    unfold state_of, trace_of, result. cbn.
    repeat split; try reflexivity; lia.
  - cbn. repeat split; reflexivity.
Qed.

(** ** One callback for the current frame *)

(** A turn of the ack loop keeps the current frame; it leaves the ack
    packet alone or merges the received flags into it; and either it calls
    no callback and keeps [currentFrameCbWasCalled], or it finds it at 0
    with all the flags of the frame set, reports the frame sent and sets it
    to 1. *)
Lemma ARSTREAM_Sender_RunAckThread_body_callbacks err recvSize recvPacket s :
  let r := ARSTREAM_Sender_RunAckThread_body err recvSize recvPacket s in
  untouched
    (set_ackPacket (ackPacket (state_of r))
       (set_currentFrameCbWasCalled (currentFrameCbWasCalled (state_of r)) s))
    (state_of r) /\
  (ackPacket (state_of r) = ackPacket s \/
   ackPacket (state_of r) =
     ARSTREAM_NetworkHeaders_AckPacketSetFlags (ackPacket s) recvPacket) /\
  ((List.filter is_callback (trace_of r) = [] /\
    currentFrameCbWasCalled (state_of r) = currentFrameCbWasCalled s) \/
   (currentFrameCbWasCalled s = 0 /\
    ARSTREAM_NetworkHeaders_AckPacketAllFlagsSet (ackPacket (state_of r))
      (currentFrameNbFragments s) = 1 /\
    trace_of r = [current_callback ARSTREAM_SENDER_STATUS_FRAME_SENT s; Cond_Signal] /\
    currentFrameCbWasCalled (state_of r) = 1)).
Proof.
  intros r. subst r.
  assert (Hcases : err <> ARNETWORK_OK \/ recvSize <> sizeof_AckPacket \/
                   ack_frameNumber (ackPacket s) <> ack_frameNumber recvPacket \/
                   (err = ARNETWORK_OK /\ recvSize = sizeof_AckPacket /\
                    ack_frameNumber (ackPacket s) = ack_frameNumber recvPacket)).
  { destruct err; try (left; discriminate).
    destruct (Z.eq_dec recvSize sizeof_AckPacket) as [Hs|Hs];
      [|right; left; exact Hs].
    destruct (Z.eq_dec (ack_frameNumber (ackPacket s)) (ack_frameNumber recvPacket))
      as [Hn|Hn]; [|right; right; left; exact Hn].
    right; right; right. repeat split; assumption. }
  assert (Hskipped :
            err <> ARNETWORK_OK \/ recvSize <> sizeof_AckPacket \/
            ack_frameNumber (ackPacket s) <> ack_frameNumber recvPacket ->
            state_of (ARSTREAM_Sender_RunAckThread_body err recvSize recvPacket s) = s /\
            List.filter is_callback
              (trace_of (ARSTREAM_Sender_RunAckThread_body err recvSize recvPacket s)) = []).
  { apply ARSTREAM_Sender_RunAckThread_body_skip. }
  destruct Hcases as [H | [H | [H | (-> & -> & Hn)]]].
  1-3: destruct Hskipped as [Hs Ht]; [tauto|]; rewrite Hs, Ht;
    (split; [untouched_by_computation | split; [left | left; split]; reflexivity]).
  rewrite ARSTREAM_Sender_RunAckThread_body_match by assumption. cbn zeta.
  destruct (currentFrameCbWasCalled s =? 0) eqn:Ecb; cbn [andb].
  - destruct (ARSTREAM_NetworkHeaders_AckPacketAllFlagsSet _ _ =? 1) eqn:Eall;
      unfold state_of, trace_of; cbn [fst snd].
    + split; [untouched_by_computation|].
      split; [right; destruct s; reflexivity|]. right.
      apply Z.eqb_eq in Ecb, Eall. destruct s; cbn in *. auto.
    + split; [untouched_by_computation|].
      split; [right; destruct s; reflexivity|]. left. destruct s; cbn. auto.
  - unfold state_of, trace_of; cbn [fst snd].
    split; [untouched_by_computation|].
    split; [right; destruct s; reflexivity|]. left. destruct s; cbn. auto.
Qed.

Lemma untouched_effect s s1 : untouched s s1 -> step_effect s s1 [].
Proof.
  intros (A1 & A2 & A3 & _ & _ & _ & A7 & A8). unfold step_effect.
  rewrite A1, A2, A3, A7, A8. repeat split; auto.
Qed.

Lemma step_effect_no_callback s s1 l1 l2 :
  List.filter is_callback l2 = [] -> step_effect s s1 l1 ->
  step_effect s s1 (l1 ++ List.filter is_callback l2).
Proof. intros ->. rewrite app_nil_r. auto. Qed.

(** What a step that installs no frame does to the current frame, to its
    callback and to its ack packet. *)
Lemma step_keeps_current lbl st st1 acts :
  sys_step lbl st = Some (st1, acts) ->
  is_install (mkEntry lbl st acts) = false ->
  step_effect (sys_sender st) (sys_sender st1)
    (if loop_label lbl then List.filter is_callback acts else []).
Proof.
  intros Hstep Hni.
  destruct lbl as [b sz fl nb | | err rsz pkt | fn idx status | lat werr wms | param frag];
    cbn [sys_step loop_label] in *.
  - destruct (ARSTREAM_Sender_SendNewFrame (Some (sys_sender st)) b sz fl nb)
      as [[[e s'] p'] l] eqn:E.
    destruct (SendNewFrame_untouched _ _ _ _ _ _ _ _ _ E) as (s1 & -> & Hu).
    injection Hstep as <- <-. cbn [sys_sender]. apply untouched_effect, Hu.
  - unfold lift_sender, ARSTREAM_Sender_StopSender, modify in Hstep.
    injection Hstep as <- <-. cbn [sys_sender]. apply untouched_effect.
    untouched_by_computation.
  - destruct (ackMutex_free (sys_pc st)); [|discriminate].
    pose proof (ARSTREAM_Sender_RunAckThread_body_callbacks err rsz pkt (sys_sender st))
      as H.
    cbn zeta in H. unfold lift_sender in Hstep.
    destruct (ARSTREAM_Sender_RunAckThread_body err rsz pkt (sys_sender st))
      as [[u s1] l1].
    injection Hstep as <- <-. unfold state_of, trace_of in H. cbn [fst snd] in H.
    cbn [sys_sender].
    destruct H as ((A1 & _ & A3 & _ & _ & _ & _ & A8) & Hack & Hcb).
    unfold step_effect.
    split; [rewrite A1; destruct (sys_sender st); reflexivity|].
    split; [rewrite A3; destruct (sys_sender st); reflexivity|].
    split.
    { destruct Hcb as [[H1 H2] | (H1 & _ & H3 & H4)]; [left; auto|].
      right. rewrite H3. cbn. auto. }
    split; [rewrite A8; destruct (sys_sender st); reflexivity|].
    destruct Hack as [-> | ->]; [split; auto|].
    split; [reflexivity|]. intros i Hi. rewrite ack_bit_SetFlags, Hi. reflexivity.
  - pose proof (NetworkCallback_untouched fn idx status (sys_sender st)) as [Hu _].
    unfold lift_sender in Hstep.
    destruct (ARSTREAM_Sender_NetworkCallback fn idx status (sys_sender st))
      as [[u s1] l1].
    injection Hstep as <- <-. cbn [sys_sender]. apply untouched_effect, Hu.
  - unfold is_install in Hni. cbn [entry_label entry_before] in Hni.
    unfold ARSTREAM_Sender_RunDataThread_step in Hstep.
    assert (Hfin : untouched (sys_sender st) (sys_sender st1) /\
                   List.filter is_callback acts = [] ->
                   step_effect (sys_sender st) (sys_sender st1)
                     (List.filter is_callback acts)).
    { intros [Hu ->]. apply untouched_effect, Hu. }
    assert (Hpop : forall retVal s0 l0,
              untouched (sys_sender st) s0 -> l0 = [] ->
              data_popped retVal st s0 l0 = Some (st1, acts) ->
              untouched (sys_sender st) (sys_sender st1) /\
              List.filter is_callback acts = []).
    { intros retVal s0 l0 Hu -> Hp. unfold data_popped in Hp.
      destruct (PopFromQueue_copy_untouched retVal (nextFrame (sys_locals st)) s0)
        as [Hu2 Ht2].
      destruct (PopFromQueue_copy retVal (nextFrame (sys_locals st)) s0)
        as [[f s2] l2].
      unfold state_of, trace_of in Hu2, Ht2. cbn [fst snd] in Hu2, Ht2.
      injection Hp as <- <-. cbn [sys_sender]. subst l2.
      split; [eapply untouched_trans; eassumption | reflexivity]. }
    assert (Hsend : forall from s0 l0,
              untouched (sys_sender st) s0 -> List.filter is_callback l0 = [] ->
              data_send st from s0 l0 = Some (st1, acts) ->
              untouched (sys_sender st) (sys_sender st1) /\
              List.filter is_callback acts = []).
    { intros from s0 l0 Hu Hl0 Hp. unfold data_send in Hp.
      pose proof (sendLoop_spec (sys_locals st) from s0) as Hs. cbn zeta in Hs.
      destruct (ARSTREAM_Sender_RunDataThread_sendLoop (sys_locals st) from s0)
        as [[[l' nxt] s2] l2].
      unfold state_of, trace_of, result in Hs. cbn [fst snd] in Hs.
      destruct Hs as (-> & Hf & _). injection Hp as <- <-. cbn [sys_sender].
      split; [exact Hu|]. rewrite List.filter_app, Hl0, Hf. reflexivity. }
    apply Hfin.
    destruct (sys_pc st) as [ | | wt tw | waitRes | | cnt | ].
    + injection Hstep as <- <-. cbn [sys_sender].
      split; [untouched_by_computation | reflexivity].
    + destruct (threadsShouldStop (sys_sender st) =? 0).
      * destruct (PopFromQueue_check_untouched (sys_sender st)) as [Hu Ht].
        destruct (PopFromQueue_check (sys_sender st)) as [[rv s1] l1].
        unfold state_of, trace_of in Hu, Ht. cbn [fst snd] in Hu, Ht. subst l1.
        destruct (rv =? 0).
        -- injection Hstep as <- <-. cbn [sys_sender]. auto.
        -- apply (Hpop _ _ _ Hu eq_refl Hstep).
      * injection Hstep as <- <-. cbn [sys_sender].
        split; [untouched_by_computation | reflexivity].
    + unfold PopFromQueue_wake, bind, ret in Hstep.
      destruct (PopFromQueue_check_untouched (sys_sender st)) as [Hu Ht].
      destruct (PopFromQueue_check (sys_sender st)) as [[rv s1] l1].
      unfold state_of, trace_of in Hu, Ht. cbn [fst snd] in Hu, Ht, Hstep. subst l1.
      destruct ((rv =? 0) && _).
      * injection Hstep as <- <-. cbn [sys_sender]. auto.
      * cbn [app] in Hstep. apply (Hpop _ _ _ Hu eq_refl Hstep).
    + rewrite Hni in Hstep. injection Hstep as <- <-. cbn [sys_sender].
      split; [apply untouched_refl | reflexivity].
    + destruct (flagPackets_untouched (sys_locals st) (sys_sender st)) as [Hu Ht].
      destruct (ARSTREAM_Sender_RunDataThread_flagPackets (sys_locals st) (sys_sender st))
        as [[u s1] l1].
      unfold state_of, trace_of in Hu, Ht. cbn [fst snd] in Hu, Ht. subst l1.
      apply (Hsend 0 s1 [] Hu (eq_refl : List.filter is_callback [] = []) Hstep).
    + apply (Hsend (cnt + 1) (sys_sender st) [] (untouched_refl _)
               (eq_refl : List.filter is_callback [] = []) Hstep).
    + discriminate.
  - destruct (RunDataThread_start_outcomes _ _ _ _ _ Hstep)
      as (_ & [(-> & _) | (-> & _)]); cbn [sys_sender]; apply untouched_effect;
      [apply untouched_refl | untouched_by_computation].
Qed.

Lemma loop_callbacks_cons e tr :
  loop_callbacks (e :: tr) =
    (if loop_label (entry_label e) then List.filter is_callback (entry_actions e) else [])
    ++ loop_callbacks tr.
Proof. reflexivity. Qed.

(** Along a run that installs no frame the current frame stays, the two
    loops call its callback at most once, never when it was already
    called, and the ack packet keeps its frame number and the flags it
    has. *)
Lemma run_keeps_current lbls : forall st st' tr,
  run lbls st = Some (st', tr) ->
  Forall (fun e => is_install e = false) tr ->
  step_effect (sys_sender st) (sys_sender st') (loop_callbacks tr).
Proof.
  induction lbls as [|lbl lbls IH]; intros st st' tr Hrun Hni.
  - injection Hrun as <- <-. apply untouched_effect, untouched_refl.
  - cbn [run] in Hrun.
    destruct (sys_step lbl st) as [[st1 l]|] eqn:Es; [|discriminate].
    destruct (run lbls st1) as [[st2 tr']|] eqn:Er; [|discriminate].
    injection Hrun as <- <-.
    inversion Hni as [|e0 tr0 Hni1 Hni2]; subst e0 tr0. clear Hni.
    rename Hni2 into Hni.
    destruct (step_keeps_current _ _ _ _ Es Hni1) as (F1 & C1 & H1 & N1 & A1 & B1).
    destruct (IH _ _ _ Er Hni) as (F2 & C2 & H2 & N2 & A2 & B2).
    rewrite loop_callbacks_cons. cbn [entry_label entry_actions].
    unfold step_effect.
    split; [rewrite F2; exact F1|]. split; [rewrite C2; exact C1|].
    split.
    { destruct H1 as [[H1a H1b] | (H1a & H1b & H1c)].
      + rewrite H1a. cbn [app].
        destruct H2 as [[H2a H2b] | (H2a & H2b & H2c)].
        * left. split; [assumption | rewrite H2b; exact H1b].
        * right. split; [rewrite <- H1b; exact H2a|]. split; [|assumption].
          rewrite H2b. unfold current_callback. rewrite F1, C1. reflexivity.
      + rewrite H1b.
        destruct H2 as [[H2a H2b] | (H2a & H2b & H2c)].
        * right. rewrite H2a. split; [assumption|].
          split; [reflexivity | rewrite H2b; exact H1c].
        * rewrite H1c in H2a. discriminate. }
    split; [rewrite N2; exact N1|]. split; [rewrite A2; exact A1|].
    intros i Hi. apply B2, B1, Hi.
Qed.

(** The step that installs the popped frame is the block
    [if (waitRes == 1)]. *)
Lemma install_step lat werr wms st st' acts :
  sys_pc st = PcPopped 1 ->
  sys_step (L_Data lat werr wms) st = Some (st', acts) ->
  st' = mkSys (installed (sys_locals st) (sys_sender st)) PcPass
              (installed_locals (sys_locals st)) /\
  acts = cancel_current (sys_sender st).
Proof.
  intros Hpc Hstep.
  assert (Hd : ARSTREAM_Sender_RunDataThread_step lat werr wms st =
               Some (mkSys (installed (sys_locals st) (sys_sender st)) PcPass
                           (installed_locals (sys_locals st)),
                     cancel_current (sys_sender st))).
  { unfold ARSTREAM_Sender_RunDataThread_step. rewrite Hpc. rewrite Z.eqb_refl.
    rewrite ARSTREAM_Sender_RunDataThread_newFrame_spec. reflexivity. }
  cbn [sys_step] in Hstep. rewrite Hd in Hstep. injection Hstep as <- <-. auto.
Qed.

(** C1: take the sender when the callback of its current frame has not
    been called, as it is when the frame has just been installed, and let
    the threads run any steps without installing another frame.  The
    current frame stays, and the ack loop and the data thread together
    call its callback at most once: with FRAME_SENT, with the buffer and
    size of the frame, after which [currentFrameCbWasCalled] is 1.  When
    the data thread then installs the next frame, it calls the callback
    with FRAME_CANCEL if and only if it was not called before, so that
    exactly one callback was made for the replaced frame, and it marks the
    new frame as not called.  The ack loop calls the callback only when
    [currentFrameCbWasCalled] is 0 and all the flags of the frame are set,
    and then sets it to 1. *)
Theorem one_callback_per_current_frame lbls st st' tr :
  run lbls st = Some (st', tr) ->
  currentFrameCbWasCalled (sys_sender st) = 0 ->
  Forall (fun e => is_install e = false) tr ->
  let s := sys_sender st in
  let sent := current_callback ARSTREAM_SENDER_STATUS_FRAME_SENT s in
  let cancel := current_callback ARSTREAM_SENDER_STATUS_FRAME_CANCEL s in
  currentFrame (sys_sender st') = currentFrame s /\
  ((loop_callbacks tr = [] /\ currentFrameCbWasCalled (sys_sender st') = 0) \/
   (loop_callbacks tr = [sent] /\ currentFrameCbWasCalled (sys_sender st') = 1)) /\
  (forall lat werr wms st'' acts,
     sys_pc st' = PcPopped 1 ->
     sys_step (L_Data lat werr wms) st' = Some (st'', acts) ->
     ((loop_callbacks tr = [sent] /\ List.filter is_callback acts = []) \/
      (loop_callbacks tr = [] /\ List.filter is_callback acts = [cancel])) /\
     currentFrameCbWasCalled (sys_sender st'') = 0 /\
     currentFrame (sys_sender st'') = nextFrame (sys_locals st')) /\
  (forall err recvSize recvPacket s0,
     let r := ARSTREAM_Sender_RunAckThread_body err recvSize recvPacket s0 in
     List.filter is_callback (trace_of r) <> [] ->
     currentFrameCbWasCalled s0 = 0 /\
     ARSTREAM_NetworkHeaders_AckPacketAllFlagsSet (ackPacket (state_of r))
       (currentFrameNbFragments s0) = 1 /\
     List.filter is_callback (trace_of r) =
       [current_callback ARSTREAM_SENDER_STATUS_FRAME_SENT s0] /\
     currentFrameCbWasCalled (state_of r) = 1) /\
  (forall l s0,
     let r := ARSTREAM_Sender_RunDataThread_newFrame l s0 in
     List.filter is_callback (trace_of r) =
       (if currentFrameCbWasCalled s0 =? 0
        then [current_callback ARSTREAM_SENDER_STATUS_FRAME_CANCEL s0] else []) /\
     currentFrameCbWasCalled (state_of r) = 0).
Proof.
  intros Hrun Hcb Hni s sent cancel.
  destruct (run_keeps_current _ _ _ _ Hrun Hni) as (F & C & H & _).
  fold s in F, C, H.
  split; [exact F|].
  assert (Hone : (loop_callbacks tr = [] /\ currentFrameCbWasCalled (sys_sender st') = 0) \/
                 (loop_callbacks tr = [sent] /\
                  currentFrameCbWasCalled (sys_sender st') = 1)).
  { destruct H as [[Ha Hb] | (Ha & Hb & Hc)]; [left | right].
    - split; [exact Ha | rewrite Hb; exact Hcb].
    - split; [exact Hb | exact Hc]. }
  split; [exact Hone|]. split; [|split].
  - intros lat werr wms st'' acts Hpc Hstep.
    destruct (install_step _ _ _ _ _ _ Hpc Hstep) as [-> ->]. cbn [sys_sender].
    split; [|split; [reflexivity | unfold installed; cbn [currentFrame];
                                    destruct (nextFrame (sys_locals st')); reflexivity]].
    unfold cancel_current.
    destruct Hone as [[Ha Hb] | [Ha Hb]]; rewrite Hb.
    + right. split; [exact Ha|]. cbn. unfold cancel, current_callback.
      rewrite F, C. reflexivity.
    + left. split; [exact Ha | reflexivity].
  - intros err recvSize recvPacket s0 r Hne.
    destruct (ARSTREAM_Sender_RunAckThread_body_callbacks err recvSize recvPacket s0)
      as (_ & _ & Hb).
    fold r in Hb. destruct Hb as [[Ha _] | (Ha & Hb & Hc & Hd)]; [contradiction|].
    rewrite Hc. cbn. auto.
  - intros l s0 r. subst r. rewrite ARSTREAM_Sender_RunDataThread_newFrame_spec.
    unfold trace_of, state_of, cancel_current. cbn [fst snd].
    split; [|reflexivity]. destruct (currentFrameCbWasCalled s0 =? 0); reflexivity.
Qed.

(** C7: a turn of the ack loop whose packet is not for the frame number of
    [ackPacket] (or that read no whole packet) changes nothing in the
    sender and calls no callback; a whole packet for another frame number
    is dropped without any action at all.  A packet for that frame number
    is merged into [ackPacket] by bitwise or, the frame number being kept:
    every flag of the result is the flag of [ackPacket] or that of the
    packet, so a flag that is set stays set.  When the callback of the
    current frame was already called, no ack calls it again.  Along any
    steps of the threads that install no other frame, the ack packet keeps
    its frame number and every flag that is set. *)
Theorem ARSTREAM_Sender_RunAckThread_body_merges_matching_ack
    err recvSize recvPacket s :
  let r := ARSTREAM_Sender_RunAckThread_body err recvSize recvPacket s in
  (err <> ARNETWORK_OK \/ recvSize <> sizeof_AckPacket \/
   ack_frameNumber (ackPacket s) <> ack_frameNumber recvPacket ->
   state_of r = s /\ List.filter is_callback (trace_of r) = []) /\
  (err = ARNETWORK_OK -> recvSize = sizeof_AckPacket ->
   ack_frameNumber (ackPacket s) <> ack_frameNumber recvPacket ->
   r = (tt, s, [])) /\
  (err = ARNETWORK_OK -> recvSize = sizeof_AckPacket ->
   ack_frameNumber (ackPacket s) = ack_frameNumber recvPacket ->
   ackPacket (state_of r) =
     mkAck (ack_frameNumber (ackPacket s))
           (Z.lor (highPacketsAck (ackPacket s)) (highPacketsAck recvPacket))
           (Z.lor (lowPacketsAck (ackPacket s)) (lowPacketsAck recvPacket)) /\
   (forall i, ack_bit (ackPacket (state_of r)) i =
              ack_bit (ackPacket s) i || ack_bit recvPacket i) /\
   (forall i, ack_bit (ackPacket s) i = true ->
              ack_bit (ackPacket (state_of r)) i = true)) /\
  (currentFrameCbWasCalled s <> 0 ->
   List.filter is_callback (trace_of r) = [] /\
   currentFrameCbWasCalled (state_of r) = currentFrameCbWasCalled s /\
   currentFrame (state_of r) = currentFrame s) /\
  (forall lbls st st' tr,
     run lbls st = Some (st', tr) ->
     Forall (fun e => is_install e = false) tr ->
     ack_frameNumber (ackPacket (sys_sender st')) =
       ack_frameNumber (ackPacket (sys_sender st)) /\
     forall i, ack_bit (ackPacket (sys_sender st)) i = true ->
               ack_bit (ackPacket (sys_sender st')) i = true).
Proof.
  intros r.
  destruct (ARSTREAM_Sender_RunAckThread_body_turn err recvSize recvPacket s)
    as (H1 & H2 & H3 & H4).
  split; [exact H1|]. split; [exact H2|]. split; [exact H3|]. split; [exact H4|].
  intros lbls st st' tr Hrun Hni.
  destruct (run_keeps_current _ _ _ _ Hrun Hni) as (_ & _ & _ & _ & A & B).
  split; [exact A | exact B].
Qed.

(** ** Efficiency *)

Lemma fold_u32_sum cells (idx : list Z) : forall acc,
  fold_left (fun a i => u32 (a + int_at cells i)) idx acc =
    u32 (acc + foldr Z.add 0 (int_at cells <$> idx)) \/ idx = [].
Proof.
  induction idx as [|i idx IH]; intros acc; [right; reflexivity|]. left.
  cbn [fold_left fmap list_fmap foldr].
  destruct (IH (u32 (acc + int_at cells i))) as [-> | ->].
  - unfold u32. rewrite Zplus_mod_idemp_l. f_equal. lia.
  - cbn. rewrite Z.add_0_r. reflexivity.
Qed.

(** The [uint32_t] sum of the C loop is the plain sum modulo 2^32. *)
Lemma efficiency_sum_plain cells : efficiency_sum cells = u32 (plain_sum cells).
Proof.
  unfold efficiency_sum, plain_sum.
  destruct (fold_u32_sum cells (seqZ 0 ARSTREAM_SENDER_EFFICIENCY_AVERAGE_NB_FRAMES) 0)
    as [H | H]; [exact H | discriminate H].
Qed.

Lemma plain_sum_bounds cells (idx : list Z) (b : Z) :
  (forall i, i ∈ idx -> 0 <= int_at cells i < b) ->
  0 <= foldr Z.add 0 (int_at cells <$> idx) <= (b - 1) * Z.of_nat (length idx) /\
  (foldr Z.add 0 (int_at cells <$> idx) = 0 -> forall i, i ∈ idx -> int_at cells i = 0).
Proof.
  induction idx as [|j idx IH]; intros Hb.
  - cbn. split; [lia|]. intros _ i Hi. inversion Hi.
  - destruct IH as [IH1 IH2].
    { intros i Hi. apply Hb. right. exact Hi. }
    pose proof (Hb j ltac:(left)) as Hj.
    cbn [fmap list_fmap foldr length]. split; [nia|].
    intros H0 i Hi. apply elem_of_cons in Hi. destruct Hi as [-> | Hi]; [lia|].
    apply IH2; [lia | exact Hi].
Qed.

Lemma plain_sum_zero cells (idx : list Z) :
  (forall i, i ∈ idx -> int_at cells i = 0) ->
  foldr Z.add 0 (int_at cells <$> idx) = 0.
Proof.
  induction idx as [|j idx IH]; intros Hz; [reflexivity|].
  cbn [fmap list_fmap foldr]. rewrite (Hz j) by left.
  rewrite IH; [reflexivity|]. intros i Hi. apply Hz. right. exact Hi.
Qed.

(** In a state that satisfies the invariant the total does not wrap, and
    a total of 0 comes with 0 fragments sent. *)
Lemma efficiency_inv_sums s :
  efficiency_inv s ->
  totalPackets s = plain_sum (efficiency_nbFragments s) /\
  0 <= totalPackets s /\
  0 <= sentPackets s < 2 ^ 32 /\
  (totalPackets s = 0 -> sentPackets s = 0).
Proof.
  intros (_ & _ & _ & Hcells).
  assert (Hidx : forall i, i ∈ seqZ 0 ARSTREAM_SENDER_EFFICIENCY_AVERAGE_NB_FRAMES ->
                           0 <= i < 15).
  { intros i Hi. apply elem_of_seqZ in Hi.
    unfold ARSTREAM_SENDER_EFFICIENCY_AVERAGE_NB_FRAMES in Hi. lia. }
  destruct (plain_sum_bounds (efficiency_nbFragments s)
              (seqZ 0 ARSTREAM_SENDER_EFFICIENCY_AVERAGE_NB_FRAMES) (2 ^ 16))
    as [Hb Hz].
  { intros i Hi. apply Hcells, Hidx, Hi. }
  rewrite length_seqZ in Hb.
  change (Z.of_nat (Z.to_nat ARSTREAM_SENDER_EFFICIENCY_AVERAGE_NB_FRAMES)) with 15 in Hb.
  fold (plain_sum (efficiency_nbFragments s)) in Hb, Hz.
  unfold totalPackets, sentPackets. rewrite !efficiency_sum_plain.
  rewrite (u32_small (plain_sum (efficiency_nbFragments s))) by lia.
  split; [reflexivity|]. split; [lia|].
  split; [apply Z.mod_pos_bound; lia|].
  intros H0. unfold plain_sum at 1. rewrite plain_sum_zero; [reflexivity|].
  intros i Hi. apply Hcells; [apply Hidx, Hi|]. apply Hz; assumption.
Qed.

Lemma quotient_in_unit_interval a b :
  0 < a <= b ->
  (0 < inject_Z a / inject_Z b)%Q /\ (inject_Z a / inject_Z b <= 1)%Q.
Proof.
  intros [Ha Hab].
  assert (Hb : (0 < inject_Z b)%Q).
  { change 0%Q with (inject_Z 0). rewrite <- Zlt_Qlt. lia. }
  split.
  - apply Qlt_shift_div_l; [exact Hb|]. rewrite Qmult_0_l.
    change 0%Q with (inject_Z 0). rewrite <- Zlt_Qlt. exact Ha.
  - apply Qle_shift_div_r; [exact Hb|]. rewrite Qmult_1_l.
    rewrite <- Zle_Qle. exact Hab.
Qed.

(** ** The invariant of the threads *)

Lemma efficiency_inv_untouched s s' :
  untouched s s' -> efficiency_inv s -> efficiency_inv s'.
Proof.
  intros (_ & _ & _ & E1 & E2 & E3 & _). unfold efficiency_inv.
  rewrite E1, E2, E3. auto.
Qed.

Lemma int_at_insert (l : list Z) j v i :
  0 <= i -> 0 <= j -> (Z.to_nat j < length l)%nat ->
  int_at (<[Z.to_nat j := v]> l) i = if i =? j then v else int_at l i.
Proof.
  intros Hi Hj Hlen. unfold int_at. destruct (i =? j) eqn:E.
  - apply Z.eqb_eq in E. subst. rewrite list_lookup_insert_eq by assumption.
    reflexivity.
  - apply Z.eqb_neq in E. rewrite list_lookup_insert_ne by lia. reflexivity.
Qed.

Lemma compute_fragments_range S nb0 last0 :
  0 <= nb0 < 2 ^ 16 -> 0 <= fst (compute_fragments S nb0 last0) < 2 ^ 16.
Proof.
  intros Hnb. unfold compute_fragments.
  destruct (0 <? S); [|exact Hnb].
  destruct (negb _); cbn [fst]; unfold u16; apply Z.mod_pos_bound; lia.
Qed.

(** Installing a frame keeps the invariant: the cell that records the
    frame that ends gets its number of fragments and the number of
    fragments sent for it, which is 0 when the former is, and the counter
    starts again from 0. *)
Lemma installed_inv l s :
  locals_inv l -> efficiency_inv s ->
  locals_inv (installed_locals l) /\ efficiency_inv (installed l s).
Proof.
  intros [Hnb Hzero] (Hl1 & Hl2 & Hidx & Hcells). split.
  - unfold locals_inv, installed_locals. cbn.
    split; [apply compute_fragments_range; exact Hnb | reflexivity].
  - unfold efficiency_inv, installed. cbn.
    unfold ARSTREAM_SENDER_EFFICIENCY_AVERAGE_NB_FRAMES.
    rewrite (i32_small (efficiency_index s + 1)) by lia.
    assert (Hrem : 0 <= Z.rem (efficiency_index s + 1) 15 < 15).
    { rewrite Z.rem_mod_nonneg by lia. apply Z.mod_pos_bound. lia. }
    set (idx' := Z.rem (efficiency_index s + 1) 15) in *.
    rewrite !length_insert. split; [exact Hl1|]. split; [exact Hl2|].
    split; [exact Hrem|].
    intros i Hi.
    rewrite !int_at_insert by (rewrite ?length_insert; lia).
    destruct (Hcells i Hi) as [Hc1 Hc2].
    destruct (i =? idx'); [split; [lia | reflexivity]|].
    destruct (i =? efficiency_index s); [split; [exact Hnb | exact Hzero]|].
    split; assumption.
Qed.

Lemma data_popped_spec retVal st s0 l0 st1 acts :
  data_popped retVal st s0 l0 = Some (st1, acts) ->
  untouched s0 (sys_sender st1) /\ acts = l0 /\ sys_pc st1 = PcPopped retVal /\
  exists f, sys_locals st1 = with_nextFrame f (sys_locals st).
Proof.
  unfold data_popped. intros Hp.
  destruct (PopFromQueue_copy_untouched retVal (nextFrame (sys_locals st)) s0)
    as [Hu Ht].
  destruct (PopFromQueue_copy retVal (nextFrame (sys_locals st)) s0) as [[f s2] l2].
  unfold state_of, trace_of in Hu, Ht. cbn [fst snd] in Hu, Ht. subst l2.
  injection Hp as <- <-. cbn [sys_sender sys_pc sys_locals].
  rewrite app_nil_r. eauto.
Qed.

Lemma data_send_spec st from s0 l0 st1 acts :
  data_send st from s0 l0 = Some (st1, acts) ->
  sys_sender st1 = s0 /\
  List.filter is_callback acts = List.filter is_callback l0 /\
  nbPackets (sys_locals st1) = nbPackets (sys_locals st) /\
  ((sys_pc st1 = PcLoop /\ sys_locals st1 = sys_locals st) \/
   (exists cnt, sys_pc st1 = PcInSend cnt /\
                from <= cnt < nbPackets (sys_locals st))).
Proof.
  unfold data_send. intros Hp.
  pose proof (sendLoop_spec (sys_locals st) from s0) as Hs. cbn zeta in Hs.
  destruct (ARSTREAM_Sender_RunDataThread_sendLoop (sys_locals st) from s0) as [[[l' nxt] s2] l2].
  unfold state_of, trace_of, result in Hs. cbn [fst snd] in Hs.
  destruct Hs as (-> & Hf & Hnb & Hnxt). injection Hp as <- <-.
  cbn [sys_sender sys_pc sys_locals].
  split; [reflexivity|]. split; [rewrite List.filter_app, Hf; apply app_nil_r|].
  split; [exact Hnb|].
  destruct nxt as [cnt|]; [right; exists cnt; tauto | left; auto].
Qed.

(** Every step of the threads keeps the invariant. *)
Lemma sys_step_inv lbl st st1 acts :
  sys_step lbl st = Some (st1, acts) -> sys_inv st -> sys_inv st1.
Proof.
  intros Hstep (Hloc & Heff & Hpc).
  assert (Hsame : forall s1,
            untouched (sys_sender st) s1 ->
            sys_inv (mkSys s1 (sys_pc st) (sys_locals st))).
  { intros s1 Hu. split; [exact Hloc|].
    split; [apply (efficiency_inv_untouched _ _ Hu Heff) | exact Hpc]. }
  destruct lbl as [b sz fl nb | | err rsz pkt | fn idx status | lat werr wms | param frag];
    cbn [sys_step] in Hstep.
  - destruct (ARSTREAM_Sender_SendNewFrame (Some (sys_sender st)) b sz fl nb)
      as [[[e s'] p'] l] eqn:E.
    destruct (SendNewFrame_untouched _ _ _ _ _ _ _ _ _ E) as (s1 & -> & Hu).
    injection Hstep as <- <-. apply Hsame, Hu.
  - unfold lift_sender, ARSTREAM_Sender_StopSender, modify in Hstep.
    injection Hstep as <- <-. apply Hsame. untouched_by_computation.
  - destruct (ackMutex_free (sys_pc st)); [|discriminate].
    pose proof (ARSTREAM_Sender_RunAckThread_body_callbacks err rsz pkt (sys_sender st))
      as [Hu _].
    unfold lift_sender in Hstep.
    destruct (ARSTREAM_Sender_RunAckThread_body err rsz pkt (sys_sender st)) as [[u s1] l1].
    injection Hstep as <- <-. unfold state_of in Hu. cbn [fst snd] in Hu.
    split; [exact Hloc|]. split; [|exact Hpc].
    cbn [sys_sender]. apply (efficiency_inv_untouched _ _ Hu).
    destruct (sys_sender st); exact Heff.
  - pose proof (NetworkCallback_untouched fn idx status (sys_sender st)) as [Hu _].
    unfold lift_sender in Hstep.
    destruct (ARSTREAM_Sender_NetworkCallback fn idx status (sys_sender st))
      as [[u s1] l1].
    injection Hstep as <- <-. apply Hsame, Hu.
  - unfold ARSTREAM_Sender_RunDataThread_step in Hstep.
    assert (Hpop : forall retVal s0 l0,
              untouched (sys_sender st) s0 ->
              data_popped retVal st s0 l0 = Some (st1, acts) -> sys_inv st1).
    { intros retVal s0 l0 Hu Hp.
      destruct (data_popped_spec _ _ _ _ _ _ Hp) as (Hu2 & _ & Hpc1 & f & Hl1).
      unfold sys_inv. rewrite Hpc1, Hl1.
      split; [exact Hloc|]. split; [|exact I].
      apply (efficiency_inv_untouched (sys_sender st)); [|exact Heff].
      eapply untouched_trans; eassumption. }
    assert (Hsend : forall from s0 l0,
              0 <= from -> untouched (sys_sender st) s0 ->
              data_send st from s0 l0 = Some (st1, acts) -> sys_inv st1).
    { intros from s0 l0 Hfrom Hu Hp.
      destruct (data_send_spec _ _ _ _ _ _ Hp) as (Hs1 & _ & Hnb & Hnext).
      unfold sys_inv. rewrite Hs1.
      split; [|split; [apply (efficiency_inv_untouched _ _ Hu Heff)|]].
      - destruct Hnext as [[_ ->] | (cnt & _ & Hcnt)]; [exact Hloc|].
        unfold locals_inv. rewrite Hnb. split; [apply Hloc | lia].
      - destruct Hnext as [[-> _] | (cnt & -> & Hcnt)]; [exact I | cbn; lia]. }
    destruct (sys_pc st) as [ | | wt tw | waitRes | | cnt | ] eqn:Epc.
    + injection Hstep as <- <-.
      split; [exact Hloc|]. split; [|exact I].
      apply (efficiency_inv_untouched (sys_sender st)); [|exact Heff].
      untouched_by_computation.
    + destruct (threadsShouldStop (sys_sender st) =? 0).
      * destruct (PopFromQueue_check_untouched (sys_sender st)) as [Hu Ht].
        destruct (PopFromQueue_check (sys_sender st)) as [[rv s1] l1].
        unfold state_of in Hu. cbn [fst snd] in Hu.
        destruct (rv =? 0); [|apply (Hpop _ _ _ Hu Hstep)].
        injection Hstep as <- <-.
        split; [exact Hloc|]. split; [|exact I].
        apply (efficiency_inv_untouched _ _ Hu Heff).
      * injection Hstep as <- <-.
        split; [exact Hloc|]. split; [|exact I].
        apply (efficiency_inv_untouched (sys_sender st)); [|exact Heff].
        untouched_by_computation.
    + unfold PopFromQueue_wake, bind, ret in Hstep.
      destruct (PopFromQueue_check_untouched (sys_sender st)) as [Hu Ht].
      destruct (PopFromQueue_check (sys_sender st)) as [[rv s1] l1].
      unfold state_of in Hu. cbn [fst snd] in Hu, Hstep.
      destruct ((rv =? 0) && _); [|apply (Hpop _ _ _ Hu Hstep)].
      injection Hstep as <- <-.
      split; [exact Hloc|]. split; [|exact I].
      apply (efficiency_inv_untouched _ _ Hu Heff).
    + destruct (waitRes =? 1).
      * rewrite ARSTREAM_Sender_RunDataThread_newFrame_spec in Hstep. injection Hstep as <- <-.
        destruct (installed_inv _ _ Hloc Heff) as [H1 H2].
        split; [exact H1|]. split; [exact H2 | exact I].
      * injection Hstep as <- <-. split; [exact Hloc|]. split; [exact Heff | exact I].
    + destruct (flagPackets_untouched (sys_locals st) (sys_sender st)) as [Hu _].
      destruct (ARSTREAM_Sender_RunDataThread_flagPackets (sys_locals st) (sys_sender st))
        as [[u s1] l1].
      unfold state_of in Hu. cbn [fst snd] in Hu.
      apply (Hsend 0 s1 l1 ltac:(lia) Hu Hstep).
    + cbn in Hpc.
      apply (Hsend (cnt + 1) (sys_sender st) [] ltac:(lia) (untouched_refl _) Hstep).
    + discriminate.
  - destruct (RunDataThread_start_outcomes _ _ _ _ _ Hstep)
      as (_ & [(-> & _) | (-> & _)]).
    + split; [exact Hloc|]. split; [exact Heff | exact I].
    + split; [exact Hloc|]. split; [|exact I].
      apply (efficiency_inv_untouched (sys_sender st)); [|exact Heff].
      untouched_by_computation.
Qed.

Lemma int_at_zeros n i : int_at (replicate n 0) i = 0.
Proof.
  unfold int_at. destruct (replicate n 0 !! Z.to_nat i) as [v|] eqn:E; [|reflexivity].
  apply lookup_replicate in E. destruct E as [-> _]. reflexivity.
Qed.

Lemma New_inv env mgr dataId ackId cb size cust s hdr :
  ARSTREAM_Sender_New env mgr dataId ackId cb size cust = (Some s, ARSTREAM_OK) ->
  sys_inv (sys_init s hdr).
Proof.
  unfold ARSTREAM_Sender_New. intros Hnew.
  destruct (_ || _); [discriminate|].
  destruct (malloc_sender env) as [[p1 p2]|]; [|discriminate].
  repeat (match type of Hnew with
          | (if ?c then _ else _) = _ => destruct c; [discriminate|]
          end).
  destruct (malloc_nextFrames env) as [mem|]; [|discriminate].
  injection Hnew as <-. destruct hdr as [[[h1 h2] h3] h4].
  unfold sys_inv, sys_init, locals_inv, efficiency_inv, pc_inv.
  cbn [sys_sender sys_locals sys_pc efficiency_nbFragments efficiency_nbSent
       efficiency_index nbPackets numbersOfFragmentsSentForCurrentFrame].
  pose proof (int_at_zeros 15) as Hz. cbn [replicate] in Hz.
  repeat split; try reflexivity; try lia.
  all: intros; rewrite ?Hz; lia.
Qed.

(** The invariant holds in every state the threads reach. *)
Lemma reachable_inv st : reachable st -> sys_inv st.
Proof.
  induction 1 as [env mgr dataId ackId cb size cust s hdr Hsize Hnew
                 | lbl st st' l Hreach IH Hstep].
  - eapply New_inv; eassumption.
  - eapply sys_step_inv; eassumption.
Qed.

Lemma run_reachable lbls : forall st st' tr,
  reachable st -> run lbls st = Some (st', tr) -> reachable st'.
Proof.
  induction lbls as [|lbl lbls IH]; intros st st' tr Hreach Hrun.
  - injection Hrun as <- _. exact Hreach.
  - cbn [run] in Hrun.
    destruct (sys_step lbl st) as [[st1 l]|] eqn:Es; [|discriminate].
    destruct (run lbls st1) as [[st2 tr']|] eqn:Er; [|discriminate].
    injection Hrun as <- _.
    apply (IH st1 st2 tr'); [|exact Er].
    apply (reachable_step lbl st st1 l Hreach Es).
Qed.

(** C8: [ARSTREAM_Sender_GetEstimatedEfficiency] adds up the fifteen
    cells of [efficiency_nbFragments] and of [efficiency_nbSent]; it
    returns 1 when the second sum is 0, 1 with an error printed when the
    first sum is greater than the second, and their quotient otherwise.  In
    every state the threads reach from a new sender, no cell has fragments
    sent without fragments, so the value returned is greater than 0 and at
    most 1. *)
Theorem GetEstimatedEfficiency_in_unit_interval st :
  reachable st ->
  let s := sys_sender st in
  let r := ARSTREAM_Sender_GetEstimatedEfficiency s in
  totalPackets s = plain_sum (efficiency_nbFragments s) /\
  sentPackets s = plain_sum (efficiency_nbSent s) mod 2 ^ 32 /\
  (sentPackets s = 0 -> r = (1%Q, [])) /\
  (sentPackets s <> 0 -> totalPackets s > sentPackets s -> r = (1%Q, [Print_Error])) /\
  (sentPackets s <> 0 -> totalPackets s <= sentPackets s ->
   r = ((inject_Z (totalPackets s) / inject_Z (sentPackets s))%Q, [])) /\
  (0 < fst r)%Q /\ (fst r <= 1)%Q.
Proof.
  intros Hreach s r.
  destruct (reachable_inv st Hreach) as (_ & Heff & _). fold s in Heff.
  destruct (efficiency_inv_sums s Heff) as (Htot & Htot0 & Hsent & Hzero).
  split; [exact Htot|].
  split; [unfold sentPackets; apply efficiency_sum_plain|].
  subst r. unfold ARSTREAM_Sender_GetEstimatedEfficiency.
  destruct (sentPackets s =? 0) eqn:E0.
  - apply Z.eqb_eq in E0.
    split; [reflexivity|]. split; [intros; lia|]. split; [intros; lia|].
    split; [reflexivity | apply Qle_refl].
  - apply Z.eqb_neq in E0.
    destruct (totalPackets s >? sentPackets s) eqn:E1.
    + apply Z.gtb_lt in E1.
      split; [intros; lia|]. split; [reflexivity|]. split; [intros; lia|].
      split; [reflexivity | apply Qle_refl].
    + rewrite Z.gtb_ltb in E1. apply Z.ltb_ge in E1.
      assert (Hpos : 0 < totalPackets s <= sentPackets s).
      { split; [|exact E1].
        destruct (Z.eq_dec (totalPackets s) 0) as [H0|H0]; [|lia].
        apply Hzero in H0. contradiction. }
      destruct (quotient_in_unit_interval _ _ Hpos) as [Hq1 Hq2].
      split; [intros; lia|]. split; [intros; lia|]. split; [reflexivity|].
      split; assumption.
Qed.

(** ** The ring in the states the threads reach *)

Lemma ring_ok_untouched s s' : ring_untouched s s' -> ring_ok s -> ring_ok s'.
Proof.
  intros (E1 & E2 & E3 & E4 & E5) [Hmax Hlen Hcnt Hget Hadd].
  constructor; rewrite ?E1, ?E2, ?E3, ?E4, ?E5; assumption.
Qed.

Ltac ring_untouched_by_computation :=
  match goal with
  | |- ring_untouched _ _ =>
      first [ match goal with
              | s : ARSTREAM_Sender_t |- _ => solve [destruct s; cbn; repeat split]
              end
            | match goal with
              | |- ring_untouched ?s _ => solve [destruct s; cbn; repeat split]
              end ]
  end.

Lemma SendNewFrame_ring_ok s buf size flush nbPrev err sender' nbPrev' tr :
  ring_ok s ->
  ARSTREAM_Sender_SendNewFrame (Some s) buf size flush nbPrev =
    (err, sender', nbPrev', tr) ->
  exists s', sender' = Some s' /\ ring_ok s'.
Proof.
  intros Hok. unfold ARSTREAM_Sender_SendNewFrame.
  destruct (_ || _); [intros [= <- <- <- <-]; eauto|].
  destruct (_ >? _); [intros [= <- <- <- <-]; eauto|].
  rewrite AddToQueue_spec by assumption. cbn zeta.
  pose proof (after_flush_ok flush s Hok) as Hokf.
  destruct (numberOfWaitingFrames (after_flush flush s) <?
            maxNumberOfNextFrames (after_flush flush s)) eqn:E.
  - apply Z.ltb_lt in E.
    pose proof (enqueued_ok size buf flush _ Hokf E) as Hoke.
    destruct (AddToQueue_retVal s <? 0); [|destruct nbPrev];
      intros [= <- <- <- <-]; eauto.
  - change (-1 <? 0) with true. cbn iota. intros [= <- <- <- <-]. eauto.
Qed.

Lemma PopFromQueue_check_ring_ok s :
  ring_ok s ->
  forall retVal nf,
    ring_ok (state_of (PopFromQueue_copy (result (PopFromQueue_check s)) nf
                         (state_of (PopFromQueue_check s)))) /\
    (retVal = result (PopFromQueue_check s) -> retVal = 0 ->
     state_of (PopFromQueue_check s) = s).
Proof.
  intros Hok retVal nf.
  destruct (PopFromQueue_check_spec s) as [Hready Hnot].
  destruct (head_is_ready_dec s) as [Hr|Hr].
  - rewrite (Hready Hr). unfold result, state_of. cbn [fst snd].
    rewrite PopFromQueue_copy_taken. cbn [fst snd].
    split; [apply waiting_frames_popped; [assumption | apply Hr]|].
    intros -> H. discriminate H.
  - rewrite (Hnot Hr). unfold result, state_of. cbn [fst snd].
    split; [exact Hok | reflexivity].
Qed.

Lemma ARSTREAM_Sender_RunAckThread_body_ring err recvSize recvPacket s :
  ring_untouched s (state_of (ARSTREAM_Sender_RunAckThread_body err recvSize recvPacket s)).
Proof.
  assert (Hskip : err <> ARNETWORK_OK \/ recvSize <> sizeof_AckPacket \/
                  ack_frameNumber (ackPacket s) <> ack_frameNumber recvPacket ->
                  ring_untouched s
                    (state_of (ARSTREAM_Sender_RunAckThread_body err recvSize recvPacket s))).
  { intros H. destruct (ARSTREAM_Sender_RunAckThread_body_skip err recvSize recvPacket s H) as [-> _].
    repeat split. }
  destruct err; try (apply Hskip; left; discriminate).
  destruct (Z.eq_dec recvSize sizeof_AckPacket) as [->|Hs];
    [|apply Hskip; right; left; exact Hs].
  destruct (Z.eq_dec (ack_frameNumber (ackPacket s)) (ack_frameNumber recvPacket))
    as [Hn|Hn]; [|apply Hskip; right; right; exact Hn].
  rewrite ARSTREAM_Sender_RunAckThread_body_match by assumption. cbn zeta.
  destruct (_ && _); unfold state_of; cbn [fst snd]; ring_untouched_by_computation.
Qed.

Lemma NetworkCallback_ring fn idx status s :
  ring_untouched s (state_of (ARSTREAM_Sender_NetworkCallback fn idx status s)).
Proof.
  unfold ARSTREAM_Sender_NetworkCallback.
  destruct status; run_monad; unfold state_of; cbn [fst snd];
    try ring_untouched_by_computation.
  destruct (fn =? _); cbn [fst snd]; ring_untouched_by_computation.
Qed.

(** Every step of the threads keeps the ring well formed. *)
Lemma sys_step_ring_ok lbl st st1 acts :
  sys_step lbl st = Some (st1, acts) ->
  ring_ok (sys_sender st) -> ring_ok (sys_sender st1).
Proof.
  intros Hstep Hok.
  destruct lbl as [b sz fl nb | | err rsz pkt | fn idx status | lat werr wms | param frag];
    cbn [sys_step] in Hstep.
  - destruct (ARSTREAM_Sender_SendNewFrame (Some (sys_sender st)) b sz fl nb)
      as [[[e s'] p'] l] eqn:E.
    destruct (SendNewFrame_ring_ok _ _ _ _ _ _ _ _ _ Hok E) as (s1 & -> & Hok1).
    injection Hstep as <- <-. exact Hok1.
  - unfold lift_sender, ARSTREAM_Sender_StopSender, modify in Hstep.
    injection Hstep as <- <-. cbn [sys_sender].
    apply (ring_ok_untouched (sys_sender st)); [|exact Hok].
    ring_untouched_by_computation.
  - destruct (ackMutex_free (sys_pc st)); [|discriminate].
    pose proof (ARSTREAM_Sender_RunAckThread_body_ring err rsz pkt (sys_sender st)) as Hu.
    unfold lift_sender in Hstep.
    destruct (ARSTREAM_Sender_RunAckThread_body err rsz pkt (sys_sender st)) as [[u s1] l1].
    injection Hstep as <- <-. exact (ring_ok_untouched _ _ Hu Hok).
  - pose proof (NetworkCallback_ring fn idx status (sys_sender st)) as Hu.
    unfold lift_sender in Hstep.
    destruct (ARSTREAM_Sender_NetworkCallback fn idx status (sys_sender st))
      as [[u s1] l1].
    injection Hstep as <- <-. exact (ring_ok_untouched _ _ Hu Hok).
  - unfold ARSTREAM_Sender_RunDataThread_step in Hstep.
    assert (Hsend : forall from s0 l0,
              ring_ok s0 -> data_send st from s0 l0 = Some (st1, acts) ->
              ring_ok (sys_sender st1)).
    { intros from s0 l0 Hok0 Hp.
      destruct (data_send_spec _ _ _ _ _ _ Hp) as (-> & _). exact Hok0. }
    pose proof (PopFromQueue_check_ring_ok (sys_sender st) Hok) as Hpop.
    destruct (sys_pc st) as [ | | wt tw | waitRes | | cnt | ].
    + injection Hstep as <- <-. cbn [sys_sender].
      apply (ring_ok_untouched (sys_sender st)); [|exact Hok].
      ring_untouched_by_computation.
    + destruct (threadsShouldStop (sys_sender st) =? 0).
      * destruct (PopFromQueue_check (sys_sender st)) as [[rv s1] l1] eqn:Ec.
        unfold result, state_of in Hpop. cbn [fst snd] in Hpop.
        destruct (Hpop rv (nextFrame (sys_locals st))) as [Hp1 Hp2].
        destruct (rv =? 0) eqn:Erv.
        -- injection Hstep as <- <-. cbn [sys_sender].
           apply Z.eqb_eq in Erv. rewrite (Hp2 eq_refl Erv). exact Hok.
        -- unfold data_popped in Hstep.
           destruct (PopFromQueue_copy rv (nextFrame (sys_locals st)) s1)
             as [[f s2] l2].
           injection Hstep as <- <-. exact Hp1.
      * injection Hstep as <- <-. cbn [sys_sender].
        apply (ring_ok_untouched (sys_sender st)); [|exact Hok].
        ring_untouched_by_computation.
    + unfold PopFromQueue_wake, bind, ret in Hstep.
      destruct (PopFromQueue_check (sys_sender st)) as [[rv s1] l1] eqn:Ec.
      unfold result, state_of in Hpop. cbn [fst snd] in Hpop, Hstep.
      destruct (Hpop rv (nextFrame (sys_locals st))) as [Hp1 Hp2].
      destruct (rv =? 0) eqn:Erv; cbn [andb] in Hstep.
      * apply Z.eqb_eq in Erv. pose proof (Hp2 eq_refl Erv) as Hs1. subst s1.
        destruct (_ =? 0).
        -- injection Hstep as <- <-. exact Hok.
        -- unfold data_popped in Hstep.
           destruct (PopFromQueue_copy rv (nextFrame (sys_locals st)) (sys_sender st))
             as [[f s2] l2].
           injection Hstep as <- <-. exact Hp1.
      * unfold data_popped in Hstep.
        destruct (PopFromQueue_copy rv (nextFrame (sys_locals st)) s1) as [[f s2] l2].
        injection Hstep as <- <-. exact Hp1.
    + destruct (waitRes =? 1).
      * rewrite ARSTREAM_Sender_RunDataThread_newFrame_spec in Hstep. injection Hstep as <- <-.
        cbn [sys_sender]. apply (ring_ok_untouched (sys_sender st)); [|exact Hok].
        unfold installed. repeat split.
      * injection Hstep as <- <-. exact Hok.
    + apply (Hsend 0 (state_of (ARSTREAM_Sender_RunDataThread_flagPackets (sys_locals st) (sys_sender st)))
               (trace_of (ARSTREAM_Sender_RunDataThread_flagPackets (sys_locals st) (sys_sender st)))).
      * apply (ring_ok_untouched (sys_sender st)); [|exact Hok].
        unfold ARSTREAM_Sender_RunDataThread_flagPackets. run_monad. unfold state_of. cbn [fst snd].
        ring_untouched_by_computation.
      * destruct (ARSTREAM_Sender_RunDataThread_flagPackets (sys_locals st) (sys_sender st))
          as [[u s1] l1]. exact Hstep.
    + apply (Hsend (cnt + 1) (sys_sender st) [] Hok Hstep).
    + discriminate.
  - destruct (RunDataThread_start_outcomes _ _ _ _ _ Hstep)
      as (_ & [(-> & _) | (-> & _)]); cbn [sys_sender]; [exact Hok|].
    apply (ring_ok_untouched (sys_sender st)); [|exact Hok].
    ring_untouched_by_computation.
Qed.

Lemma New_ring_ok env mgr dataId ackId cb size cust s :
  0 <= size < 2 ^ 32 ->
  ARSTREAM_Sender_New env mgr dataId ackId cb size cust = (Some s, ARSTREAM_OK) ->
  ring_ok s /\ maxNumberOfNextFrames s = size.
Proof.
  unfold ARSTREAM_Sender_New. intros Hsize Hnew.
  destruct (_ || _); [discriminate|].
  destruct (malloc_sender env) as [[p1 p2]|]; [|discriminate].
  repeat (match type of Hnew with
          | (if ?c then _ else _) = _ => destruct c; [discriminate|]
          end).
  destruct (malloc_nextFrames env) as [mem|]; [|discriminate].
  injection Hnew as <-. split; [|reflexivity].
  constructor; cbn [maxNumberOfNextFrames nextFrames numberOfWaitingFrames
                    indexGetNextFrame indexAddNextFrame]; try lia.
  - rewrite length_fmap, length_seqZ. reflexivity.
  - destruct (size =? 0) eqn:E; [reflexivity|].
    apply Z.eqb_neq in E. rewrite Z.add_0_r. rewrite Z.mod_0_l by lia. reflexivity.
Qed.

(** The ring is well formed in every state the threads reach. *)
Lemma reachable_ring_ok st : reachable st -> ring_ok (sys_sender st).
Proof.
  induction 1 as [env mgr dataId ackId cb size cust s hdr Hsize Hnew
                 | lbl st st' l Hreach IH Hstep].
  - destruct hdr as [[[h1 h2] h3] h4]. cbn [sys_init sys_sender].
    apply (New_ring_ok _ _ _ _ _ _ _ _ Hsize Hnew).
  - eapply sys_step_ring_ok; eassumption.
Qed.

(** ** The fragments of a frame *)

Section Coverage.

Hypothesis FRAGMENT_SIZE_is_int : 0 < ARSTREAM_NETWORK_HEADERS_FRAGMENT_SIZE < 2 ^ 31.
Hypothesis MAX_FRAME_SIZE_in_fragments :
  ARSTREAM_NETWORK_HEADERS_MAX_FRAME_SIZE <= 128 * ARSTREAM_NETWORK_HEADERS_FRAGMENT_SIZE.



End Coverage.

(** ** Creation *)

(** The three outcomes of [ARSTREAM_Sender_New]. *)
Lemma New_outcomes env mgr dataId ackId cb size cust :
  let failure :=
    malloc_sender env = None \/ init_packetsToSendMutex env <> 0 \/
    init_ackMutex env <> 0 \/ init_nextFrameMutex env <> 0 \/
    init_nextFrameCond env <> 0 \/ malloc_nextFrames env = None in
  let r := ARSTREAM_Sender_New env mgr dataId ackId cb size cust in
  (r = (None, ARSTREAM_ERROR_BAD_PARAMETERS) /\ (mgr = NULL \/ cb = NULL)) \/
  (r = (None, ARSTREAM_ERROR_ALLOC) /\ mgr <> NULL /\ cb <> NULL /\ failure) \/
  ((exists s, r = (Some s, ARSTREAM_OK)) /\ mgr <> NULL /\ cb <> NULL /\ ~ failure).
Proof.
  intros failure r. subst failure r. unfold ARSTREAM_Sender_New.
  destruct (mgr =? NULL) eqn:Em; cbn [orb];
    [apply Z.eqb_eq in Em; left; split; [reflexivity | left; exact Em]|].
  destruct (cb =? NULL) eqn:Ec; cbn [orb];
    [apply Z.eqb_eq in Ec; left; split; [reflexivity | right; exact Ec]|].
  apply Z.eqb_neq in Em, Ec. right.
  destruct (malloc_sender env) as [[p1 p2]|];
    [|left; split; [reflexivity|]; split; [exact Em|]; split; [exact Ec|]; left; reflexivity].
  destruct (init_packetsToSendMutex env =? 0) eqn:E1; cbn [negb];
    [apply Z.eqb_eq in E1 | apply Z.eqb_neq in E1; left; auto 10].
  destruct (init_ackMutex env =? 0) eqn:E2; cbn [negb];
    [apply Z.eqb_eq in E2 | apply Z.eqb_neq in E2; left; auto 10].
  destruct (init_nextFrameMutex env =? 0) eqn:E3; cbn [negb];
    [apply Z.eqb_eq in E3 | apply Z.eqb_neq in E3; left; auto 10].
  destruct (init_nextFrameCond env =? 0) eqn:E4; cbn [negb];
    [apply Z.eqb_eq in E4 | apply Z.eqb_neq in E4; left; auto 10].
  destruct (malloc_nextFrames env) as [mem|]; [|left; auto 10].
  right. split; [eexists; reflexivity|]. split; [exact Em|]. split; [exact Ec|].
  intros [H|[H|[H|[H|[H|H]]]]]; congruence.
Qed.

(** X3: [ARSTREAM_Sender_New] returns a sender exactly when it reports
    [ARSTREAM_OK].  It reports BAD_PARAMETERS exactly when the manager or
    the callback is null, whatever the state of the system and the capacity
    asked; otherwise it reports ALLOC exactly when an allocation or the
    initialisation of a mutex or of the condition fails; it reports no
    other error. *)
Theorem ARSTREAM_Sender_New_errors env mgr dataId ackId cb size cust :
  let r := ARSTREAM_Sender_New env mgr dataId ackId cb size cust in
  (is_Some (fst r) <-> snd r = ARSTREAM_OK) /\
  (snd r = ARSTREAM_ERROR_BAD_PARAMETERS <-> mgr = NULL \/ cb = NULL) /\
  (snd r = ARSTREAM_ERROR_ALLOC <->
   mgr <> NULL /\ cb <> NULL /\
   (malloc_sender env = None \/ init_packetsToSendMutex env <> 0 \/
    init_ackMutex env <> 0 \/ init_nextFrameMutex env <> 0 \/
    init_nextFrameCond env <> 0 \/ malloc_nextFrames env = None)) /\
  (snd r = ARSTREAM_OK \/ snd r = ARSTREAM_ERROR_BAD_PARAMETERS \/
   snd r = ARSTREAM_ERROR_ALLOC).
Proof.
  intros r. subst r.
  pose proof (New_outcomes env mgr dataId ackId cb size cust) as Hout.
  cbn zeta in Hout.
  set (failure := malloc_sender env = None \/ _) in *.
  set (r := ARSTREAM_Sender_New env mgr dataId ackId cb size cust) in *.
  clearbody r failure.
  destruct Hout as [[-> Hnull] | [(-> & Hm & Hc & Hf) | ([s ->] & Hm & Hc & Hf)]];
    cbn [fst snd].
  - split; [split; [intros [x Hx]; discriminate | discriminate]|].
    split; [split; [intros _; exact Hnull | reflexivity]|].
    split; [split; [discriminate | intros (Hm & Hc & _); destruct Hnull; contradiction]|].
    right; left; reflexivity.
  - split; [split; [intros [x Hx]; discriminate | discriminate]|].
    split; [split; [discriminate | intros [H|H]; contradiction]|].
    split; [split; [intros _; auto | reflexivity]|].
    right; right; reflexivity.
  - split; [split; [reflexivity | eauto]|].
    split; [split; [discriminate | intros [H|H]; contradiction]|].
    split; [split; [discriminate | intros (_ & _ & H); contradiction]|].
    left; reflexivity.
Qed.

(** The sender [ARSTREAM_Sender_New] returns, field by field. *)
Lemma New_sender_state env mgr dataId ackId cb size cust s :
  0 <= size < 2 ^ 32 ->
  ARSTREAM_Sender_New env mgr dataId ackId cb size cust = (Some s, ARSTREAM_OK) ->
  (manager s = mgr /\ dataBufferID s = dataId /\ ackBufferID s = ackId /\
   callback s = cb /\ maxNumberOfNextFrames s = size /\ custom s = cust) /\
  (ring_ok s /\ numberOfWaitingFrames s = 0 /\ waiting_frames s = [] /\
   nextFrameNumber s = 0) /\
  (currentFrame s = Frame_zero /\ currentFrameNbFragments s = 0 /\
   currentFrameCbWasCalled s = 0) /\
  (threadsShouldStop s = 0 /\ dataThreadStarted s = 0 /\ ackThreadStarted s = 0).
Proof.
  intros Hsize Hnew.
  destruct (New_ring_ok _ _ _ _ _ _ _ _ Hsize Hnew) as [Hok Hmax].
  unfold ARSTREAM_Sender_New in Hnew.
  destruct (_ || _); [discriminate|].
  destruct (malloc_sender env) as [[p1 p2]|]; [|discriminate].
  repeat (match type of Hnew with
          | (if ?c then _ else _) = _ => destruct c; [discriminate|]
          end).
  destruct (malloc_nextFrames env) as [mem|]; [|discriminate].
  injection Hnew as <-.
  split; [cbn; tauto|]. split; [|split; cbn; tauto].
  split; [exact Hok|]. cbn. tauto.
Qed.

(** X4: the sender [ARSTREAM_Sender_New] returns keeps the six parameters
    it was given; its queue is empty and well formed, with the capacity
    asked; its current frame is the empty frame, whose buffer is null, with
    a callback still due; no frame number was given out and no thread runs.
    Right away its estimated efficiency is 1 and [ARSTREAM_Sender_Delete]
    accepts it and clears the pointer. *)
Theorem ARSTREAM_Sender_New_sender env mgr dataId ackId cb size cust s :
  0 <= size < 2 ^ 32 ->
  ARSTREAM_Sender_New env mgr dataId ackId cb size cust = (Some s, ARSTREAM_OK) ->
  (manager s = mgr /\ dataBufferID s = dataId /\ ackBufferID s = ackId /\
   callback s = cb /\ maxNumberOfNextFrames s = size /\ custom s = cust) /\
  (ring_ok s /\ numberOfWaitingFrames s = 0 /\ waiting_frames s = [] /\
   nextFrameNumber s = 0) /\
  (currentFrame s = Frame_zero /\ currentFrameNbFragments s = 0 /\
   currentFrameCbWasCalled s = 0) /\
  (threadsShouldStop s = 0 /\ dataThreadStarted s = 0 /\ ackThreadStarted s = 0) /\
  ARSTREAM_Sender_GetEstimatedEfficiency s = (1%Q, []) /\
  ARSTREAM_Sender_Delete (Some (Some s)) = (ARSTREAM_OK, Some None, []).
Proof.
  intros Hsize Hnew.
  destruct (New_ring_ok _ _ _ _ _ _ _ _ Hsize Hnew) as [Hok Hmax].
  unfold ARSTREAM_Sender_New in Hnew.
  destruct (_ || _); [discriminate|].
  destruct (malloc_sender env) as [[p1 p2]|]; [|discriminate].
  repeat (match type of Hnew with
          | (if ?c then _ else _) = _ => destruct c; [discriminate|]
          end).
  destruct (malloc_nextFrames env) as [mem|]; [|discriminate].
  injection Hnew as <-.
  split; [cbn; tauto|]. split; [|split; [cbn; tauto|]].
  - split; [exact Hok|]. cbn. tauto.
  - split; [cbn; tauto|]. split; reflexivity.
Qed.

(** ** What a step does *)

(** A submission is all or nothing: when [ARSTREAM_Sender_SendNewFrame]
    does not answer [ARSTREAM_OK] the sender is as it was and nothing was
    done, not even the flush; when it does, the frame is in the queue. *)
Lemma SendNewFrame_outcomes s b sz fl nb :
  ring_ok s -> capacity_fits_int s ->
  (exists err, err <> ARSTREAM_OK /\
     ARSTREAM_Sender_SendNewFrame (Some s) b sz fl nb = (err, Some s, nb, [])) \/
  (b <> NULL /\ sz <> 0 /\ (fl = 0 \/ fl = 1) /\
   sz <= ARSTREAM_NETWORK_HEADERS_MAX_FRAME_SIZE /\
   numberOfWaitingFrames (after_flush fl s) < maxNumberOfNextFrames s /\
   ARSTREAM_Sender_SendNewFrame (Some s) b sz fl nb =
     (ARSTREAM_OK, Some (enqueued sz b fl (after_flush fl s)),
      match nb with Some _ => Some (backlog s) | None => None end,
      flush_trace fl s ++ [Cond_Signal])).
Proof.
  intros Hok Hcap. unfold ARSTREAM_Sender_SendNewFrame.
  destruct ((b =? NULL) || (sz =? 0) || (negb (fl =? 0) && negb (fl =? 1))) eqn:Ebad.
  { left. exists ARSTREAM_ERROR_BAD_PARAMETERS. split; [discriminate | reflexivity]. }
  apply orb_false_iff in Ebad. destruct Ebad as [Ebad Efl].
  apply orb_false_iff in Ebad. destruct Ebad as [Eb Esz].
  apply Z.eqb_neq in Eb, Esz.
  assert (Hfl : fl = 0 \/ fl = 1).
  { apply andb_false_iff in Efl. rewrite !negb_false_iff, !Z.eqb_eq in Efl. exact Efl. }
  destruct (sz >? ARSTREAM_NETWORK_HEADERS_MAX_FRAME_SIZE) eqn:Emax.
  { left. exists ARSTREAM_ERROR_FRAME_TOO_LARGE. split; [discriminate | reflexivity]. }
  rewrite Z.gtb_ltb in Emax. apply Z.ltb_ge in Emax.
  rewrite AddToQueue_spec by assumption. cbn zeta.
  destruct (after_flush_fields fl s Hok) as (Hmx & Had & Hnf & Hnn & Hcb & Hc).
  rewrite Hmx.
  pose proof (ring_count _ Hok) as Hcnt. pose proof (ring_max _ Hok) as Hmax.
  destruct (numberOfWaitingFrames (after_flush fl s) <? maxNumberOfNextFrames s) eqn:E.
  - apply Z.ltb_lt in E. right.
    rewrite (AddToQueue_retVal_backlog s Hok Hcap).
    pose proof (backlog_nonneg s Hok) as Hb.
    destruct (backlog s <? 0) eqn:Eb0; [apply Z.ltb_lt in Eb0; lia|].
    repeat (split; [assumption|]). destruct nb; reflexivity.
  - apply Z.ltb_ge in E. left. exists ARSTREAM_ERROR_QUEUE_FULL.
    split; [discriminate|]. change (-1 <? 0) with true. cbn iota.
    assert (Hsame : after_flush fl s = s /\ flush_trace fl s = []).
    { rewrite after_flush_eq by assumption. unfold flush_trace.
      destruct (fl =? 1) eqn:E1; [|split; reflexivity].
      rewrite Hc in E. assert (Hz : numberOfWaitingFrames s = 0) by lia.
      pose proof (ring_add _ Hok) as Hadd.
      assert (Hm0 : maxNumberOfNextFrames s = 0) by lia.
      rewrite Hm0 in Hadd. cbn in Hadd.
      unfold waiting_frames. rewrite Hz. split; [|reflexivity].
      destruct s; cbn in *. subst. reflexivity. }
    destruct Hsame as [-> ->]. reflexivity.
Qed.

(** A turn of the ack loop writes [ackPacket] at most, unless it reports
    the current frame: then it also sets [currentFrameCbWasCalled]. *)
Lemma RunAckThread_body_outcomes err recvSize recvPacket s :
  let r := ARSTREAM_Sender_RunAckThread_body err recvSize recvPacket s in
  (exists p, state_of r = set_ackPacket p s /\
             List.filter is_callback (trace_of r) = []) \/
  (exists p, currentFrameCbWasCalled s = 0 /\
             state_of r = set_currentFrameCbWasCalled 1 (set_ackPacket p s) /\
             trace_of r = [current_callback ARSTREAM_SENDER_STATUS_FRAME_SENT s;
                           Cond_Signal]).
Proof.
  intros r. subst r.
  assert (Heta : set_ackPacket (ackPacket s) s = s) by (destruct s; reflexivity).
  destruct (Z.eq_dec (ack_frameNumber (ackPacket s)) (ack_frameNumber recvPacket))
    as [Hn|Hn].
  2:{ destruct (ARSTREAM_Sender_RunAckThread_body_skip err recvSize recvPacket s)
        as [Hs Ht]; [auto|]. left. exists (ackPacket s). rewrite Hs, Ht, Heta. auto. }
  destruct (Z.eq_dec recvSize sizeof_AckPacket) as [->|Hsz].
  2:{ destruct (ARSTREAM_Sender_RunAckThread_body_skip err recvSize recvPacket s)
        as [Hs Ht]; [auto|]. left. exists (ackPacket s). rewrite Hs, Ht, Heta. auto. }
  destruct err.
  - rewrite ARSTREAM_Sender_RunAckThread_body_match by assumption. cbn zeta.
    destruct (currentFrameCbWasCalled s =? 0) eqn:Ecb; cbn [andb].
    + apply Z.eqb_eq in Ecb.
      destruct (_ =? 1);
        [right | left]; eexists; unfold state_of, trace_of; cbn [fst snd]; eauto.
    + left. eexists. unfold state_of, trace_of. cbn [fst snd]. eauto.
  - left. exists (ackPacket s). rewrite Heta. cbn. auto.
  - left. exists (ackPacket s). rewrite Heta. cbn. auto.
Qed.

(** The network callback writes [packetsToSend] at most. *)
Lemma NetworkCallback_outcomes fn idx status s :
  exists p, ARSTREAM_Sender_NetworkCallback fn idx status s = (tt, set_packetsToSend p s, []).
Proof.
  assert (Heta : set_packetsToSend (packetsToSend s) s = s) by (destruct s; reflexivity).
  unfold ARSTREAM_Sender_NetworkCallback.
  destruct status; [|exists (packetsToSend s); rewrite Heta; reflexivity ..].
  run_monad. destruct (fn =? _).
  - eexists. reflexivity.
  - exists (packetsToSend s). rewrite Heta. reflexivity.
Qed.

(** The steps of the data thread, one by one: it starts; it ends; it
    finds no frame ready and waits or gives up at a timeout; it pops the
    head; it installs the frame it popped or passes; it flags and sends. *)
Lemma RunDataThread_step_outcomes lat werr wms st st1 acts :
  ring_ok (sys_sender st) ->
  ARSTREAM_Sender_RunDataThread_step lat werr wms st = Some (st1, acts) ->
  let s := sys_sender st in
  let l := sys_locals st in
  (sys_pc st = PcStart /\
   st1 = mkSys (set_dataThreadStarted 1 s) PcLoop l /\ acts = []) \/
  (sys_pc st = PcLoop /\ threadsShouldStop s <> 0 /\
   st1 = mkSys (set_dataThreadStarted 0 s) PcEnded l /\ acts = []) \/
  (((sys_pc st = PcLoop /\ threadsShouldStop s = 0 /\
     sys_pc st1 = PcWait (PopFromQueue_waitTime lat) 0) \/
    (exists wt tw, sys_pc st = PcWait wt tw /\
       (sys_pc st1 = (if werr =? ETIMEDOUT then PcPopped 0
                      else PcWait wt (i32 (tw + wms)))))) /\
   ~ head_is_ready s /\ sys_sender st1 = s /\ sys_locals st1 = l /\ acts = []) \/
  (((sys_pc st = PcLoop /\ threadsShouldStop s = 0) \/
    (exists wt tw, sys_pc st = PcWait wt tw)) /\
   head_is_ready s /\
   st1 = mkSys (popped s) (PcPopped 1) (with_nextFrame (head_frame s) l) /\
   acts = []) \/
  (sys_pc st = PcPopped 1 /\
   st1 = mkSys (installed l s) PcPass (installed_locals l) /\
   acts = cancel_current s) \/
  (exists w, sys_pc st = PcPopped w /\ w <> 1 /\ st1 = mkSys s PcPass l /\ acts = []) \/
  ((sys_pc st = PcPass \/ exists cnt, sys_pc st = PcInSend cnt) /\
   (exists p, sys_sender st1 = set_packetsToSend p s) /\
   List.filter is_callback acts = [] /\
   nextFrame (sys_locals st1) = nextFrame l /\
   nbPackets (sys_locals st1) = nbPackets l /\
   (sys_pc st1 = PcLoop \/
    exists cnt', sys_pc st1 = PcInSend cnt' /\ cnt' < nbPackets l /\
                 match sys_pc st with
                 | PcInSend cnt => cnt < cnt'
                 | _ => 0 <= cnt'
                 end)).
Proof.
  intros Hok Hstep s l. subst s l.
  unfold ARSTREAM_Sender_RunDataThread_step in Hstep.
  assert (Hwith : with_nextFrame (nextFrame (sys_locals st)) (sys_locals st) =
                  sys_locals st) by (destruct (sys_locals st); reflexivity).
  destruct (PopFromQueue_check_spec (sys_sender st)) as [Hready Hnot].
  assert (Hsend : forall from s0 l0,
            (exists p, s0 = set_packetsToSend p (sys_sender st)) ->
            List.filter is_callback l0 = [] ->
            data_send st from s0 l0 = Some (st1, acts) ->
            (exists p, sys_sender st1 = set_packetsToSend p (sys_sender st)) /\
            List.filter is_callback acts = [] /\
            nextFrame (sys_locals st1) = nextFrame (sys_locals st) /\
            nbPackets (sys_locals st1) = nbPackets (sys_locals st) /\
            (sys_pc st1 = PcLoop \/
             exists cnt', sys_pc st1 = PcInSend cnt' /\
                          cnt' < nbPackets (sys_locals st) /\ from <= cnt')).
  { intros from s0 l0 Hs0 Hl0 Hp.
    destruct (data_send_spec _ _ _ _ _ _ Hp) as (Hs1 & Hf & Hnb & Hnext).
    split; [rewrite Hs1; exact Hs0|]. split; [rewrite Hf; exact Hl0|].
    split; [|split; [exact Hnb|]].
    - unfold data_send in Hp.
      unfold ARSTREAM_Sender_RunDataThread_sendLoop,
        ARSTREAM_Sender_RunDataThread_sendFragment in Hp.
      revert Hp. run_monad.
      destruct (next_to_send s0 (nbPackets (sys_locals st)) from);
        cbn [fst snd]; intros Hp; injection Hp as <- <-; reflexivity.
    - destruct Hnext as [[Hpc _] | (cnt & Hpc & Hc)]; [left; exact Hpc|].
      right. exists cnt. split; [exact Hpc | lia]. }
  destruct (sys_pc st) as [ | | wt tw | waitRes | | cnt | ] eqn:Epc.
  - injection Hstep as <- <-. left. auto.
  - destruct (threadsShouldStop (sys_sender st) =? 0) eqn:Estop.
    + apply Z.eqb_eq in Estop.
      destruct (head_is_ready_dec (sys_sender st)) as [Hr|Hr].
      * rewrite (Hready Hr) in Hstep. change (1 =? 0) with false in Hstep. cbn iota in Hstep.
        unfold data_popped in Hstep. rewrite PopFromQueue_copy_taken in Hstep.
        injection Hstep as <- <-.
        right; right; right; left. split; [left; auto|]. auto.
      * rewrite (Hnot Hr) in Hstep. change (0 =? 0) with true in Hstep. cbn iota in Hstep.
        injection Hstep as <- <-.
        right; right; left. split; [left; auto|]. auto.
    + apply Z.eqb_neq in Estop. injection Hstep as <- <-. right; left. auto.
  - unfold PopFromQueue_wake, bind, ret in Hstep.
    destruct (head_is_ready_dec (sys_sender st)) as [Hr|Hr].
    + rewrite (Hready Hr) in Hstep. cbn [fst snd] in Hstep.
      change (1 =? 0) with false in Hstep. cbn [andb] in Hstep.
      unfold data_popped in Hstep. rewrite PopFromQueue_copy_taken in Hstep.
      injection Hstep as <- <-.
      right; right; right; left. split; [right; eauto|]. auto.
    + rewrite (Hnot Hr) in Hstep. cbn [fst snd] in Hstep.
      change (0 =? 0) with true in Hstep. cbn [andb] in Hstep.
      right; right; left.
      destruct (werr =? ETIMEDOUT) eqn:Eto.
      * change (1 =? 0) with false in Hstep. cbn iota in Hstep.
        unfold data_popped, PopFromQueue_copy in Hstep.
        change (0 =? 1) with false in Hstep. cbn iota in Hstep.
        unfold ret in Hstep. rewrite Hwith in Hstep.
        injection Hstep as <- <-. cbn [sys_pc sys_sender sys_locals].
        split; [right; exists wt, tw; auto|]. auto.
      * change (0 =? 0) with true in Hstep. cbn iota in Hstep.
        injection Hstep as <- <-. cbn [sys_pc sys_sender sys_locals].
        split; [right; exists wt, tw; auto|]. auto.
  - destruct (waitRes =? 1) eqn:Ew.
    + apply Z.eqb_eq in Ew. subst waitRes.
      rewrite ARSTREAM_Sender_RunDataThread_newFrame_spec in Hstep.
      injection Hstep as <- <-. right; right; right; right; left. auto.
    + apply Z.eqb_neq in Ew. injection Hstep as <- <-.
      right; right; right; right; right; left. exists waitRes. auto.
  - right; right; right; right; right; right.
    split; [left; reflexivity|].
    assert (Hflag : exists p,
              ARSTREAM_Sender_RunDataThread_flagPackets (sys_locals st) (sys_sender st) =
                (tt, set_packetsToSend p (sys_sender st), [])).
    { unfold ARSTREAM_Sender_RunDataThread_flagPackets. run_monad.
      generalize (sys_sender st). intros s. destruct s. eexists. reflexivity. }
    destruct Hflag as [p Hflag]. rewrite Hflag in Hstep.
    destruct (Hsend 0 _ [] ltac:(eauto) eq_refl Hstep) as (H1 & H2 & H3 & H4 & H5).
    repeat (split; [assumption|]).
    destruct H5 as [H5 | (cnt' & H5 & H6 & H7)]; [left; exact H5|].
    right. exists cnt'. auto.
  - right; right; right; right; right; right.
    split; [right; eauto|].
    assert (Heta : exists p, sys_sender st = set_packetsToSend p (sys_sender st)).
    { exists (packetsToSend (sys_sender st)). destruct (sys_sender st); reflexivity. }
    destruct (Hsend (cnt + 1) _ [] Heta eq_refl Hstep) as (H1 & H2 & H3 & H4 & H5).
    repeat (split; [assumption|]).
    destruct H5 as [H5 | (cnt' & H5 & H6 & H7)]; [left; exact H5|].
    right. exists cnt'. split; [exact H5|]. split; [exact H6 | lia].
  - discriminate.
Qed.

Lemma waiting_frames_ring_untouched s s1 :
  ring_untouched s s1 -> waiting_frames s1 = waiting_frames s.
Proof.
  intros (Hm & Hn & Hg & _ & Hf). unfold waiting_frames. rewrite Hm, Hn, Hg, Hf.
  reflexivity.
Qed.

(** Every step of the threads is one of the five steps of [frame_step];
    none changes [custom] or the capacity, and the ring stays well
    formed. *)
Lemma sys_step_frames lbl st st1 acts :
  ring_ok (sys_sender st) -> capacity_fits_int (sys_sender st) ->
  sys_step lbl st = Some (st1, acts) ->
  frame_step lbl st st1 acts /\
  custom (sys_sender st1) = custom (sys_sender st) /\
  maxNumberOfNextFrames (sys_sender st1) = maxNumberOfNextFrames (sys_sender st).
Proof.
  intros Hok Hcap Hstep.
  assert (Hquiet : forall s1 pc1 l1,
            accepted (mkEntry lbl st acts) = false ->
            ring_untouched (sys_sender st) s1 ->
            nextFrameNumber s1 = nextFrameNumber (sys_sender st) ->
            currentFrame s1 = currentFrame (sys_sender st) ->
            currentFrameCbWasCalled s1 = currentFrameCbWasCalled (sys_sender st) ->
            custom s1 = custom (sys_sender st) ->
            List.filter is_callback acts = [] ->
            in_hand pc1 = in_hand (sys_pc st) ->
            nextFrame l1 = nextFrame (sys_locals st) ->
            st1 = mkSys s1 pc1 l1 ->
            frame_step lbl st st1 acts /\
            custom (sys_sender st1) = custom (sys_sender st) /\
            maxNumberOfNextFrames (sys_sender st1) =
              maxNumberOfNextFrames (sys_sender st)).
  { intros s1 pc1 l1 Hacc Hring Hnum Hcur Hcb Hcus Hf Hhand Hnf ->.
    cbn [sys_sender sys_pc sys_locals].
    split; [|split; [exact Hcus | apply Hring]].
    apply step_quiet; cbn [sys_sender sys_pc sys_locals]; try assumption.
    - apply waiting_frames_ring_untouched, Hring.
    - apply Hring. }
  destruct lbl as [b sz fl nb | | err rsz pkt | fn idx status | lat werr wms | param frag];
    cbn [sys_step] in Hstep.
  - (* submission *)
    destruct (SendNewFrame_outcomes (sys_sender st) b sz fl nb Hok Hcap)
      as [(e & He & Heq) | (Hb & Hsz & Hfl & Hmax & Hroom & Heq)].
    + rewrite Heq in Hstep. injection Hstep as <- <-.
      apply (Hquiet (sys_sender st) (sys_pc st) (sys_locals st)); try reflexivity;
        first [ solve [repeat split]
              | solve [destruct st; reflexivity]
              | unfold accepted; cbn [entry_label entry_before]; rewrite Heq;
                destruct e; congruence ].
    + rewrite Heq in Hstep. injection Hstep as <- <-.
      cbn [sys_sender sys_pc sys_locals].
      destruct (after_flush_fields fl (sys_sender st) Hok)
        as (Hmx & Had & Hnf & Hnn & Hcb & Hc).
      pose proof (after_flush_ok fl (sys_sender st) Hok) as Hokf.
      assert (Hcur : currentFrame (after_flush fl (sys_sender st)) =
                     currentFrame (sys_sender st) /\
                     custom (after_flush fl (sys_sender st)) = custom (sys_sender st)).
      { rewrite after_flush_eq by assumption.
        destruct (fl =? 1); destruct (sys_sender st); split; reflexivity. }
      destruct Hcur as [Hcur Hcus].
      assert (Hwf : waiting_frames (after_flush fl (sys_sender st)) =
                    if fl =? 1 then [] else waiting_frames (sys_sender st)).
      { rewrite after_flush_eq by assumption.
        destruct (fl =? 1); [apply waiting_frames_flushed | reflexivity]. }
      set (sf := after_flush fl (sys_sender st)) in *.
      assert (Hacc : accepted (mkEntry (L_SendNewFrame b sz fl nb) st
                                 (flush_trace fl (sys_sender st) ++ [Cond_Signal])) = true).
      { unfold accepted. cbn [entry_label entry_before]. rewrite Heq. reflexivity. }
      assert (H1 : waiting_frames (enqueued sz b fl sf) =
                   (if fl =? 1 then [] else waiting_frames (sys_sender st)) ++
                   [mkFrame (u32 (nextFrameNumber (sys_sender st) + 1)) sz b fl]).
      { rewrite waiting_frames_enqueued by (try assumption; lia).
        rewrite Hwf, Hnn. reflexivity. }
      assert (H2 : numberOfWaitingFrames (enqueued sz b fl sf) =
                   (if fl =? 1 then 0 else numberOfWaitingFrames (sys_sender st)) + 1).
      { rewrite <- Hc. destruct sf; reflexivity. }
      assert (H3 : nextFrameNumber (enqueued sz b fl sf) =
                   u32 (nextFrameNumber (sys_sender st) + 1)).
      { rewrite <- Hnn. destruct sf; reflexivity. }
      assert (H4 : currentFrame (enqueued sz b fl sf) = currentFrame (sys_sender st)).
      { rewrite <- Hcur. destruct sf; reflexivity. }
      assert (H5 : currentFrameCbWasCalled (enqueued sz b fl sf) =
                   currentFrameCbWasCalled (sys_sender st)).
      { rewrite <- Hcb. destruct sf; reflexivity. }
      assert (H6 : List.filter is_callback
                     (flush_trace fl (sys_sender st) ++ [Cond_Signal]) =
                   (if fl =? 1
                    then cancel_of (custom (sys_sender st)) <$>
                           waiting_frames (sys_sender st)
                    else [])).
      { rewrite List.filter_app. cbn [List.filter is_callback]. rewrite app_nil_r.
        unfold flush_trace. destruct (fl =? 1); [|reflexivity].
        induction (waiting_frames (sys_sender st)) as [|f l IH]; [reflexivity|].
        rewrite fmap_cons. cbn [List.filter cancel_of is_callback]. f_equal. exact IH. }
      split; [|split].
      * apply (step_accept _ _ _ _ b sz fl nb); cbn [sys_sender sys_pc sys_locals];
          first [assumption | reflexivity].
      * rewrite <- Hcus. destruct sf; reflexivity.
      * rewrite <- Hmx. destruct sf; reflexivity.
  - (* stop *)
    unfold lift_sender, ARSTREAM_Sender_StopSender, modify in Hstep.
    injection Hstep as <- <-.
    apply (Hquiet (set_threadsShouldStop 1 (sys_sender st)) (sys_pc st) (sys_locals st));
      try reflexivity; destruct (sys_sender st); repeat split.
  - (* a turn of the ack loop *)
    destruct (ackMutex_free (sys_pc st)); [|discriminate].
    pose proof (RunAckThread_body_outcomes err rsz pkt (sys_sender st)) as Hout.
    cbn zeta in Hout. unfold lift_sender in Hstep.
    destruct (ARSTREAM_Sender_RunAckThread_body err rsz pkt (sys_sender st))
      as [[u s1] l1].
    unfold state_of, trace_of in Hout. cbn [fst snd] in Hout.
    injection Hstep as <- <-.
    destruct Hout as [(p & -> & Hf) | (p & Hcb & -> & ->)].
    + apply (Hquiet (set_ackPacket p (sys_sender st)) (sys_pc st) (sys_locals st));
        try reflexivity; try exact Hf; destruct (sys_sender st); repeat split.
    + cbn [sys_sender]. split; [|split].
      * apply (step_report _ _ _ _ err rsz pkt); cbn [sys_sender sys_pc sys_locals];
          try reflexivity; try assumption.
        all: destruct (sys_sender st); reflexivity.
      * destruct (sys_sender st); reflexivity.
      * destruct (sys_sender st); reflexivity.
  - (* the network callback *)
    destruct (NetworkCallback_outcomes fn idx status (sys_sender st)) as [p Hp].
    rewrite Hp in Hstep. unfold lift_sender in Hstep. injection Hstep as <- <-.
    apply (Hquiet (set_packetsToSend p (sys_sender st)) (sys_pc st) (sys_locals st));
      try reflexivity; destruct (sys_sender st); repeat split.
  - (* the data thread *)
    destruct (RunDataThread_step_outcomes lat werr wms st st1 acts Hok Hstep)
      as [(Hpc & -> & ->) | [(Hpc & Hstop & -> & ->) |
          [(Hpc & Hnr & Hs1 & Hl1 & ->) | [(Hpc & Hr & -> & ->) |
          [(Hpc & -> & ->) | [(w & Hpc & Hw & -> & ->) |
           (Hpc & (p & Hs1) & Hf & Hnf & Hnb & Hpc1)]]]]]].
    + apply (Hquiet (set_dataThreadStarted 1 (sys_sender st)) PcLoop (sys_locals st));
        try reflexivity; try (rewrite Hpc; reflexivity);
        destruct (sys_sender st); repeat split.
    + apply (Hquiet (set_dataThreadStarted 0 (sys_sender st)) PcEnded (sys_locals st));
        try reflexivity; try (rewrite Hpc; reflexivity);
        destruct (sys_sender st); repeat split.
    + destruct st1 as [s1 pc1 l1]. cbn [sys_sender sys_pc sys_locals] in *. subst s1 l1.
      apply (Hquiet (sys_sender st) pc1 (sys_locals st)); try reflexivity;
        [repeat split|].
      destruct Hpc as [(-> & _ & ->) | (wt & tw & -> & ->)]; [reflexivity|].
      destruct (werr =? ETIMEDOUT); reflexivity.
    + cbn [sys_sender sys_pc sys_locals].
      destruct Hr as [Hpos Hprio].
      destruct (waiting_frames_popped (sys_sender st) Hok Hpos) as [Hokp Hwf].
      pose proof (ring_count _ Hok) as Hcnt. pose proof (ring_max _ Hok) as Hmax.
      assert (H0 : in_hand (sys_pc st) = 0).
      { destruct Hpc as [[-> _] | (wt & tw & ->)]; reflexivity. }
      assert (H1 : numberOfWaitingFrames (popped (sys_sender st)) =
                   numberOfWaitingFrames (sys_sender st) - 1).
      { unfold popped.
        rewrite <- (u32_small (numberOfWaitingFrames (sys_sender st) - 1)) at 2 by lia.
        destruct (sys_sender st); reflexivity. }
      assert (H2 : nextFrameNumber (popped (sys_sender st)) =
                     nextFrameNumber (sys_sender st) /\
                   currentFrame (popped (sys_sender st)) =
                     currentFrame (sys_sender st) /\
                   currentFrameCbWasCalled (popped (sys_sender st)) =
                     currentFrameCbWasCalled (sys_sender st) /\
                   custom (popped (sys_sender st)) = custom (sys_sender st) /\
                   maxNumberOfNextFrames (popped (sys_sender st)) =
                     maxNumberOfNextFrames (sys_sender st)).
      { destruct (sys_sender st); repeat split. }
      destruct H2 as (H2 & H3 & H4 & H5 & H6).
      assert (H7 : nextFrame (with_nextFrame (head_frame (sys_sender st)) (sys_locals st)) =
                   head_frame (sys_sender st)) by reflexivity.
      split; [|split; assumption].
      apply (step_pop _ _ _ _ lat werr wms); cbn [sys_sender sys_pc sys_locals];
        rewrite ?H7; first [assumption | reflexivity].
    + cbn [sys_sender sys_pc sys_locals]. split; [|split; reflexivity].
      assert (H1 : currentFrame (installed (sys_locals st) (sys_sender st)) =
                   nextFrame (sys_locals st)).
      { unfold installed. cbn. destruct (nextFrame (sys_locals st)); reflexivity. }
      assert (H2 : List.filter is_callback (cancel_current (sys_sender st)) =
                   (if currentFrameCbWasCalled (sys_sender st) =? 0
                    then [current_callback ARSTREAM_SENDER_STATUS_FRAME_CANCEL
                            (sys_sender st)]
                    else [])).
      { unfold cancel_current.
        destruct (currentFrameCbWasCalled (sys_sender st) =? 0); reflexivity. }
      apply (step_install _ _ _ _ lat werr wms); cbn [sys_sender sys_pc sys_locals];
        first [assumption | reflexivity].
    + apply (Hquiet (sys_sender st) PcPass (sys_locals st)); try reflexivity;
        [repeat split|].
      rewrite Hpc. cbn. apply Z.eqb_neq in Hw. rewrite Hw. reflexivity.
    + destruct st1 as [s1 pc1 l1]. cbn [sys_sender sys_pc sys_locals] in *. subst s1.
      apply (Hquiet (set_packetsToSend p (sys_sender st)) pc1 l1);
        try reflexivity; try assumption;
        try solve [destruct (sys_sender st); repeat split].
      destruct Hpc1 as [-> | (cnt' & -> & _)];
        destruct Hpc as [-> | (cnt & ->)]; reflexivity.
  - (* the start of the data thread *)
    destruct (RunDataThread_start_outcomes _ _ _ _ _ Hstep)
      as (Hpc & [(-> & -> & _) | (-> & -> & _)]).
    + apply (Hquiet (sys_sender st) PcEnded (sys_locals st));
        try reflexivity; try (rewrite Hpc; reflexivity); repeat split.
    + apply (Hquiet (set_dataThreadStarted 1 (sys_sender st)) PcLoop (sys_locals st));
        try reflexivity; try (rewrite Hpc; reflexivity);
        destruct (sys_sender st); repeat split.
Qed.

(** ** Runs *)

(** An invariant that every step allowed by [Q] keeps, with the history
    of the steps made so far, holds all along a run; every entry of the
    run records a step that was made from its state. *)
Lemma run_invariant (Q : Label -> Prop) (I : list Entry -> Sys -> Prop) :
  (forall lbl st st1 acts h,
     Q lbl -> I h st -> sys_step lbl st = Some (st1, acts) ->
     I (h ++ [mkEntry lbl st acts]) st1) ->
  forall lbls st st' tr hist,
    Forall Q lbls -> I hist st -> run lbls st = Some (st', tr) ->
    I (hist ++ tr) st' /\
    forall tr1 e tr2, tr = tr1 ++ e :: tr2 ->
      Q (entry_label e) /\ I (hist ++ tr1) (entry_before e) /\
      exists st1, sys_step (entry_label e) (entry_before e) = Some (st1, entry_actions e).
Proof.
  intros Hstep. induction lbls as [|lbl lbls IH]; intros st st' tr hist HQ HI Hrun.
  - cbn in Hrun. injection Hrun as <- <-. rewrite app_nil_r. split; [exact HI|].
    intros tr1 e tr2 Heq. destruct tr1; discriminate.
  - cbn [run] in Hrun. inversion HQ as [|? ? HQ1 HQ2]; subst.
    destruct (sys_step lbl st) as [[st1 acts]|] eqn:Es; [|discriminate].
    destruct (run lbls st1) as [[st2 tr']|] eqn:Er; [|discriminate].
    injection Hrun as <- <-.
    pose proof (Hstep _ _ _ _ _ HQ1 HI Es) as HI1.
    destruct (IH _ _ _ _ HQ2 HI1 Er) as [Hend Hall].
    rewrite <- app_assoc in Hend. cbn [app] in Hend. split; [exact Hend|].
    intros tr1 e tr2 Heq. destruct tr1 as [|e1 tr1].
    + cbn [app] in Heq. injection Heq as <- <-. rewrite app_nil_r.
      cbn [entry_label entry_before entry_actions]. split; [exact HQ1|].
      split; [exact HI | eauto].
    + cbn [app] in Heq. injection Heq as <- ->.
      destruct (Hall tr1 e tr2 eq_refl) as (H1 & H2 & H3).
      rewrite <- app_assoc in H2. cbn [app] in H2. auto.
Qed.

Lemma callbacks_of_snoc h e :
  callbacks_of (h ++ [e]) = callbacks_of h ++ List.filter is_callback (entry_actions e).
Proof.
  unfold callbacks_of. rewrite map_app, concat_app. cbn [map concat].
  rewrite app_nil_r. reflexivity.
Qed.

Lemma accepted_frames_snoc h e :
  accepted_frames (h ++ [e]) =
    accepted_frames h ++ (if accepted e then [submission e] else []).
Proof.
  unfold accepted_frames. rewrite List.filter_app, fmap_app. cbn [List.filter].
  destruct (accepted e); reflexivity.
Qed.

Lemma waiting_frames_length s :
  0 <= numberOfWaitingFrames s ->
  Z.of_nat (length (waiting_frames s)) = numberOfWaitingFrames s.
Proof.
  intros Hn. unfold waiting_frames. rewrite length_fmap, length_seqZ. lia.
Qed.

(** ** Every frame is accounted for *)

(** One step: the callbacks it makes and the frames held after it make up
    the frames held before it, and the frame it accepted, if any. *)
Lemma sys_step_conserves lbl st st1 acts :
  ring_ok (sys_sender st) -> capacity_fits_int (sys_sender st) ->
  sys_step lbl st = Some (st1, acts) ->
  Z.of_nat (length (List.filter is_callback acts)) + frames_held st1 =
    (if accepted (mkEntry lbl st acts) then 1 else 0) + frames_held st.
Proof.
  intros Hok Hcap Hstep.
  destruct (sys_step_frames _ _ _ _ Hok Hcap Hstep) as [Hf _].
  pose proof (ring_count _ Hok) as Hcnt.
  unfold frames_held.
  destruct Hf as [Hacc Hwf Hn Hnum Hcur Hcb Hcbs Hhand Hnf
                 | b sz fl nb Hl Hacc Hb Hsz Hmax Hfl Hwf Hn Hnum Hcur Hcb Hcbs Hpc Hloc
                 | lat werr wms Hl Hhand Hpc Hwf Hn Hprio Hnum Hcur Hcb Hcbs
                 | lat werr wms Hl Hpc Hhand Hwf Hn Hnum Hcur Hcb Hcbs Hnf
                 | err rsz pkt Hl Hcb0 Hcb1 Hcbs Hwf Hn Hnum Hcur Hpc Hloc].
  - rewrite Hacc, Hcbs, Hn, Hcb, Hhand. cbn [length]. lia.
  - rewrite Hacc, Hcbs, Hn, Hcb, Hpc.
    destruct (fl =? 1).
    + rewrite length_fmap, waiting_frames_length by lia. lia.
    + cbn [length]. lia.
  - assert (Hacc : accepted (mkEntry lbl st acts) = false) by (subst lbl; reflexivity).
    rewrite Hacc, Hcbs, Hn, Hcb, Hpc, Hhand. cbn. lia.
  - assert (Hacc : accepted (mkEntry lbl st acts) = false) by (subst lbl; reflexivity).
    rewrite Hacc, Hcbs, Hn, Hcb, Hpc, Hhand. cbn.
    destruct (currentFrameCbWasCalled (sys_sender st) =? 0); cbn [length]; lia.
  - assert (Hacc : accepted (mkEntry lbl st acts) = false) by (subst lbl; reflexivity).
    rewrite Hacc, Hcbs, Hn, Hcb0, Hcb1, Hpc. cbn. lia.
Qed.

(** The same, frame by frame: the buffers and sizes the step reports and
    those of the frames held after it are, up to their order, those of the
    frames held before it and of the frame it accepted, if any. *)
Lemma sys_step_conserves_frames lbl st st1 acts :
  ring_ok (sys_sender st) -> capacity_fits_int (sys_sender st) ->
  sys_step lbl st = Some (st1, acts) ->
  (reported <$> List.filter is_callback acts) ++ held_frames st1 ≡ₚ
    held_frames st ++
    (if accepted (mkEntry lbl st acts) then [submission (mkEntry lbl st acts)] else []).
Proof.
  intros Hok Hcap Hstep.
  destruct (sys_step_frames _ _ _ _ Hok Hcap Hstep) as [Hf _].
  unfold held_frames.
  destruct Hf as [Hacc Hwf Hn Hnum Hcur Hcb Hcbs Hhand Hnf
                 | b sz fl nb Hl Hacc Hb Hsz Hmax Hfl Hwf Hn Hnum Hcur Hcb Hcbs Hpc Hloc
                 | lat werr wms Hl Hhand Hpc Hwf Hn Hprio Hnum Hcur Hcb Hcbs
                 | lat werr wms Hl Hpc Hhand Hwf Hn Hnum Hcur Hcb Hcbs Hnf
                 | err rsz pkt Hl Hcb0 Hcb1 Hcbs Hwf Hn Hnum Hcur Hpc Hloc].
  - rewrite Hacc, Hcbs, Hwf, Hcur, Hcb, Hhand, Hnf. cbn [fmap list_fmap app].
    rewrite app_nil_r. reflexivity.
  - rewrite Hacc, Hcbs, Hwf, Hcur, Hcb, Hpc, Hloc. subst lbl.
    cbn [submission entry_label].
    set (C := if currentFrameCbWasCalled (sys_sender st) =? 0
              then [frame_pair (currentFrame (sys_sender st))] else []).
    set (H := if in_hand (sys_pc st) =? 1
              then [frame_pair (nextFrame (sys_locals st))] else []).
    rewrite fmap_app. cbn [fmap list_fmap frame_pair frameBuffer frameSize].
    destruct (fl =? 1).
    + rewrite <- list_fmap_compose.
      change (reported ∘ cancel_of (custom (sys_sender st))) with frame_pair.
      cbn [fmap list_fmap app].
      rewrite !app_assoc.
      apply Permutation_app_tail. rewrite <- app_assoc. apply Permutation_app_comm.
    + cbn [fmap list_fmap app]. rewrite !app_assoc. reflexivity.
  - assert (Hacc : accepted (mkEntry lbl st acts) = false) by (subst lbl; reflexivity).
    rewrite Hacc, Hcbs, Hwf, Hcur, Hcb, Hpc, Hhand. cbn [fmap list_fmap app in_hand].
    change (1 =? 1) with true. change (0 =? 1) with false. cbn iota.
    rewrite app_nil_r. reflexivity.
  - assert (Hacc : accepted (mkEntry lbl st acts) = false) by (subst lbl; reflexivity).
    rewrite Hacc, Hcbs, Hwf, Hcur, Hcb, Hpc, Hhand. cbn [in_hand].
    change (1 =? 1) with true. change (0 =? 1) with false. change (0 =? 0) with true.
    cbn iota. rewrite app_nil_r.
    destruct (currentFrameCbWasCalled (sys_sender st) =? 0); reflexivity.
  - assert (Hacc : accepted (mkEntry lbl st acts) = false) by (subst lbl; reflexivity).
    rewrite Hacc, Hcbs, Hwf, Hcur, Hcb0, Hcb1, Hpc, Hloc.
    change (1 =? 0) with false. change (0 =? 0) with true. cbn iota.
    rewrite app_nil_r. reflexivity.
Qed.

(** X5: no frame is lost and none is reported twice.  Along every run
    of the threads on a sender with a well-formed ring of a capacity below
    INT_MAX, the buffers and sizes the callbacks have reported, together
    with those of the frames the sender still holds (the current frame
    while no callback was made for it, the frame the data thread has
    popped, and the frames that wait), are, up to their order and counted
    with their multiplicity, those of the frames held at the start of the
    run together with those the run accepted.  So a frame that was accepted
    is reported once or is still held, and nothing else is reported; in
    numbers, the callbacks made plus the frames held are the frames
    accepted plus the frames held at the start.  A new sender holds one
    frame, its empty current frame. *)
Theorem frames_are_conserved lbls st st' tr :
  ring_ok (sys_sender st) -> capacity_fits_int (sys_sender st) ->
  run lbls st = Some (st', tr) ->
  (reported <$> callbacks_of tr) ++ held_frames st' ≡ₚ
    held_frames st ++ accepted_frames tr /\
  Z.of_nat (length (held_frames st')) = frames_held st' /\
  Z.of_nat (length (callbacks_of tr)) + frames_held st' =
    Z.of_nat (length (accepted_frames tr)) + frames_held st /\
  (frames_held st' = 0 ->
   reported <$> callbacks_of tr ≡ₚ held_frames st ++ accepted_frames tr).
Proof.
  intros Hok Hcap Hrun.
  pose (I := fun (h : list Entry) (x : Sys) =>
               ring_ok (sys_sender x) /\
               maxNumberOfNextFrames (sys_sender x) = maxNumberOfNextFrames (sys_sender st) /\
               Z.of_nat (length (callbacks_of h)) + frames_held x =
                 Z.of_nat (length (accepted_frames h)) + frames_held st /\
               (reported <$> callbacks_of h) ++ held_frames x ≡ₚ
                 held_frames st ++ accepted_frames h).
  assert (Hstep : forall lbl x x1 acts h,
            True -> I h x -> sys_step lbl x = Some (x1, acts) ->
            I (h ++ [mkEntry lbl x acts]) x1).
  { intros lbl x x1 acts h _ (Hokx & Hmx & Hsum & Hperm) Hs.
    assert (Hcapx : capacity_fits_int (sys_sender x)).
    { unfold capacity_fits_int in *. rewrite Hmx. exact Hcap. }
    destruct (sys_step_frames _ _ _ _ Hokx Hcapx Hs) as (_ & _ & Hm1).
    pose proof (sys_step_conserves _ _ _ _ Hokx Hcapx Hs) as Hc.
    pose proof (sys_step_conserves_frames _ _ _ _ Hokx Hcapx Hs) as Hp.
    split; [exact (sys_step_ring_ok _ _ _ _ Hs Hokx)|].
    split; [rewrite Hm1; exact Hmx|].
    rewrite callbacks_of_snoc, accepted_frames_snoc. cbn [entry_actions].
    split.
    - rewrite !length_app.
      destruct (accepted (mkEntry lbl x acts)); cbn [length] in *; lia.
    - rewrite fmap_app, <- app_assoc, Hp, !app_assoc, Hperm. reflexivity. }
  destruct (run_invariant (fun _ => True) I Hstep lbls st st' tr [])
    as [(Hok' & _ & Hsum & Hperm) _];
    [apply Forall_forall; auto | | exact Hrun |].
  { split; [exact Hok|]. split; [reflexivity|]. split; [cbn; lia|].
    cbn. rewrite app_nil_r. reflexivity. }
  cbn [app] in Hsum, Hperm. split; [exact Hperm|].
  assert (Hlen : Z.of_nat (length (held_frames st')) = frames_held st').
  { unfold held_frames, frames_held. pose proof (ring_count _ Hok') as Hc.
    rewrite !length_app, length_fmap, !Nat2Z.inj_add, waiting_frames_length by lia.
    assert (Hh : Z.of_nat (length (if in_hand (sys_pc st') =? 1
                                   then [frame_pair (nextFrame (sys_locals st'))]
                                   else [])) = in_hand (sys_pc st')).
    { destruct (sys_pc st') as [ | | wt tw | waitRes | | cnt | ]; cbn; try reflexivity.
      destruct (waitRes =? 1); reflexivity. }
    rewrite Hh. destruct (_ =? 0); cbn [length]; lia. }
  split; [exact Hlen|]. split; [exact Hsum|].
  intros H0. rewrite <- Hlen in H0.
  assert (Hnil : held_frames st' = []) by (destruct (held_frames st'); [reflexivity | discriminate]).
  rewrite Hnil, app_nil_r in Hperm. exact Hperm.
Qed.

(** ** Where the reported frames come from *)

Lemma frame_from_mono subs more f :
  frame_from subs f -> frame_from (subs ++ more) f.
Proof.
  intros [H|H]; [left; apply elem_of_app; left; exact H | right; exact H].
Qed.

Lemma frames_from_mono subs more st :
  frames_from subs st -> frames_from (subs ++ more) st.
Proof.
  intros (Hw & Hc & Hn). split; [|split]; try (apply frame_from_mono; assumption).
  eapply List.Forall_impl; [|exact Hw]. intros f. apply frame_from_mono.
Qed.

(** One step keeps the frames of the sender among those accepted so far,
    and the callbacks it makes report frames accepted before it. *)
Lemma sys_step_frames_from subs lbl st st1 acts :
  ring_ok (sys_sender st) -> capacity_fits_int (sys_sender st) ->
  frames_from subs st ->
  sys_step lbl st = Some (st1, acts) ->
  frames_from (subs ++ (if accepted (mkEntry lbl st acts)
                        then [submission (mkEntry lbl st acts)] else [])) st1 /\
  forall a, a ∈ acts -> is_callback a = true ->
    exists status f, a = Callback status (frameBuffer f) (frameSize f)
                           (custom (sys_sender st)) /\
                     frame_from subs f.
Proof.
  intros Hok Hcap (Hw & Hc & Hn) Hstep.
  destruct (sys_step_frames _ _ _ _ Hok Hcap Hstep) as [Hf _].
  assert (Hin : forall a, a ∈ acts -> is_callback a = true ->
                          a ∈ List.filter is_callback acts).
  { intros a Ha Hcb. apply list_elem_of_In, List.filter_In.
    split; [apply list_elem_of_In; exact Ha | exact Hcb]. }
  destruct Hf as [Hacc Hwf Hnn Hnum Hcur Hcb Hcbs Hhand Hnf
                 | b sz fl nb Hl Hacc Hb Hsz Hmax Hfl Hwf Hnn Hnum Hcur Hcb Hcbs Hpc Hloc
                 | lat werr wms Hl Hhand Hpc Hwf Hnn Hprio Hnum Hcur Hcb Hcbs
                 | lat werr wms Hl Hpc Hhand Hwf Hnn Hnum Hcur Hcb Hcbs Hnf
                 | err rsz pkt Hl Hcb0 Hcb1 Hcbs Hwf Hnn Hnum Hcur Hpc Hloc].
  - rewrite Hacc, app_nil_r. split.
    + unfold frames_from. rewrite Hwf, Hcur, Hnf. auto.
    + intros a Ha Hcba. apply Hin in Ha; [|exact Hcba]. rewrite Hcbs in Ha.
      apply elem_of_nil in Ha; contradiction.
  - rewrite Hacc. split.
    + unfold frames_from. rewrite Hwf, Hcur, Hloc.
      split; [|split; apply frame_from_mono; assumption].
      apply Forall_app. split.
      * destruct (fl =? 1); [constructor|].
        eapply List.Forall_impl; [|exact Hw]. intros f. apply frame_from_mono.
      * constructor; [|constructor]. left. subst lbl. cbn.
        apply elem_of_app. right. apply list_elem_of_singleton. reflexivity.
    + intros a Ha Hcba. apply Hin in Ha; [|exact Hcba]. rewrite Hcbs in Ha.
      destruct (fl =? 1); [|apply elem_of_nil in Ha; contradiction].
      apply list_elem_of_fmap in Ha. destruct Ha as (f & -> & Hfin).
      exists ARSTREAM_SENDER_STATUS_FRAME_CANCEL, f. split; [reflexivity|].
      rewrite List.Forall_forall in Hw. apply Hw, list_elem_of_In, Hfin.
  - assert (Hacc : accepted (mkEntry lbl st acts) = false) by (subst lbl; reflexivity).
    rewrite Hacc, app_nil_r. rewrite Hwf in Hw. inversion Hw as [|? ? Hhd Htl]; subst.
    split.
    + unfold frames_from. rewrite Hcur. auto.
    + intros a Ha Hcba. apply Hin in Ha; [|exact Hcba]. rewrite Hcbs in Ha.
      apply elem_of_nil in Ha; contradiction.
  - assert (Hacc : accepted (mkEntry lbl st acts) = false) by (subst lbl; reflexivity).
    rewrite Hacc, app_nil_r. split.
    + unfold frames_from. rewrite Hwf, Hcur, Hnf. auto.
    + intros a Ha Hcba. apply Hin in Ha; [|exact Hcba]. rewrite Hcbs in Ha.
      destruct (_ =? 0); [|apply elem_of_nil in Ha; contradiction].
      apply list_elem_of_singleton in Ha. subst a.
      exists ARSTREAM_SENDER_STATUS_FRAME_CANCEL, (currentFrame (sys_sender st)).
      split; [reflexivity | exact Hc].
  - assert (Hacc : accepted (mkEntry lbl st acts) = false) by (subst lbl; reflexivity).
    rewrite Hacc, app_nil_r. split.
    + unfold frames_from. rewrite Hwf, Hcur, Hloc. auto.
    + intros a Ha Hcba. apply Hin in Ha; [|exact Hcba]. rewrite Hcbs in Ha.
      apply list_elem_of_singleton in Ha. subst a.
      exists ARSTREAM_SENDER_STATUS_FRAME_SENT, (currentFrame (sys_sender st)).
      split; [reflexivity | exact Hc].
Qed.

(** X6: the sender never reports a buffer it was not given.  In every
    run of the threads on a new sender of a capacity below INT_MAX, each
    call of the application callback carries the [custom] pointer given to
    [ARSTREAM_Sender_New], and the buffer and the size of a frame that
    [ARSTREAM_Sender_SendNewFrame] accepted earlier in the run; the only
    exception is the empty frame with which the sender starts, reported
    with a null buffer and size 0. *)
Theorem callbacks_report_accepted_frames
    env mgr dataId ackId cb size cust s hdr lbls st' tr :
  0 <= size < INT_MAX ->
  ARSTREAM_Sender_New env mgr dataId ackId cb size cust = (Some s, ARSTREAM_OK) ->
  run lbls (sys_init s hdr) = Some (st', tr) ->
  forall tr1 e tr2 a,
    tr = tr1 ++ e :: tr2 -> a ∈ entry_actions e -> is_callback a = true ->
    exists status buffer sz,
      a = Callback status buffer sz cust /\
      ((buffer, sz) ∈ accepted_frames tr1 \/ (buffer, sz) = (NULL, 0)).
Proof.
  intros Hsize Hnew Hrun.
  assert (Hsize' : 0 <= size < 2 ^ 32) by (unfold INT_MAX in Hsize; lia).
  destruct (New_sender_state _ _ _ _ _ _ _ _ Hsize' Hnew)
    as ((_ & _ & _ & _ & Hmax & Hcus) & (Hok & _ & Hwf & _) & (Hcur & _) & _).
  pose (I := fun (h : list Entry) (x : Sys) =>
               ring_ok (sys_sender x) /\
               maxNumberOfNextFrames (sys_sender x) = size /\
               custom (sys_sender x) = cust /\
               frames_from (accepted_frames h) x).
  assert (Hcapx : forall x, maxNumberOfNextFrames (sys_sender x) = size ->
                            capacity_fits_int (sys_sender x)).
  { intros x Hx. unfold capacity_fits_int. rewrite Hx. lia. }
  assert (Hstep : forall lbl x x1 acts h,
            True -> I h x -> sys_step lbl x = Some (x1, acts) ->
            I (h ++ [mkEntry lbl x acts]) x1).
  { intros lbl x x1 acts h _ (Hokx & Hmx & Hcx & Hfx) Hs.
    destruct (sys_step_frames _ _ _ _ Hokx (Hcapx _ Hmx) Hs) as (_ & Hc1 & Hm1).
    destruct (sys_step_frames_from _ _ _ _ _ Hokx (Hcapx _ Hmx) Hfx Hs) as [Hf1 _].
    split; [exact (sys_step_ring_ok _ _ _ _ Hs Hokx)|].
    split; [rewrite Hm1; exact Hmx|]. split; [rewrite Hc1; exact Hcx|].
    rewrite accepted_frames_snoc. exact Hf1. }
  assert (Hinit : I [] (sys_init s hdr)).
  { destruct hdr as [[[h1 h2] h3] h4]. unfold I, sys_init. cbn [sys_sender sys_locals].
    split; [exact Hok|]. split; [exact Hmax|]. split; [exact Hcus|].
    unfold frames_from. cbn [sys_sender sys_locals nextFrame].
    rewrite Hwf, Hcur. split; [constructor|]. split; right; reflexivity. }
  destruct (run_invariant (fun _ => True) I Hstep lbls (sys_init s hdr) st' tr [])
    as [_ Hall];
    [apply Forall_forall; auto | exact Hinit | exact Hrun |].
  intros tr1 e tr2 a Heq Ha Hcba.
  destruct (Hall tr1 e tr2 Heq) as (_ & (Hokx & Hmx & Hcx & Hfx) & st1 & Hs).
  cbn [app] in Hfx.
  destruct (sys_step_frames_from _ _ _ _ _ Hokx (Hcapx _ Hmx) Hfx Hs) as [_ Hrep].
  destruct (Hrep a Ha Hcba) as (status & f & -> & Hf).
  exists status, (frameBuffer f), (frameSize f). rewrite Hcx. split; [reflexivity|].
  exact Hf.
Qed.

(** ** The numbers of the frames *)

Lemma u32_add_l a b : u32 (u32 a + b) = u32 (a + b).
Proof. unfold u32. apply Z.add_mod_idemp_l. lia. Qed.

Lemma u32_idemp a : u32 (u32 a) = u32 a.
Proof. unfold u32. apply Z.mod_mod. lia. Qed.

Lemma u32_range a : 0 <= u32 a < 2 ^ 32.
Proof. unfold u32. apply Z.mod_pos_bound. lia. Qed.

Lemma fmap_seqZ_ext {A} (f g : Z -> A) m n :
  (forall k, m <= k < m + n -> f k = g k) -> f <$> seqZ m n = g <$> seqZ m n.
Proof.
  intros H. apply list_eq. intros i. rewrite !list_lookup_fmap.
  destruct (seqZ m n !! i) as [k|] eqn:E; [|reflexivity].
  apply lookup_seqZ in E. cbn. f_equal. apply H. lia.
Qed.

(** One step keeps the numbers of the waiting frames consecutive, and
    gives out the next number when it accepts a frame. *)
Lemma sys_step_numbers lbl st st1 acts :
  ring_ok (sys_sender st) -> capacity_fits_int (sys_sender st) ->
  queue_numbered (sys_sender st) ->
  0 <= nextFrameNumber (sys_sender st) < 2 ^ 32 ->
  sys_step lbl st = Some (st1, acts) ->
  queue_numbered (sys_sender st1) /\
  0 <= nextFrameNumber (sys_sender st1) < 2 ^ 32 /\
  nextFrameNumber (sys_sender st1) =
    u32 (nextFrameNumber (sys_sender st) +
         (if accepted (mkEntry lbl st acts) then 1 else 0)).
Proof.
  intros Hok Hcap Hq Hrange Hstep.
  destruct (sys_step_frames _ _ _ _ Hok Hcap Hstep) as [Hf _].
  pose proof (ring_count _ Hok) as Hcnt.
  assert (Hsame : waiting_frames (sys_sender st1) = waiting_frames (sys_sender st) ->
                  numberOfWaitingFrames (sys_sender st1) =
                    numberOfWaitingFrames (sys_sender st) ->
                  nextFrameNumber (sys_sender st1) = nextFrameNumber (sys_sender st) ->
                  accepted (mkEntry lbl st acts) = false ->
                  queue_numbered (sys_sender st1) /\
                  0 <= nextFrameNumber (sys_sender st1) < 2 ^ 32 /\
                  nextFrameNumber (sys_sender st1) =
                    u32 (nextFrameNumber (sys_sender st) +
                         (if accepted (mkEntry lbl st acts) then 1 else 0))).
  { intros Hwf Hn Hnum Hacc. unfold queue_numbered. rewrite Hwf, Hn, Hnum, Hacc.
    split; [exact Hq|]. split; [exact Hrange|].
    rewrite Z.add_0_r, u32_small by exact Hrange. reflexivity. }
  destruct Hf as [Hacc Hwf Hn Hnum Hcur Hcb Hcbs Hhand Hnf
                 | b sz fl nb Hl Hacc Hb Hsz Hmax Hfl Hwf Hn Hnum Hcur Hcb Hcbs Hpc Hloc
                 | lat werr wms Hl Hhand Hpc Hwf Hn Hprio Hnum Hcur Hcb Hcbs
                 | lat werr wms Hl Hpc Hhand Hwf Hn Hnum Hcur Hcb Hcbs Hnf
                 | err rsz pkt Hl Hcb0 Hcb1 Hcbs Hwf Hn Hnum Hcur Hpc Hloc].
  - apply Hsame; assumption.
  - rewrite Hacc. split; [|split; [rewrite Hnum; apply u32_range | exact Hnum]].
    unfold queue_numbered. rewrite Hwf, Hn, Hnum, fmap_app.
    destruct (fl =? 1).
    + rewrite (seqZ_cons _ (0 + 1)), seqZ_nil by lia.
      cbn [fmap list_fmap app frameNumber]. f_equal.
      replace (u32 (nextFrameNumber (sys_sender st) + 1) - (0 + 1) + 1 + 0)
        with (u32 (nextFrameNumber (sys_sender st) + 1)) by lia.
      symmetry. apply u32_idemp.
    + rewrite seqZ_app by lia. rewrite fmap_app, Hq.
      cbn [fmap list_fmap frameNumber]. f_equal.
      * apply fmap_seqZ_ext. intros k Hk.
        replace (u32 (nextFrameNumber (sys_sender st) + 1) -
                 (numberOfWaitingFrames (sys_sender st) + 1) + 1 + k)
          with (u32 (nextFrameNumber (sys_sender st) + 1) +
                (k - numberOfWaitingFrames (sys_sender st))) by lia.
        rewrite u32_add_l. f_equal. lia.
      * rewrite (seqZ_cons _ 1), seqZ_nil by lia. cbn [fmap list_fmap]. f_equal.
        replace (u32 (nextFrameNumber (sys_sender st) + 1) -
                 (numberOfWaitingFrames (sys_sender st) + 1) + 1 +
                 (0 + numberOfWaitingFrames (sys_sender st)))
          with (u32 (nextFrameNumber (sys_sender st) + 1)) by lia.
        symmetry. apply u32_idemp.
  - assert (Hacc : accepted (mkEntry lbl st acts) = false) by (subst lbl; reflexivity).
    rewrite Hacc, Z.add_0_r, Hnum.
    split; [|split; [exact Hrange | symmetry; apply u32_small; exact Hrange]].
    unfold queue_numbered in *. rewrite Hwf in Hq. rewrite Hn, Hnum.
    pose proof (waiting_frames_length (sys_sender st) ltac:(lia)) as Hlen.
    rewrite Hwf in Hlen. cbn [length] in Hlen.
    rewrite (seqZ_cons 0) in Hq by lia. rewrite !fmap_cons in Hq.
    injection Hq as _ Hq. rewrite Hq.
    replace (Z.succ 0) with (1 + 0) by lia. rewrite <- fmap_add_seqZ.
    rewrite <- list_fmap_compose. rewrite Z.sub_1_r.
    apply fmap_seqZ_ext. intros k Hk. unfold compose. f_equal. lia.
  - apply Hsame; try assumption. subst lbl; reflexivity.
  - apply Hsame; try assumption. subst lbl; reflexivity.
Qed.

(** X7: frame numbers follow the order of acceptance.  In every run of
    the threads on a new sender of a capacity below INT_MAX, the counter
    [nextFrameNumber] is the number of frames accepted so far, modulo 2^32:
    the first accepted frame is stamped 1, and the frame accepted at a step
    is stamped the number of frames accepted before it plus one.  The
    numbers of the frames that wait are consecutive and end at the counter:
    rejected submissions, flushes and the data thread leave no gap among
    them. *)
Theorem frame_numbers_follow_acceptance
    env mgr dataId ackId cb size cust s hdr lbls st' tr :
  0 <= size < INT_MAX ->
  ARSTREAM_Sender_New env mgr dataId ackId cb size cust = (Some s, ARSTREAM_OK) ->
  run lbls (sys_init s hdr) = Some (st', tr) ->
  nextFrameNumber (sys_sender st') = u32 (Z.of_nat (length (accepted_frames tr))) /\
  queue_numbered (sys_sender st') /\
  forall tr1 e tr2, tr = tr1 ++ e :: tr2 ->
    nextFrameNumber (sys_sender (entry_before e)) =
      u32 (Z.of_nat (length (accepted_frames tr1))) /\
    queue_numbered (sys_sender (entry_before e)) /\
    (accepted e = true ->
     exists st1 flag older,
       sys_step (entry_label e) (entry_before e) = Some (st1, entry_actions e) /\
       waiting_frames (sys_sender st1) =
         older ++ [mkFrame (u32 (Z.of_nat (length (accepted_frames tr1)) + 1))
                           (snd (submission e)) (fst (submission e)) flag]).
Proof.
  intros Hsize Hnew Hrun.
  assert (Hsize' : 0 <= size < 2 ^ 32) by (unfold INT_MAX in Hsize; lia).
  destruct (New_sender_state _ _ _ _ _ _ _ _ Hsize' Hnew)
    as ((_ & _ & _ & _ & Hmax & _) & (Hok & Hcount & Hwf & Hnum) & _).
  pose (I := fun (h : list Entry) (x : Sys) =>
               ring_ok (sys_sender x) /\
               maxNumberOfNextFrames (sys_sender x) = size /\
               queue_numbered (sys_sender x) /\
               0 <= nextFrameNumber (sys_sender x) < 2 ^ 32 /\
               nextFrameNumber (sys_sender x) =
                 u32 (Z.of_nat (length (accepted_frames h)))).
  assert (Hcapx : forall x, maxNumberOfNextFrames (sys_sender x) = size ->
                            capacity_fits_int (sys_sender x)).
  { intros x Hx. unfold capacity_fits_int. rewrite Hx. lia. }
  assert (Hstep : forall lbl x x1 acts h,
            True -> I h x -> sys_step lbl x = Some (x1, acts) ->
            I (h ++ [mkEntry lbl x acts]) x1).
  { intros lbl x x1 acts h _ (Hokx & Hmx & Hqx & Hrx & Hnx) Hs.
    destruct (sys_step_frames _ _ _ _ Hokx (Hcapx _ Hmx) Hs) as (_ & _ & Hm1).
    destruct (sys_step_numbers _ _ _ _ Hokx (Hcapx _ Hmx) Hqx Hrx Hs)
      as (Hq1 & Hr1 & Hn1).
    split; [exact (sys_step_ring_ok _ _ _ _ Hs Hokx)|].
    split; [rewrite Hm1; exact Hmx|]. split; [exact Hq1|]. split; [exact Hr1|].
    rewrite Hn1, Hnx, u32_add_l, accepted_frames_snoc, length_app. f_equal.
    destruct (accepted (mkEntry lbl x acts)); cbn [length]; lia. }
  assert (Hinit : I [] (sys_init s hdr)).
  { destruct hdr as [[[h1 h2] h3] h4]. unfold I, sys_init. cbn [sys_sender].
    split; [exact Hok|]. split; [exact Hmax|].
    split; [unfold queue_numbered; rewrite Hwf, Hcount; reflexivity|].
    rewrite Hnum. split; [lia | reflexivity]. }
  destruct (run_invariant (fun _ => True) I Hstep lbls (sys_init s hdr) st' tr [])
    as [(_ & _ & Hq' & _ & Hn') Hall];
    [apply Forall_forall; auto | exact Hinit | exact Hrun |].
  cbn [app] in Hn'. split; [exact Hn'|]. split; [exact Hq'|].
  intros tr1 e tr2 Heq.
  destruct (Hall tr1 e tr2 Heq) as (_ & (Hokx & Hmx & Hqx & Hrx & Hnx) & st1 & Hs).
  cbn [app] in Hnx. split; [exact Hnx|]. split; [exact Hqx|].
  intros Hacc. destruct (sys_step_frames _ _ _ _ Hokx (Hcapx _ Hmx) Hs) as [Hf _].
  assert (He : mkEntry (entry_label e) (entry_before e) (entry_actions e) = e)
    by (destruct e; reflexivity).
  destruct Hf as [Hacc0 Hwf0 Hn0 Hnum0 Hcur0 Hcb0 Hcbs0 Hhand0 Hnf0
                 | b sz fl nb Hl _ Hb Hsz Hmax0 Hfl Hwf0 Hn0 Hnum0 _ _ _ _ _
                 | lat werr wms Hl _ _ _ _ _ _ _ _ _
                 | lat werr wms Hl _ _ _ _ _ _ _ _ _
                 | err rsz pkt Hl _ _ _ _ _ _ _ _ _];
    try (unfold accepted in Hacc; rewrite Hl in Hacc; discriminate Hacc);
    [rewrite He in Hacc0; congruence|].
  exists st1, fl, (if fl =? 1 then [] else waiting_frames (sys_sender (entry_before e))).
  split; [exact Hs|].
  rewrite Hwf0. unfold submission. rewrite Hl. cbn [fst snd].
  rewrite Hnx, u32_add_l. reflexivity.
Qed.

(** ** Cancellations *)

Lemma is_cancel_callback a : is_cancel a = true -> is_callback a = true.
Proof. destruct a as [status ? ? ?| | | |]; try discriminate. reflexivity. Qed.

(** One step keeps what is known of the priorities, and cancels a frame
    only in a flush. *)
Lemma sys_step_cancels h lbl st st1 acts :
  ring_ok (sys_sender st) -> capacity_fits_int (sys_sender st) ->
  priorities_from h st ->
  sys_step lbl st = Some (st1, acts) ->
  let e := mkEntry lbl st acts in
  priorities_from (h ++ [e]) st1 /\
  forall a, a ∈ acts -> is_cancel a = true ->
    flush_accepted e = true \/
    (is_install e = true /\
     isHighPriority (nextFrame (sys_locals st)) = 1 /\
     Exists (fun e0 => flush_accepted e0 = true) h).
Proof.
  intros Hok Hcap (Hw & Hn & Hh) Hstep e.
  destruct (sys_step_frames _ _ _ _ Hok Hcap Hstep) as [Hf _].
  assert (Hin : forall a, a ∈ acts -> is_cancel a = true ->
                          a ∈ List.filter is_callback acts).
  { intros a Ha Hcb. apply list_elem_of_In, List.filter_In.
    split; [apply list_elem_of_In; exact Ha | apply is_cancel_callback; exact Hcb]. }
  assert (Hmono : forall P : Prop,
            (P -> Exists (fun e0 => flush_accepted e0 = true) h) ->
            P -> Exists (fun e0 => flush_accepted e0 = true) (h ++ [e])).
  { intros P HP Hp. apply List.Exists_app. left. exact (HP Hp). }
  assert (Hwmono : Forall (fun f => isHighPriority f = 1 ->
                             Exists (fun e0 => flush_accepted e0 = true) (h ++ [e]))
                          (waiting_frames (sys_sender st))).
  { eapply List.Forall_impl; [|exact Hw]. intros f Hf1. apply Hmono, Hf1. }
  destruct Hf as [Hacc Hwf Hnn Hnum Hcur Hcb Hcbs Hhand Hnf
                 | b sz fl nb Hl Hacc Hb Hsz Hmax Hfl Hwf Hnn Hnum Hcur Hcb Hcbs Hpc Hloc
                 | lat werr wms Hl Hhand Hpc Hwf Hnn Hprio Hnum Hcur Hcb Hcbs
                 | lat werr wms Hl Hpc Hhand Hwf Hnn Hnum Hcur Hcb Hcbs Hnf
                 | err rsz pkt Hl Hcb0 Hcb1 Hcbs Hwf Hnn Hnum Hcur Hpc Hloc].
  - split.
    + unfold priorities_from. rewrite Hwf, Hnf, Hhand, Hcb.
      split; [exact Hwmono|]. split; [apply Hmono, Hn | exact Hh].
    + intros a Ha Hca. apply Hin in Ha; [|exact Hca]. rewrite Hcbs in Ha.
      apply elem_of_nil in Ha; contradiction.
  - assert (Hfa : fl = 1 -> flush_accepted e = true).
    { intros ->. unfold flush_accepted. subst e. rewrite Hacc, Hl. reflexivity. }
    split.
    + unfold priorities_from. rewrite Hwf, Hloc, Hpc, Hcb.
      split; [|split; [apply Hmono, Hn | exact Hh]].
      apply Forall_app. split.
      * destruct (fl =? 1); [constructor | exact Hwmono].
      * constructor; [|constructor]. cbn [isHighPriority]. intros Hfl1.
        apply List.Exists_app. right. constructor. apply Hfa, Hfl1.
    + intros a Ha Hca. left. apply Hfa.
      apply Hin in Ha; [|exact Hca]. rewrite Hcbs in Ha.
      destruct (fl =? 1) eqn:E; [apply Z.eqb_eq; exact E|].
      apply elem_of_nil in Ha; contradiction.
  - rewrite Hwf in Hw, Hwmono. inversion Hwmono as [|? ? Hhd Htl]; subst.
    split.
    + unfold priorities_from. rewrite Hpc, Hcb.
      split; [exact Htl|]. split; [exact Hhd|]. intros _. exact Hprio.
    + intros a Ha Hca. apply Hin in Ha; [|exact Hca]. rewrite Hcbs in Ha.
      apply elem_of_nil in Ha; contradiction.
  - split.
    + unfold priorities_from. rewrite Hwf, Hnf, Hhand.
      split; [exact Hwmono|]. split; [apply Hmono, Hn|]. intros H01. discriminate H01.
    + intros a Ha Hca. apply Hin in Ha; [|exact Hca]. rewrite Hcbs in Ha.
      destruct (currentFrameCbWasCalled (sys_sender st) =? 0) eqn:E;
        [|apply elem_of_nil in Ha; contradiction].
      apply Z.eqb_eq in E. right.
      assert (Hhi : isHighPriority (nextFrame (sys_locals st)) = 1).
      { destruct Hh as [Hhi|Hc1]; [rewrite Hpc; reflexivity | exact Hhi | lia]. }
      split; [|split; [exact Hhi | exact (Hn Hhi)]].
      subst e. unfold is_install. cbn [entry_label entry_before].
      rewrite Hl, Hpc. reflexivity.
  - split.
    + unfold priorities_from. rewrite Hwf, Hloc, Hpc, Hcb1.
      split; [exact Hwmono|]. split; [apply Hmono, Hn|]. intros _. right. reflexivity.
    + intros a Ha Hca. apply Hin in Ha; [|exact Hca]. rewrite Hcbs in Ha.
      apply list_elem_of_singleton in Ha. subst a. discriminate Hca.
Qed.

(** X8: every cancellation comes from a flush.  In every run of the
    threads on a new sender of a capacity below INT_MAX, a callback with
    FRAME_CANCEL is made either by an accepted submission that asks for a
    flush, for the frames that wait, or by the data thread when it replaces
    the current frame by a frame of high priority, which an earlier
    submission with a flush brought in.  So when the application never asks
    for a flush no frame is ever cancelled: the data thread waits for the
    acknowledgement of the current frame before it takes the next one. *)
Theorem cancellations_come_from_flushes
    env mgr dataId ackId cb size cust s hdr lbls st' tr :
  0 <= size < INT_MAX ->
  ARSTREAM_Sender_New env mgr dataId ackId cb size cust = (Some s, ARSTREAM_OK) ->
  run lbls (sys_init s hdr) = Some (st', tr) ->
  (forall tr1 e tr2 a,
     tr = tr1 ++ e :: tr2 -> a ∈ entry_actions e -> is_cancel a = true ->
     flush_accepted e = true \/
     (is_install e = true /\
      isHighPriority (nextFrame (sys_locals (entry_before e))) = 1 /\
      Exists (fun e0 => flush_accepted e0 = true) tr1)) /\
  (Forall (fun lbl => no_flush lbl = true) lbls ->
   Forall (fun a => is_cancel a = false) (callbacks_of tr)).
Proof.
  intros Hsize Hnew Hrun.
  assert (Hsize' : 0 <= size < 2 ^ 32) by (unfold INT_MAX in Hsize; lia).
  destruct (New_sender_state _ _ _ _ _ _ _ _ Hsize' Hnew)
    as ((_ & _ & _ & _ & Hmax & _) & (Hok & _ & Hwf & _) & _).
  pose (I := fun (h : list Entry) (x : Sys) =>
               ring_ok (sys_sender x) /\
               maxNumberOfNextFrames (sys_sender x) = size /\
               priorities_from h x).
  assert (Hcapx : forall x, maxNumberOfNextFrames (sys_sender x) = size ->
                            capacity_fits_int (sys_sender x)).
  { intros x Hx. unfold capacity_fits_int. rewrite Hx. lia. }
  assert (Hstep : forall lbl x x1 acts h,
            True -> I h x -> sys_step lbl x = Some (x1, acts) ->
            I (h ++ [mkEntry lbl x acts]) x1).
  { intros lbl x x1 acts h _ (Hokx & Hmx & Hpx) Hs.
    destruct (sys_step_frames _ _ _ _ Hokx (Hcapx _ Hmx) Hs) as (_ & _ & Hm1).
    destruct (sys_step_cancels _ _ _ _ _ Hokx (Hcapx _ Hmx) Hpx Hs) as [Hp1 _].
    split; [exact (sys_step_ring_ok _ _ _ _ Hs Hokx)|].
    split; [rewrite Hm1; exact Hmx | exact Hp1]. }
  assert (Hinit : I [] (sys_init s hdr)).
  { destruct hdr as [[[h1 h2] h3] h4]. unfold I, sys_init. cbn [sys_sender].
    split; [exact Hok|]. split; [exact Hmax|].
    unfold priorities_from. cbn [sys_sender sys_locals sys_pc nextFrame isHighPriority in_hand].
    rewrite Hwf. split; [constructor|]. split; intros H01; discriminate H01. }
  destruct (run_invariant (fun _ => True) I Hstep lbls (sys_init s hdr) st' tr [])
    as [_ Hall]; [apply Forall_forall; auto | exact Hinit | exact Hrun |].
  assert (Hfirst : forall tr1 e tr2 a,
            tr = tr1 ++ e :: tr2 -> a ∈ entry_actions e -> is_cancel a = true ->
            flush_accepted e = true \/
            (is_install e = true /\
             isHighPriority (nextFrame (sys_locals (entry_before e))) = 1 /\
             Exists (fun e0 => flush_accepted e0 = true) tr1)).
  { intros tr1 e tr2 a Heq Ha Hca.
    destruct (Hall tr1 e tr2 Heq) as (_ & (Hokx & Hmx & Hpx) & st1 & Hs).
    cbn [app] in Hpx.
    destruct (sys_step_cancels _ _ _ _ _ Hokx (Hcapx _ Hmx) Hpx Hs) as [_ Hc].
    cbn zeta in Hc.
    assert (He : mkEntry (entry_label e) (entry_before e) (entry_actions e) = e)
      by (destruct e; reflexivity).
    rewrite He in Hc. exact (Hc a Ha Hca). }
  split; [exact Hfirst|].
  intros Hnf.
  assert (Hlabels : forall lbls0 st0 st0' tr0,
            run lbls0 st0 = Some (st0', tr0) -> entry_label <$> tr0 = lbls0).
  { induction lbls0 as [|l0 lbls0 IH]; intros st0 st0' tr0 Hr; cbn [run] in Hr.
    - injection Hr as <- <-. reflexivity.
    - destruct (sys_step l0 st0) as [[x1 a1]|]; [|discriminate].
      destruct (run lbls0 x1) as [[x2 t2]|] eqn:Er; [|discriminate].
      injection Hr as <- <-. rewrite fmap_cons. cbn [entry_label]. f_equal.
      exact (IH _ _ _ Er). }
  assert (Hnone : forall e, e ∈ tr -> flush_accepted e = false).
  { intros e He. unfold flush_accepted.
    assert (Hl : entry_label e ∈ lbls).
    { rewrite <- (Hlabels _ _ _ _ Hrun). apply list_elem_of_fmap_2. exact He. }
    rewrite List.Forall_forall in Hnf. rewrite (Hnf _ (proj1 (list_elem_of_In _ _) Hl)).
    apply andb_false_r. }
  apply List.Forall_forall. intros a Ha.
  unfold callbacks_of in Ha. apply in_concat in Ha. destruct Ha as (cbs & Hcbs & Ha).
  apply in_map_iff in Hcbs. destruct Hcbs as (e & <- & He).
  apply List.filter_In in Ha. destruct Ha as [Ha Hcb].
  destruct (is_cancel a) eqn:Hca; [|reflexivity]. exfalso.
  apply in_split in He. destruct He as (tr1 & tr2 & Heq).
  destruct (Hfirst tr1 e tr2 a Heq (proj2 (list_elem_of_In _ _) Ha) Hca)
    as [Hfa | (_ & _ & Hex)].
  - rewrite Hnone in Hfa; [discriminate|]. rewrite Heq.
    apply elem_of_app. right. apply elem_of_cons. left. reflexivity.
  - apply List.Exists_exists in Hex. destruct Hex as (e0 & He0 & Hfa).
    rewrite Hnone in Hfa; [discriminate|]. rewrite Heq.
    apply elem_of_app. left. apply list_elem_of_In. exact He0.
Qed.

(** ** Settings, flags and deletion *)

(** A submission leaves the settings and the flags of the threads. *)
Lemma SendNewFrame_settings s b sz fl nb :
  ring_ok s ->
  exists s1, snd (fst (fst (ARSTREAM_Sender_SendNewFrame (Some s) b sz fl nb))) = Some s1 /\
             settings s1 = settings s /\ thread_flags s1 = thread_flags s.
Proof.
  intros Hok. unfold ARSTREAM_Sender_SendNewFrame.
  destruct (_ || _); [exists s; auto|].
  destruct (sz >? _); [exists s; auto|].
  rewrite AddToQueue_spec by assumption. cbn zeta.
  rewrite after_flush_eq by assumption.
  match goal with
  | |- context [if ?c then (?a, ?s1, ?l1) else (?b, ?s2, ?l2)] =>
      assert (Hs : (settings s1 = settings s /\ thread_flags s1 = thread_flags s) /\
                   (settings s2 = settings s /\ thread_flags s2 = thread_flags s));
      [|destruct c]
  end.
  - destruct (fl =? 1); destruct s; repeat split.
  - destruct (_ <? 0); [|destruct nb]; cbn [fst snd]; eexists; split;
      try reflexivity; apply Hs.
  - change (-1 <? 0) with true. cbn [fst snd]. eexists; split; [reflexivity | apply Hs].
Qed.

(** What a step of the application, of the network or of the data thread
    does to the settings and to the flags: the settings stay;
    [threadsShouldStop] is only ever set, by [ARSTREAM_Sender_StopSender];
    [dataThreadStarted] is set when the data thread starts and cleared when
    it ends; [ackThreadStarted] stays. *)
Lemma sys_step_settings lbl st st1 acts :
  ring_ok (sys_sender st) ->
  sys_step lbl st = Some (st1, acts) ->
  settings (sys_sender st1) = settings (sys_sender st) /\
  ackThreadStarted (sys_sender st1) = ackThreadStarted (sys_sender st) /\
  threadsShouldStop (sys_sender st1) =
    (match lbl with L_StopSender => 1 | _ => threadsShouldStop (sys_sender st) end) /\
  ((dataThreadStarted (sys_sender st1) = dataThreadStarted (sys_sender st) /\
    data_running (sys_pc st1) = data_running (sys_pc st) /\
    (sys_pc st1 = PcEnded -> sys_pc st = PcEnded)) \/
   (sys_pc st = PcStart /\ sys_pc st1 = PcLoop /\
    dataThreadStarted (sys_sender st1) = 1) \/
   (sys_pc st = PcLoop /\ sys_pc st1 = PcEnded /\
    threadsShouldStop (sys_sender st) <> 0 /\
    dataThreadStarted (sys_sender st1) = 0) \/
   (sys_pc st = PcStart /\ sys_pc st1 = PcEnded /\ start_fails lbl = true /\
    dataThreadStarted (sys_sender st1) = dataThreadStarted (sys_sender st))).
Proof.
  intros Hok Hstep.
  destruct lbl as [b sz fl nb | | err rsz pkt | fn idx status | lat werr wms | param frag];
    cbn [sys_step] in Hstep.
  - destruct (SendNewFrame_settings (sys_sender st) b sz fl nb Hok) as (s1 & Hs1 & Hset & Hfl).
    destruct (ARSTREAM_Sender_SendNewFrame (Some (sys_sender st)) b sz fl nb)
      as [[[e s'] p'] l]. cbn [fst snd] in Hs1. subst s'.
    injection Hstep as <- <-. cbn [sys_sender sys_pc].
    unfold thread_flags in Hfl. injection Hfl as H1 H2 H3. auto 10.
  - unfold lift_sender, ARSTREAM_Sender_StopSender, modify in Hstep.
    injection Hstep as <- <-. cbn [sys_sender sys_pc].
    destruct (sys_sender st); cbn. auto 10.
  - destruct (ackMutex_free (sys_pc st)); [|discriminate].
    pose proof (RunAckThread_body_outcomes err rsz pkt (sys_sender st)) as Hout.
    cbn zeta in Hout. unfold lift_sender in Hstep.
    destruct (ARSTREAM_Sender_RunAckThread_body err rsz pkt (sys_sender st))
      as [[u s1] l1].
    unfold state_of, trace_of in Hout. cbn [fst snd] in Hout.
    injection Hstep as <- <-. cbn [sys_sender sys_pc].
    destruct Hout as [(p & -> & _) | (p & _ & -> & _)];
      destruct (sys_sender st); cbn; auto 10.
  - destruct (NetworkCallback_outcomes fn idx status (sys_sender st)) as [p Hp].
    rewrite Hp in Hstep. unfold lift_sender in Hstep. injection Hstep as <- <-.
    cbn [sys_sender sys_pc]. destruct (sys_sender st); cbn; auto 10.
  - assert (Hquiet : forall s1,
              settings s1 = settings (sys_sender st) /\
              thread_flags s1 = thread_flags (sys_sender st) ->
              sys_sender st1 = s1 ->
              data_running (sys_pc st1) = data_running (sys_pc st) ->
              sys_pc st1 <> PcEnded ->
              settings (sys_sender st1) = settings (sys_sender st) /\
              ackThreadStarted (sys_sender st1) = ackThreadStarted (sys_sender st) /\
              threadsShouldStop (sys_sender st1) = threadsShouldStop (sys_sender st) /\
              ((dataThreadStarted (sys_sender st1) = dataThreadStarted (sys_sender st) /\
                data_running (sys_pc st1) = data_running (sys_pc st) /\
                (sys_pc st1 = PcEnded -> sys_pc st = PcEnded)) \/
               (sys_pc st = PcStart /\ sys_pc st1 = PcLoop /\
                dataThreadStarted (sys_sender st1) = 1) \/
               (sys_pc st = PcLoop /\ sys_pc st1 = PcEnded /\
                threadsShouldStop (sys_sender st) <> 0 /\
                dataThreadStarted (sys_sender st1) = 0) \/
               (sys_pc st = PcStart /\ sys_pc st1 = PcEnded /\
                start_fails (L_Data lat werr wms) = true /\
                dataThreadStarted (sys_sender st1) = dataThreadStarted (sys_sender st)))).
    { intros s1 [Hset Hfl] Hs1 Hrun Hne. rewrite Hs1.
      unfold thread_flags in Hfl. injection Hfl as H1 H2 H3.
      split; [exact Hset|]. split; [exact H3|]. split; [exact H1|].
      left. split; [exact H2|]. split; [exact Hrun|]. intros; contradiction. }
    destruct (RunDataThread_step_outcomes lat werr wms st st1 acts Hok Hstep)
      as [(Hpc & -> & ->) | [(Hpc & Hstop & -> & ->) |
          [(Hpc & Hnr & Hs1 & Hl1 & ->) | [(Hpc & Hr & -> & ->) |
          [(Hpc & -> & ->) | [(w & Hpc & Hw & -> & ->) |
           (Hpc & (p & Hs1) & Hf & Hnf & Hnb & Hpc1)]]]]]].
    + cbn [sys_sender sys_pc].
      split; [destruct (sys_sender st); reflexivity|].
      split; [destruct (sys_sender st); reflexivity|].
      split; [destruct (sys_sender st); reflexivity|].
      right; left. split; [exact Hpc|]. split; [reflexivity|].
      destruct (sys_sender st); reflexivity.
    + cbn [sys_sender sys_pc].
      split; [destruct (sys_sender st); reflexivity|].
      split; [destruct (sys_sender st); reflexivity|].
      split; [destruct (sys_sender st); reflexivity|].
      right; right; left. split; [exact Hpc|]. split; [reflexivity|].
      split; [exact Hstop|]. destruct (sys_sender st); reflexivity.
    + apply (Hquiet (sys_sender st)); [split; reflexivity | exact Hs1 | |].
      * destruct Hpc as [(-> & _ & ->) | (wt & tw & -> & ->)]; [reflexivity|].
        destruct (werr =? ETIMEDOUT); reflexivity.
      * destruct Hpc as [(_ & _ & ->) | (wt & tw & _ & ->)]; [discriminate|].
        destruct (werr =? ETIMEDOUT); discriminate.
    + apply (Hquiet (popped (sys_sender st)));
        [destruct (sys_sender st); split; reflexivity | reflexivity | | discriminate].
      destruct Hpc as [[-> _] | (wt & tw & ->)]; reflexivity.
    + apply (Hquiet (installed (sys_locals st) (sys_sender st)));
        [split; reflexivity | reflexivity | | discriminate].
      rewrite Hpc. reflexivity.
    + apply (Hquiet (sys_sender st));
        [split; reflexivity | reflexivity | | discriminate].
      rewrite Hpc. reflexivity.
    + apply (Hquiet (set_packetsToSend p (sys_sender st)));
        [destruct (sys_sender st); split; reflexivity | exact Hs1 | |].
      * destruct Hpc1 as [-> | (cnt' & -> & _)];
          destruct Hpc as [-> | (cnt & ->)]; reflexivity.
      * destruct Hpc1 as [-> | (cnt' & -> & _)]; discriminate.
  - destruct (RunDataThread_start_outcomes _ _ _ _ _ Hstep)
      as (Hpc & [(-> & -> & Hnull) | (-> & -> & _)]); cbn [sys_sender sys_pc].
    + split; [reflexivity|]. split; [reflexivity|]. split; [reflexivity|].
      right; right; right. split; [exact Hpc|]. split; [reflexivity|].
      split; [|reflexivity]. cbn [start_fails]. apply orb_true_iff.
      destruct Hnull as [-> | ->]; [left | right]; reflexivity.
    + split; [destruct (sys_sender st); reflexivity|].
      split; [destruct (sys_sender st); reflexivity|].
      split; [destruct (sys_sender st); reflexivity|].
      right; left. split; [exact Hpc|]. split; [reflexivity|].
      destruct (sys_sender st); reflexivity.
Qed.

(** The same for a step of any thread, the ack thread included. *)
Lemma threads_step_settings lbl t t1 acts :
  ring_ok (sys_sender (th_sys t)) ->
  threads_step lbl t = Some (t1, acts) ->
  ring_ok (sys_sender (th_sys t1)) /\
  settings (sys_sender (th_sys t1)) = settings (sys_sender (th_sys t)) /\
  threadsShouldStop (sys_sender (th_sys t1)) =
    (if is_stop lbl then 1 else threadsShouldStop (sys_sender (th_sys t))) /\
  (flags_tell t -> flags_tell t1) /\
  (th_ack t1 = AckEnded -> th_ack t = AckEnded \/
     (th_ack t = AckLoop /\ threadsShouldStop (sys_sender (th_sys t)) <> 0)) /\
  (sys_pc (th_sys t1) = PcEnded -> sys_pc (th_sys t) = PcEnded \/
     (sys_pc (th_sys t) = PcLoop /\ threadsShouldStop (sys_sender (th_sys t)) <> 0) \/
     (sys_pc (th_sys t) = PcStart /\ data_start_fails lbl = true)).
Proof.
  intros Hok Hstep. unfold flags_tell.
  destruct lbl as [err rsz pkt | lbl]; cbn [threads_step] in Hstep.
  - unfold ARSTREAM_Sender_RunAckThread_step in Hstep.
    destruct (th_ack t) eqn:Eack.
    + injection Hstep as <- <-. cbn [th_sys th_ack sys_sender sys_pc].
      split; [apply (ring_ok_untouched (sys_sender (th_sys t))); [|exact Hok];
              destruct (sys_sender (th_sys t)); repeat split|].
      split; [destruct (sys_sender (th_sys t)); reflexivity|].
      split; [destruct (sys_sender (th_sys t)); reflexivity|].
      split; [|split; [discriminate | auto]].
      intros [Hd _]. split; [|destruct (sys_sender (th_sys t)); reflexivity].
      rewrite <- Hd. destruct (sys_sender (th_sys t)); reflexivity.
    + destruct (threadsShouldStop (sys_sender (th_sys t)) =? 0) eqn:Estop.
      * injection Hstep as <- <-. cbn [th_sys th_ack].
        split; [exact Hok|]. split; [reflexivity|]. split; [reflexivity|].
        split; [|split; [discriminate | auto]].
        intros [Hd Ha]. split; [exact Hd | exact Ha].
      * apply Z.eqb_neq in Estop.
        injection Hstep as <- <-. cbn [th_sys th_ack sys_sender sys_pc].
        split; [apply (ring_ok_untouched (sys_sender (th_sys t))); [|exact Hok];
                destruct (sys_sender (th_sys t)); repeat split|].
        split; [destruct (sys_sender (th_sys t)); reflexivity|].
        split; [destruct (sys_sender (th_sys t)); reflexivity|].
        split; [|split; [auto | auto]].
        intros [Hd _]. split; [|destruct (sys_sender (th_sys t)); reflexivity].
        rewrite <- Hd. destruct (sys_sender (th_sys t)); reflexivity.
    + destruct (ack_read_ok err rsz && _); [discriminate|].
      pose proof (RunAckThread_body_outcomes err rsz pkt (sys_sender (th_sys t))) as Hout.
      pose proof (ARSTREAM_Sender_RunAckThread_body_ring err rsz pkt (sys_sender (th_sys t)))
        as Hring.
      cbn zeta in Hout.
      destruct (ARSTREAM_Sender_RunAckThread_body err rsz pkt (sys_sender (th_sys t)))
        as [[u s1] l1].
      unfold state_of, trace_of in Hout, Hring. cbn [fst snd] in Hout, Hring.
      injection Hstep as <- <-. cbn [th_sys th_ack sys_sender sys_pc].
      split; [exact (ring_ok_untouched _ _ Hring Hok)|].
      assert (Hsame : settings s1 = settings (sys_sender (th_sys t)) /\
                      thread_flags s1 = thread_flags (sys_sender (th_sys t))).
      { destruct Hout as [(p & -> & _) | (p & _ & -> & _)];
          destruct (sys_sender (th_sys t)); split; reflexivity. }
      destruct Hsame as [Hset Hfl]. unfold thread_flags in Hfl.
      injection Hfl as H1 H2 H3.
      split; [exact Hset|]. split; [exact H1|].
      split; [|split; [discriminate | auto]].
      intros [Hd Ha]. rewrite H2, H3. split; [exact Hd | exact Ha].
    + discriminate.
  - assert (Hsys : match sys_step lbl (th_sys t) with
                   | Some (st1, acts1) => Some (mkThreads st1 (th_ack t), acts1)
                   | None => None
                   end = Some (t1, acts) /\ is_stop (T_Other lbl) =
                     match lbl with L_StopSender => true | _ => false end).
    { destruct lbl; try (split; [exact Hstep | reflexivity]). discriminate. }
    destruct Hsys as [Hsys Hstopl].
    destruct (sys_step lbl (th_sys t)) as [[st1 acts1]|] eqn:Es; [|discriminate].
    injection Hsys as <- <-. cbn [th_sys th_ack].
    destruct (sys_step_settings _ _ _ _ Hok Es) as (Hset & Hack & Hstop & Hdata).
    split; [exact (sys_step_ring_ok _ _ _ _ Es Hok)|].
    split; [exact Hset|].
    split; [rewrite Hstop, Hstopl; destruct lbl; reflexivity|].
    split; [|split; [auto|]].
    + intros [Hd Ha]. rewrite Hack. split; [|exact Ha].
      destruct Hdata as [(H1 & H2 & _) | [(H1 & H2 & H3) | [(H1 & H2 & H3 & H4) |
                         (H1 & H2 & H3 & H4)]]].
      * rewrite H1, H2. exact Hd.
      * rewrite H2, H3. reflexivity.
      * rewrite H2, H4. reflexivity.
      * rewrite H4, H2, Hd, H1. reflexivity.
    + intros Hend.
      destruct Hdata as [(H1 & H2 & H3) | [(H1 & H2 & H3) | [(H1 & H2 & H3 & H4) |
                         (H1 & H2 & H3 & H4)]]].
      * left. exact (H3 Hend).
      * rewrite H2 in Hend. discriminate.
      * right; left. auto.
      * right; right. auto.
Qed.


(** Along a run of the threads. *)
Lemma threads_run_settings lbls : forall t t' tr,
  ring_ok (sys_sender (th_sys t)) ->
  threads_run lbls t = Some (t', tr) ->
  ring_ok (sys_sender (th_sys t')) /\
  settings (sys_sender (th_sys t')) = settings (sys_sender (th_sys t)) /\
  threadsShouldStop (sys_sender (th_sys t')) =
    (if existsb is_stop lbls then 1 else threadsShouldStop (sys_sender (th_sys t))) /\
  (flags_tell t -> flags_tell t') /\
  (th_ack t' = AckEnded ->
   th_ack t = AckEnded \/ threadsShouldStop (sys_sender (th_sys t')) <> 0) /\
  (sys_pc (th_sys t') = PcEnded ->
   sys_pc (th_sys t) = PcEnded \/ threadsShouldStop (sys_sender (th_sys t')) <> 0 \/
   existsb data_start_fails lbls = true).
Proof.
  induction lbls as [|lbl lbls IH]; intros t t' tr Hok Hrun; cbn [threads_run] in Hrun.
  - injection Hrun as <- <-. cbn [existsb]. auto 10.
  - destruct (threads_step lbl t) as [[t1 l1]|] eqn:Es; [|discriminate].
    destruct (threads_run lbls t1) as [[t2 l2]|] eqn:Er; [|discriminate].
    injection Hrun as <- <-.
    destruct (threads_step_settings _ _ _ _ Hok Es)
      as (Hok1 & Hset1 & Hstop1 & Hfl1 & Hack1 & Hdata1).
    destruct (IH _ _ _ Hok1 Er) as (Hok2 & Hset2 & Hstop2 & Hfl2 & Hack2 & Hdata2).
    assert (Hstop : threadsShouldStop (sys_sender (th_sys t2)) =
                    if existsb is_stop (lbl :: lbls) then 1
                    else threadsShouldStop (sys_sender (th_sys t))).
    { rewrite Hstop2, Hstop1. cbn [existsb].
      destruct (is_stop lbl); destruct (existsb is_stop lbls); reflexivity. }
    assert (Hmono : threadsShouldStop (sys_sender (th_sys t)) <> 0 ->
                    threadsShouldStop (sys_sender (th_sys t2)) <> 0).
    { rewrite Hstop. destruct (existsb is_stop (lbl :: lbls)); [discriminate | auto]. }
    split; [exact Hok2|]. split; [rewrite Hset2; exact Hset1|].
    split; [exact Hstop|]. split; [auto|]. split.
    + intros Ha. destruct (Hack2 Ha) as [Ha1 | Hs]; [|right; exact Hs].
      destruct (Hack1 Ha1) as [Ha0 | [_ Hs0]]; [left; exact Ha0 | right; auto].
    + intros Hd. cbn [existsb].
      destruct (Hdata2 Hd) as [Hd1 | [Hs | Hf]];
        [| right; left; exact Hs
         | right; right; rewrite Hf; apply orb_true_r].
      destruct (Hdata1 Hd1) as [Hd0 | [[_ Hs0] | [_ Hf0]]];
        [left; exact Hd0 | right; left; auto | right; right; rewrite Hf0; reflexivity].
Qed.

(** X9: [ARSTREAM_Sender_Delete] succeeds exactly when no thread of the
    sender runs.  In every state the threads reach from a new sender, the
    flags [dataThreadStarted] and [ackThreadStarted] are 1 exactly while
    the data thread, respectively the ack thread, is between the start of
    its function and its return; so [ARSTREAM_Sender_Delete] answers BUSY,
    prints an error and leaves the sender and the pointer as they are while
    one of them runs, and answers OK and clears the pointer before they
    have started and after both have returned.  A null argument is
    answered with BAD_PARAMETERS. *)
Theorem Delete_refused_while_a_thread_runs
    env mgr dataId ackId cb size cust s hdr lbls t tr :
  0 <= size < 2 ^ 32 ->
  ARSTREAM_Sender_New env mgr dataId ackId cb size cust = (Some s, ARSTREAM_OK) ->
  threads_run lbls (threads_init s hdr) = Some (t, tr) ->
  let s' := sys_sender (th_sys t) in
  flags_tell t /\
  ARSTREAM_Sender_Delete (Some (Some s')) =
    (if data_running (sys_pc (th_sys t)) || ack_running (th_ack t)
     then (ARSTREAM_ERROR_BUSY, Some (Some s'), [Print_Error])
     else (ARSTREAM_OK, Some None, [])) /\
  ARSTREAM_Sender_Delete (Some None) = (ARSTREAM_ERROR_BAD_PARAMETERS, Some None, []) /\
  ARSTREAM_Sender_Delete None = (ARSTREAM_ERROR_BAD_PARAMETERS, None, []).
Proof.
  intros Hsize Hnew Hrun s'. subst s'.
  destruct (New_sender_state _ _ _ _ _ _ _ _ Hsize Hnew)
    as (_ & (Hok & _) & _ & (_ & Hd0 & Ha0)).
  assert (Hok0 : ring_ok (sys_sender (th_sys (threads_init s hdr)))).
  { destruct hdr as [[[h1 h2] h3] h4]. exact Hok. }
  destruct (threads_run_settings _ _ _ _ Hok0 Hrun) as (_ & _ & _ & Hfl & _).
  assert (Hinit : flags_tell (threads_init s hdr)).
  { destruct hdr as [[[h1 h2] h3] h4]. split; cbn; assumption. }
  specialize (Hfl Hinit). split; [exact Hfl|]. split; [|split; reflexivity].
  destruct Hfl as [Hd Ha]. unfold ARSTREAM_Sender_Delete. rewrite Hd, Ha.
  destruct (data_running _); destruct (ack_running _); reflexivity.
Qed.

(** X10: the settings of a sender never change, and its threads end only
    when they are told to or when the data thread cannot start.  In every
    run of the threads on a new sender, the manager, the two buffer
    identifiers, the callback, the capacity and the [custom] pointer stay
    those given to [ARSTREAM_Sender_New]; [threadsShouldStop] is 1 if
    [ARSTREAM_Sender_StopSender] was called in the run and 0 otherwise, for
    nothing resets it; if the ack thread has returned,
    [ARSTREAM_Sender_StopSender] was called; and if the data thread has
    returned, [ARSTREAM_Sender_StopSender] was called or the thread failed
    one of the two checks it makes before its loop (a null parameter, no
    memory for [sendFragment]). *)
Theorem threads_end_only_when_stopped
    env mgr dataId ackId cb size cust s hdr lbls t tr :
  0 <= size < 2 ^ 32 ->
  ARSTREAM_Sender_New env mgr dataId ackId cb size cust = (Some s, ARSTREAM_OK) ->
  threads_run lbls (threads_init s hdr) = Some (t, tr) ->
  let s' := sys_sender (th_sys t) in
  settings s' = (mgr, dataId, ackId, cb, size, cust) /\
  threadsShouldStop s' = (if existsb is_stop lbls then 1 else 0) /\
  (th_ack t = AckEnded -> existsb is_stop lbls = true) /\
  (sys_pc (th_sys t) = PcEnded ->
   existsb is_stop lbls = true \/ existsb data_start_fails lbls = true).
Proof.
  intros Hsize Hnew Hrun s'. subst s'.
  destruct (New_sender_state _ _ _ _ _ _ _ _ Hsize Hnew)
    as ((H1 & H2 & H3 & H4 & H5 & H6) & (Hok & _) & _ & (Hs0 & _)).
  assert (Hinit : sys_sender (th_sys (threads_init s hdr)) = s /\
                  sys_pc (th_sys (threads_init s hdr)) = PcStart /\
                  th_ack (threads_init s hdr) = AckStart).
  { destruct hdr as [[[h1 h2] h3] h4]. repeat split. }
  destruct Hinit as (Hi1 & Hi2 & Hi3).
  assert (Hok0 : ring_ok (sys_sender (th_sys (threads_init s hdr))))
    by (rewrite Hi1; exact Hok).
  destruct (threads_run_settings _ _ _ _ Hok0 Hrun)
    as (_ & Hset & Hstop & _ & Hack & Hdata).
  rewrite Hi1 in Hset, Hstop. rewrite Hi3 in Hack. rewrite Hi2 in Hdata.
  rewrite Hs0 in Hstop.
  assert (Hcalled : threadsShouldStop (sys_sender (th_sys t)) <> 0 ->
                    existsb is_stop lbls = true).
  { rewrite Hstop. destruct (existsb is_stop lbls); [reflexivity | contradiction]. }
  split; [rewrite Hset; unfold settings; congruence|].
  split; [exact Hstop|]. split.
  - intros Ha. destruct (Hack Ha) as [H|H]; [discriminate H | exact (Hcalled H)].
  - intros Hd. destruct (Hdata Hd) as [H | [H | H]];
      [discriminate H | left; exact (Hcalled H) | right; exact H].
Qed.

(** ** The end of the threads *)

(** The data thread can always make a step, until it has ended. *)
Lemma RunDataThread_step_progress lat werr wms st :
  sys_pc st <> PcEnded ->
  exists st1 acts, ARSTREAM_Sender_RunDataThread_step lat werr wms st = Some (st1, acts).
Proof.
  intros Hpc. unfold ARSTREAM_Sender_RunDataThread_step, data_popped, data_send,
    PopFromQueue_wake, bind, ret.
  destruct (sys_pc st); try contradiction;
    repeat match goal with
           | |- context [match ?x with (_, _) => _ end] => destruct x
           | |- context [if ?c then _ else _] => destruct c
           end; cbn [fst snd]; eauto.
Qed.

(** Once the data thread was told to stop, each of its steps brings it
    nearer to its end, when its waits time out. *)
Lemma RunDataThread_step_nearer lat wms st st1 acts :
  ring_ok (sys_sender st) -> sys_inv st ->
  threadsShouldStop (sys_sender st) <> 0 ->
  ARSTREAM_Sender_RunDataThread_step lat ETIMEDOUT wms st = Some (st1, acts) ->
  (steps_to_end st1 < steps_to_end st)%nat.
Proof.
  intros Hok (Hloc & _ & Hpcinv) Hstop Hstep.
  destruct Hloc as [Hnb _].
  destruct (RunDataThread_step_outcomes lat ETIMEDOUT wms st st1 acts Hok Hstep)
    as [(Hpc & -> & ->) | [(Hpc & _ & -> & ->) |
        [(Hpc & Hnr & Hs1 & Hl1 & ->) | [(Hpc & Hr & -> & ->) |
        [(Hpc & -> & ->) | [(w & Hpc & Hw & -> & ->) |
         (Hpc & (p & Hs1) & Hf & Hnf & Hnb1 & Hpc1)]]]]]];
    unfold steps_to_end; cbn [sys_pc sys_locals].
  - rewrite Hpc. lia.
  - rewrite Hpc. lia.
  - destruct Hpc as [(_ & Hz & _) | (wt & tw & -> & ->)]; [contradiction|].
    rewrite Z.eqb_refl. lia.
  - destruct Hpc as [[_ Hz] | (wt & tw & ->)]; [contradiction | lia].
  - rewrite Hpc. unfold installed_locals. cbn [nbPackets].
    pose proof (compute_fragments_range (frameSize (nextFrame (sys_locals st)))
                  (nbPackets (sys_locals st)) (lastFragmentSize (sys_locals st)) Hnb).
    lia.
  - rewrite Hpc. lia.
  - rewrite Hnb1.
    destruct Hpc as [Hpc | (cnt & Hpc)]; rewrite Hpc in *;
      destruct Hpc1 as [-> | (cnt' & -> & Hlt & Hge)]; lia.
Qed.

Lemma steps_to_end_bound st :
  sys_inv st -> Z.of_nat (steps_to_end st) <= 65540.
Proof.
  intros ((Hnb & _) & _ & Hpc). unfold steps_to_end.
  destruct (sys_pc st); cbn in Hpc; lia.
Qed.

(** The data thread, told to stop, ends within [steps_to_end] steps. *)
Lemma data_thread_ends lat wms (n : nat) : forall st,
  (steps_to_end st <= n)%nat ->
  ring_ok (sys_sender st) -> sys_inv st ->
  dataThreadStarted (sys_sender st) = (if data_running (sys_pc st) then 1 else 0) ->
  threadsShouldStop (sys_sender st) <> 0 ->
  exists k st' tr,
    (k <= n)%nat /\
    run (repeat (L_Data lat ETIMEDOUT wms) k) st = Some (st', tr) /\
    sys_pc st' = PcEnded /\ dataThreadStarted (sys_sender st') = 0 /\
    ring_ok (sys_sender st') /\ sys_inv st' /\
    ackThreadStarted (sys_sender st') = ackThreadStarted (sys_sender st) /\
    threadsShouldStop (sys_sender st') = threadsShouldStop (sys_sender st).
Proof.
  induction n as [|n IH]; intros st Hn Hok Hinv Hflag Hstop.
  - exists 0%nat, st, []. split; [lia|]. split; [reflexivity|].
    assert (Hpc : sys_pc st = PcEnded).
    { unfold steps_to_end in Hn. destruct (sys_pc st); try lia. reflexivity. }
    rewrite Hpc in Hflag. auto 10.
  - assert (Hcase : sys_pc st = PcEnded \/ sys_pc st <> PcEnded).
    { destruct (sys_pc st); auto; right; discriminate. }
    destruct Hcase as [Hpc|Hpc].
    { exists 0%nat, st, []. split; [lia|]. split; [reflexivity|].
      rewrite Hpc in Hflag. auto 10. }
    destruct (RunDataThread_step_progress lat ETIMEDOUT wms st Hpc) as (st1 & acts & Hs).
    pose proof (RunDataThread_step_nearer lat wms st st1 acts Hok Hinv Hstop Hs) as Hlt.
    assert (Hsys : sys_step (L_Data lat ETIMEDOUT wms) st = Some (st1, acts)) by exact Hs.
    destruct (sys_step_settings _ _ _ _ Hok Hsys) as (_ & Hack1 & Hstop1 & Hdata1).
    pose proof (sys_step_ring_ok _ _ _ _ Hsys Hok) as Hok1.
    pose proof (sys_step_inv _ _ _ _ Hsys Hinv) as Hinv1.
    assert (Hflag1 : dataThreadStarted (sys_sender st1) =
                     (if data_running (sys_pc st1) then 1 else 0)).
    { destruct Hdata1 as [(H1 & H2 & _) | [(H1 & H2 & H3) | [(H1 & H2 & H3 & H4) |
                          (_ & _ & H3 & _)]]].
      - rewrite H1, H2. exact Hflag.
      - rewrite H2, H3. reflexivity.
      - rewrite H2, H4. reflexivity.
      - discriminate H3. }
    assert (Hstop' : threadsShouldStop (sys_sender st1) <> 0)
      by (rewrite Hstop1; exact Hstop).
    destruct (IH st1 ltac:(lia) Hok1 Hinv1 Hflag1 Hstop')
      as (k & st' & tr & Hk & Hrun & Hend & Hd & Hok' & Hinv' & Ha' & Hs').
    exists (S k), st', (mkEntry (L_Data lat ETIMEDOUT wms) st acts :: tr).
    split; [lia|]. split; [cbn [repeat run]; rewrite Hsys, Hrun; reflexivity|].
    split; [exact Hend|]. split; [exact Hd|]. split; [exact Hok'|].
    split; [exact Hinv'|]. split; [rewrite Ha'; exact Hack1|].
    rewrite Hs'. exact Hstop1.
Qed.

Lemma reachable_flag st :
  reachable st ->
  dataThreadStarted (sys_sender st) = (if data_running (sys_pc st) then 1 else 0).
Proof.
  intros Hreach.
  induction Hreach as [env mgr dataId ackId cb size cust s hdr Hsize Hnew
                      | lbl st st' l Hreach IH Hstep].
  - destruct (New_sender_state _ _ _ _ _ _ _ _ Hsize Hnew)
      as (_ & _ & _ & (_ & Hd0 & _)).
    destruct hdr as [[[h1 h2] h3] h4]. exact Hd0.
  - destruct (sys_step_settings _ _ _ _ (reachable_ring_ok _ Hreach) Hstep)
      as (_ & _ & _ & [(H1 & H2 & _) | [(H1 & H2 & H3) | [(H1 & H2 & H3 & H4) |
                        (H1 & H2 & H3 & H4)]]]).
    + rewrite H1, H2. exact IH.
    + rewrite H2, H3. reflexivity.
    + rewrite H2, H4. reflexivity.
    + rewrite H4, H2, IH, H1. reflexivity.
Qed.

(** X11: [ARSTREAM_Sender_StopSender] makes the data thread end.  From
    every state the threads reach from a new sender, once
    [threadsShouldStop] is set the data thread, given the processor and its
    waits timing out, finishes the pass it is in and returns: it reaches
    its end within [steps_to_end] steps, at most 65540, whatever waits in
    the queue; it has then cleared [dataThreadStarted], and it makes no
    step any more. *)
Theorem data_thread_ends_when_stopped st lat wms :
  reachable st ->
  threadsShouldStop (sys_sender st) <> 0 ->
  exists k st' tr,
    (k <= steps_to_end st)%nat /\ Z.of_nat (steps_to_end st) <= 65540 /\
    run (repeat (L_Data lat ETIMEDOUT wms) k) st = Some (st', tr) /\
    sys_pc st' = PcEnded /\
    dataThreadStarted (sys_sender st') = 0 /\
    sys_step (L_Data lat ETIMEDOUT wms) st' = None.
Proof.
  intros Hreach Hstop.
  pose proof (reachable_ring_ok _ Hreach) as Hok.
  pose proof (reachable_inv _ Hreach) as Hinv.
  pose proof (reachable_flag _ Hreach) as Hflag.
  destruct (data_thread_ends lat wms (steps_to_end st) st (Nat.le_refl _)
              Hok Hinv Hflag Hstop)
    as (k & st' & tr & Hk & Hrun & Hend & Hd & _).
  exists k, st', tr. split; [exact Hk|]. split; [apply steps_to_end_bound, Hinv|].
  split; [exact Hrun|]. split; [exact Hend|]. split; [exact Hd|].
  cbn [sys_step]. unfold ARSTREAM_Sender_RunDataThread_step. rewrite Hend. reflexivity.
Qed.

(** Every step of a thread keeps the invariant of the data thread and of
    the efficiency arrays. *)
Lemma threads_step_inv lbl t t1 acts :
  threads_step lbl t = Some (t1, acts) -> sys_inv (th_sys t) -> sys_inv (th_sys t1).
Proof.
  intros Hstep Hinv.
  destruct lbl as [err rsz pkt | lbl]; cbn [threads_step] in Hstep.
  - destruct Hinv as (Hloc & Heff & Hpc).
    unfold ARSTREAM_Sender_RunAckThread_step in Hstep.
    destruct (th_ack t).
    + injection Hstep as <- <-. cbn [th_sys]. split; [exact Hloc|]. split; [|exact Hpc].
      cbn [sys_sender]. destruct (sys_sender (th_sys t)); exact Heff.
    + destruct (_ =? 0); injection Hstep as <- <-; cbn [th_sys].
      * split; [exact Hloc|]. split; [exact Heff | exact Hpc].
      * split; [exact Hloc|]. split; [|exact Hpc].
        cbn [sys_sender]. destruct (sys_sender (th_sys t)); exact Heff.
    + destruct (ack_read_ok err rsz && _); [discriminate|].
      pose proof (RunAckThread_body_outcomes err rsz pkt (sys_sender (th_sys t))) as Hout.
      cbn zeta in Hout.
      destruct (ARSTREAM_Sender_RunAckThread_body err rsz pkt (sys_sender (th_sys t)))
        as [[u s1] l1].
      unfold state_of, trace_of in Hout. cbn [fst snd] in Hout.
      injection Hstep as <- <-. cbn [th_sys]. split; [exact Hloc|]. split; [|exact Hpc].
      cbn [sys_sender].
      destruct Hout as [(p & -> & _) | (p & _ & -> & _)];
        destruct (sys_sender (th_sys t)); exact Heff.
    + discriminate.
  - assert (Hsys : match sys_step lbl (th_sys t) with
                   | Some (st1, acts1) => Some (mkThreads st1 (th_ack t), acts1)
                   | None => None
                   end = Some (t1, acts)).
    { destruct lbl; try exact Hstep. discriminate. }
    destruct (sys_step lbl (th_sys t)) as [[st1 acts1]|] eqn:Es; [|discriminate].
    injection Hsys as <- <-. cbn [th_sys]. exact (sys_step_inv _ _ _ _ Es Hinv).
Qed.

Lemma threads_run_inv lbls : forall t t' tr,
  threads_run lbls t = Some (t', tr) -> sys_inv (th_sys t) -> sys_inv (th_sys t').
Proof.
  induction lbls as [|lbl lbls IH]; intros t t' tr Hrun Hinv; cbn [threads_run] in Hrun.
  - injection Hrun as <- <-. exact Hinv.
  - destruct (threads_step lbl t) as [[t1 l1]|] eqn:Es; [|discriminate].
    destruct (threads_run lbls t1) as [[t2 l2]|] eqn:Er; [|discriminate].
    injection Hrun as <- <-.
    exact (IH _ _ _ Er (threads_step_inv _ _ _ _ Es Hinv)).
Qed.

(** A run of the data thread alone is a run of the threads. *)
Lemma threads_run_data lat werr wms (k : nat) : forall st st' tr a,
  run (repeat (L_Data lat werr wms) k) st = Some (st', tr) ->
  exists acts,
    threads_run (repeat (T_Other (L_Data lat werr wms)) k) (mkThreads st a) =
      Some (mkThreads st' a, acts).
Proof.
  induction k as [|k IH]; intros st st' tr a Hrun; cbn [repeat run] in Hrun.
  - injection Hrun as <- <-. exists []. reflexivity.
  - destruct (sys_step (L_Data lat werr wms) st) as [[st1 l1]|] eqn:Es; [|discriminate].
    destruct (run (repeat (L_Data lat werr wms) k) st1) as [[st2 tr2]|] eqn:Er;
      [|discriminate].
    injection Hrun as <- <-.
    destruct (IH _ _ _ a Er) as [acts Hacts].
    exists (l1 ++ acts). cbn [repeat threads_run threads_step th_sys th_ack].
    rewrite Es, Hacts. reflexivity.
Qed.

Lemma threads_run_app l1 : forall l2 t t1 t2 a1 a2,
  threads_run l1 t = Some (t1, a1) -> threads_run l2 t1 = Some (t2, a2) ->
  threads_run (l1 ++ l2) t = Some (t2, a1 ++ a2).
Proof.
  induction l1 as [|lbl l1 IH]; intros l2 t t1 t2 a1 a2 H1 H2; cbn [threads_run] in H1.
  - injection H1 as <- <-. exact H2.
  - destruct (threads_step lbl t) as [[t' l']|] eqn:Es; [|discriminate].
    destruct (threads_run l1 t') as [[t'' l'']|] eqn:Er; [|discriminate].
    injection H1 as <- <-. cbn [app threads_run]. rewrite Es.
    rewrite (IH _ _ _ _ _ _ Er H2), app_assoc. reflexivity.
Qed.

(** Once the data thread has ended, the ack thread, told to stop, ends
    within two steps. *)
Lemma ack_thread_ends err rsz pkt t :
  sys_pc (th_sys t) = PcEnded ->
  threadsShouldStop (sys_sender (th_sys t)) <> 0 ->
  flags_tell t ->
  exists ka t' acts,
    (ka <= 2)%nat /\
    threads_run (repeat (T_AckThread err rsz pkt) ka) t = Some (t', acts) /\
    sys_pc (th_sys t') = PcEnded /\ th_ack t' = AckEnded /\ flags_tell t'.
Proof.
  intros Hpc Hstop Hfl.
  assert (Hloop : forall t0,
            th_ack t0 = AckLoop -> sys_pc (th_sys t0) = PcEnded ->
            threadsShouldStop (sys_sender (th_sys t0)) <> 0 ->
            dataThreadStarted (sys_sender (th_sys t0)) = 0 ->
            exists t' acts,
              threads_run [T_AckThread err rsz pkt] t0 = Some (t', acts) /\
              sys_pc (th_sys t') = PcEnded /\ th_ack t' = AckEnded /\ flags_tell t').
  { intros t0 Ha Hp Hs Hd. cbn [threads_run threads_step].
    unfold ARSTREAM_Sender_RunAckThread_step. rewrite Ha.
    apply Z.eqb_neq in Hs. rewrite Hs.
    eexists _, _. split; [reflexivity|]. cbn [th_sys th_ack sys_pc sys_sender].
    split; [exact Hp|]. split; [reflexivity|].
    unfold flags_tell. cbn [th_sys th_ack sys_pc sys_sender]. rewrite Hp.
    split; destruct (sys_sender (th_sys t0)); cbn in *; [exact Hd | reflexivity]. }
  assert (Hd : dataThreadStarted (sys_sender (th_sys t)) = 0).
  { destruct Hfl as [Hd _]. rewrite Hpc in Hd. exact Hd. }
  destruct (th_ack t) eqn:Ha.
  - (* not started yet: it starts, tests the flag and returns *)
    destruct (threads_step (T_AckThread err rsz pkt) t) as [[t1 l1]|] eqn:Es.
    2:{ cbn [threads_step] in Es. unfold ARSTREAM_Sender_RunAckThread_step in Es.
        rewrite Ha in Es. discriminate. }
    assert (Ht1 : th_ack t1 = AckLoop /\ sys_pc (th_sys t1) = PcEnded /\
                  threadsShouldStop (sys_sender (th_sys t1)) <> 0 /\
                  dataThreadStarted (sys_sender (th_sys t1)) = 0).
    { cbn [threads_step] in Es. unfold ARSTREAM_Sender_RunAckThread_step in Es.
      rewrite Ha in Es. injection Es as <- <-. cbn [th_sys th_ack sys_pc sys_sender].
      split; [reflexivity|]. split; [exact Hpc|].
      destruct (sys_sender (th_sys t)); cbn in *. auto. }
    destruct Ht1 as (H1 & H2 & H3 & H4).
    destruct (Hloop t1 H1 H2 H3 H4) as (t' & acts & Hrun & Hend).
    exists 2%nat, t', (l1 ++ acts). split; [lia|]. split; [|exact Hend].
    change (repeat (T_AckThread err rsz pkt) 2)
      with ([T_AckThread err rsz pkt] ++ [T_AckThread err rsz pkt]).
    apply (threads_run_app _ _ _ t1); [|exact Hrun].
    cbn [threads_run]. rewrite Es, app_nil_r. reflexivity.
  - destruct (Hloop t Ha Hpc Hstop Hd) as (t' & acts & Hrun & Hend).
    exists 1%nat, t', acts. split; [lia|]. split; [exact Hrun | exact Hend].
  - (* in the read: the turn is run, then the flag is tested *)
    destruct (threads_step (T_AckThread err rsz pkt) t) as [[t1 l1]|] eqn:Es.
    2:{ cbn [threads_step] in Es. unfold ARSTREAM_Sender_RunAckThread_step in Es.
        rewrite Ha, Hpc in Es. cbn [ackMutex_free negb] in Es. rewrite andb_false_r in Es.
        destruct (ARSTREAM_Sender_RunAckThread_body err rsz pkt (sys_sender (th_sys t)))
          as [[u s1] l1]. discriminate. }
    assert (Ht1 : th_ack t1 = AckLoop /\ sys_pc (th_sys t1) = PcEnded /\
                  threadsShouldStop (sys_sender (th_sys t1)) <> 0 /\
                  dataThreadStarted (sys_sender (th_sys t1)) = 0).
    { cbn [threads_step] in Es. unfold ARSTREAM_Sender_RunAckThread_step in Es.
      rewrite Ha, Hpc in Es. cbn [ackMutex_free negb] in Es. rewrite andb_false_r in Es.
      pose proof (RunAckThread_body_outcomes err rsz pkt (sys_sender (th_sys t))) as Hout.
      cbn zeta in Hout.
      destruct (ARSTREAM_Sender_RunAckThread_body err rsz pkt (sys_sender (th_sys t)))
        as [[u s1] l1'].
      unfold state_of, trace_of in Hout. cbn [fst snd] in Hout.
      injection Es as <- <-. cbn [th_sys th_ack sys_pc sys_sender].
      split; [reflexivity|]. split; [reflexivity|].
      destruct Hout as [(p & -> & _) | (p & _ & -> & _)];
        destruct (sys_sender (th_sys t)); cbn in *; auto. }
    destruct Ht1 as (H1 & H2 & H3 & H4).
    destruct (Hloop t1 H1 H2 H3 H4) as (t' & acts & Hrun & Hend).
    exists 2%nat, t', (l1 ++ acts). split; [lia|]. split; [|exact Hend].
    change (repeat (T_AckThread err rsz pkt) 2)
      with ([T_AckThread err rsz pkt] ++ [T_AckThread err rsz pkt]).
    apply (threads_run_app _ _ _ t1); [|exact Hrun].
    cbn [threads_run]. rewrite Es, app_nil_r. reflexivity.
  - exists 0%nat, t, []. split; [lia|]. split; [reflexivity|]. auto.
Qed.

(** X12: a sender that was told to stop can be deleted once its threads
    have been left to finish.  From every state the threads reach from a
    new sender in which [threadsShouldStop] is set, the data thread ends
    within 65540 of its own steps (its waits timing out) and the ack thread
    within two more, whatever its reads return; both flags are then
    cleared, and [ARSTREAM_Sender_Delete] answers OK and clears the
    pointer. *)
Theorem sender_can_be_deleted_after_stop
    env mgr dataId ackId cb size cust s hdr lbls t tr lat wms err rsz pkt :
  0 <= size < 2 ^ 32 ->
  ARSTREAM_Sender_New env mgr dataId ackId cb size cust = (Some s, ARSTREAM_OK) ->
  threads_run lbls (threads_init s hdr) = Some (t, tr) ->
  threadsShouldStop (sys_sender (th_sys t)) <> 0 ->
  exists kd ka t' tr',
    Z.of_nat kd <= 65540 /\ (ka <= 2)%nat /\
    threads_run (repeat (T_Other (L_Data lat ETIMEDOUT wms)) kd ++
                 repeat (T_AckThread err rsz pkt) ka) t = Some (t', tr') /\
    sys_pc (th_sys t') = PcEnded /\ th_ack t' = AckEnded /\
    dataThreadStarted (sys_sender (th_sys t')) = 0 /\
    ackThreadStarted (sys_sender (th_sys t')) = 0 /\
    ARSTREAM_Sender_Delete (Some (Some (sys_sender (th_sys t')))) =
      (ARSTREAM_OK, Some None, []).
Proof.
  intros Hsize Hnew Hrun Hstop.
  destruct (New_sender_state _ _ _ _ _ _ _ _ Hsize Hnew)
    as (_ & (Hok & _) & _ & (_ & Hd0 & Ha0)).
  assert (Hinit : ring_ok (sys_sender (th_sys (threads_init s hdr))) /\
                  flags_tell (threads_init s hdr) /\
                  sys_inv (th_sys (threads_init s hdr))).
  { split; [|split].
    - destruct hdr as [[[h1 h2] h3] h4]. exact Hok.
    - destruct hdr as [[[h1 h2] h3] h4]. split; cbn; assumption.
    - unfold threads_init. cbn [th_sys]. eapply New_inv; exact Hnew. }
  destruct Hinit as (Hok0 & Hfl0 & Hinv0).
  destruct (threads_run_settings _ _ _ _ Hok0 Hrun) as (Hokt & _ & _ & Hfl & _).
  specialize (Hfl Hfl0). pose proof (threads_run_inv _ _ _ _ Hrun Hinv0) as Hinvt.
  destruct (data_thread_ends lat wms (steps_to_end (th_sys t)) (th_sys t)
              (Nat.le_refl _) Hokt Hinvt (proj1 Hfl) Hstop)
    as (kd & st' & trd & Hkd & Hrund & Hend & Hd & Hok' & Hinv' & Ha' & Hs').
  destruct (threads_run_data _ _ _ _ _ _ _ (th_ack t) Hrund) as [actsd Hthreads].
  assert (Ht : mkThreads (th_sys t) (th_ack t) = t) by (destruct t; reflexivity).
  rewrite Ht in Hthreads.
  assert (Hfl1 : flags_tell (mkThreads st' (th_ack t))).
  { split; cbn [th_sys th_ack]; [rewrite Hd, Hend; reflexivity|].
    rewrite Ha'. apply Hfl. }
  destruct (ack_thread_ends err rsz pkt (mkThreads st' (th_ack t)) Hend
              ltac:(cbn [th_sys]; rewrite Hs'; exact Hstop) Hfl1)
    as (ka & t' & actsa & Hka & Hruna & Hpc' & Hack' & Hfl').
  exists kd, ka, t', (actsd ++ actsa).
  pose proof (steps_to_end_bound _ Hinvt) as Hb.
  split; [lia|]. split; [exact Hka|].
  split; [exact (threads_run_app _ _ _ _ _ _ _ Hthreads Hruna)|].
  split; [exact Hpc'|]. split; [exact Hack'|].
  destruct Hfl' as [Hd' Ha'']. rewrite Hpc' in Hd'. rewrite Hack' in Ha''.
  cbn in Hd', Ha''. split; [exact Hd'|]. split; [exact Ha''|].
  unfold ARSTREAM_Sender_Delete. rewrite Hd', Ha''. reflexivity.
Qed.

(** ** Submissions, once more *)

(** X13: a submission is all or nothing.  On a well-formed ring of a
    capacity below INT_MAX, when [ARSTREAM_Sender_SendNewFrame] answers
    anything but [ARSTREAM_OK] the sender and [*nbPreviousFrames] are
    exactly as before and nothing was done: in particular a rejected
    submission cancels no frame, even if it asked for a flush.  When it
    answers [ARSTREAM_OK] the frame is the last of the queue, behind the
    frames that waited, or alone after a flush.  QUEUE_FULL is answered to
    correct arguments exactly when the ring is full and no flush was asked,
    or when the capacity is 0: a sender created with [framesBufferSize] 0
    accepts no frame at all. *)
Theorem SendNewFrame_all_or_nothing s b sz fl nb err sender' nb' tr :
  ring_ok s -> capacity_fits_int s ->
  ARSTREAM_Sender_SendNewFrame (Some s) b sz fl nb = (err, sender', nb', tr) ->
  (err <> ARSTREAM_OK -> sender' = Some s /\ nb' = nb /\ tr = []) /\
  (err = ARSTREAM_OK ->
   exists s1, sender' = Some s1 /\ ring_ok s1 /\
     waiting_frames s1 =
       (if fl =? 1 then [] else waiting_frames s) ++
       [mkFrame (u32 (nextFrameNumber s + 1)) sz b fl] /\
     List.filter is_callback tr =
       (if fl =? 1 then cancel_of (custom s) <$> waiting_frames s else [])) /\
  (err = ARSTREAM_ERROR_QUEUE_FULL <->
   ~ bad_parameters (Some s) b sz fl /\
   sz <= ARSTREAM_NETWORK_HEADERS_MAX_FRAME_SIZE /\
   ((fl = 0 /\ numberOfWaitingFrames s = maxNumberOfNextFrames s) \/
    maxNumberOfNextFrames s = 0)) /\
  (maxNumberOfNextFrames s = 0 -> err <> ARSTREAM_OK).
Proof.
  intros Hok Hcap Heq.
  pose proof (ring_count _ Hok) as Hcnt.
  destruct (after_flush_fields fl s Hok) as (Hmx & Had & Hnf & Hnn & Hcb & Hc).
  assert (Hfull : err = ARSTREAM_ERROR_QUEUE_FULL <->
                  ~ bad_parameters (Some s) b sz fl /\
                  sz <= ARSTREAM_NETWORK_HEADERS_MAX_FRAME_SIZE /\
                  numberOfWaitingFrames (after_flush fl s) = maxNumberOfNextFrames s).
  { revert Heq. unfold ARSTREAM_Sender_SendNewFrame.
    pose proof (bad_parameters_test s b sz fl) as Hbad.
    destruct ((b =? NULL) || (sz =? 0) || (negb (fl =? 0) && negb (fl =? 1))).
    { intros Heq. injection Heq as <- _ _ _.
      split; [discriminate | intros [Hn _]; exfalso; apply Hn, Hbad; reflexivity]. }
    assert (Hnbad : ~ bad_parameters (Some s) b sz fl).
    { intros H. apply Hbad in H. discriminate H. }
    destruct (sz >? ARSTREAM_NETWORK_HEADERS_MAX_FRAME_SIZE) eqn:Emax.
    { intros Heq. injection Heq as <- _ _ _.
      apply Z.gtb_lt in Emax. split; [discriminate | intros (_ & H & _); lia]. }
    rewrite Z.gtb_ltb in Emax. apply Z.ltb_ge in Emax.
    rewrite AddToQueue_spec by assumption. cbn zeta. rewrite Hmx.
    destruct (numberOfWaitingFrames (after_flush fl s) <? maxNumberOfNextFrames s) eqn:E.
    - apply Z.ltb_lt in E. rewrite (AddToQueue_retVal_backlog s Hok Hcap).
      pose proof (backlog_nonneg s Hok) as Hb.
      destruct (backlog s <? 0) eqn:Eb0; [apply Z.ltb_lt in Eb0; lia|].
      intros Heq.
      assert (He : err = ARSTREAM_OK) by (destruct nb; injection Heq as <- _ _ _; reflexivity).
      rewrite He. split; [discriminate | intros (_ & _ & H); lia].
    - apply Z.ltb_ge in E. change (-1 <? 0) with true. cbn iota.
      intros Heq. injection Heq as <- _ _ _.
      pose proof (ring_count _ (after_flush_ok fl s Hok)) as Hcf. rewrite Hmx in Hcf.
      split; [intros _; repeat split; [exact Hnbad | exact Emax | lia] | reflexivity]. }
  destruct (SendNewFrame_outcomes s b sz fl nb Hok Hcap)
    as [(e & He & Hrej) | (Hb & Hsz & Hfl & Hmax & Hroom & Hacc)].
  - rewrite Hrej in Heq. injection Heq as <- <- <- <-.
    split; [auto|]. split; [intros; contradiction|]. split; [|auto].
    rewrite Hfull, Hc. split.
    + intros (H1 & H2 & H3). split; [exact H1|]. split; [exact H2|].
      destruct (fl =? 1) eqn:E; [right; lia|]. left.
      split; [|exact H3]. apply Z.eqb_neq in E.
      destruct (Z.eq_dec fl 0) as [H0|H0]; [exact H0|].
      exfalso. apply H1. right; right; right. auto.
    + intros (H1 & H2 & [[H3 H4] | H3]); (split; [exact H1|]); (split; [exact H2|]).
      * rewrite H3. exact H4.
      * destruct (fl =? 1); lia.
  - rewrite Hacc in Heq. injection Heq as <- <- <- <-.
    pose proof (ring_count _ (after_flush_ok fl s Hok)) as Hcf.
    split; [intros H; contradiction|]. split; [|split; [|intros H0 _; lia]].
    + intros _. exists (enqueued sz b fl (after_flush fl s)).
      split; [reflexivity|].
      split; [apply enqueued_ok; [apply after_flush_ok; exact Hok | lia]|].
      split.
      * rewrite waiting_frames_enqueued by (try apply after_flush_ok; try assumption; lia).
        rewrite Hnn, after_flush_eq by assumption.
        destruct (fl =? 1); [rewrite waiting_frames_flushed|]; reflexivity.
      * rewrite List.filter_app. cbn [List.filter is_callback]. rewrite app_nil_r.
        unfold flush_trace. destruct (fl =? 1); [|reflexivity].
        induction (waiting_frames s) as [|f l IH]; [reflexivity|].
        rewrite fmap_cons. cbn [List.filter cancel_of is_callback]. f_equal. exact IH.
    + split; [discriminate|].
      intros (_ & _ & [[H1 H2] | H1]); [|lia].
      rewrite H1 in Hc, Hroom. change (0 =? 1) with false in Hc. cbn iota in Hc. lia.
Qed.

(** ** From the queue to the data thread *)

(** A head that is ready is given at once. *)
Lemma PopFromQueue_ready lat wakes nf s :
  head_is_ready s ->
  ARSTREAM_Sender_PopFromQueue lat wakes nf s = Some (1, head_frame s, popped s, []).
Proof.
  intros Hr. unfold ARSTREAM_Sender_PopFromQueue.
  destruct (PopFromQueue_check_spec s) as [Hready _]. rewrite (Hready Hr).
  change (1 =? 0) with false. cbn iota. rewrite PopFromQueue_copy_taken. reflexivity.
Qed.

(** While nobody else touches the sender and the head is not ready, the
    wait ends at the first timeout, with nothing taken. *)
Lemma PopFromQueue_wait_alone wakes : forall waitTime timewaited s,
  ~ head_is_ready s ->
  Forall (fun w => forall x, wake_others w x = x) wakes ->
  Exists (fun w => wake_err w = ETIMEDOUT) wakes ->
  PopFromQueue_wait wakes waitTime timewaited s = Some (0, s, []).
Proof.
  induction wakes as [|w wakes IH]; intros waitTime timewaited s Hnr Hid Hto.
  - inversion Hto.
  - inversion Hid as [|? ? Hw Hrest]; subst. cbn [PopFromQueue_wait].
    rewrite Hw. unfold PopFromQueue_wake, bind, ret.
    destruct (PopFromQueue_check_spec s) as [_ Hnot]. rewrite (Hnot Hnr).
    cbn [fst snd]. change (0 =? 0) with true. cbn [andb].
    destruct (wake_err w =? ETIMEDOUT) eqn:E.
    + reflexivity.
    + change (0 =? 0) with true. cbn iota.
      rewrite IH; [reflexivity | exact Hnr | exact Hrest |].
      inversion Hto as [? ? H1 | ? ? H1]; subst; [|exact H1].
      apply Z.eqb_neq in E. contradiction.
Qed.

(** X14: the priority of a frame and the state of the current frame
    decide when the data thread gets it.  After a submission that
    [ARSTREAM_Sender_SendNewFrame] accepted on a well-formed ring:
    with a flush, the next [ARSTREAM_Sender_PopFromQueue] returns the new
    frame at once and leaves the queue empty, whether or not the current
    frame was reported; without a flush on an empty queue, it returns the
    new frame at once if the callback of the current frame was called, and
    otherwise it returns 0 at the first timeout and the frame stays in the
    queue, so long as no other thread acts; and without a flush on a queue
    that is not empty, the head of the queue is the one it was: the new
    frame waits its turn. *)
Theorem SendNewFrame_then_PopFromQueue s b sz fl nb s1 nb' tr lat wakes nf :
  ring_ok s -> capacity_fits_int s ->
  ARSTREAM_Sender_SendNewFrame (Some s) b sz fl nb = (ARSTREAM_OK, Some s1, nb', tr) ->
  let frame := mkFrame (u32 (nextFrameNumber s + 1)) sz b fl in
  (fl = 1 ->
   ARSTREAM_Sender_PopFromQueue lat wakes nf s1 = Some (1, frame, popped s1, []) /\
   waiting_frames (popped s1) = []) /\
  (fl = 0 -> numberOfWaitingFrames s = 0 -> currentFrameCbWasCalled s = 1 ->
   ARSTREAM_Sender_PopFromQueue lat wakes nf s1 = Some (1, frame, popped s1, []) /\
   waiting_frames (popped s1) = []) /\
  (fl = 0 -> numberOfWaitingFrames s = 0 -> currentFrameCbWasCalled s <> 1 ->
   Forall (fun w => forall x, wake_others w x = x) wakes ->
   Exists (fun w => wake_err w = ETIMEDOUT) wakes ->
   ARSTREAM_Sender_PopFromQueue lat wakes nf s1 = Some (0, nf, s1, []) /\
   waiting_frames s1 = [frame]) /\
  (fl = 0 -> 0 < numberOfWaitingFrames s ->
   head_frame s1 = head_frame s /\
   waiting_frames s1 = waiting_frames s ++ [frame]).
Proof.
  intros Hok Hcap Heq frame.
  destruct (SendNewFrame_outcomes s b sz fl nb Hok Hcap)
    as [(e & He & Hrej) | (Hb & Hsz & Hfl & Hmax & Hroom & Hacc)].
  { rewrite Hrej in Heq. injection Heq as He' _ _ _. contradiction. }
  rewrite Hacc in Heq. injection Heq as Hs1 _ _. subst s1.
  destruct (after_flush_fields fl s Hok) as (Hmx & Had & Hnf & Hnn & Hcb & Hc).
  pose proof (after_flush_ok fl s Hok) as Hokf.
  set (sf := after_flush fl s) in *.
  assert (Hroom' : numberOfWaitingFrames sf < maxNumberOfNextFrames sf) by lia.
  pose proof (enqueued_ok sz b fl sf Hokf Hroom') as Hok1.
  pose proof (waiting_frames_enqueued sz b fl sf Hokf Hroom') as Hwf.
  rewrite Hnn in Hwf. fold frame in Hwf.
  set (s1 := enqueued sz b fl sf) in *.
  pose proof (ring_count _ Hokf) as Hcf.
  assert (Hcount : numberOfWaitingFrames s1 = numberOfWaitingFrames sf + 1)
    by (subst s1; destruct sf; reflexivity).
  assert (Hcb1 : currentFrameCbWasCalled s1 = currentFrameCbWasCalled s)
    by (rewrite <- Hcb; subst s1; destruct sf; reflexivity).
  destruct (waiting_frames_popped s1 Hok1 ltac:(lia)) as [_ Hhead].
  assert (Hwsf : waiting_frames sf = if fl =? 1 then [] else waiting_frames s).
  { subst sf. rewrite after_flush_eq by assumption.
    destruct (fl =? 1); [apply waiting_frames_flushed | reflexivity]. }
  assert (Halone : waiting_frames sf = [] ->
                   head_frame s1 = frame /\ waiting_frames (popped s1) = []).
  { intros Hempty. rewrite Hwf, Hempty in Hhead. cbn [app] in Hhead.
    injection Hhead as H1 H2. auto. }
  split; [|split; [|split]].
  - intros Hfl1. rewrite Hfl1 in Hwsf. change (1 =? 1) with true in Hwsf. cbn iota in Hwsf.
    destruct (Halone Hwsf) as [Hh He]. split; [|exact He].
    rewrite <- Hh. apply PopFromQueue_ready. split; [lia|]. left.
    rewrite Hh. subst frame. exact Hfl1.
  - intros Hfl0 Hn Hcalled.
    rewrite Hfl0 in Hwsf. change (0 =? 1) with false in Hwsf. cbn iota in Hwsf.
    assert (Hempty : waiting_frames s = []).
    { unfold waiting_frames. rewrite Hn. reflexivity. }
    rewrite Hempty in Hwsf. destruct (Halone Hwsf) as [Hh He]. split; [|exact He].
    rewrite <- Hh. apply PopFromQueue_ready. split; [lia|]. right. congruence.
  - intros Hfl0 Hn Hnot Hid Hto.
    rewrite Hfl0 in Hwsf. change (0 =? 1) with false in Hwsf. cbn iota in Hwsf.
    assert (Hempty : waiting_frames s = []).
    { unfold waiting_frames. rewrite Hn. reflexivity. }
    rewrite Hempty in Hwsf. destruct (Halone Hwsf) as [Hh He].
    assert (Hnr : ~ head_is_ready s1).
    { intros [_ [H|H]]; [rewrite Hh in H; subst frame; cbn in H; lia | congruence]. }
    split; [|rewrite Hwf, Hwsf; reflexivity].
    unfold ARSTREAM_Sender_PopFromQueue.
    destruct (PopFromQueue_check_spec s1) as [_ Hcheck]. rewrite (Hcheck Hnr).
    change (0 =? 0) with true. cbn iota.
    rewrite (PopFromQueue_wait_alone wakes _ _ s1 Hnr Hid Hto).
    unfold PopFromQueue_copy. change (0 =? 1) with false. cbn iota. reflexivity.
  - intros Hfl0 Hpos.
    rewrite Hfl0 in Hwsf. change (0 =? 1) with false in Hwsf. cbn iota in Hwsf.
    rewrite Hwsf in Hwf. split; [|exact Hwf].
    destruct (waiting_frames_popped s Hok Hpos) as [_ Hs].
    rewrite Hwf, Hs in Hhead. cbn [app] in Hhead. injection Hhead as H1 _.
    symmetry. exact H1.
Qed.

(** ** A frame that is not acknowledged *)

(** With no fragment to send the second loop of the data thread does
    nothing. *)
Lemma data_send_nothing st from s0 l0 :
  nbPackets (sys_locals st) = 0 -> 0 <= from ->
  data_send st from s0 l0 = Some (mkSys s0 PcLoop (sys_locals st), l0).
Proof.
  intros Hnb Hfrom. unfold data_send, ARSTREAM_Sender_RunDataThread_sendLoop, next_to_send.
  run_monad. rewrite Hnb, seqZ_nil by lia. cbn [find fst snd].
  rewrite app_nil_r. reflexivity.
Qed.

(** A step of the data thread that has no fragment to send, and may not
    pop, does nothing that is seen. *)
Lemma RunDataThread_step_idle lat werr wms st st1 acts :
  ring_ok (sys_sender st) ->
  nbPackets (sys_locals st) = 0 -> not_sending (sys_pc st) ->
  in_hand (sys_pc st) = 0 -> ~ head_is_ready (sys_sender st) ->
  ARSTREAM_Sender_RunDataThread_step lat werr wms st = Some (st1, acts) ->
  acts = [] /\ nbPackets (sys_locals st1) = 0 /\ not_sending (sys_pc st1).
Proof.
  intros Hok Hnb Hns Hhand Hnr Hstep.
  destruct (sys_pc st) eqn:Epc; try contradiction.
  - unfold ARSTREAM_Sender_RunDataThread_step in Hstep. rewrite Epc in Hstep.
    injection Hstep as <- <-. auto.
  - destruct (RunDataThread_step_outcomes lat werr wms st st1 acts Hok Hstep)
      as [(Hpc & _) | [(Hpc & _ & -> & ->) |
          [(Hpc & _ & Hs1 & Hl1 & ->) | [(Hpc & Hr & _) |
          [(Hpc & _) | [(w & Hpc & _) | ([Hpc | (cnt & Hpc)] & _)]]]]]];
      try congruence; try contradiction.
    + cbn. auto.
    + rewrite Hl1. split; [reflexivity|]. split; [exact Hnb|].
      destruct Hpc as [(_ & _ & ->) | (wt & tw & Hpc & _)]; [exact I | congruence].
  - destruct (RunDataThread_step_outcomes lat werr wms st st1 acts Hok Hstep)
      as [(Hpc & _) | [(Hpc & _) |
          [(Hpc & _ & Hs1 & Hl1 & ->) | [(Hpc & Hr & _) |
          [(Hpc & _) | [(w & Hpc & _) | ([Hpc | (cnt & Hpc)] & _)]]]]]];
      try congruence; try contradiction.
    rewrite Hl1. split; [reflexivity|]. split; [exact Hnb|].
    destruct Hpc as [(Hpc & _) | (wt & tw & _ & ->)]; [congruence|].
    destruct (werr =? ETIMEDOUT); exact I.
  - unfold ARSTREAM_Sender_RunDataThread_step in Hstep. rewrite Epc in Hstep.
    cbn in Hhand. destruct (waitRes =? 1); [discriminate|].
    injection Hstep as <- <-. cbn. auto.
  - unfold ARSTREAM_Sender_RunDataThread_step in Hstep. rewrite Epc in Hstep.
    unfold ARSTREAM_Sender_RunDataThread_flagPackets in Hstep. revert Hstep. run_monad.
    rewrite data_send_nothing by (try assumption; lia).
    intros Hstep. injection Hstep as <- <-. cbn. auto.
  - unfold ARSTREAM_Sender_RunDataThread_step in Hstep. rewrite Epc in Hstep. discriminate.
Qed.

(** X15: a frame that is not acknowledged blocks the queue.  From a
    state where the callback of the current frame was not called, the
    frames that wait have no high priority and the data thread holds none,
    as long as no ack comes in and no flush is asked the data thread never
    takes a frame from the queue: the current frame stays, no callback is
    made, and the frames that waited are still at the head of the queue,
    the frames accepted since behind them.  A new sender is in such a
    state (its empty current frame is not acknowledged): a first frame
    submitted without a flush is not sent, and since the sender has then no
    fragment to send, nothing at all is done but the signals of the
    submissions, and the error a data thread prints when it cannot
    start. *)
Theorem unacknowledged_frame_blocks_the_queue lbls st st' tr :
  ring_ok (sys_sender st) -> capacity_fits_int (sys_sender st) ->
  currentFrameCbWasCalled (sys_sender st) <> 1 ->
  Forall low_priority (waiting_frames (sys_sender st)) ->
  in_hand (sys_pc st) = 0 ->
  Forall (fun lbl => no_ack lbl && no_flush lbl = true) lbls ->
  run lbls st = Some (st', tr) ->
  (exists more,
     waiting_frames (sys_sender st') = waiting_frames (sys_sender st) ++ more /\
     (frameBuffer <$> more, frameSize <$> more) =
       (fst <$> accepted_frames tr, snd <$> accepted_frames tr)) /\
  currentFrame (sys_sender st') = currentFrame (sys_sender st) /\
  currentFrameCbWasCalled (sys_sender st') = currentFrameCbWasCalled (sys_sender st) /\
  callbacks_of tr = [] /\
  in_hand (sys_pc st') = 0 /\
  (nbPackets (sys_locals st) = 0 -> not_sending (sys_pc st) ->
   Forall (fun e => Forall (idle_action (entry_label e)) (entry_actions e)) tr).
Proof.
  intros Hok Hcap Hcb Hlow Hhand Hlbls Hrun.
  pose (I := fun (h : list Entry) (x : Sys) =>
               ring_ok (sys_sender x) /\
               maxNumberOfNextFrames (sys_sender x) = maxNumberOfNextFrames (sys_sender st) /\
               currentFrameCbWasCalled (sys_sender x) =
                 currentFrameCbWasCalled (sys_sender st) /\
               currentFrame (sys_sender x) = currentFrame (sys_sender st) /\
               Forall low_priority (waiting_frames (sys_sender x)) /\
               in_hand (sys_pc x) = 0 /\
               callbacks_of h = [] /\
               (exists more,
                  waiting_frames (sys_sender x) = waiting_frames (sys_sender st) ++ more /\
                  (frameBuffer <$> more, frameSize <$> more) =
                    (fst <$> accepted_frames h, snd <$> accepted_frames h)) /\
               (nbPackets (sys_locals st) = 0 -> not_sending (sys_pc st) ->
                nbPackets (sys_locals x) = 0 /\ not_sending (sys_pc x) /\
                Forall (fun e => Forall (idle_action (entry_label e)) (entry_actions e)) h)).
  assert (Hstep : forall lbl x x1 acts h,
            no_ack lbl && no_flush lbl = true -> I h x ->
            sys_step lbl x = Some (x1, acts) ->
            I (h ++ [mkEntry lbl x acts]) x1).
  { intros lbl x x1 acts h Hq (Hokx & Hmx & Hcbx & Hcurx & Hlowx & Hhx & Hnone & Hmore & Hidle)
      Hs.
    apply andb_true_iff in Hq. destruct Hq as [Hna Hnf].
    assert (Hcapx : capacity_fits_int (sys_sender x)).
    { unfold capacity_fits_int in *. rewrite Hmx. exact Hcap. }
    destruct (sys_step_frames _ _ _ _ Hokx Hcapx Hs) as (Hf & _ & Hm1).
    pose proof (sys_step_ring_ok _ _ _ _ Hs Hokx) as Hok1.
    assert (Hnr : ~ head_is_ready (sys_sender x)).
    { intros [Hpos [Hhi|Hc1]]; [|congruence].
      destruct (waiting_frames_popped _ Hokx Hpos) as [_ Hw].
      rewrite Hw in Hlowx. inversion Hlowx; subst. contradiction. }
    assert (Hsent : nbPackets (sys_locals st) = 0 -> not_sending (sys_pc st) ->
                    nbPackets (sys_locals x1) = 0 /\ not_sending (sys_pc x1) /\
                    Forall (idle_action lbl) acts).
    { intros H1 H2. destruct (Hidle H1 H2) as (Hnbx & Hnsx & _).
      destruct lbl as [b sz fl nb | | err rsz pkt | fn idx status | lat werr wms
                      | param frag];
        cbn [sys_step] in Hs.
      - destruct (SendNewFrame_outcomes (sys_sender x) b sz fl nb Hokx Hcapx)
          as [(e & He & Heq) | (Hb & Hsz & Hfl & Hmax & Hroom & Heq)];
          rewrite Heq in Hs; injection Hs as <- <-; cbn [sys_locals sys_pc].
        + auto.
        + split; [exact Hnbx|]. split; [exact Hnsx|].
          unfold flush_trace. cbn [no_flush] in Hnf. apply negb_true_iff in Hnf.
          rewrite Hnf. cbn [app]. constructor; [left; reflexivity | constructor].
      - unfold lift_sender, ARSTREAM_Sender_StopSender, modify in Hs.
        injection Hs as <- <-. cbn [sys_locals sys_pc]. auto.
      - discriminate Hna.
      - destruct (NetworkCallback_outcomes fn idx status (sys_sender x)) as [p Hp].
        rewrite Hp in Hs. unfold lift_sender in Hs. injection Hs as <- <-.
        cbn [sys_locals sys_pc]. auto.
      - destruct (RunDataThread_step_idle lat werr wms x x1 acts Hokx Hnbx Hnsx Hhx Hnr Hs)
          as (-> & H3 & H4). auto.
      - destruct (RunDataThread_start_outcomes _ _ _ _ _ Hs)
          as (_ & [(-> & -> & Hnull) | (-> & -> & _)]); cbn [sys_locals sys_pc].
        + split; [exact Hnbx|]. split; [exact Logic.I|].
          constructor; [|constructor]. right. split; [reflexivity|].
          cbn [start_fails]. apply orb_true_iff.
          destruct Hnull as [-> | ->]; [left | right]; reflexivity.
        + split; [exact Hnbx|]. split; [exact Logic.I | constructor]. }
    assert (Hidle1 :
              nbPackets (sys_locals st) = 0 -> not_sending (sys_pc st) ->
              nbPackets (sys_locals x1) = 0 /\ not_sending (sys_pc x1) /\
              Forall (fun e => Forall (idle_action (entry_label e)) (entry_actions e))
                     (h ++ [mkEntry lbl x acts])).
    { intros H1 H2. destruct (Hsent H1 H2) as (H3 & H4 & H5).
      destruct (Hidle H1 H2) as (_ & _ & H6).
      split; [exact H3|]. split; [exact H4|].
      apply Forall_app. split; [exact H6|]. constructor; [exact H5 | constructor]. }
    destruct Hmore as (more & Hwm & Hsub).
    destruct Hf as [Hacc Hwf Hnn Hnum Hcur Hcb' Hcbs Hhand' Hnf'
                   | b sz fl nb Hl Hacc Hb Hsz Hmax Hfl Hwf Hnn Hnum Hcur Hcb' Hcbs Hpc Hloc
                   | lat werr wms Hl Hhand' Hpc Hwf Hnn Hprio Hnum Hcur Hcb' Hcbs
                   | lat werr wms Hl Hpc Hhand' Hwf Hnn Hnum Hcur Hcb' Hcbs Hnf'
                   | err rsz pkt Hl Hcb0 Hcb1 Hcbs Hwf Hnn Hnum Hcur Hpc Hloc].
    - unfold I. rewrite Hwf, Hcur, Hcb', Hhand', callbacks_of_snoc, accepted_frames_snoc.
      cbn [entry_actions]. rewrite Hcbs, Hacc, !app_nil_r.
      split; [exact Hok1|]. split; [rewrite Hm1; exact Hmx|].
      repeat (split; [assumption|]). split; [eauto|]. exact Hidle1.
    - assert (Hfl0 : fl = 0).
      { subst lbl. cbn [no_flush] in Hnf. apply negb_true_iff, Z.eqb_neq in Hnf.
        destruct Hfl; [assumption | contradiction]. }
      subst fl. change (0 =? 1) with false in *. cbn iota in *.
      unfold I. rewrite Hwf, Hcur, Hcb', Hpc, callbacks_of_snoc, accepted_frames_snoc.
      cbn [entry_actions]. rewrite Hcbs, Hacc, app_nil_r.
      split; [exact Hok1|]. split; [rewrite Hm1; exact Hmx|].
      split; [exact Hcbx|]. split; [exact Hcurx|].
      split; [apply Forall_app; split; [exact Hlowx|];
              constructor; [unfold low_priority; cbn; lia | constructor]|].
      split; [exact Hhx|]. split; [exact Hnone|].
      split; [|rewrite Hpc in Hidle1; exact Hidle1].
      exists (more ++ [mkFrame (u32 (nextFrameNumber (sys_sender x) + 1)) sz b 0]).
      split; [rewrite Hwm, app_assoc; reflexivity|].
      injection Hsub as Hs1 Hs2. rewrite !fmap_app, Hs1, Hs2. subst lbl. reflexivity.
    - exfalso. rewrite Hwf in Hlowx. inversion Hlowx; subst.
      destruct Hprio as [Hhi|Hc1]; [contradiction | congruence].
    - rewrite Hpc in Hhx. discriminate Hhx.
    - subst lbl. discriminate Hna. }
  assert (Hinit : I [] st).
  { unfold I. repeat (split; [first [assumption | reflexivity]|]).
    split; [exists []; rewrite app_nil_r; split; reflexivity|].
    intros H1 H2. split; [exact H1|]. split; [exact H2 | constructor]. }
  destruct (run_invariant _ I Hstep lbls st st' tr [] Hlbls Hinit Hrun)
    as [(_ & _ & H3 & H4 & _ & H6 & H7 & H8 & H9) _].
  cbn [app] in *. split; [exact H8|]. split; [exact H4|]. split; [exact H3|].
  split; [exact H7|]. split; [exact H6|]. intros H1 H2. apply (H9 H1 H2).
Qed.

(** ** The first frame of a new sender *)

(** X16: the first frame of a new sender, submitted with a flush, is
    installed at once, and the empty frame with which the sender starts is
    cancelled for it.  On a new sender of a capacity between 1 and INT_MAX,
    when the data thread starts, a frame is submitted with a flush and the
    data thread makes two more steps, the submission signals the condition,
    the data thread pops the frame and installs it as the current frame,
    stamped 1; before that it flushes the input buffer of the network and
    calls the application callback with FRAME_CANCEL, a null buffer and
    size 0: the callback of an application has to bear a null buffer
    once. *)
Theorem first_flush_frame_cancels_the_empty_frame
    env mgr dataId ackId cb size cust s hdr b sz nb lat1 e1 m1 lat2 e2 m2 lat3 e3 m3 :
  1 <= size < INT_MAX ->
  ARSTREAM_Sender_New env mgr dataId ackId cb size cust = (Some s, ARSTREAM_OK) ->
  b <> NULL -> sz <> 0 -> sz <= ARSTREAM_NETWORK_HEADERS_MAX_FRAME_SIZE ->
  exists st tr,
    run [L_Data lat1 e1 m1; L_SendNewFrame b sz 1 nb; L_Data lat2 e2 m2;
         L_Data lat3 e3 m3] (sys_init s hdr) = Some (st, tr) /\
    entry_actions <$> tr =
      [[]; [Cond_Signal]; [];
       [FlushInputBuffer dataId;
        Callback ARSTREAM_SENDER_STATUS_FRAME_CANCEL NULL 0 cust]] /\
    currentFrame (sys_sender st) = mkFrame 1 sz b 1 /\
    currentFrameCbWasCalled (sys_sender st) = 0 /\
    waiting_frames (sys_sender st) = [] /\
    sys_pc st = PcPass.
Proof.
  intros Hsize Hnew Hb Hsz Hmax.
  assert (Hsize' : 0 <= size < 2 ^ 32) by (unfold INT_MAX in Hsize; lia).
  destruct (New_sender_state _ _ _ _ _ _ _ _ Hsize' Hnew)
    as ((_ & Hdid & _ & _ & Hmx & Hcus) & (Hok & Hcount & Hwf & Hnum) & (Hcur & _ & Hcb) &
        (Hstop & _)).
  destruct hdr as [[[h1 h2] h3] h4].
  set (l0 := mkLocals 0 0 0 0 h1 h2 h3 h4 (mkFrame 0 0 0 0)).
  (* the data thread starts *)
  set (s1 := set_dataThreadStarted 1 s).
  assert (Hs1 : ring_ok s1 /\ capacity_fits_int s1 /\ waiting_frames s1 = [] /\
                nextFrameNumber s1 = 0 /\ maxNumberOfNextFrames s1 = size /\
                threadsShouldStop s1 = 0 /\ currentFrame s1 = Frame_zero /\
                currentFrameCbWasCalled s1 = 0 /\ custom s1 = cust /\
                dataBufferID s1 = dataId /\ numberOfWaitingFrames s1 = 0).
  { split; [apply (ring_ok_untouched s); [subst s1; destruct s; repeat split | exact Hok]|].
    split; [unfold capacity_fits_int; subst s1; destruct s; cbn in *; lia|].
    split; [rewrite <- Hwf; subst s1; destruct s; reflexivity|].
    subst s1; destruct s; cbn in *. repeat split; assumption. }
  destruct Hs1 as (Hok1 & Hcap1 & Hwf1 & Hnum1 & Hmx1 & Hstop1 & Hcur1 & Hcb1 & Hcus1 &
                   Hdid1 & Hcount1).
  assert (Hstep1 : sys_step (L_Data lat1 e1 m1) (sys_init s (h1, h2, h3, h4)) =
                   Some (mkSys s1 PcLoop l0, [])) by reflexivity.
  (* the submission *)
  destruct (after_flush_fields 1 s1 Hok1) as (Hfmx & Hfad & Hfnf & Hfnn & Hfcb & Hfc).
  change (1 =? 1) with true in Hfc. cbn iota in Hfc.
  destruct (SendNewFrame_outcomes s1 b sz 1 nb Hok1 Hcap1)
    as [(e & He & Hrej) | (_ & _ & _ & _ & Hroom & Hacc)].
  { exfalso.
    pose proof (bad_parameters_test s1 b sz 1) as Hbad.
    revert Hrej. unfold ARSTREAM_Sender_SendNewFrame.
    destruct ((b =? NULL) || (sz =? 0) || (negb (1 =? 0) && negb (1 =? 1))) eqn:Eb.
    { destruct (proj1 Hbad eq_refl) as [H|[H|[H|[_ H]]]];
        [discriminate | contradiction | contradiction | contradiction]. }
    destruct (sz >? ARSTREAM_NETWORK_HEADERS_MAX_FRAME_SIZE) eqn:Em;
      [apply Z.gtb_lt in Em; lia|].
    rewrite AddToQueue_spec by assumption. cbn zeta. rewrite Hfmx, Hfc, Hmx1.
    destruct (0 <? size) eqn:E0; [|apply Z.ltb_ge in E0; lia].
    rewrite (AddToQueue_retVal_backlog s1 Hok1 Hcap1).
    pose proof (backlog_nonneg s1 Hok1) as Hbl.
    destruct (backlog s1 <? 0) eqn:Ebl; [apply Z.ltb_lt in Ebl; lia|].
    destruct nb; intros Hrej; injection Hrej as He' _ _ _; congruence. }
  set (sf := after_flush 1 s1) in *.
  set (s2 := enqueued sz b 1 sf) in *.
  assert (Hstep2 : sys_step (L_SendNewFrame b sz 1 nb) (mkSys s1 PcLoop l0) =
                   Some (mkSys s2 PcLoop l0, [Cond_Signal])).
  { cbn [sys_step sys_sender sys_pc sys_locals]. rewrite Hacc.
    unfold flush_trace. change (1 =? 1) with true. cbn iota. rewrite Hwf1. reflexivity. }
  pose proof (after_flush_ok 1 s1 Hok1) as Hokf. fold sf in Hokf.
  assert (Hroom' : numberOfWaitingFrames sf < maxNumberOfNextFrames sf) by lia.
  pose proof (enqueued_ok sz b 1 sf Hokf Hroom') as Hok2. fold s2 in Hok2.
  assert (Hwf2 : waiting_frames s2 = [mkFrame 1 sz b 1]).
  { subst s2. rewrite waiting_frames_enqueued by assumption.
    rewrite Hfnn, Hnum1. subst sf. rewrite after_flush_eq by assumption.
    change (1 =? 1) with true. cbn iota. rewrite waiting_frames_flushed. reflexivity. }
  assert (Hs2 : numberOfWaitingFrames s2 = 1 /\ threadsShouldStop s2 = 0 /\
                currentFrame s2 = Frame_zero /\ currentFrameCbWasCalled s2 = 0 /\
                custom s2 = cust /\ dataBufferID s2 = dataId).
  { assert (Hf : threadsShouldStop sf = 0 /\ currentFrame sf = Frame_zero /\
                 custom sf = cust /\ dataBufferID sf = dataId).
    { subst sf. rewrite after_flush_eq by assumption. change (1 =? 1) with true. cbn iota.
      rewrite <- Hstop1, <- Hcur1, <- Hcus1, <- Hdid1. destruct s1; repeat split. }
    destruct Hf as (Hf1 & Hf2 & Hf3 & Hf4).
    assert (He : numberOfWaitingFrames s2 = numberOfWaitingFrames sf + 1 /\
                 threadsShouldStop s2 = threadsShouldStop sf /\
                 currentFrame s2 = currentFrame sf /\
                 currentFrameCbWasCalled s2 = currentFrameCbWasCalled sf /\
                 custom s2 = custom sf /\ dataBufferID s2 = dataBufferID sf)
      by (subst s2; destruct sf; repeat split).
    destruct He as (E1 & E2 & E3 & E4 & E5 & E6).
    rewrite E1, E2, E3, E4, E5, E6, Hfc, Hf1, Hf2, Hf3, Hf4, Hfcb, Hcb1.
    repeat split. }
  destruct Hs2 as (Hcount2 & Hstop2 & Hcur2 & Hcb2 & Hcus2 & Hdid2).
  destruct (waiting_frames_popped s2 Hok2 ltac:(lia)) as [Hok3 Hhead].
  rewrite Hwf2 in Hhead. injection Hhead as Hhead Hwf3.
  (* the data thread pops the frame *)
  assert (Hready : head_is_ready s2).
  { split; [lia|]. left. rewrite <- Hhead. reflexivity. }
  set (l3 := with_nextFrame (head_frame s2) l0).
  assert (Hstep3 : sys_step (L_Data lat2 e2 m2) (mkSys s2 PcLoop l0) =
                   Some (mkSys (popped s2) (PcPopped 1) l3, [])).
  { cbn [sys_step]. unfold ARSTREAM_Sender_RunDataThread_step.
    cbn [sys_sender sys_pc sys_locals]. rewrite Hstop2. change (0 =? 0) with true.
    cbn iota. destruct (PopFromQueue_check_spec s2) as [Hcheck _].
    rewrite (Hcheck Hready). change (1 =? 0) with false. cbn iota.
    unfold data_popped. rewrite PopFromQueue_copy_taken. reflexivity. }
  (* and installs it *)
  assert (Hs3 : currentFrame (popped s2) = Frame_zero /\
                currentFrameCbWasCalled (popped s2) = 0 /\
                custom (popped s2) = cust /\ dataBufferID (popped s2) = dataId).
  { rewrite <- Hcur2, <- Hcb2, <- Hcus2, <- Hdid2. destruct s2; repeat split. }
  destruct Hs3 as (Hcur3 & Hcb3 & Hcus3 & Hdid3).
  assert (Hstep4 : sys_step (L_Data lat3 e3 m3) (mkSys (popped s2) (PcPopped 1) l3) =
                   Some (mkSys (installed l3 (popped s2)) PcPass (installed_locals l3),
                         [FlushInputBuffer dataId;
                          Callback ARSTREAM_SENDER_STATUS_FRAME_CANCEL NULL 0 cust])).
  { cbn [sys_step]. unfold ARSTREAM_Sender_RunDataThread_step.
    cbn [sys_sender sys_pc sys_locals]. change (1 =? 1) with true. cbn iota.
    rewrite ARSTREAM_Sender_RunDataThread_newFrame_spec.
    unfold cancel_current, current_callback. rewrite Hcb3, Hcur3, Hcus3, Hdid3.
    reflexivity. }
  eexists _, _. split.
  { cbn [run]. rewrite Hstep1. cbn [run]. rewrite Hstep2. cbn [run]. rewrite Hstep3.
    cbn [run]. rewrite Hstep4. reflexivity. }
  cbn [sys_sender sys_pc fmap list_fmap entry_actions].
  split; [reflexivity|].
  split; [unfold installed; cbn; subst l3; cbn; rewrite <- Hhead; reflexivity|].
  split; [reflexivity|]. split; [|reflexivity].
  transitivity (waiting_frames (popped s2)); [reflexivity | symmetry; exact Hwf3].
Qed.

(** ** A pass of the data thread over the current frame *)

Lemma FlagIsSet_SetFlag p i j :
  0 <= i < 128 -> 0 <= j < 128 ->
  ARSTREAM_NetworkHeaders_AckPacketFlagIsSet
    (ARSTREAM_NetworkHeaders_AckPacketSetFlag p j) i =
    if i =? j then 1 else ARSTREAM_NetworkHeaders_AckPacketFlagIsSet p i.
Proof.
  intros Hi Hj.
  unfold ARSTREAM_NetworkHeaders_AckPacketFlagIsSet,
    ARSTREAM_NetworkHeaders_AckPacketSetFlag, u64.
  destruct (j <? 64) eqn:Ej; destruct (i <? 64) eqn:Ei;
    cbn [lowPacketsAck highPacketsAck];
    first [apply Z.ltb_lt in Ej | apply Z.ltb_ge in Ej];
    first [apply Z.ltb_lt in Ei | apply Z.ltb_ge in Ei].
  - rewrite Z.mod_pow2_bits_low by lia.
    rewrite Z.lor_spec, Z.shiftl_1_l, Z.pow2_bits_eqb by lia.
    destruct (i =? j) eqn:E.
    + apply Z.eqb_eq in E. subst j. rewrite Z.eqb_refl, orb_true_r. reflexivity.
    + apply Z.eqb_neq in E. replace (j =? i) with false by (symmetry; apply Z.eqb_neq; lia).
      rewrite orb_false_r. reflexivity.
  - replace (i =? j) with false by (symmetry; apply Z.eqb_neq; lia). reflexivity.
  - replace (i =? j) with false by (symmetry; apply Z.eqb_neq; lia). reflexivity.
  - rewrite Z.mod_pow2_bits_low by lia.
    rewrite Z.lor_spec, Z.shiftl_1_l, Z.pow2_bits_eqb by lia.
    destruct (i =? j) eqn:E.
    + apply Z.eqb_eq in E. subst j. rewrite Z.eqb_refl, orb_true_r. reflexivity.
    + apply Z.eqb_neq in E.
      replace (j - 64 =? i - 64) with false by (symmetry; apply Z.eqb_neq; lia).
      rewrite orb_false_r. reflexivity.
Qed.

(** The flags the first [for] of a pass leaves in [packetsToSend]. *)
Lemma flagged_fragments ack L : forall p i,
  0 <= i < 128 -> List.Forall (fun j => 0 <= j < 128) L ->
  ARSTREAM_NetworkHeaders_AckPacketFlagIsSet
    (fold_left
       (fun p cnt =>
          if ARSTREAM_NetworkHeaders_AckPacketFlagIsSet ack cnt =? 0
          then ARSTREAM_NetworkHeaders_AckPacketSetFlag p cnt else p) L p) i =
    if (ARSTREAM_NetworkHeaders_AckPacketFlagIsSet ack i =? 0) && existsb (Z.eqb i) L
    then 1 else ARSTREAM_NetworkHeaders_AckPacketFlagIsSet p i.
Proof.
  induction L as [|j L IH]; intros p i Hi HL.
  - cbn. rewrite andb_false_r. reflexivity.
  - inversion HL as [|? ? Hj HL']; subst. cbn [fold_left existsb].
    rewrite IH by assumption.
    destruct (ARSTREAM_NetworkHeaders_AckPacketFlagIsSet ack i =? 0) eqn:Ea;
      cbn [andb].
    + destruct (existsb (Z.eqb i) L); [rewrite orb_true_r; reflexivity|].
      rewrite orb_false_r.
      destruct (i =? j) eqn:E.
      * apply Z.eqb_eq in E. subst j. rewrite Ea.
        rewrite FlagIsSet_SetFlag by assumption. rewrite Z.eqb_refl. reflexivity.
      * destruct (ARSTREAM_NetworkHeaders_AckPacketFlagIsSet ack j =? 0);
          [|reflexivity].
        rewrite FlagIsSet_SetFlag by assumption. rewrite E. reflexivity.
    + destruct (ARSTREAM_NetworkHeaders_AckPacketFlagIsSet ack j =? 0) eqn:Ej;
        [|reflexivity].
      rewrite FlagIsSet_SetFlag by assumption.
      destruct (i =? j) eqn:E; [|reflexivity].
      apply Z.eqb_eq in E. subst j. congruence.
Qed.

(** Where a search through [seqZ] stops, and what is left to filter. *)
Lemma find_filter_seqZ (f : Z -> bool) : forall k from n,
  Z.to_nat n = k ->
  match find f (seqZ from n) with
  | Some c =>
      from <= c < from + n /\
      List.filter f (seqZ from n) = c :: List.filter f (seqZ (c + 1) (from + n - (c + 1)))
  | None => List.filter f (seqZ from n) = []
  end.
Proof.
  induction k as [|k IH]; intros from n Hk.
  - rewrite seqZ_nil by lia. reflexivity.
  - rewrite seqZ_cons by lia. cbn [find List.filter].
    destruct (f from) eqn:Ef.
    + split; [lia|]. f_equal. f_equal. f_equal; lia.
    + specialize (IH (Z.succ from) (Z.pred n) ltac:(lia)).
      destruct (find f (seqZ (Z.succ from) (Z.pred n))) as [c|].
      * destruct IH as [Hc IH]. split; [lia|]. rewrite IH. f_equal. f_equal. f_equal. lia.
      * exact IH.
Qed.

Lemma find_ext_in {A} (f g : A -> bool) (l : list A) :
  (forall x, In x l -> f x = g x) -> find f l = find g l.
Proof.
  induction l as [|a l IH]; intros H; [reflexivity|].
  cbn. rewrite (H a (or_introl eq_refl)).
  destruct (g a); [reflexivity|]. apply IH. intros x Hx. apply H. right. exact Hx.
Qed.

(** The second [for] from [cnt = from] to its end, when no other thread
    comes in between: it sends the fragments that are still to send, in
    increasing order, one in each step of the data thread. *)
Lemma data_send_all lat e m g : forall k from st s1 l0,
  0 <= from ->
  (forall cnt, from <= cnt < nbPackets (sys_locals st) ->
     negb (ARSTREAM_NetworkHeaders_AckPacketFlagIsSet (packetsToSend s1) cnt =? 0) = g cnt) ->
  length (List.filter g (seqZ from (nbPackets (sys_locals st) - from))) = k ->
  exists st1 a st' tr,
    data_send st from s1 l0 = Some (st1, l0 ++ a) /\
    run (repeat (L_Data lat e m) k) st1 = Some (st', tr) /\
    omap sent_fragment a ++ sent_along tr =
      List.filter g (seqZ from (nbPackets (sys_locals st) - from)) /\
    sys_pc st' = PcLoop /\ sys_sender st' = s1 /\
    List.filter is_callback a = [] /\ callbacks_of tr = [] /\
    nbPackets (sys_locals st') = nbPackets (sys_locals st) /\
    a ++ concat (map entry_actions tr) =
      fragment_packet s1 (sys_locals st) <$>
        List.filter g (seqZ from (nbPackets (sys_locals st) - from)).
Proof.
  induction k as [|k IH]; intros from st s1 l0 Hfrom Hg Hlen.
  - pose proof (find_filter_seqZ g _ from (nbPackets (sys_locals st) - from) eq_refl) as Hf.
    destruct (find g (seqZ from (nbPackets (sys_locals st) - from))) as [c|] eqn:Efind.
    { destruct Hf as [_ Hf]. rewrite Hf in Hlen. discriminate. }
    assert (Hnext : next_to_send s1 (nbPackets (sys_locals st)) from = None).
    { unfold next_to_send. rewrite <- Efind. apply find_ext_in.
      intros x Hx. apply list_elem_of_In, elem_of_seqZ in Hx. apply Hg. lia. }
    unfold data_send, ARSTREAM_Sender_RunDataThread_sendLoop, bind, gets. rewrite Hnext.
    cbn. eexists _, [], _, _. rewrite app_nil_r.
    split; [reflexivity|]. split; [reflexivity|].
    rewrite Hf. repeat split; reflexivity.
  - pose proof (find_filter_seqZ g _ from (nbPackets (sys_locals st) - from) eq_refl) as Hf.
    destruct (find g (seqZ from (nbPackets (sys_locals st) - from))) as [c|] eqn:Efind;
      [|rewrite Hf in Hlen; discriminate].
    destruct Hf as [Hc Hf].
    assert (Hnext : next_to_send s1 (nbPackets (sys_locals st)) from = Some c).
    { unfold next_to_send. rewrite <- Efind. apply find_ext_in.
      intros x Hx. apply list_elem_of_In, elem_of_seqZ in Hx. apply Hg. lia. }
    rewrite Hf in Hlen. cbn [length] in Hlen. injection Hlen as Hlen.
    replace (from + (nbPackets (sys_locals st) - from) - (c + 1))
      with (nbPackets (sys_locals st) - (c + 1)) in Hf, Hlen by lia.
    unfold data_send, ARSTREAM_Sender_RunDataThread_sendLoop, bind, gets. rewrite Hnext.
    unfold ARSTREAM_Sender_RunDataThread_sendFragment, bind, gets, emit, ret.
    cbn [fst snd].
    match goal with
    | |- context [Some (mkSys s1 (PcInSend c) ?l, _)] => set (l1 := l)
    end.
    set (st1 := mkSys s1 (PcInSend c) l1).
    assert (Hnb : nbPackets (sys_locals st1) = nbPackets (sys_locals st)) by reflexivity.
    destruct (IH (c + 1) st1 s1 [] ltac:(lia))
      as (st2 & a2 & st' & tr & Hsend & Hrun & Hsent & Hpc & Hs & Hcb2 & Hcbs & Hnb' & Hpk).
    { intros cnt Hcnt. rewrite Hnb in Hcnt. apply Hg. lia. }
    { rewrite Hnb. exact Hlen. }
    rewrite Hnb in Hsent, Hpk, Hnb'.
    eexists st1, _, st', _. split; [reflexivity|].
    split.
    { cbn [repeat run sys_step]. unfold ARSTREAM_Sender_RunDataThread_step.
      cbn [sys_pc st1 sys_sender]. fold st1. rewrite Hsend. rewrite Hrun. reflexivity. }
    split.
    { rewrite Hf. unfold sent_along. cbn [map concat entry_actions app omap list_omap sent_fragment].
      f_equal. rewrite omap_app. exact Hsent. }
    split; [exact Hpc|]. split; [exact Hs|]. split; [reflexivity|].
    split.
    { unfold callbacks_of. cbn [map concat entry_actions]. cbn [app]. rewrite Hcb2.
      exact Hcbs. }
    split; [exact Hnb'|].
    rewrite Hf, fmap_cons. cbn [map concat entry_actions].
    transitivity (fragment_packet s1 (sys_locals st) c ::
                  (a2 ++ concat (map entry_actions tr))); [reflexivity|].
    rewrite Hpk. reflexivity.
Qed.

Lemma FlagIsSet_Reset p i :
  ARSTREAM_NetworkHeaders_AckPacketFlagIsSet (ARSTREAM_NetworkHeaders_AckPacketReset p) i = 0.
Proof.
  unfold ARSTREAM_NetworkHeaders_AckPacketFlagIsSet, ARSTREAM_NetworkHeaders_AckPacketReset.
  cbn [lowPacketsAck highPacketsAck]. rewrite !Z.bits_0. destruct (i <? 64); reflexivity.
Qed.

Lemma existsb_seqZ i from n :
  existsb (Z.eqb i) (seqZ from n) = (from <=? i) && (i <? from + n).
Proof.
  destruct (existsb (Z.eqb i) (seqZ from n)) eqn:E.
  - apply existsb_exists in E. destruct E as (x & Hx & E).
    apply Z.eqb_eq in E. subst x. apply list_elem_of_In, elem_of_seqZ in Hx.
    symmetry. apply andb_true_iff. split; [apply Z.leb_le | apply Z.ltb_lt]; lia.
  - symmetry. apply not_true_is_false. intros H. apply andb_true_iff in H.
    destruct H as [H1 H2]. apply Z.leb_le in H1. apply Z.ltb_lt in H2.
    assert (Hex : existsb (Z.eqb i) (seqZ from n) = true).
    { apply existsb_exists. exists i. split; [|apply Z.eqb_refl].
      apply list_elem_of_In, elem_of_seqZ. lia. }
    congruence.
Qed.

(** X17: a pass of the data thread sends the fragments of the current
    frame that are not acknowledged, and only them.  When the data thread
    is about to flag the packets of a frame of at most 128 fragments and no
    other thread comes in between, its next steps hand to the network
    exactly the fragments whose flag is not set in the ack packet, each
    once and in increasing order, one in each step; then the thread is back
    at the head of its loop.  The pass calls no callback, it keeps the
    current frame, the ack packet and the queue, and it leaves in
    [packetsToSend] the flags of the fragments it has sent.  (The flags are
    read and set through the functions of ARSTREAM_NetworkHeaders, written
    here as the specification describes them.) *)
Theorem data_thread_pass_sends_unacknowledged_fragments lat e m st :
  sys_pc st = PcPass ->
  nbPackets (sys_locals st) <= 128 ->
  let todo := unacknowledged (sys_sender st) (nbPackets (sys_locals st)) in
  exists st' tr,
    run (repeat (L_Data lat e m) (S (length todo))) st = Some (st', tr) /\
    sent_along tr = todo /\
    callbacks_of tr = [] /\
    sys_pc st' = PcLoop /\
    untouched (sys_sender st) (sys_sender st') /\
    waiting_frames (sys_sender st') = waiting_frames (sys_sender st) /\
    (forall cnt, 0 <= cnt < 128 ->
       ARSTREAM_NetworkHeaders_AckPacketFlagIsSet (packetsToSend (sys_sender st')) cnt =
         if bool_decide (cnt ∈ todo) then 1 else 0).
Proof.
  intros Hpc Hnb todo.
  set (s := sys_sender st). set (l := sys_locals st).
  set (g := fun cnt => ARSTREAM_NetworkHeaders_AckPacketFlagIsSet (ackPacket s) cnt =? 0).
  set (s1 := state_of (ARSTREAM_Sender_RunDataThread_flagPackets l s)).
  destruct (flagPackets_untouched l s) as [Hunt Htr]. fold s1 in Hunt.
  assert (Hflags : forall cnt, 0 <= cnt < 128 ->
            ARSTREAM_NetworkHeaders_AckPacketFlagIsSet (packetsToSend s1) cnt =
              if g cnt && ((0 <=? cnt) && (cnt <? 0 + nbPackets l)) then 1 else 0).
  { intros cnt Hcnt. subst s1.
    unfold ARSTREAM_Sender_RunDataThread_flagPackets, bind, modify, state_of.
    cbn [fst snd packetsToSend set_packetsToSend ackPacket].
    rewrite flagged_fragments.
    - rewrite FlagIsSet_Reset, existsb_seqZ. reflexivity.
    - exact Hcnt.
    - apply List.Forall_forall. intros j Hj.
      apply list_elem_of_In, elem_of_seqZ in Hj. fold l in Hnb. lia. }
  assert (Hring : waiting_frames s1 = waiting_frames s).
  { subst s1. unfold ARSTREAM_Sender_RunDataThread_flagPackets, bind, modify, state_of.
    reflexivity. }
  destruct (data_send_all lat e m g (length todo) 0 st s1
              (trace_of (ARSTREAM_Sender_RunDataThread_flagPackets l s)) ltac:(lia))
    as (st1 & a & st' & tr & Hsend & Hrun & Hsent & Hpc' & Hs' & Hcb & Hcbs & _).
  { intros cnt Hcnt. fold l in Hcnt, Hnb. rewrite Hflags by lia.
    replace ((0 <=? cnt) && (cnt <? 0 + nbPackets l)) with true
      by (symmetry; apply andb_true_iff; split; [apply Z.leb_le | apply Z.ltb_lt]; lia).
    rewrite andb_true_r. destruct (g cnt); reflexivity. }
  { rewrite Z.sub_0_r. reflexivity. }
  rewrite Z.sub_0_r in Hsent. fold l s in Hsent.
  change (List.filter g (seqZ 0 (nbPackets l))) with todo in Hsent.
  rewrite Htr in Hsend. cbn [app] in Hsend.
  eexists st', _. split.
  { cbn [repeat run sys_step]. unfold ARSTREAM_Sender_RunDataThread_step.
    rewrite Hpc. fold s l.
    destruct (ARSTREAM_Sender_RunDataThread_flagPackets l s) as [[u s1'] l1'] eqn:Ef.
    assert (Hs1 : s1' = s1) by (subst s1; first [reflexivity | rewrite Ef; reflexivity]).
    assert (Hl1 : l1' = [])
      by (rewrite <- Htr; first [reflexivity | rewrite Ef; reflexivity]).
    rewrite Hs1, Hl1, Hsend, Hrun. reflexivity. }
  split.
  { unfold sent_along. cbn [map concat entry_actions]. rewrite omap_app. exact Hsent. }
  split.
  { unfold callbacks_of. cbn [map concat entry_actions]. rewrite Hcb. exact Hcbs. }
  split; [exact Hpc'|]. rewrite Hs'.
  split; [exact Hunt|]. split; [exact Hring|].
  intros cnt Hcnt. rewrite Hflags by exact Hcnt.
  destruct (bool_decide (cnt ∈ todo)) eqn:Ed.
  - apply bool_decide_eq_true in Ed. apply list_elem_of_In, filter_In in Ed.
    destruct Ed as [Hin Hg]. apply list_elem_of_In, elem_of_seqZ in Hin.
    change (g cnt = true) in Hg. rewrite Hg. fold l in Hin.
    replace ((0 <=? cnt) && (cnt <? 0 + nbPackets l)) with true; [reflexivity|].
    symmetry. apply andb_true_iff. split; [apply Z.leb_le | apply Z.ltb_lt]; lia.
  - apply bool_decide_eq_false in Ed.
    destruct (g cnt && ((0 <=? cnt) && (cnt <? 0 + nbPackets l))) eqn:E; [|reflexivity].
    exfalso. apply Ed. apply andb_true_iff in E. destruct E as [Hg E].
    apply andb_true_iff in E. destruct E as [E1 E2].
    apply Z.leb_le in E1. apply Z.ltb_lt in E2.
    apply list_elem_of_In, filter_In. split; [|exact Hg].
    apply list_elem_of_In, elem_of_seqZ. fold l. lia.
Qed.

(** ** The fragments of a frame *)

Lemma filter_all {A} (l : list A) : List.filter (fun _ => true) l = l.
Proof. induction l as [|a l IH]; [reflexivity|]. cbn. rewrite IH. reflexivity. Qed.

Lemma no_send_carries nb last (l : list Action) :
  List.filter is_send l = [] -> List.Forall (carries_fragment nb last) l.
Proof.
  induction l as [|a l IH]; intros H; [constructor|].
  cbn [List.filter] in H. destruct a; cbn [is_send] in H; try discriminate;
    (constructor; [exact Logic.I | exact (IH H)]).
Qed.

(** The flags the first [for] of a pass leaves in [packetsToSend], and its
    frame number. *)
Lemma flagPackets_flags l s cnt :
  nbPackets l <= 128 -> 0 <= cnt < 128 ->
  ARSTREAM_NetworkHeaders_AckPacketFlagIsSet
    (packetsToSend (state_of (ARSTREAM_Sender_RunDataThread_flagPackets l s))) cnt =
    if (ARSTREAM_NetworkHeaders_AckPacketFlagIsSet (ackPacket s) cnt =? 0) &&
       ((0 <=? cnt) && (cnt <? 0 + nbPackets l))
    then 1 else 0.
Proof.
  intros Hnb Hcnt.
  unfold ARSTREAM_Sender_RunDataThread_flagPackets, bind, modify, state_of.
  cbn [fst snd packetsToSend set_packetsToSend ackPacket].
  rewrite flagged_fragments.
  - rewrite FlagIsSet_Reset, existsb_seqZ. reflexivity.
  - exact Hcnt.
  - apply List.Forall_forall. intros j Hj.
    apply list_elem_of_In, elem_of_seqZ in Hj. lia.
Qed.

Lemma flagged_frameNumber ack L : forall p,
  ack_frameNumber
    (fold_left
       (fun p cnt =>
          if ARSTREAM_NetworkHeaders_AckPacketFlagIsSet ack cnt =? 0
          then ARSTREAM_NetworkHeaders_AckPacketSetFlag p cnt else p) L p) =
    ack_frameNumber p.
Proof.
  induction L as [|j L IH]; intros p; [reflexivity|].
  cbn [fold_left]. rewrite IH.
  destruct (_ =? 0); [|reflexivity].
  unfold ARSTREAM_NetworkHeaders_AckPacketSetFlag. destruct (j <? 64); reflexivity.
Qed.

Lemma flagPackets_sender l s :
  let s1 := state_of (ARSTREAM_Sender_RunDataThread_flagPackets l s) in
  dataBufferID s1 = dataBufferID s /\
  ack_frameNumber (packetsToSend s1) = ack_frameNumber (packetsToSend s) /\
  currentFrame s1 = currentFrame s /\
  currentFrameNbFragments s1 = currentFrameNbFragments s.
Proof.
  unfold ARSTREAM_Sender_RunDataThread_flagPackets, bind, modify, state_of.
  cbn [fst snd]. split; [destruct s; reflexivity|].
  split; [|destruct s; split; reflexivity].
  cbn [packetsToSend set_packetsToSend]. rewrite flagged_frameNumber.
  destruct s; reflexivity.
Qed.

(** Which calls of [ARNETWORK_Manager_SendData] the functions make. *)
Lemma FlushQueue_loop_no_send fuel : forall s,
  List.filter is_send (trace_of (FlushQueue_loop fuel s)) = [].
Proof.
  induction fuel as [|fuel IH]; intros s; [reflexivity|].
  cbn [FlushQueue_loop]. unfold bind at 1. unfold gets at 1.
  destruct (0 <? numberOfWaitingFrames s); [|reflexivity].
  unfold bind.
  destruct (FlushQueue_body s) as [[u s1] l1] eqn:Eb.
  assert (H1 : List.filter is_send l1 = []).
  { unfold FlushQueue_body in Eb. revert Eb. run_monad. intros Eb.
    injection Eb as _ _ <-. reflexivity. }
  specialize (IH s1). destruct (FlushQueue_loop fuel s1) as [[u2 s2] l2].
  unfold trace_of in *. cbn [fst snd app] in *.
  rewrite List.filter_app, H1, IH. reflexivity.
Qed.

Lemma AddToQueue_no_send size buffer flag s :
  List.filter is_send (trace_of (ARSTREAM_Sender_AddToQueue size buffer flag s)) = [].
Proof.
  unfold ARSTREAM_Sender_AddToQueue.
  unfold bind at 1. unfold gets at 1. unfold bind at 1. unfold gets at 1.
  unfold bind at 1.
  assert (Hf : List.filter is_send
                 (trace_of ((if flag =? 1 then ARSTREAM_Sender_FlushQueue else ret tt) s)) =
               []).
  { destruct (flag =? 1); [|reflexivity].
    unfold ARSTREAM_Sender_FlushQueue. unfold bind, gets.
    pose proof (FlushQueue_loop_no_send (Z.to_nat (numberOfWaitingFrames s)) s) as H.
    destruct (FlushQueue_loop _ s) as [[u s1] l1]. exact H. }
  destruct ((if flag =? 1 then ARSTREAM_Sender_FlushQueue else ret tt) s)
    as [[u sf] lf].
  unfold trace_of in Hf. cbn [fst snd] in Hf.
  run_monad.
  destruct (numberOfWaitingFrames sf <? maxNumberOfNextFrames sf);
    unfold trace_of; cbn [fst snd app]; rewrite !List.filter_app, Hf; reflexivity.
Qed.

Lemma SendNewFrame_no_send s buf size flush nbPrev err sender' nbPrev' tr :
  ARSTREAM_Sender_SendNewFrame (Some s) buf size flush nbPrev = (err, sender', nbPrev', tr) ->
  List.filter is_send tr = [].
Proof.
  unfold ARSTREAM_Sender_SendNewFrame.
  destruct (_ || _); [intros [= <- <- <- <-]; reflexivity|].
  destruct (_ >? _); [intros [= <- <- <- <-]; reflexivity|].
  pose proof (AddToQueue_no_send size buf flush s) as H.
  destruct (ARSTREAM_Sender_AddToQueue size buf flush s) as [[res s1] l].
  unfold trace_of in H. cbn [fst snd] in H.
  destruct (res <? 0); [|destruct nbPrev]; intros [= <- <- <- <-]; exact H.
Qed.

Lemma RunAckThread_body_no_send err recvSize recvPacket s :
  List.filter is_send
    (trace_of (ARSTREAM_Sender_RunAckThread_body err recvSize recvPacket s)) = [].
Proof.
  unfold ARSTREAM_Sender_RunAckThread_body.
  destruct err; try reflexivity.
  destruct (negb (recvSize =? sizeof_AckPacket)); [reflexivity|].
  run_monad.
  destruct (ack_frameNumber (ackPacket s) =? ack_frameNumber recvPacket); [|reflexivity].
  cbn [fst snd].
  destruct ((_ =? 0) && (_ =? 1)); [|reflexivity].
  unfold ARSTREAM_Sender_FrameWasAck. run_monad. reflexivity.
Qed.

(** A turn of the second [for]: it sends nothing, or the next fragment
    that is flagged; the number of fragments and the size of the last one
    stay. *)
Lemma data_send_packet st from s0 l0 st1 acts :
  data_send st from s0 l0 = Some (st1, acts) ->
  nbPackets (sys_locals st1) = nbPackets (sys_locals st) /\
  lastFragmentSize (sys_locals st1) = lastFragmentSize (sys_locals st) /\
  ((acts = l0 /\ sys_pc st1 = PcLoop) \/
   exists cnt, from <= cnt < nbPackets (sys_locals st) /\
               acts = l0 ++ [fragment_packet s0 (sys_locals st) cnt] /\
               sys_pc st1 = PcInSend cnt).
Proof.
  unfold data_send, ARSTREAM_Sender_RunDataThread_sendLoop, bind, gets.
  destruct (next_to_send s0 (nbPackets (sys_locals st)) from) as [cnt|] eqn:En.
  - unfold next_to_send in En. apply find_some in En. destruct En as [Hin _].
    apply list_elem_of_In, elem_of_seqZ in Hin.
    unfold ARSTREAM_Sender_RunDataThread_sendFragment. run_monad.
    intros H. injection H as <- <-. cbn [sys_locals sys_pc nbPackets lastFragmentSize].
    split; [reflexivity|]. split; [reflexivity|].
    right. exists cnt. split; [lia|]. split; reflexivity.
  - cbn. intros H. injection H as <- <-. cbn [sys_locals sys_pc].
    split; [reflexivity|]. split; [reflexivity|]. left. split; [apply app_nil_r|reflexivity].
Qed.

(** A step that installs no frame keeps the number of fragments and the
    size of the last one, and whatever it hands to the network is a
    fragment cut by them. *)
Lemma sys_step_carries lbl st st1 acts :
  sys_step lbl st = Some (st1, acts) ->
  is_install (mkEntry lbl st acts) = false ->
  nbPackets (sys_locals st) <= 128 -> pc_inv (sys_pc st) ->
  nbPackets (sys_locals st1) = nbPackets (sys_locals st) /\
  lastFragmentSize (sys_locals st1) = lastFragmentSize (sys_locals st) /\
  pc_inv (sys_pc st1) /\
  List.Forall (carries_fragment (nbPackets (sys_locals st))
                 (lastFragmentSize (sys_locals st))) acts.
Proof.
  intros Hstep Hni Hnb Hpc.
  assert (Hsame : forall s1 l1,
            List.filter is_send l1 = [] ->
            (st1, acts) = (mkSys s1 (sys_pc st) (sys_locals st), l1) ->
            nbPackets (sys_locals st1) = nbPackets (sys_locals st) /\
            lastFragmentSize (sys_locals st1) = lastFragmentSize (sys_locals st) /\
            pc_inv (sys_pc st1) /\
            List.Forall (carries_fragment (nbPackets (sys_locals st))
                           (lastFragmentSize (sys_locals st))) acts).
  { intros s1 l1 Hl Heq. injection Heq as -> ->. cbn [sys_locals sys_pc].
    split; [reflexivity|]. split; [reflexivity|]. split; [exact Hpc|].
    apply no_send_carries, Hl. }
  assert (Hquiet : forall s1 pc1,
            pc_inv pc1 ->
            (st1, acts) = (mkSys s1 pc1 (sys_locals st), []) ->
            nbPackets (sys_locals st1) = nbPackets (sys_locals st) /\
            lastFragmentSize (sys_locals st1) = lastFragmentSize (sys_locals st) /\
            pc_inv (sys_pc st1) /\
            List.Forall (carries_fragment (nbPackets (sys_locals st))
                           (lastFragmentSize (sys_locals st))) acts).
  { intros s1 pc1 Hp Heq. injection Heq as -> ->. cbn [sys_locals sys_pc].
    split; [reflexivity|]. split; [reflexivity|]. split; [exact Hp | constructor]. }
  assert (Hsend : forall from s0,
            0 <= from ->
            data_send st from s0 [] = Some (st1, acts) ->
            nbPackets (sys_locals st1) = nbPackets (sys_locals st) /\
            lastFragmentSize (sys_locals st1) = lastFragmentSize (sys_locals st) /\
            pc_inv (sys_pc st1) /\
            List.Forall (carries_fragment (nbPackets (sys_locals st))
                           (lastFragmentSize (sys_locals st))) acts).
  { intros from s0 Hfrom Hd.
    destruct (data_send_packet _ _ _ _ _ _ Hd)
      as (H1 & H2 & [(-> & ->) | (cnt & Hcnt & -> & ->)]).
    - split; [exact H1|]. split; [exact H2|]. split; [exact Logic.I | constructor].
    - split; [exact H1|]. split; [exact H2|]. split; [cbn; lia|].
      cbn [app]. constructor; [|constructor].
      unfold fragment_packet, carries_fragment, currFragmentSize, u8.
      rewrite !Z.mod_small by lia. repeat split; try reflexivity; lia. }
  assert (Hpop : forall retVal s0,
            data_popped retVal st s0 [] = Some (st1, acts) ->
            nbPackets (sys_locals st1) = nbPackets (sys_locals st) /\
            lastFragmentSize (sys_locals st1) = lastFragmentSize (sys_locals st) /\
            pc_inv (sys_pc st1) /\
            List.Forall (carries_fragment (nbPackets (sys_locals st))
                           (lastFragmentSize (sys_locals st))) acts).
  { intros retVal s0 Hp. unfold data_popped in Hp.
    destruct (PopFromQueue_copy_untouched retVal (nextFrame (sys_locals st)) s0)
      as [_ Ht2].
    destruct (PopFromQueue_copy retVal (nextFrame (sys_locals st)) s0) as [[f s2] l2].
    unfold trace_of in Ht2. cbn [fst snd] in Ht2. subst l2.
    injection Hp as <- <-. cbn [sys_locals sys_pc].
    split; [reflexivity|]. split; [reflexivity|]. split; [exact Logic.I | constructor]. }
  destruct lbl as [b sz fl nb | | err rsz pkt | fn idx status | lat werr wms | param frag];
    cbn [sys_step] in Hstep.
  - destruct (ARSTREAM_Sender_SendNewFrame (Some (sys_sender st)) b sz fl nb)
      as [[[e s'] p'] l] eqn:E.
    pose proof (SendNewFrame_no_send _ _ _ _ _ _ _ _ _ E) as Hl.
    destruct s' as [s1|]; [|discriminate]. injection Hstep as <- <-.
    apply (Hsame s1 l Hl eq_refl).
  - unfold lift_sender, ARSTREAM_Sender_StopSender, modify in Hstep.
    injection Hstep as <- <-. eapply Hsame; [|reflexivity]. reflexivity.
  - destruct (ackMutex_free (sys_pc st)); [|discriminate].
    pose proof (RunAckThread_body_no_send err rsz pkt (sys_sender st)) as Hl.
    unfold lift_sender in Hstep.
    destruct (ARSTREAM_Sender_RunAckThread_body err rsz pkt (sys_sender st))
      as [[u s1] l1].
    unfold trace_of in Hl. cbn [fst snd] in Hl.
    injection Hstep as <- <-. apply (Hsame s1 l1 Hl eq_refl).
  - pose proof (NetworkCallback_untouched fn idx status (sys_sender st)) as [_ Hl].
    unfold lift_sender in Hstep.
    destruct (ARSTREAM_Sender_NetworkCallback fn idx status (sys_sender st))
      as [[u s1] l1].
    unfold trace_of in Hl. cbn [fst snd] in Hl. subst l1.
    injection Hstep as <- <-. apply (Hsame s1 [] eq_refl eq_refl).
  - unfold is_install in Hni. cbn [entry_label entry_before] in Hni.
    unfold ARSTREAM_Sender_RunDataThread_step in Hstep.
    destruct (sys_pc st) as [ | | wt tw | waitRes | | cnt | ] eqn:Epc.
    + injection Hstep as <- <-. eapply Hquiet; [|reflexivity]. exact Logic.I.
    + destruct (threadsShouldStop (sys_sender st) =? 0).
      * destruct (PopFromQueue_check_untouched (sys_sender st)) as [_ Ht].
        destruct (PopFromQueue_check (sys_sender st)) as [[rv s1] l1].
        unfold trace_of in Ht. cbn [fst snd] in Ht. subst l1.
        destruct (rv =? 0); [|exact (Hpop _ _ Hstep)].
        injection Hstep as <- <-. eapply Hquiet; [|reflexivity]. exact Logic.I.
      * injection Hstep as <- <-. eapply Hquiet; [|reflexivity]. exact Logic.I.
    + unfold PopFromQueue_wake, bind, ret in Hstep.
      destruct (PopFromQueue_check_untouched (sys_sender st)) as [_ Ht].
      destruct (PopFromQueue_check (sys_sender st)) as [[rv s1] l1].
      unfold trace_of in Ht. cbn [fst snd] in Ht, Hstep. subst l1.
      destruct ((rv =? 0) && _); [|cbn [app] in Hstep; exact (Hpop _ _ Hstep)].
      injection Hstep as <- <-. eapply Hquiet; [|reflexivity]. exact Logic.I.
    + rewrite Hni in Hstep. injection Hstep as <- <-.
      eapply Hquiet; [|reflexivity]. exact Logic.I.
    + destruct (flagPackets_untouched (sys_locals st) (sys_sender st)) as [_ Ht].
      destruct (ARSTREAM_Sender_RunDataThread_flagPackets (sys_locals st) (sys_sender st))
        as [[u s1] l1].
      unfold trace_of in Ht. cbn [fst snd] in Ht. subst l1.
      apply (Hsend 0 s1 ltac:(lia) Hstep).
    + cbn in Hpc. apply (Hsend (cnt + 1) (sys_sender st) ltac:(lia) Hstep).
    + discriminate.
  - destruct (RunDataThread_start_outcomes _ _ _ _ _ Hstep)
      as (Hpc0 & [(-> & -> & _) | (-> & -> & _)]); cbn [sys_locals sys_pc].
    + split; [reflexivity|]. split; [reflexivity|]. split; [exact Logic.I|].
      constructor; [exact Logic.I | constructor].
    + split; [reflexivity|]. split; [reflexivity|]. split; [exact Logic.I | constructor].
Qed.

Lemma run_carries lbls : forall st st' tr,
  run lbls st = Some (st', tr) ->
  List.Forall (fun e => is_install e = false) tr ->
  nbPackets (sys_locals st) <= 128 -> pc_inv (sys_pc st) ->
  List.Forall (carries_fragment (nbPackets (sys_locals st))
                 (lastFragmentSize (sys_locals st)))
    (concat (map entry_actions tr)).
Proof.
  induction lbls as [|lbl lbls IH]; intros st st' tr Hrun Hni Hnb Hpc;
    cbn [run] in Hrun.
  - injection Hrun as <- <-. constructor.
  - destruct (sys_step lbl st) as [[st1 acts]|] eqn:Es; [|discriminate].
    destruct (run lbls st1) as [[st2 tr1]|] eqn:Er; [|discriminate].
    injection Hrun as <- <-. inversion Hni as [|? ? Hni1 Hni2]; subst.
    destruct (sys_step_carries _ _ _ _ Es Hni1 Hnb Hpc) as (H1 & H2 & H3 & H4).
    cbn [map concat entry_actions]. apply List.Forall_app. split; [exact H4|].
    rewrite <- H1, <- H2. apply (IH _ _ _ Er Hni2); [rewrite H1; exact Hnb | exact H3].
Qed.

Lemma filter_send_packets s l (L : list Z) :
  List.filter is_send (fragment_packet s l <$> L) = fragment_packet s l <$> L.
Proof.
  induction L as [|c L IH]; [reflexivity|].
  rewrite fmap_cons. cbn [List.filter fragment_packet is_send]. f_equal. exact IH.
Qed.

Section Transmission.

Hypothesis FRAGMENT_SIZE_fits_int : 0 < ARSTREAM_NETWORK_HEADERS_FRAGMENT_SIZE < 2 ^ 31.
Hypothesis MAX_FRAME_SIZE_is_128_fragments :
  ARSTREAM_NETWORK_HEADERS_MAX_FRAME_SIZE <= 128 * ARSTREAM_NETWORK_HEADERS_FRAGMENT_SIZE.

(** C3: a frame of size [S], [0 < S <= MAX_FRAME_SIZE], is sent in
    [ceil (S / FRAGMENT_SIZE)] fragments, of FRAGMENT_SIZE bytes each but
    the last, which has [S - (nb - 1) * FRAGMENT_SIZE] bytes: that is
    [S mod FRAGMENT_SIZE], or FRAGMENT_SIZE when [S] is a multiple of it.
    When the data thread has popped such a frame, it installs it, and its
    pass over the frame hands to [ARNETWORK_Manager_SendData] exactly these
    fragments, in order, each one with its index and the number of
    fragments in the header, its payload taken at FRAGMENT_SIZE times its
    index in the frame and a packet size of the payload plus the header;
    the number of fragments is stored in [currentFrameNbFragments].  And
    whatever the threads do afterwards, until another frame is installed
    every packet handed to the network is one of these fragments with this
    size. *)
Theorem ARSTREAM_Sender_RunDataThread_fragment_sizes lat e m st S :
  sys_pc st = PcPopped 1 ->
  frameSize (nextFrame (sys_locals st)) = S ->
  0 < S <= ARSTREAM_NETWORK_HEADERS_MAX_FRAME_SIZE ->
  let F := ARSTREAM_NETWORK_HEADERS_FRAGMENT_SIZE in
  let nb := (S + F - 1) / F in
  let last := S - (nb - 1) * F in
  let f := nextFrame (sys_locals st) in
  let flags := u8 (Z.lor 0 (if negb (isHighPriority f =? 0)
                            then ARSTREAM_NETWORK_HEADERS_FLAG_FLUSH_FRAME else 0)) in
  1 <= nb <= 128 /\
  last = (if S mod F =? 0 then F else S mod F) /\
  (exists st' tr,
     run (repeat (L_Data lat e m) (2 + Z.to_nat nb)) st = Some (st', tr) /\
     sys_pc st' = PcLoop /\
     currentFrame (sys_sender st') = f /\
     currentFrameNbFragments (sys_sender st') = nb /\
     List.filter is_send (concat (map entry_actions tr)) =
       (fun cnt =>
          SendData (dataBufferID (sys_sender st)) (u16 (frameNumber f)) flags cnt nb
            (F * cnt) (if cnt =? nb - 1 then last else F)
            ((if cnt =? nb - 1 then last else F) + sizeof_DataHeader)
            (u16 (frameNumber f)) cnt) <$> seqZ 0 nb) /\
  (forall lbls st' tr,
     run (L_Data lat e m :: lbls) st = Some (st', tr) ->
     List.Forall (fun e => is_install e = false) (tail tr) ->
     List.Forall (carries_fragment nb last) (concat (map entry_actions tr))).
Proof.
  intros Hpc HS Hrange F nb last f flags.
  set (s := sys_sender st). set (l := sys_locals st).
  destruct (compute_fragments_spec FRAGMENT_SIZE_fits_int MAX_FRAME_SIZE_is_128_fragments
              S (nbPackets l) (lastFragmentSize l) Hrange) as (Hcf & Hnb & Hlast).
  fold F in Hcf, Hnb, Hlast. fold nb in Hcf, Hnb, Hlast. fold last in Hcf, Hlast.
  set (l2 := installed_locals l). set (s2 := installed l s).
  assert (Hl2 : nbPackets l2 = nb /\ lastFragmentSize l2 = last /\
                header_frameNumber l2 = u16 (frameNumber f) /\
                header_frameFlags l2 = flags).
  { unfold l2, installed_locals. fold f. unfold f, l in *. rewrite HS, Hcf.
    repeat split. }
  destruct Hl2 as (Hl2nb & Hl2last & Hl2num & Hl2fl).
  assert (Hstep1 : sys_step (L_Data lat e m) st =
                   Some (mkSys s2 PcPass l2, cancel_current s)).
  { cbn [sys_step]. unfold ARSTREAM_Sender_RunDataThread_step. rewrite Hpc.
    change (1 =? 1) with true. cbn iota.
    rewrite ARSTREAM_Sender_RunDataThread_newFrame_spec. reflexivity. }
  assert (Hcancel : List.filter is_send (cancel_current s) = []).
  { unfold cancel_current, current_callback.
    destruct (currentFrameCbWasCalled s =? 0); reflexivity. }
  split; [exact Hnb|]. split; [exact Hlast|]. split.
  - set (st2 := mkSys s2 PcPass l2).
    set (s3 := state_of (ARSTREAM_Sender_RunDataThread_flagPackets l2 s2)).
    destruct (flagPackets_untouched l2 s2) as [_ Htr].
    destruct (flagPackets_sender l2 s2) as (Hid & Hnum & Hcur & Hfr). fold s3 in Hid, Hnum, Hcur, Hfr.
    destruct (data_send_all lat e m (fun _ => true) (Z.to_nat nb) 0 st2 s3
                (trace_of (ARSTREAM_Sender_RunDataThread_flagPackets l2 s2)) ltac:(lia))
      as (st1 & a & st' & tr & Hsend & Hrun & _ & Hpc' & Hs' & _ & _ & Hnb' & Hpk).
    { intros cnt Hcnt. cbn [sys_locals st2] in Hcnt. rewrite Hl2nb in Hcnt.
      unfold s3. rewrite flagPackets_flags by lia.
      replace (ARSTREAM_NetworkHeaders_AckPacketFlagIsSet (ackPacket s2) cnt) with 0.
      - replace ((0 <=? cnt) && (cnt <? 0 + nbPackets l2)) with true; [reflexivity|].
        symmetry. apply andb_true_iff. split; [apply Z.leb_le | apply Z.ltb_lt]; lia.
      - unfold s2, installed. cbn [ackPacket].
        unfold ARSTREAM_NetworkHeaders_AckPacketFlagIsSet. cbn [lowPacketsAck highPacketsAck].
        rewrite !Z.bits_0. destruct (cnt <? 64); reflexivity. }
    { cbn [sys_locals st2]. rewrite Hl2nb, Z.sub_0_r, filter_all, length_seqZ.
      reflexivity. }
    cbn [sys_locals st2] in Hpk, Hnb'. rewrite Hl2nb, Z.sub_0_r, filter_all in Hpk.
    rewrite Htr in Hsend. cbn [app] in Hsend.
    assert (Hstep2 : sys_step (L_Data lat e m) st2 = Some (st1, a)).
    { cbn [sys_step]. unfold ARSTREAM_Sender_RunDataThread_step. cbn [sys_pc st2 sys_sender sys_locals].
      destruct (ARSTREAM_Sender_RunDataThread_flagPackets l2 s2) as [[u s3'] l3'] eqn:Ef.
      assert (Hs3 : s3' = s3)
        by (subst s3; first [reflexivity | rewrite Ef; reflexivity]).
      assert (Hl3 : l3' = [])
        by (rewrite <- Htr; first [reflexivity | rewrite Ef; reflexivity]).
      rewrite Hs3, Hl3. exact Hsend. }
    exists st', (mkEntry (L_Data lat e m) st (cancel_current s) ::
                 mkEntry (L_Data lat e m) st2 a :: tr).
    split.
    { cbn [Nat.add repeat run]. rewrite Hstep1. cbn [repeat run]. fold st2.
      rewrite Hstep2, Hrun. reflexivity. }
    split; [exact Hpc'|]. rewrite Hs'.
    split.
    { rewrite Hcur. unfold s2, installed. cbn [currentFrame]. unfold f, l.
      destruct (nextFrame (sys_locals st)); reflexivity. }
    split.
    { rewrite Hfr. unfold s2, installed. cbn [currentFrameNbFragments].
      fold f. unfold f, l in *. rewrite HS, Hcf. reflexivity. }
    cbn [map concat entry_actions]. rewrite List.filter_app, Hcancel. cbn [app].
    rewrite Hpk, filter_send_packets.
    apply fmap_seqZ_ext. intros cnt Hcnt.
    unfold fragment_packet, currFragmentSize, u8.
    rewrite Hid, Hnum, Hl2nb, Hl2last, Hl2num, Hl2fl.
    rewrite !Z.mod_small by lia.
    unfold s2, installed. cbn [dataBufferID packetsToSend ack_frameNumber]. reflexivity.
  - intros lbls st' tr Hrun Hni. cbn [run] in Hrun. rewrite Hstep1 in Hrun.
    destruct (run lbls (mkSys s2 PcPass l2)) as [[st2 tr1]|] eqn:Er; [|discriminate].
    injection Hrun as <- <-. cbn [tail] in Hni.
    cbn [map concat entry_actions]. apply List.Forall_app.
    split; [apply no_send_carries, Hcancel|].
    pose proof (run_carries lbls _ _ _ Er Hni) as H.
    cbn [sys_locals sys_pc] in H. rewrite Hl2nb, Hl2last in H.
    apply H; [lia | exact Logic.I].
Qed.

End Transmission.

(** ** The arrays of the sender *)

(** X18: the indices of the sender stay inside its arrays.  In every state
    the threads reach from a sender that [ARSTREAM_Sender_New] returned
    for a capacity [size], whatever the application, the network and the
    two threads do: the capacity is still [size] and the frame array has
    that many cells; the number of waiting frames is between 0 and the
    capacity; the read and the write index are inside the array (when the
    capacity is not 0), the write index being the read index plus the
    number of waiting frames, around the ring; the index of the efficiency
    arrays is between 0 and 14 and both arrays have 15 cells. *)
Theorem array_indices_stay_in_bounds env mgr dataId ackId cb size cust s hdr lbls st tr :
  0 <= size < 2 ^ 32 ->
  ARSTREAM_Sender_New env mgr dataId ackId cb size cust = (Some s, ARSTREAM_OK) ->
  run lbls (sys_init s hdr) = Some (st, tr) ->
  let s' := sys_sender st in
  maxNumberOfNextFrames s' = size /\
  length (nextFrames s') = Z.to_nat size /\
  0 <= numberOfWaitingFrames s' <= size /\
  (size <> 0 ->
   0 <= indexGetNextFrame s' < size /\ 0 <= indexAddNextFrame s' < size /\
   indexAddNextFrame s' = (indexGetNextFrame s' + numberOfWaitingFrames s') mod size) /\
  0 <= efficiency_index s' < ARSTREAM_SENDER_EFFICIENCY_AVERAGE_NB_FRAMES /\
  length (efficiency_nbFragments s') = 15%nat /\
  length (efficiency_nbSent s') = 15%nat.
Proof.
  intros Hsize Hnew Hrun s'.
  assert (Hinit : reachable (sys_init s hdr))
    by (apply (reachable_init env mgr dataId ackId cb size cust s hdr Hsize Hnew)).
  destruct (New_sender_state _ _ _ _ _ _ _ _ Hsize Hnew) as ((_ & _ & _ & _ & Hmax0 & _) & _).
  destruct (run_invariant (fun _ => True)
              (fun _ st => reachable st /\ maxNumberOfNextFrames (sys_sender st) = size))
    with (lbls := lbls) (st := sys_init s hdr) (st' := st) (tr := tr) (hist := @nil Entry)
    as [[Hreach Hmax] _].
  - intros lbl st0 st1 acts h _ [Hr Hm] Hstep. split.
    + exact (reachable_step lbl st0 st1 acts Hr Hstep).
    + destruct (sys_step_settings _ _ _ _ (reachable_ring_ok _ Hr) Hstep) as [Hset _].
      unfold settings in Hset. injection Hset as _ _ _ _ Hset _. lia.
  - apply List.Forall_forall. intros; exact I.
  - split; [exact Hinit|]. destruct hdr as [[[h1 h2] h3] h4]. exact Hmax0.
  - exact Hrun.
  - pose proof (reachable_ring_ok _ Hreach) as Hok.
    destruct (reachable_inv _ Hreach) as (_ & (Hl1 & Hl2 & Hidx & _) & _).
    destruct Hok as [Hm Hlen Hcount [Hget0 Hget] Hadd]. fold s' in Hm, Hlen, Hcount, Hget0, Hget, Hadd, Hmax, Hl1, Hl2, Hidx.
    rewrite Hmax in *.
    split; [reflexivity|]. split; [exact Hlen|]. split; [exact Hcount|].
    split; [|unfold ARSTREAM_SENDER_EFFICIENCY_AVERAGE_NB_FRAMES; tauto].
    intros Hnz. specialize (Hget Hnz).
    destruct (size =? 0) eqn:E; [apply Z.eqb_eq in E; contradiction|].
    split; [lia|]. split; [|exact Hadd].
    rewrite Hadd. apply Z.mod_pos_bound. lia.
Qed.

(** ** The frames left when the threads have ended *)

(** Once both threads have returned, a step is a call of the application
    or of the network; it moves no frame out of the queue, and it calls the
    callback only to cancel the frames that a flush removes. *)
Lemma threads_step_ended lbl t t1 acts :
  ring_ok (sys_sender (th_sys t)) -> capacity_fits_int (sys_sender (th_sys t)) ->
  sys_pc (th_sys t) = PcEnded -> th_ack t = AckEnded ->
  threads_step lbl t = Some (t1, acts) ->
  (ring_ok (sys_sender (th_sys t1)) /\ capacity_fits_int (sys_sender (th_sys t1)) /\
   sys_pc (th_sys t1) = PcEnded /\ th_ack t1 = AckEnded) /\
  currentFrame (sys_sender (th_sys t1)) = currentFrame (sys_sender (th_sys t)) /\
  currentFrameCbWasCalled (sys_sender (th_sys t1)) =
    currentFrameCbWasCalled (sys_sender (th_sys t)) /\
  List.Forall (fun a => is_cancel a = true) (List.filter is_callback acts) /\
  (thread_no_flush lbl = true ->
   List.filter is_callback acts = [] /\
   exists more,
     waiting_frames (sys_sender (th_sys t1)) = waiting_frames (sys_sender (th_sys t)) ++ more).
Proof.
  intros Hok Hcap Hpc Hack Hstep.
  destruct lbl as [err rsz pkt | lbl]; cbn [threads_step] in Hstep.
  { unfold ARSTREAM_Sender_RunAckThread_step in Hstep. rewrite Hack in Hstep. discriminate. }
  assert (Hsys : match sys_step lbl (th_sys t) with
                 | Some (st1, acts1) => Some (mkThreads st1 (th_ack t), acts1)
                 | None => None
                 end = Some (t1, acts)).
  { destruct lbl; try exact Hstep. discriminate. }
  destruct (sys_step lbl (th_sys t)) as [[st1 acts1]|] eqn:Es; [|discriminate].
  injection Hsys as <- <-. cbn [th_sys th_ack thread_no_flush].
  pose proof (sys_step_ring_ok _ _ _ _ Es Hok) as Hok1.
  destruct (sys_step_frames _ _ _ _ Hok Hcap Es) as (Hframe & _ & Hmax).
  assert (Hcap1 : capacity_fits_int (sys_sender st1))
    by (unfold capacity_fits_int in *; rewrite Hmax; exact Hcap).
  assert (Hnodata : forall lat werr wms, lbl <> L_Data lat werr wms).
  { intros lat werr wms ->. cbn [sys_step] in Es.
    unfold ARSTREAM_Sender_RunDataThread_step in Es. rewrite Hpc in Es. discriminate. }
  assert (Hnoack : forall e r p, lbl <> L_Ack e r p).
  { intros e r p ->. discriminate Hstep. }
  assert (Hnostart : forall param frag, lbl <> L_DataStart param frag).
  { intros param frag ->. cbn [sys_step] in Es.
    unfold ARSTREAM_Sender_RunDataThread_start in Es. rewrite Hpc in Es. discriminate. }
  destruct Hframe as
    [ _ Hw _ _ Hcur Hcb Hcbs Hhand _
    | b sz fl nb Hlbl _ _ _ _ Hfl Hw _ _ Hcur Hcb Hcbs Hpc1 _
    | lat werr wms Hlbl
    | lat werr wms Hlbl
    | e r p Hlbl ];
    try (exfalso; eapply Hnodata; exact Hlbl);
    try (exfalso; eapply Hnoack; exact Hlbl).
  - assert (Hpc1 : sys_pc st1 = PcEnded).
    { destruct lbl as [b sz fl nb | | e r p | fn idx status | lat werr wms | param frag];
        cbn [sys_step] in Es.
      - destruct (ARSTREAM_Sender_SendNewFrame _ _ _ _ _) as [[[e0 o] n0] l0].
        destruct o; [|discriminate]. injection Es as <- _. exact Hpc.
      - unfold lift_sender in Es.
        destruct (ARSTREAM_Sender_StopSender _) as [[u s1] l1].
        injection Es as <- _. exact Hpc.
      - exfalso. eapply Hnoack. reflexivity.
      - unfold lift_sender in Es.
        destruct (ARSTREAM_Sender_NetworkCallback _ _ _ _) as [[u s1] l1].
        injection Es as <- _. exact Hpc.
      - exfalso. eapply Hnodata. reflexivity.
      - exfalso. eapply Hnostart. reflexivity. }
    split; [tauto|]. split; [exact Hcur|]. split; [exact Hcb|].
    rewrite Hcbs. split; [constructor|]. intros _. split; [reflexivity|].
    exists []. rewrite app_nil_r. exact Hw.
  - split; [rewrite Hpc1; tauto|]. split; [exact Hcur|]. split; [exact Hcb|].
    rewrite Hcbs. split.
    + destruct (fl =? 1); [|constructor].
      apply List.Forall_forall. intros a Ha.
      apply list_elem_of_In, list_elem_of_fmap in Ha. destruct Ha as (f & -> & _).
      reflexivity.
    + subst lbl. cbn [no_flush]. intros Hnf. destruct (fl =? 1); [discriminate|].
      split; [reflexivity|]. eexists. exact Hw.
Qed.

(** X19: the frames the sender still holds when its threads have ended
    are never reported.  Once the data thread and the ack thread have both
    returned, whatever is called afterwards, the current frame stays and so
    does the mark that tells whether its callback was called; the callback
    is called only with FRAME_CANCEL; and as long as no frame is submitted
    with a flush the callback is not called at all, while the frames that
    waited still wait, before those submitted since.  So a frame that was
    not acknowledged or that waited when the threads ended gets no
    FRAME_SENT, and it gets a FRAME_CANCEL only from a later submission
    with a flush. *)
Theorem frames_left_at_the_end_are_not_reported lbls : forall t t' acts,
  ring_ok (sys_sender (th_sys t)) -> capacity_fits_int (sys_sender (th_sys t)) ->
  sys_pc (th_sys t) = PcEnded -> th_ack t = AckEnded ->
  threads_run lbls t = Some (t', acts) ->
  sys_pc (th_sys t') = PcEnded /\ th_ack t' = AckEnded /\
  currentFrame (sys_sender (th_sys t')) = currentFrame (sys_sender (th_sys t)) /\
  currentFrameCbWasCalled (sys_sender (th_sys t')) =
    currentFrameCbWasCalled (sys_sender (th_sys t)) /\
  List.Forall (fun a => is_cancel a = true) (List.filter is_callback acts) /\
  (List.Forall (fun lbl => thread_no_flush lbl = true) lbls ->
   List.filter is_callback acts = [] /\
   exists more,
     waiting_frames (sys_sender (th_sys t')) = waiting_frames (sys_sender (th_sys t)) ++ more).
Proof.
  induction lbls as [|lbl lbls IH]; intros t t' acts Hok Hcap Hpc Hack Hrun;
    cbn [threads_run] in Hrun.
  - injection Hrun as <- <-. repeat split; try assumption; try constructor.
    exists []. rewrite app_nil_r. reflexivity.
  - destruct (threads_step lbl t) as [[t1 l1]|] eqn:Es; [|discriminate].
    destruct (threads_run lbls t1) as [[t2 l2]|] eqn:Er; [|discriminate].
    injection Hrun as <- <-.
    destruct (threads_step_ended _ _ _ _ Hok Hcap Hpc Hack Es)
      as ((Hok1 & Hcap1 & Hpc1 & Hack1) & Hcur1 & Hcb1 & Hcan1 & Hnf1).
    destruct (IH _ _ _ Hok1 Hcap1 Hpc1 Hack1 Er)
      as (Hpc2 & Hack2 & Hcur2 & Hcb2 & Hcan2 & Hnf2).
    split; [exact Hpc2|]. split; [exact Hack2|].
    split; [rewrite Hcur2; exact Hcur1|]. split; [rewrite Hcb2; exact Hcb1|].
    rewrite List.filter_app. split; [apply List.Forall_app; split; assumption|].
    intros Hall. inversion Hall as [|? ? Hl Hls]; subst.
    destruct (Hnf1 Hl) as (-> & more1 & Hw1).
    destruct (Hnf2 Hls) as (-> & more2 & Hw2).
    split; [reflexivity|]. exists (more1 ++ more2). rewrite Hw2, Hw1, app_assoc. reflexivity.
Qed.

End Sender.

(** * Instances

    The statements above at sample states, with the constants of the
    library at 1000 bytes per fragment, 128 fragments per frame, headers of
    5 bytes and ack packets of 18 bytes. *)

Lemma sample_sender_ring_ok : ring_ok sample_sender.
Proof. constructor; cbn; first [lia | reflexivity]. Defined.

Lemma AddToQueue_flush_cancels_waiting_sample :
  let size := 900 in
  let buffer := 12288 in
  let s := sample_sender in
  ring_ok s /\
  waiting_frames s = [mkFrame 1 1500 4096 0; mkFrame 2 700 8192 0] /\
  let flushed := ARSTREAM_Sender_FlushQueue s in
  let r := ARSTREAM_Sender_AddToQueue size buffer 1 s in
  let cancels :=
    (fun f => Callback ARSTREAM_SENDER_STATUS_FRAME_CANCEL
                (frameBuffer f) (frameSize f) (custom s)) <$> waiting_frames s in
  trace_of flushed = cancels /\
  numberOfWaitingFrames (state_of flushed) = 0 /\
  indexGetNextFrame (state_of flushed) = indexAddNextFrame (state_of flushed) /\
  nextFrames (state_of flushed) = nextFrames s /\
  List.filter is_callback (trace_of r) = cancels /\
  (exists rest, trace_of r = cancels ++ rest /\
                Forall (fun a => is_callback a = false) rest) /\
  (0 < maxNumberOfNextFrames s ->
   state_of r = enqueued size buffer 1 (state_of flushed) /\
   waiting_frames (state_of r) = [mkFrame (u32 (nextFrameNumber s + 1)) size buffer 1]).
Proof.
  intros size buffer s. split; [exact sample_sender_ring_ok|]. split; [reflexivity|].
  apply (AddToQueue_flush_cancels_waiting size buffer s). exact sample_sender_ring_ok.
Defined.

Lemma AddToQueue_returns_backlog_sample :
  let size := 900 in
  let buffer := 12288 in
  let flag := 0 in
  let s := sample_sender in
  ring_ok s /\ capacity_fits_int s /\
  let r := ARSTREAM_Sender_AddToQueue size buffer flag s in
  let sf := after_flush flag s in
  (numberOfWaitingFrames sf < maxNumberOfNextFrames s ->
   result r = backlog s /\
   nextFrameNumber (state_of r) = u32 (nextFrameNumber s + 1) /\
   nextFrames (state_of r) =
     <[Z.to_nat (indexAddNextFrame s) :=
         mkFrame (u32 (nextFrameNumber s + 1)) size buffer flag]> (nextFrames s) /\
   indexAddNextFrame (state_of r) =
     (indexAddNextFrame s + 1) mod maxNumberOfNextFrames s /\
   numberOfWaitingFrames (state_of r) = numberOfWaitingFrames sf + 1 /\
   trace_of r = flush_trace flag s ++ [Cond_Signal]) /\
  (numberOfWaitingFrames sf = maxNumberOfNextFrames s ->
   result r = -1 /\ state_of r = sf /\ trace_of r = flush_trace flag s) /\
  (result r = -1 <-> numberOfWaitingFrames sf = maxNumberOfNextFrames s).
Proof.
  intros size buffer flag s.
  assert (Hcap : capacity_fits_int s) by (vm_compute; reflexivity).
  split; [exact sample_sender_ring_ok|]. split; [exact Hcap|].
  apply (AddToQueue_returns_backlog size buffer flag s sample_sender_ring_ok Hcap).
Defined.

Lemma AddToQueue_flush_never_full_sample :
  let size := 900 in
  let buffer := 12288 in
  let s := sample_sender in
  ring_ok s /\ capacity_fits_int s /\ 1 <= maxNumberOfNextFrames s /\
  let r := ARSTREAM_Sender_AddToQueue size buffer 1 s in
  result r <> -1 /\ result r = backlog s /\
  waiting_frames (state_of r) = [mkFrame (u32 (nextFrameNumber s + 1)) size buffer 1].
Proof.
  intros size buffer s.
  assert (Hcap : capacity_fits_int s) by (vm_compute; reflexivity).
  assert (Hmax : 1 <= maxNumberOfNextFrames s) by (vm_compute; discriminate).
  split; [exact sample_sender_ring_ok|]. split; [exact Hcap|]. split; [exact Hmax|].
  apply (AddToQueue_flush_never_full size buffer s sample_sender_ring_ok Hcap Hmax).
Defined.

Lemma ARSTREAM_Sender_RunDataThread_fragment_sizes_sample :
  let F := 1000 in
  let MAXSIZE := 128000 in
  let st := mkSys sample_sending (PcPopped 1)
              (with_nextFrame (mkFrame 3 2500 12288 0) sample_locals) in
  let S := 2500 in
  0 < F < 2 ^ 31 /\ MAXSIZE <= 128 * F /\
  sys_pc st = PcPopped 1 /\ frameSize (nextFrame (sys_locals st)) = S /\
  0 < S <= MAXSIZE /\
  let nb := (S + F - 1) / F in
  let last := S - (nb - 1) * F in
  let f := nextFrame (sys_locals st) in
  let flags := u8 (Z.lor 0 (if negb (isHighPriority f =? 0) then 1 else 0)) in
  1 <= nb <= 128 /\
  last = (if S mod F =? 0 then F else S mod F) /\
  (exists st' tr,
     run F MAXSIZE 1 5 18 (repeat (L_Data 20 0 25) (2 + Z.to_nat nb)) st = Some (st', tr) /\
     sys_pc st' = PcLoop /\
     currentFrame (sys_sender st') = f /\
     currentFrameNbFragments (sys_sender st') = nb /\
     List.filter is_send (concat (map entry_actions tr)) =
       (fun cnt =>
          SendData (dataBufferID (sys_sender st)) (u16 (frameNumber f)) flags cnt nb
            (F * cnt) (if cnt =? nb - 1 then last else F)
            ((if cnt =? nb - 1 then last else F) + 5)
            (u16 (frameNumber f)) cnt) <$> seqZ 0 nb) /\
  (forall lbls st' tr,
     run F MAXSIZE 1 5 18 (L_Data 20 0 25 :: lbls) st = Some (st', tr) ->
     List.Forall (fun e => is_install e = false) (tail tr) ->
     List.Forall (carries_fragment F 5 nb last) (concat (map entry_actions tr))).
Proof.
  intros F MAXSIZE st S.
  assert (HF : 0 < F < 2 ^ 31) by (vm_compute; split; reflexivity).
  assert (HM : MAXSIZE <= 128 * F) by (vm_compute; discriminate).
  assert (Hpc : sys_pc st = PcPopped 1) by reflexivity.
  assert (HS : frameSize (nextFrame (sys_locals st)) = S) by reflexivity.
  assert (HR : 0 < S <= MAXSIZE) by (vm_compute; split; [reflexivity | discriminate]).
  split; [exact HF|]. split; [exact HM|]. split; [exact Hpc|]. split; [exact HS|].
  split; [exact HR|].
  apply (ARSTREAM_Sender_RunDataThread_fragment_sizes F MAXSIZE 1 5 18 HF HM 20 0 25 st S
           Hpc HS HR).
Defined.

Lemma SendNewFrame_checks_sample :
  let sender := Some sample_sender in
  let buf := 12288 in
  let size := 900 in
  let flush := 0 in
  let nbPrev := Some 0 in
  let err := ARSTREAM_OK in
  let sender' := Some (enqueued 900 12288 0 sample_sender) in
  let nbPrev' := Some 3 in
  let tr := [Cond_Signal] in
  (forall s, sender = Some s -> ring_ok s /\ capacity_fits_int s) /\
  ARSTREAM_Sender_SendNewFrame 128000 sender buf size flush nbPrev =
    (err, sender', nbPrev', tr) /\
  (bad_parameters sender buf size flush ->
   err = ARSTREAM_ERROR_BAD_PARAMETERS /\ sender' = sender /\ nbPrev' = nbPrev /\ tr = []) /\
  (~ bad_parameters sender buf size flush ->
   size > 128000 ->
   err = ARSTREAM_ERROR_FRAME_TOO_LARGE /\ sender' = sender /\ nbPrev' = nbPrev /\ tr = []) /\
  (~ bad_parameters sender buf size flush ->
   size <= 128000 ->
   exists s, sender = Some s /\
     let r := ARSTREAM_Sender_AddToQueue size buf flush s in
     sender' = Some (state_of r) /\ tr = trace_of r /\
     (err = ARSTREAM_ERROR_QUEUE_FULL <-> result r = -1) /\
     (result r = -1 -> nbPrev' = nbPrev) /\
     (result r <> -1 ->
      err = ARSTREAM_OK /\
      nbPrev' = match nbPrev with Some _ => Some (result r) | None => None end)).
Proof.
  intros sender buf size flush nbPrev err sender' nbPrev' tr.
  assert (Hwf : forall s, sender = Some s -> ring_ok s /\ capacity_fits_int s).
  { intros s0 Hs. injection Hs as <-.
    split; [exact sample_sender_ring_ok | vm_compute; reflexivity]. }
  assert (Hrun : ARSTREAM_Sender_SendNewFrame 128000 sender buf size flush nbPrev =
                 (err, sender', nbPrev', tr)) by (vm_compute; reflexivity).
  split; [exact Hwf|]. split; [exact Hrun|].
  apply (SendNewFrame_checks 128000 sender buf size flush nbPrev err sender' nbPrev' tr
           Hwf Hrun).
Defined.

Lemma frame_numbers_count_modulo_2_32_sample :
  let size := 900 in
  let buffer := 12288 in
  let flag := 0 in
  let s := sample_sender in
  ring_ok s /\ 0 <= nextFrameNumber s < 2 ^ 32 /\
  numberOfWaitingFrames (after_flush flag s) < maxNumberOfNextFrames s /\
  let s' := state_of (ARSTREAM_Sender_AddToQueue size buffer flag s) in
  let n := (nextFrameNumber s + 1) mod 2 ^ 32 in
  waiting_frames s' =
    waiting_frames (after_flush flag s) ++ [mkFrame n size buffer flag] /\
  nextFrameNumber s' = n /\
  (nextFrameNumber s < 2 ^ 32 - 1 -> n = nextFrameNumber s + 1) /\
  (nextFrameNumber s = 2 ^ 32 - 1 -> n = 0) /\
  (forall l s2, nextFrame l = mkFrame n size buffer flag ->
     let r := ARSTREAM_Sender_RunDataThread_newFrame 1000 1 l s2 in
     frameNumber (currentFrame (state_of r)) = n /\
     ack_frameNumber (ackPacket (state_of r)) = n mod 2 ^ 16 /\
     ack_frameNumber (packetsToSend (state_of r)) = n mod 2 ^ 16 /\
     header_frameNumber (result r) = n mod 2 ^ 16) /\
  (forall recvPacket s2,
     ack_frameNumber (ackPacket s2) <> ack_frameNumber recvPacket ->
     state_of (ARSTREAM_Sender_RunAckThread_body 18 ARNETWORK_OK 18 recvPacket s2) = s2) /\
  (forall cb_frameNumber cb_fragmentIndex s2,
     cb_frameNumber <> ack_frameNumber (packetsToSend s2) ->
     state_of (ARSTREAM_Sender_NetworkCallback cb_frameNumber cb_fragmentIndex
                 ARNETWORK_MANAGER_CALLBACK_STATUS_SENT s2) = s2).
Proof.
  intros size buffer flag s.
  assert (Hn : 0 <= nextFrameNumber s < 2 ^ 32)
    by (vm_compute; split; [discriminate | reflexivity]).
  assert (Hroom : numberOfWaitingFrames (after_flush flag s) < maxNumberOfNextFrames s)
    by (vm_compute; reflexivity).
  split; [exact sample_sender_ring_ok|]. split; [exact Hn|]. split; [exact Hroom|].
  apply (frame_numbers_count_modulo_2_32 1000 1 18 size buffer flag s
           sample_sender_ring_ok Hn Hroom).
Defined.

Lemma one_callback_per_current_frame_sample :
  let lbls := [L_Ack ARNETWORK_OK 18 (mkAck 1 0 1);
               L_SendNewFrame 12288 900 0 (Some 0);
               L_Ack ARNETWORK_OK 18 (mkAck 1 0 3);
               L_Ack ARNETWORK_OK 18 (mkAck 1 0 3);
               L_Data 20 0 0] in
  let st := sample_sys in
  exists st' tr,
  run 1000 128000 1 5 18 lbls st = Some (st', tr) /\
  currentFrameCbWasCalled (sys_sender st) = 0 /\
  Forall (fun e => is_install e = false) tr /\
  sys_pc st' = PcPopped 1 /\
  let s := sys_sender st in
  let sent := current_callback ARSTREAM_SENDER_STATUS_FRAME_SENT s in
  let cancel := current_callback ARSTREAM_SENDER_STATUS_FRAME_CANCEL s in
  currentFrame (sys_sender st') = currentFrame s /\
  ((loop_callbacks tr = [] /\ currentFrameCbWasCalled (sys_sender st') = 0) \/
   (loop_callbacks tr = [sent] /\ currentFrameCbWasCalled (sys_sender st') = 1)) /\
  (forall lat werr wms st'' acts,
     sys_pc st' = PcPopped 1 ->
     sys_step 1000 128000 1 5 18 (L_Data lat werr wms) st' = Some (st'', acts) ->
     ((loop_callbacks tr = [sent] /\ List.filter is_callback acts = []) \/
      (loop_callbacks tr = [] /\ List.filter is_callback acts = [cancel])) /\
     currentFrameCbWasCalled (sys_sender st'') = 0 /\
     currentFrame (sys_sender st'') = nextFrame (sys_locals st')) /\
  (forall err recvSize recvPacket s0,
     let r := ARSTREAM_Sender_RunAckThread_body 18 err recvSize recvPacket s0 in
     List.filter is_callback (trace_of r) <> [] ->
     currentFrameCbWasCalled s0 = 0 /\
     ARSTREAM_NetworkHeaders_AckPacketAllFlagsSet (ackPacket (state_of r))
       (currentFrameNbFragments s0) = 1 /\
     List.filter is_callback (trace_of r) =
       [current_callback ARSTREAM_SENDER_STATUS_FRAME_SENT s0] /\
     currentFrameCbWasCalled (state_of r) = 1) /\
  (forall l s0,
     let r := ARSTREAM_Sender_RunDataThread_newFrame 1000 1 l s0 in
     List.filter is_callback (trace_of r) =
       (if currentFrameCbWasCalled s0 =? 0
        then [current_callback ARSTREAM_SENDER_STATUS_FRAME_CANCEL s0] else []) /\
     currentFrameCbWasCalled (state_of r) = 0).
Proof.
  intros lbls st.
  destruct (run 1000 128000 1 5 18 lbls st) as [[st' tr]|] eqn:Hrun;
    [|vm_compute in Hrun; discriminate Hrun].
  exists st', tr.
  assert (Hcb : currentFrameCbWasCalled (sys_sender st) = 0) by reflexivity.
  assert (Hout : Forall (fun e => is_install e = false) tr /\ sys_pc st' = PcPopped 1).
  { vm_compute in Hrun. injection Hrun as <- <-.
    split; [repeat constructor | reflexivity]. }
  destruct Hout as [Hni Hpc].
  split; [reflexivity|]. split; [exact Hcb|]. split; [exact Hni|]. split; [exact Hpc|].
  apply (one_callback_per_current_frame 1000 128000 1 5 18 lbls st st' tr Hrun Hcb Hni).
Defined.

Lemma GetEstimatedEfficiency_in_unit_interval_sample :
  let lbls := [L_Data 0 0 0;
               L_SendNewFrame 4096 1500 1 None;
               L_Data 0 0 0; L_Data 0 0 0; L_Data 0 0 0; L_Data 0 0 0; L_Data 0 0 0;
               L_Data 20 0 0; L_Data 20 ETIMEDOUT 25;
               L_Data 0 0 0; L_Data 0 0 0; L_Data 0 0 0; L_Data 0 0 0;
               L_Ack ARNETWORK_OK 18 (mkAck 1 0 3);
               L_SendNewFrame 8192 700 0 None;
               L_Data 0 0 0; L_Data 0 0 0] in
  exists st tr,
  run 1000 128000 1 5 18 lbls (sys_init sample_new (0, 0, 0, 0)) = Some (st, tr) /\
  reachable 1000 128000 1 5 18 st /\
  (fst (ARSTREAM_Sender_GetEstimatedEfficiency (sys_sender st)) == 2 # 4)%Q /\
  let s := sys_sender st in
  let r := ARSTREAM_Sender_GetEstimatedEfficiency s in
  totalPackets s = plain_sum (efficiency_nbFragments s) /\
  sentPackets s = plain_sum (efficiency_nbSent s) mod 2 ^ 32 /\
  (sentPackets s = 0 -> r = (1%Q, [])) /\
  (sentPackets s <> 0 -> totalPackets s > sentPackets s -> r = (1%Q, [Print_Error])) /\
  (sentPackets s <> 0 -> totalPackets s <= sentPackets s ->
   r = ((inject_Z (totalPackets s) / inject_Z (sentPackets s))%Q, [])) /\
  (0 < fst r)%Q /\ (fst r <= 1)%Q.
Proof.
  intros lbls.
  destruct (run 1000 128000 1 5 18 lbls (sys_init sample_new (0, 0, 0, 0)))
    as [[st tr]|] eqn:Hrun; [|vm_compute in Hrun; discriminate Hrun].
  exists st, tr.
  assert (Hinit : reachable 1000 128000 1 5 18 (sys_init sample_new (0, 0, 0, 0))).
  { apply (reachable_init 1000 128000 1 5 18 sample_env 1 10 11 1 3 7 sample_new
             (0, 0, 0, 0)); [vm_compute; split; [discriminate | reflexivity]|].
    reflexivity. }
  assert (Hreach : reachable 1000 128000 1 5 18 st).
  { exact (run_reachable 1000 128000 1 5 18 lbls _ st tr Hinit Hrun). }
  assert (Hval : (fst (ARSTREAM_Sender_GetEstimatedEfficiency (sys_sender st)) == 2 # 4)%Q).
  { vm_compute in Hrun. injection Hrun as <- _. reflexivity. }
  split; [reflexivity|]. split; [exact Hreach|]. split; [exact Hval|].
  apply (GetEstimatedEfficiency_in_unit_interval 1000 128000 1 5 18 st Hreach).
Defined.

(** ** Instances of the further properties *)


Lemma sample_new_made :
  ARSTREAM_Sender_New sample_env 1 10 11 1 3 7 = (Some sample_new, ARSTREAM_OK).
Proof. reflexivity. Defined.

Lemma ARSTREAM_Sender_New_sender_sample :
  let s := sample_new in
  0 <= 3 < 2 ^ 32 /\
  ARSTREAM_Sender_New sample_env 1 10 11 1 3 7 = (Some s, ARSTREAM_OK) /\
  (manager s = 1 /\ dataBufferID s = 10 /\ ackBufferID s = 11 /\
   callback s = 1 /\ maxNumberOfNextFrames s = 3 /\ custom s = 7) /\
  (ring_ok s /\ numberOfWaitingFrames s = 0 /\ waiting_frames s = [] /\
   nextFrameNumber s = 0) /\
  (currentFrame s = Frame_zero /\ currentFrameNbFragments s = 0 /\
   currentFrameCbWasCalled s = 0) /\
  (threadsShouldStop s = 0 /\ dataThreadStarted s = 0 /\ ackThreadStarted s = 0) /\
  ARSTREAM_Sender_GetEstimatedEfficiency s = (1%Q, []) /\
  ARSTREAM_Sender_Delete (Some (Some s)) = (ARSTREAM_OK, Some None, []).
Proof.
  intros s.
  assert (Hsize : 0 <= 3 < 2 ^ 32) by lia.
  split; [exact Hsize|]. split; [exact sample_new_made|].
  apply (ARSTREAM_Sender_New_sender sample_env 1 10 11 1 3 7 s Hsize sample_new_made).
Defined.

Lemma sample_new_ring_ok : ring_ok sample_new.
Proof. constructor; cbn; first [lia | reflexivity]. Defined.

Lemma sample_new_capacity : capacity_fits_int sample_new.
Proof. reflexivity. Defined.

Lemma frames_are_conserved_sample :
  let st := sys_init sample_new (0, 0, 0, 0) in
  exists st' tr,
  run 1000 128000 1 5 18 sample_session st = Some (st', tr) /\
  ring_ok (sys_sender st) /\ capacity_fits_int (sys_sender st) /\
  held_frames st = [(NULL, 0)] /\
  (reported <$> callbacks_of tr) ++ held_frames st' ≡ₚ
    held_frames st ++ accepted_frames 128000 tr /\
  Z.of_nat (length (held_frames st')) = frames_held st' /\
  Z.of_nat (length (callbacks_of tr)) + frames_held st' =
    Z.of_nat (length (accepted_frames 128000 tr)) + frames_held st /\
  (frames_held st' = 0 ->
   reported <$> callbacks_of tr ≡ₚ held_frames st ++ accepted_frames 128000 tr).
Proof.
  intros st.
  destruct (run 1000 128000 1 5 18 sample_session st) as [[st' tr]|] eqn:Hrun;
    [|vm_compute in Hrun; discriminate Hrun].
  exists st', tr.
  split; [reflexivity|]. split; [exact sample_new_ring_ok|].
  split; [exact sample_new_capacity|]. split; [reflexivity|].
  apply (frames_are_conserved 1000 128000 1 5 18 sample_session st st' tr
           sample_new_ring_ok sample_new_capacity Hrun).
Defined.

Lemma callbacks_report_accepted_frames_sample :
  exists st' tr,
  0 <= 3 < INT_MAX /\
  ARSTREAM_Sender_New sample_env 1 10 11 1 3 7 = (Some sample_new, ARSTREAM_OK) /\
  run 1000 128000 1 5 18 sample_session (sys_init sample_new (0, 0, 0, 0)) =
    Some (st', tr) /\
  callbacks_of tr =
    [Callback ARSTREAM_SENDER_STATUS_FRAME_CANCEL NULL 0 7;
     Callback ARSTREAM_SENDER_STATUS_FRAME_SENT 4096 1500 7] /\
  accepted_frames 128000 tr = [(4096, 1500); (8192, 700)] /\
  forall tr1 e tr2 a,
    tr = tr1 ++ e :: tr2 -> a ∈ entry_actions e -> is_callback a = true ->
    exists status buffer sz,
      a = Callback status buffer sz 7 /\
      ((buffer, sz) ∈ accepted_frames 128000 tr1 \/ (buffer, sz) = (NULL, 0)).
Proof.
  destruct (run 1000 128000 1 5 18 sample_session (sys_init sample_new (0, 0, 0, 0)))
    as [[st' tr]|] eqn:Hrun; [|vm_compute in Hrun; discriminate Hrun].
  exists st', tr.
  assert (Hsize : 0 <= 3 < INT_MAX) by (vm_compute; split; [discriminate | reflexivity]).
  assert (Hval : callbacks_of tr =
                   [Callback ARSTREAM_SENDER_STATUS_FRAME_CANCEL NULL 0 7;
                    Callback ARSTREAM_SENDER_STATUS_FRAME_SENT 4096 1500 7] /\
                 accepted_frames 128000 tr = [(4096, 1500); (8192, 700)]).
  { vm_compute in Hrun. injection Hrun as <- <-. split; reflexivity. }
  split; [exact Hsize|]. split; [exact sample_new_made|]. split; [reflexivity|].
  split; [apply Hval|]. split; [apply Hval|].
  apply (callbacks_report_accepted_frames 1000 128000 1 5 18 sample_env 1 10 11 1 3 7
           sample_new (0, 0, 0, 0) sample_session st' tr Hsize sample_new_made Hrun).
Defined.

Lemma frame_numbers_follow_acceptance_sample :
  exists st' tr,
  0 <= 3 < INT_MAX /\
  ARSTREAM_Sender_New sample_env 1 10 11 1 3 7 = (Some sample_new, ARSTREAM_OK) /\
  run 1000 128000 1 5 18 sample_session (sys_init sample_new (0, 0, 0, 0)) =
    Some (st', tr) /\
  nextFrameNumber (sys_sender st') = 2 /\
  frameNumber (currentFrame (sys_sender st')) = 2 /\
  nextFrameNumber (sys_sender st') = u32 (Z.of_nat (length (accepted_frames 128000 tr))) /\
  queue_numbered (sys_sender st') /\
  forall tr1 e tr2, tr = tr1 ++ e :: tr2 ->
    nextFrameNumber (sys_sender (entry_before e)) =
      u32 (Z.of_nat (length (accepted_frames 128000 tr1))) /\
    queue_numbered (sys_sender (entry_before e)) /\
    (accepted 128000 e = true ->
     exists st1 flag older,
       sys_step 1000 128000 1 5 18 (entry_label e) (entry_before e) =
         Some (st1, entry_actions e) /\
       waiting_frames (sys_sender st1) =
         older ++ [mkFrame (u32 (Z.of_nat (length (accepted_frames 128000 tr1)) + 1))
                           (snd (submission e)) (fst (submission e)) flag]).
Proof.
  destruct (run 1000 128000 1 5 18 sample_session (sys_init sample_new (0, 0, 0, 0)))
    as [[st' tr]|] eqn:Hrun; [|vm_compute in Hrun; discriminate Hrun].
  exists st', tr.
  assert (Hsize : 0 <= 3 < INT_MAX) by (vm_compute; split; [discriminate | reflexivity]).
  assert (Hval : nextFrameNumber (sys_sender st') = 2 /\
                 frameNumber (currentFrame (sys_sender st')) = 2).
  { vm_compute in Hrun. injection Hrun as <- <-. split; reflexivity. }
  split; [exact Hsize|]. split; [exact sample_new_made|]. split; [reflexivity|].
  split; [apply Hval|]. split; [apply Hval|].
  apply (frame_numbers_follow_acceptance 1000 128000 1 5 18 sample_env 1 10 11 1 3 7
           sample_new (0, 0, 0, 0) sample_session st' tr Hsize sample_new_made Hrun).
Defined.

Lemma cancellations_come_from_flushes_sample :
  exists st' tr,
  0 <= 3 < INT_MAX /\
  ARSTREAM_Sender_New sample_env 1 10 11 1 3 7 = (Some sample_new, ARSTREAM_OK) /\
  run 1000 128000 1 5 18 sample_session (sys_init sample_new (0, 0, 0, 0)) =
    Some (st', tr) /\
  List.filter is_cancel (callbacks_of tr) =
    [Callback ARSTREAM_SENDER_STATUS_FRAME_CANCEL NULL 0 7] /\
  (forall tr1 e tr2 a,
     tr = tr1 ++ e :: tr2 -> a ∈ entry_actions e -> is_cancel a = true ->
     flush_accepted 128000 e = true \/
     (is_install e = true /\
      isHighPriority (nextFrame (sys_locals (entry_before e))) = 1 /\
      Exists (fun e0 => flush_accepted 128000 e0 = true) tr1)) /\
  (Forall (fun lbl => no_flush lbl = true) sample_session ->
   Forall (fun a => is_cancel a = false) (callbacks_of tr)).
Proof.
  destruct (run 1000 128000 1 5 18 sample_session (sys_init sample_new (0, 0, 0, 0)))
    as [[st' tr]|] eqn:Hrun; [|vm_compute in Hrun; discriminate Hrun].
  exists st', tr.
  assert (Hsize : 0 <= 3 < INT_MAX) by (vm_compute; split; [discriminate | reflexivity]).
  assert (Hval : List.filter is_cancel (callbacks_of tr) =
                 [Callback ARSTREAM_SENDER_STATUS_FRAME_CANCEL NULL 0 7]).
  { vm_compute in Hrun. injection Hrun as <- <-. reflexivity. }
  split; [exact Hsize|]. split; [exact sample_new_made|]. split; [reflexivity|].
  split; [exact Hval|].
  apply (cancellations_come_from_flushes 1000 128000 1 5 18 sample_env 1 10 11 1 3 7
           sample_new (0, 0, 0, 0) sample_session st' tr Hsize sample_new_made Hrun).
Defined.

Lemma sample_size : 0 <= 3 < 2 ^ 32.
Proof. lia. Defined.

Lemma Delete_refused_while_a_thread_runs_sample :
  exists t tr,
  0 <= 3 < 2 ^ 32 /\
  ARSTREAM_Sender_New sample_env 1 10 11 1 3 7 = (Some sample_new, ARSTREAM_OK) /\
  threads_run 1000 128000 1 5 18 sample_shutdown (threads_init sample_new (0, 0, 0, 0)) =
    Some (t, tr) /\
  sys_pc (th_sys t) = PcPopped 1 /\ th_ack t = AckRead /\
  let s' := sys_sender (th_sys t) in
  flags_tell t /\
  ARSTREAM_Sender_Delete (Some (Some s')) =
    (if data_running (sys_pc (th_sys t)) || ack_running (th_ack t)
     then (ARSTREAM_ERROR_BUSY, Some (Some s'), [Print_Error])
     else (ARSTREAM_OK, Some None, [])) /\
  ARSTREAM_Sender_Delete (Some None) = (ARSTREAM_ERROR_BAD_PARAMETERS, Some None, []) /\
  ARSTREAM_Sender_Delete None = (ARSTREAM_ERROR_BAD_PARAMETERS, None, []).
Proof.
  destruct (threads_run 1000 128000 1 5 18 sample_shutdown
              (threads_init sample_new (0, 0, 0, 0)))
    as [[t tr]|] eqn:Hrun; [|vm_compute in Hrun; discriminate Hrun].
  exists t, tr.
  assert (Hval : sys_pc (th_sys t) = PcPopped 1 /\ th_ack t = AckRead).
  { vm_compute in Hrun. injection Hrun as <- <-. split; reflexivity. }
  split; [exact sample_size|]. split; [exact sample_new_made|]. split; [reflexivity|].
  split; [apply Hval|]. split; [apply Hval|].
  apply (Delete_refused_while_a_thread_runs 1000 128000 1 5 18 sample_env 1 10 11 1 3 7
           sample_new (0, 0, 0, 0) sample_shutdown t tr sample_size sample_new_made Hrun).
Defined.

Lemma threads_end_only_when_stopped_sample :
  let lbls := [T_AckThread ARNETWORK_ERROR_BUFFER_EMPTY 0 (mkAck 0 0 0);
               T_Other (L_DataStart 4242 NULL);
               T_Other (L_SendNewFrame 4096 1500 0 None)] in
  exists t tr,
  0 <= 3 < 2 ^ 32 /\
  ARSTREAM_Sender_New sample_env 1 10 11 1 3 7 = (Some sample_new, ARSTREAM_OK) /\
  threads_run 1000 128000 1 5 18 lbls (threads_init sample_new (0, 0, 0, 0)) =
    Some (t, tr) /\
  sys_pc (th_sys t) = PcEnded /\
  let s' := sys_sender (th_sys t) in
  settings s' = (1, 10, 11, 1, 3, 7) /\
  threadsShouldStop s' = (if existsb is_stop lbls then 1 else 0) /\
  (th_ack t = AckEnded -> existsb is_stop lbls = true) /\
  (sys_pc (th_sys t) = PcEnded ->
   existsb is_stop lbls = true \/ existsb data_start_fails lbls = true).
Proof.
  intros lbls.
  destruct (threads_run 1000 128000 1 5 18 lbls (threads_init sample_new (0, 0, 0, 0)))
    as [[t tr]|] eqn:Hrun; [|vm_compute in Hrun; discriminate Hrun].
  exists t, tr.
  assert (Hpc : sys_pc (th_sys t) = PcEnded).
  { vm_compute in Hrun. injection Hrun as <- <-. reflexivity. }
  split; [exact sample_size|]. split; [exact sample_new_made|]. split; [reflexivity|].
  split; [exact Hpc|].
  apply (threads_end_only_when_stopped 1000 128000 1 5 18 sample_env 1 10 11 1 3 7
           sample_new (0, 0, 0, 0) lbls t tr sample_size sample_new_made Hrun).
Defined.

Lemma sender_can_be_deleted_after_stop_sample :
  exists t tr,
  0 <= 3 < 2 ^ 32 /\
  ARSTREAM_Sender_New sample_env 1 10 11 1 3 7 = (Some sample_new, ARSTREAM_OK) /\
  threads_run 1000 128000 1 5 18 sample_shutdown (threads_init sample_new (0, 0, 0, 0)) =
    Some (t, tr) /\
  threadsShouldStop (sys_sender (th_sys t)) <> 0 /\
  exists kd ka t' tr',
    Z.of_nat kd <= 65540 /\ (ka <= 2)%nat /\
    threads_run 1000 128000 1 5 18
      (repeat (T_Other (L_Data 20 ETIMEDOUT 25)) kd ++
       repeat (T_AckThread ARNETWORK_ERROR_BUFFER_EMPTY 0 (mkAck 0 0 0)) ka) t =
      Some (t', tr') /\
    sys_pc (th_sys t') = PcEnded /\ th_ack t' = AckEnded /\
    dataThreadStarted (sys_sender (th_sys t')) = 0 /\
    ackThreadStarted (sys_sender (th_sys t')) = 0 /\
    ARSTREAM_Sender_Delete (Some (Some (sys_sender (th_sys t')))) =
      (ARSTREAM_OK, Some None, []).
Proof.
  destruct (threads_run 1000 128000 1 5 18 sample_shutdown
              (threads_init sample_new (0, 0, 0, 0)))
    as [[t tr]|] eqn:Hrun; [|vm_compute in Hrun; discriminate Hrun].
  exists t, tr.
  assert (Hstop : threadsShouldStop (sys_sender (th_sys t)) <> 0).
  { vm_compute in Hrun. injection Hrun as <- <-. discriminate. }
  split; [exact sample_size|]. split; [exact sample_new_made|]. split; [reflexivity|].
  split; [exact Hstop|].
  apply (sender_can_be_deleted_after_stop 1000 128000 1 5 18 sample_env 1 10 11 1 3 7
           sample_new (0, 0, 0, 0) sample_shutdown t tr 20 25
           ARNETWORK_ERROR_BUFFER_EMPTY 0 (mkAck 0 0 0)
           sample_size sample_new_made Hrun Hstop).
Defined.

Lemma data_thread_ends_when_stopped_sample :
  let lbls := [L_Data 0 0 0; L_SendNewFrame 4096 1500 1 None; L_Data 0 0 0;
               L_StopSender] in
  exists st tr0,
  run 1000 128000 1 5 18 lbls (sys_init sample_new (0, 0, 0, 0)) = Some (st, tr0) /\
  reachable 1000 128000 1 5 18 st /\
  threadsShouldStop (sys_sender st) <> 0 /\
  exists k st' tr,
    (k <= steps_to_end st)%nat /\ Z.of_nat (steps_to_end st) <= 65540 /\
    run 1000 128000 1 5 18 (repeat (L_Data 20 ETIMEDOUT 25) k) st = Some (st', tr) /\
    sys_pc st' = PcEnded /\
    dataThreadStarted (sys_sender st') = 0 /\
    sys_step 1000 128000 1 5 18 (L_Data 20 ETIMEDOUT 25) st' = None.
Proof.
  intros lbls.
  destruct (run 1000 128000 1 5 18 lbls (sys_init sample_new (0, 0, 0, 0)))
    as [[st tr0]|] eqn:Hrun; [|vm_compute in Hrun; discriminate Hrun].
  exists st, tr0.
  assert (Hinit : reachable 1000 128000 1 5 18 (sys_init sample_new (0, 0, 0, 0))).
  { exact (reachable_init 1000 128000 1 5 18 sample_env 1 10 11 1 3 7 sample_new
             (0, 0, 0, 0) sample_size sample_new_made). }
  assert (Hreach : reachable 1000 128000 1 5 18 st).
  { exact (run_reachable 1000 128000 1 5 18 lbls _ st tr0 Hinit Hrun). }
  assert (Hstop : threadsShouldStop (sys_sender st) <> 0).
  { vm_compute in Hrun. injection Hrun as <- <-. discriminate. }
  split; [reflexivity|]. split; [exact Hreach|]. split; [exact Hstop|].
  apply (data_thread_ends_when_stopped 1000 128000 1 5 18 st 20 25 Hreach Hstop).
Defined.

Lemma SendNewFrame_all_or_nothing_sample :
  let s := sample_new in
  exists err sender' nb' tr,
  ring_ok s /\ capacity_fits_int s /\
  ARSTREAM_Sender_SendNewFrame 128000 (Some s) 4096 1500 0 None = (err, sender', nb', tr) /\
  (err <> ARSTREAM_OK -> sender' = Some s /\ nb' = None /\ tr = []) /\
  (err = ARSTREAM_OK ->
   exists s1,
     sender' = Some s1 /\ ring_ok s1 /\
     waiting_frames s1 =
       (if 0 =? 1 then [] else waiting_frames s) ++
       [mkFrame (u32 (nextFrameNumber s + 1)) 1500 4096 0] /\
     List.filter is_callback tr =
       (if 0 =? 1 then cancel_of (custom s) <$> waiting_frames s else [])) /\
  (err = ARSTREAM_ERROR_QUEUE_FULL <->
   ~ bad_parameters (Some s) 4096 1500 0 /\ 1500 <= 128000 /\
   (0 = 0 /\ numberOfWaitingFrames s = maxNumberOfNextFrames s \/
    maxNumberOfNextFrames s = 0)) /\
  (maxNumberOfNextFrames s = 0 -> err <> ARSTREAM_OK).
Proof.
  intros s.
  destruct (ARSTREAM_Sender_SendNewFrame 128000 (Some s) 4096 1500 0 None)
    as [[[err sender'] nb'] tr] eqn:Hsend.
  exists err, sender', nb', tr.
  split; [exact sample_new_ring_ok|]. split; [exact sample_new_capacity|].
  split; [reflexivity|].
  apply (SendNewFrame_all_or_nothing 128000 s 4096 1500 0 None err sender' nb' tr
           sample_new_ring_ok sample_new_capacity Hsend).
Defined.

Lemma SendNewFrame_then_PopFromQueue_sample :
  let s := sample_new in
  let s1 := enqueued 1500 4096 1 (after_flush 1 s) in
  let frame := mkFrame (u32 (nextFrameNumber s + 1)) 1500 4096 1 in
  let wakes : list Wake := [] in
  ring_ok s /\ capacity_fits_int s /\
  ARSTREAM_Sender_SendNewFrame 128000 (Some s) 4096 1500 1 None =
    (ARSTREAM_OK, Some s1, None, [Cond_Signal]) /\
  (1 = 1 ->
   ARSTREAM_Sender_PopFromQueue 20 wakes Frame_zero s1 = Some (1, frame, popped s1, []) /\
   waiting_frames (popped s1) = []) /\
  (1 = 0 -> numberOfWaitingFrames s = 0 -> currentFrameCbWasCalled s = 1 ->
   ARSTREAM_Sender_PopFromQueue 20 wakes Frame_zero s1 = Some (1, frame, popped s1, []) /\
   waiting_frames (popped s1) = []) /\
  (1 = 0 -> numberOfWaitingFrames s = 0 -> currentFrameCbWasCalled s <> 1 ->
   List.Forall (fun w => forall x, wake_others w x = x) wakes ->
   List.Exists (fun w => wake_err w = ETIMEDOUT) wakes ->
   ARSTREAM_Sender_PopFromQueue 20 wakes Frame_zero s1 = Some (0, Frame_zero, s1, []) /\
   waiting_frames s1 = [frame]) /\
  (1 = 0 -> 0 < numberOfWaitingFrames s ->
   head_frame s1 = head_frame s /\ waiting_frames s1 = waiting_frames s ++ [frame]).
Proof.
  intros s s1 frame wakes.
  assert (Hsend : ARSTREAM_Sender_SendNewFrame 128000 (Some s) 4096 1500 1 None =
                  (ARSTREAM_OK, Some s1, None, [Cond_Signal])) by reflexivity.
  split; [exact sample_new_ring_ok|]. split; [exact sample_new_capacity|].
  split; [exact Hsend|].
  apply (SendNewFrame_then_PopFromQueue 128000 s 4096 1500 1 None s1 None [Cond_Signal]
           20 wakes Frame_zero sample_new_ring_ok sample_new_capacity Hsend).
Defined.

Lemma unacknowledged_frame_blocks_the_queue_sample :
  let lbls := [L_Data 0 0 0; L_SendNewFrame 4096 1500 0 None; L_Data 20 ETIMEDOUT 25;
               L_SendNewFrame 8192 900 0 None; L_Data 20 ETIMEDOUT 25] in
  let st := sys_init sample_new (0, 0, 0, 0) in
  exists st' tr,
  ring_ok (sys_sender st) /\ capacity_fits_int (sys_sender st) /\
  currentFrameCbWasCalled (sys_sender st) <> 1 /\
  List.Forall low_priority (waiting_frames (sys_sender st)) /\
  in_hand (sys_pc st) = 0 /\
  List.Forall (fun lbl => no_ack lbl && no_flush lbl = true) lbls /\
  run 1000 128000 1 5 18 lbls st = Some (st', tr) /\
  (exists more,
     waiting_frames (sys_sender st') = waiting_frames (sys_sender st) ++ more /\
     (frameBuffer <$> more, frameSize <$> more) =
       (fst <$> accepted_frames 128000 tr, snd <$> accepted_frames 128000 tr)) /\
  currentFrame (sys_sender st') = currentFrame (sys_sender st) /\
  currentFrameCbWasCalled (sys_sender st') = currentFrameCbWasCalled (sys_sender st) /\
  callbacks_of tr = [] /\
  in_hand (sys_pc st') = 0 /\
  (nbPackets (sys_locals st) = 0 -> not_sending (sys_pc st) ->
   List.Forall (fun e => List.Forall (idle_action (entry_label e)) (entry_actions e)) tr).
Proof.
  intros lbls st.
  destruct (run 1000 128000 1 5 18 lbls st) as [[st' tr]|] eqn:Hrun;
    [|vm_compute in Hrun; discriminate Hrun].
  exists st', tr.
  assert (Hcb : currentFrameCbWasCalled (sys_sender st) <> 1) by discriminate.
  assert (Hlow : List.Forall low_priority (waiting_frames (sys_sender st)))
    by (vm_compute; constructor).
  assert (Hhand : in_hand (sys_pc st) = 0) by reflexivity.
  assert (Hlbls : List.Forall (fun lbl => no_ack lbl && no_flush lbl = true) lbls)
    by (repeat constructor).
  split; [exact sample_new_ring_ok|]. split; [exact sample_new_capacity|].
  split; [exact Hcb|]. split; [exact Hlow|]. split; [exact Hhand|].
  split; [exact Hlbls|]. split; [reflexivity|].
  apply (unacknowledged_frame_blocks_the_queue 1000 128000 1 5 18 lbls st st' tr
           sample_new_ring_ok sample_new_capacity Hcb Hlow Hhand Hlbls Hrun).
Defined.

Lemma first_flush_frame_cancels_the_empty_frame_sample :
  1 <= 3 < INT_MAX /\
  ARSTREAM_Sender_New sample_env 1 10 11 1 3 7 = (Some sample_new, ARSTREAM_OK) /\
  4096 <> NULL /\ 1500 <> 0 /\ 1500 <= 128000 /\
  exists st tr,
    run 1000 128000 1 5 18
      [L_Data 0 0 0; L_SendNewFrame 4096 1500 1 None; L_Data 20 0 25; L_Data 20 0 25]
      (sys_init sample_new (0, 0, 0, 0)) = Some (st, tr) /\
    entry_actions <$> tr =
      [[]; [Cond_Signal]; [];
       [FlushInputBuffer 10; Callback ARSTREAM_SENDER_STATUS_FRAME_CANCEL NULL 0 7]] /\
    currentFrame (sys_sender st) = mkFrame 1 1500 4096 1 /\
    currentFrameCbWasCalled (sys_sender st) = 0 /\
    waiting_frames (sys_sender st) = [] /\
    sys_pc st = PcPass.
Proof.
  assert (Hsize : 1 <= 3 < INT_MAX) by (unfold INT_MAX; lia).
  assert (Hb : 4096 <> NULL) by discriminate.
  assert (Hsz : 1500 <> 0) by discriminate.
  assert (Hmax : 1500 <= 128000) by lia.
  split; [exact Hsize|]. split; [exact sample_new_made|].
  split; [exact Hb|]. split; [exact Hsz|]. split; [exact Hmax|].
  apply (first_flush_frame_cancels_the_empty_frame 1000 128000 1 5 18 sample_env
           1 10 11 1 3 7 sample_new (0, 0, 0, 0) 4096 1500 None 0 0 0 20 0 25 20 0 25
           Hsize sample_new_made Hb Hsz Hmax).
Defined.

Lemma data_thread_pass_sends_unacknowledged_fragments_sample :
  let lbls := [L_Data 0 0 0; L_SendNewFrame 4096 1500 1 None; L_Data 20 0 25;
               L_Data 20 0 25] in
  exists st tr0,
  run 1000 128000 1 5 18 lbls (sys_init sample_new (0, 0, 0, 0)) = Some (st, tr0) /\
  sys_pc st = PcPass /\
  nbPackets (sys_locals st) <= 128 /\
  unacknowledged (sys_sender st) (nbPackets (sys_locals st)) = [0; 1] /\
  let todo := unacknowledged (sys_sender st) (nbPackets (sys_locals st)) in
  exists st' tr,
    run 1000 128000 1 5 18 (repeat (L_Data 20 0 25) (S (length todo))) st = Some (st', tr) /\
    sent_along tr = todo /\
    callbacks_of tr = [] /\
    sys_pc st' = PcLoop /\
    untouched (sys_sender st) (sys_sender st') /\
    waiting_frames (sys_sender st') = waiting_frames (sys_sender st) /\
    (forall cnt, 0 <= cnt < 128 ->
       ARSTREAM_NetworkHeaders_AckPacketFlagIsSet (packetsToSend (sys_sender st')) cnt =
         if bool_decide (cnt ∈ todo) then 1 else 0).
Proof.
  intros lbls.
  destruct (run 1000 128000 1 5 18 lbls (sys_init sample_new (0, 0, 0, 0)))
    as [[st tr0]|] eqn:Hrun; [|vm_compute in Hrun; discriminate Hrun].
  exists st, tr0.
  assert (Hst : sys_pc st = PcPass /\ nbPackets (sys_locals st) <= 128 /\
                unacknowledged (sys_sender st) (nbPackets (sys_locals st)) = [0; 1]).
  { vm_compute in Hrun. injection Hrun as <- <-.
    split; [reflexivity|]. split; [vm_compute; discriminate | reflexivity]. }
  destruct Hst as (Hpc & Hnb & Htodo).
  split; [reflexivity|]. split; [exact Hpc|]. split; [exact Hnb|]. split; [exact Htodo|].
  apply (data_thread_pass_sends_unacknowledged_fragments 1000 128000 1 5 18 20 0 25 st
           Hpc Hnb).
Defined.

Lemma array_indices_stay_in_bounds_sample :
  exists st tr,
  0 <= 3 < 2 ^ 32 /\
  ARSTREAM_Sender_New sample_env 1 10 11 1 3 7 = (Some sample_new, ARSTREAM_OK) /\
  run 1000 128000 1 5 18 sample_session (sys_init sample_new (0, 0, 0, 0)) = Some (st, tr) /\
  let s' := sys_sender st in
  maxNumberOfNextFrames s' = 3 /\
  length (nextFrames s') = Z.to_nat 3 /\
  0 <= numberOfWaitingFrames s' <= 3 /\
  (3 <> 0 ->
   0 <= indexGetNextFrame s' < 3 /\ 0 <= indexAddNextFrame s' < 3 /\
   indexAddNextFrame s' = (indexGetNextFrame s' + numberOfWaitingFrames s') mod 3) /\
  0 <= efficiency_index s' < ARSTREAM_SENDER_EFFICIENCY_AVERAGE_NB_FRAMES /\
  length (efficiency_nbFragments s') = 15%nat /\
  length (efficiency_nbSent s') = 15%nat.
Proof.
  destruct (run 1000 128000 1 5 18 sample_session (sys_init sample_new (0, 0, 0, 0)))
    as [[st tr]|] eqn:Hrun; [|vm_compute in Hrun; discriminate Hrun].
  exists st, tr.
  split; [exact sample_size|]. split; [exact sample_new_made|]. split; [reflexivity|].
  apply (array_indices_stay_in_bounds 1000 128000 1 5 18 sample_env 1 10 11 1 3 7
           sample_new (0, 0, 0, 0) sample_session st tr
           sample_size sample_new_made Hrun).
Defined.

Lemma frames_left_at_the_end_are_not_reported_sample :
  let start := sample_shutdown ++ repeat (T_Other (L_Data 20 ETIMEDOUT 25)) 5 ++
               repeat (T_AckThread ARNETWORK_ERROR_BUFFER_EMPTY 0 (mkAck 0 0 0)) 2 in
  let lbls := [T_Other (L_SendNewFrame 8192 900 0 None);
               T_Other (L_NetworkCallback 1 0 ARNETWORK_MANAGER_CALLBACK_STATUS_SENT);
               T_Other L_StopSender] in
  exists t acts0 t' acts,
  threads_run 1000 128000 1 5 18 start (threads_init sample_new (0, 0, 0, 0)) =
    Some (t, acts0) /\
  ring_ok (sys_sender (th_sys t)) /\ capacity_fits_int (sys_sender (th_sys t)) /\
  sys_pc (th_sys t) = PcEnded /\ th_ack t = AckEnded /\
  threads_run 1000 128000 1 5 18 lbls t = Some (t', acts) /\
  sys_pc (th_sys t') = PcEnded /\ th_ack t' = AckEnded /\
  currentFrame (sys_sender (th_sys t')) = currentFrame (sys_sender (th_sys t)) /\
  currentFrameCbWasCalled (sys_sender (th_sys t')) =
    currentFrameCbWasCalled (sys_sender (th_sys t)) /\
  List.Forall (fun a => is_cancel a = true) (List.filter is_callback acts) /\
  (List.Forall (fun lbl => thread_no_flush lbl = true) lbls ->
   List.filter is_callback acts = [] /\
   exists more,
     waiting_frames (sys_sender (th_sys t')) = waiting_frames (sys_sender (th_sys t)) ++ more).
Proof.
  intros start lbls.
  destruct (threads_run 1000 128000 1 5 18 start (threads_init sample_new (0, 0, 0, 0)))
    as [[t acts0]|] eqn:Hstart; [|vm_compute in Hstart; discriminate Hstart].
  destruct (threads_run 1000 128000 1 5 18 lbls t) as [[t' acts]|] eqn:Hrun;
    [|vm_compute in Hstart; injection Hstart as <- <-; vm_compute in Hrun;
      discriminate Hrun].
  exists t, acts0, t', acts.
  assert (Hok : ring_ok (sys_sender (th_sys t))).
  { exact (proj1 (threads_run_settings 1000 128000 1 5 18 start
                    (threads_init sample_new (0, 0, 0, 0)) t acts0
                    sample_new_ring_ok Hstart)). }
  assert (Ht : capacity_fits_int (sys_sender (th_sys t)) /\
               sys_pc (th_sys t) = PcEnded /\ th_ack t = AckEnded).
  { vm_compute in Hstart. injection Hstart as <- <-. repeat split. }
  destruct Ht as (Hcap & Hpc & Hack).
  split; [reflexivity|]. split; [exact Hok|]. split; [exact Hcap|].
  split; [exact Hpc|]. split; [exact Hack|]. split; [exact Hrun|].
  apply (frames_left_at_the_end_are_not_reported 1000 128000 1 5 18 lbls t t' acts
           Hok Hcap Hpc Hack Hrun).
Defined.

